(* ===== verification/_CoqProject ===== *)
-Q . S2P
Prelude.v
StringOrder.v
Int64.v
Calendar.v
Format.v
Csv.v
Tokenizer.v
Parse.v
Float64.v
Ieee.v
GroupBy.v
Counts.v
Aggregator.v
Frame.v
Store.v
Figure.v
Component.v
Dashboard.v
Imports.v
App.v
Script.v
