(* ===== verification/Prelude.v ===== *)
(** * FitTrack dashboard: a verification development

    The program ([src/app.py]) is a single-module Dash application.  At
    import time it imports dash, dash_bootstrap_components, plotly and
    pandas, creates the application object with its style sheets,
    loads [fitness_data.csv] into a pandas data frame [df] and converts
    the [Date] column to timestamps; it then builds the page
    ([app.layout]) from four functions of [df]:

    - [create_header]: the static navigation bar;
    - [create_kpi_cards]: three cards showing total hours
      ([df['Duration'].sum() / 60], printed with [:.1f]), total calories
      ([df['Calories'].sum()], printed with [:,]) and a goal progress that
      is the literal 75;
    - [create_charts]: a line chart of calories per week (rows grouped by
      [strftime('%Y-%W')] of the date, both numeric columns summed) and a
      donut chart of [df['Workout_Type'].value_counts()];
    - [create_activity_log]: a table of the frame it is given, which the
      layout calls on [df.head(5)].

    There is no state after start-up and no concurrency: every function is
    a pure function of the frame, and the only failures are the
    exceptions of the load and of the column lookups, all raised before
    the server starts.  What is hard is the arithmetic that the
    libraries do silently (64-bit wrap-around in sums, binary64 division
    and decimal rounding in the hours card, the week-of-year rule of [%W],
    the ordering of group keys as strings) and the distance between what
    the specification promises and what these calls deliver.

    ** Files, in dependency order

    - [Prelude] (this file): the [result] type of the steps that can
      raise, with its bind notation in scope [fit_scope] and [traverse],
      the tactics [inv], [break_match], [bool_to_Z], [lia_dm], the hint
      databases [fit] (resolution) and [fit_rw] (rewriting), the exact
      sum [zsum] with its [Permutation] morphism, a stable sort by
      decreasing key ([sort_by]) with its lemmas, and the lemmas on
      lists, sorted lists, [Forall2], filters and powers of two that the
      components share.
    - [StringOrder]: the order in which pandas sorts string keys
      ([String.compare]) as a strict order [str_lt], with the lemmas on
      comparing concatenations.
    - [Int64]: numpy's int64 as [Z] with explicit wrap-around: [wrap64],
      [add64], [sum64] (the model of [Series.sum()] on an int64 column).
      Theorems: range, agreement with the exact sum modulo 2^64,
      exactness without overflow, invariance under reordering.
    - [Calendar]: proleptic Gregorian dates as Python's [datetime]
      computes them ([is_leap], [days_before_year], [days_in_month],
      [days_before_month], [ymd2ord], [weekday], [yday]) and the week
      number of [%W] ([week_W]).  Theorems: bounds, the ordinal against
      the calendar successor [next_day], [%W] as the number of Mondays so
      far, the rule of week 0, weeks as Monday-to-Sunday intervals,
      monotonicity in the date.
    - [Format]: the strings the page shows: zero padding, [strftime_YW]
      (the group key [%Y-%W]), decimal [digits], [format_int_comma] (the
      [:,] format) and [format_percent].  Theorems: the order of the keys
      is the order of (year, week) and is chronological, two dates share a
      key exactly when they share year and week, digits and digit grouping
      round trips.
    - [Csv]: the text of the file and its records: the reference
      tokenizer [tokenize] (lines, empty lines skipped, fields at the
      commas) for printable ASCII and tabs without quotes, its inverse
      [to_text],
      and the exceptions of a load ([LoadError]).  Theorem: the records
      that can be written are exactly those read back from their text.
    - [Tokenizer]: the tokenizer [pd.read_csv] runs, as the state
      machine of the library for the options the program leaves at their
      defaults: the states ([ParserState]), the buffers ([parser]), the
      transition for one byte ([tokenize_byte], with [start_field],
      [in_field], [quote_in_quoted_field] and the actions [push_char],
      [end_field], [end_line]), the loop [tokenize_bytes], the end of
      the text [handle_eof], and [scan], the records of a text.
      Documents ([item], [render]) are the texts of given records:
      fields with or without quotes, either line end, lines of blanks
      and tabs.
      Theorems: [scan] refines [tokenize], also on texts whose lines end
      with carriage return and line feed; every text of a document is
      read as the records of the document; the errors a scan can end
      with.
    - [Parse]: the values of the cells of the file: [str_to_int64]
      (the reader of integers of the library: blanks, an optional sign,
      the digit loop [read_digits] with its overflow guard [fits],
      blanks), [parse_date] ([YYYY-MM-DD], years 1678 to 2261),
      [plain_label] (text that pandas keeps as text), the class [Codec]
      of a parser with its printer and the round trip through the
      printed form, and the class [Verbatim] of the codecs that read
      nothing but the printed form (dates and labels), with one instance
      per kind of column.  Theorems: a text is read as an integer
      exactly when it is a spelling of that integer and the integer is
      an int64 (the guard of the loop is the range check of exact
      arithmetic); a text is read as a date exactly when it is the
      printed form of that date.
    - [Float64]: the binary64 value of the hours card on exact dyadic
      rationals: [round_half_even], [rne53] (round to nearest even at 53
      bits), [float_of_int64], [fdiv] and [format_f1] (the [:.1f]
      format).  Theorems: the characterisation of ties-to-even rounding,
      normalised mantissas, relative error at most 2^-53 for conversion
      and division, that the rounded quotient depends on the value of the
      quotient only, the displayed tenth against the exact quotient, at
      the decimal ties and for negative totals as well ([card_text]).
    - [Ieee]: the operations of [Float64] against the IEEE 754
      specification of the standard library ([SpecFloat]), which aligns
      mantissas, divides integers and rounds from a round bit and a
      sticky bit.  Theorems: [float_of_int64] is [binary_normalize],
      [fdiv] is [SFdiv] on normal doubles with a normal quotient, and the
      hours of the card are the [SFdiv] quotient of the total by 60.
    - [GroupBy]: [groupby(key).agg(sum).reset_index()] as one pass that
      keeps the table sorted ([week_upsert], [groupby_sum]) and its
      split-apply-combine reference [groupby_spec].  Lemmas: sorted unique
      keys, conservation of column totals, per-group sums, equality with
      the reference, invariance under permutation of the rows.
    - [Counts]: [value_counts()] as counting in order of first appearance
      followed by a sort by decreasing count, and [distribution], the
      tables the library may return whatever its sort does with equal
      counts.  Theorems: counts, labels, order, invariance under
      permutation, and what every distribution shares with
      [value_counts]: the sequence of counts and the place of every
      label whose count is unique.
    - [Aggregator]: the interface between the aggregates and the views: a
      class with the three operations and the laws the charts rely on.
    - [Frame]: the frame [df] ([Row], [DataFrame]) and what the program
      computes from it: [total_hours], [total_calories], [goal_progress],
      [week_key], [weekly_data], [workout_dist], [head]; the instance
      [frame_aggregator]; and [most_recent], the selector of the
      specification.  Theorems: the properties the specification lists
      for the aggregates, as the code delivers them, and the frames on
      which [head] returns what [most_recent] returns.
    - [Store]: the file as its text ([source]), [read_csv] (the records
      [Tokenizer.scan] finds in the text, the first as the header, a
      line with too many fields refused), the column lookup [getitem],
      [to_datetime], [typed_column] (written against [Codec]) and [load],
      the frame of a file or the exception that stops the program.
      Theorems: the round trip with [to_csv] and with every other
      spelling of the file; the load depends on the records of the file
      only, not on quotes, line ends or lines of blanks; every date and
      label of the frame is the cell it was read from and every number
      the value of its cell; which exception a missing file, a text that
      cannot be cut into records or a missing column raises.
    - [Figure]: plotly figures as data: traces, layout dictionaries,
      [go_Figure], [add_trace], [update_layout], [px_pie].
    - [Component]: the Dash component tree ([component], [tag]) and its
      traversals ([texts_by_class], [figures_of], [tables_of],
      [grid_ok]).
    - [Dashboard]: [create_header], [create_kpi_cards], [create_charts]
      (with [line_chart] and [pie_chart]), [create_activity_log] and
      [layout], transcribed from [src/app.py].  The theorems about the
      charts are proved for any [Aggregator] and then applied to the
      frame; the others tie the cards and the table to the aggregates.
    - [Imports]: the six import statements ([imports]) executed in
      order ([exec_import], [exec_imports]) against an [environment]
      that says which modules are installed and which names each
      defines; a dotted module is imported package by package
      ([packages], [import_packages]), the names of a [from ... import]
      one by one ([import_names]).  Lemmas: executing the imports is
      checking their requirements in source order, so a start that
      fails raises for the first module or name that is missing.
    - [App]: the module as a whole: the application object [app] with its
      style sheets, [set_layout] and [main], the outcome of the module
      for a given file.  Theorem: the page of a file that loads shows
      the records of that file.
    - [Script]: the module one statement at a time: a [state] is a point
      between two statements with the globals bound so far, [step] (a
      relation) and [next] (the same as a function) execute the next of
      the five statements ([dash.Dash], [pd.read_csv], [pd.to_datetime],
      the assignment of [app.layout], the [__main__] guard), [run]
      iterates [next], and [module_run] is the module from its first
      line: the imports, then the five statements.  Theorem: the
      statement at which a missing column is found.  Lemmas: five steps
      reach a final state, the run ends as [main] says, the globals of
      a reachable state are what the file determines.

    ** What the theorems show

    For every frame: the weekly buckets conserve the totals, their keys
    are strictly increasing and are exactly the keys of the rows; the
    counts of the distribution are the numbers of rows per workout type
    and add up to the number of rows; the line chart plots the buckets in
    key order and its points add up to the calories card; the donut chart
    has one slice per workout type, in an order that the code fixes up
    to workout types with the same count; the table shows the first five
    rows in file order, which are the rows the specification asks for
    exactly when the file begins with its five most recent rows, most
    recent first; the calories card prints its number by thousands.  For
    well-formed frames (dates with four-digit years,
    int64 columns): the weekly table equals its split-apply-combine
    definition and does not depend on the row order, and keys are ordered
    chronologically.  For totals within range: the calories card is the
    exact sum (no int64 overflow), the hours are the exact quotient
    rounded once and, off the decimal ties, the card shows that quotient
    rounded to one decimal, while at a tie the binary rounding of the
    division decides between the two tenths (total below 2^53 in
    magnitude); for every int64 total the
    hours are, bit for bit, the quotient by 60 that IEEE 754 division
    gives.  For every text: the state machine of the tokenizer returns
    the records of the reference wherever the reference reads the text,
    whichever of the two line ends the text uses, reads every spelling
    of a document (quotes or not, either line end, lines of blanks) as
    the records of the document.  For every file: a load that succeeds
    gives one row per data record, each field the value of the cell
    under its column; a frame written as a file loads as itself,
    however the file is spelled; [FileNotFoundError] and
    [EmptyDataError] are raised exactly for a missing file and a file
    without records, [ParserError] exactly for a text that ends inside a
    quoted field or has a line with too many fields, and a [KeyError]
    names the first column, in the order of use, that the header lacks;
    the page of a file that loads shows the records of the file.  For
    the module as a sequence of statements: a [KeyError] for a column
    other than [Date] comes from the layout statement, after both
    statements of the load have completed.  Theorems
    also record where the code departs from the specification: the key
    is not the ISO week, [head] selects the most recent rows only on
    files that begin with them, the order of tied slices is left to the
    library,
    int64 sums can wrap, negative durations load, numbers load however
    they are spelled ([007] as 7), the exceptions are those of the
    library, raised where a column is first used, and the page is
    computed once, at start-up.

    ** Modelling choices and bounds

    - The CSV file is not part of the sources.  A file is [None] when it
      is missing, or its text.  The tokenizer covers printable ASCII with
      tabs, line feeds and carriage returns, taken as one buffer; it
      follows
      the transitions of the library's tokenizer for the default options
      (delimiter comma, quote character double quote, doubled quotes, no
      escape character, no comment character, empty lines and lines of
      blanks and tabs skipped, the first line as the header).  The library backs up to the start of a
      line that begins with blanks; the model keeps the blanks in the
      buffer of the field instead, which gives the same records.
      [Duration] and [Calories] are int64 columns, [Workout_Type] and
      [Intensity] text without missing values, [Date] a calendar date;
      [load] accepts the integers the library reads as int64, the dates
      in ISO form and the labels that stay text, because on them the
      value pandas computes is not in doubt, and
      returns [Unsupported] for every other text, table or cell (a
      carriage return that no line feed follows, control characters other
      than the tab and bytes above 126, a line with fewer fields than the header or a
      first line of data with more, a header without data, floats, other
      date formats, words read as NaN).  Nothing is claimed about
      [Unsupported]: the program may fail there or go on.
      The checks of [load] follow the order of the program (the file,
      [Date], [Duration], [Calories], [Workout_Type], [Intensity]), so an
      exception it returns is the first the program raises.
    - The integer reader follows the C routine of the library digit by
      digit: before each digit it compares the number read so far with
      the tenth of the bound and the digit with the last digit of the
      bound, with the truncating division of C ([Z.quot], [Z.rem]), and
      accumulates negative numbers downwards, so that the least int64 is
      read without overflow.
    - The interpreter's search for modules is an [environment]: a list
      of the modules that are installed, each with the names it defines.
      A module that is found is taken to load; what the libraries do
      while they load is theirs.
    - The predicates [row_wf] and [frame_wf] record the ranges the
      aggregates need; the lemma [load_Ok_wf] shows that a loaded frame
      has them.
    - Sums wrap around, as numpy's do; every theorem that needs the exact
      sum states the no-overflow hypothesis.
    - A binary64 value is the pair of an integer mantissa and an exponent.
      The quotient of an int64 by 60 is zero or a normal number, so signed
      zeros, subnormals, infinities and NaN are not represented.  The
      comparison with [SpecFloat] is at precision 53 and maximal exponent
      1024 (binary64) and holds for integers below 2^1023 in magnitude,
      which covers int64 with room to spare; above, conversion overflows.
    - Years are restricted to 1000..9999 ([valid_date]) where a theorem
      speaks about the key as a string; pandas timestamps span 1677-2262,
      and [loadable_date] keeps the whole years 1678..2261 of that span.
    - [value_counts] sorts the counts with the default sort of numpy,
      which promises no order among equal counts.  The model lists
      labels of the same count in order of first appearance, one of the
      orders the library may return; no theorem outside [Counts] depends
      on that choice, and [value_counts_up_to_ties] states what all the
      admissible tables have in common.
    - Loops are folds over the rows or structural recursion (on the text
      of a cell in the parsers, on the list of statements in the
      imports), and [digits] recurses on a decreasing
      measure (the binary length of its argument).  The only fuel is that
      of [run]: the module has five statements, and the lemma
      [script_terminates] shows that five steps reach a final state from
      every state.
    - The model of the module ends where [app.run] is called; the state
      [Serving] stands for the server running and is final in the model,
      although the call does not return.
    - A [KeyError] carries the name of the column that is missing.  At
      the table ([df[[...]]], line 151) the message of the library names
      the list of missing columns; the model keeps the column.
    - A file with a header and no data is [Unsupported], although
      [pd.read_csv] returns an empty frame for it: what the page
      functions of the libraries do with empty columns of type object
      is not written down here.  Where a theorem about a loaded frame
      says that the frame is not empty, this restriction is the
      reason.

    ** Not modelled

    - Encodings other than ASCII, control characters other than the tab
      and a carriage return used alone as a line end: the tokenizer
      answers [Unsupported].  The library ends a line at a lone carriage
      return by reading the next character a second time, and backs up
      to the last line feed when a line that began with blanks turns out
      to hold a field; what the two do together is not written down here.
    - Tables that are not rectangular, apart from the lines with too many
      fields that stop the load: pandas fills short lines with missing
      values and reads the extra fields of a long first line as an index,
      both of which change the types of the columns.
    - Numbers that are not integers or do not fit in an int64 (floats,
      missing values, thousands separators), dates in other forms than
      [YYYY-MM-DD], and labels that do not start with a letter or hold a
      comma or a quote: pandas infers the type of a column from all its
      cells, and a column that is not int64 is summed in floating point
      or not at all, so a cell cannot be given a value on its own.
      These are inside [pd.read_csv] and [pd.to_datetime]; the component
      of the cell parsers is for this reason modelled in part only.
    - A library that is installed and fails while it is imported (a
      broken installation, an incompatible version): the model of the
      imports knows of a module only whether it is found.
    - The text of the cells of the table: [dbc.Table.from_dataframe]
      prints the values of the frame, a [Timestamp] among them; the
      model keeps the typed values.
    - What the server does once [app.run(debug=True)] is called, and the
      rendering of components and figures in the browser: library
      behaviour outside the sources.  The module registers no callback,
      so nothing of the program runs after start-up. *)

From Stdlib Require Import String Ascii ZArith List Lia Bool.
From Stdlib Require Import Permutation Sorted Morphisms RelationClasses.
Import ListNotations.

#[local] Open Scope Z_scope.

(** ** Fallible computations *)

(** The outcome of a step that can raise: a value or an error. *)
Inductive result (E A : Type) : Type :=
| Ok (a : A)
| Err (e : E).

Arguments Ok {E A} a.
Arguments Err {E A} e.

Definition bind {E A B : Type} (r : result E A) (k : A -> result E B) : result E B :=
  match r with
  | Ok a => k a
  | Err e => Err e
  end.

(** An optional value, with the error to raise when it is missing. *)
Definition from_option {E A : Type} (e : E) (o : option A) : result E A :=
  match o with
  | Some a => Ok a
  | None => Err e
  end.

(** Apply a fallible step to every element, stopping at the first error. *)
Fixpoint traverse {E A B : Type} (f : A -> result E B) (l : list A) : result E (list B) :=
  match l with
  | [] => Ok []
  | a :: l' =>
      match f a with
      | Ok b => match traverse f l' with
                | Ok bs => Ok (b :: bs)
                | Err e => Err e
                end
      | Err e => Err e
      end
  end.

Declare Scope fit_scope.
Delimit Scope fit_scope with fit.

Notation "x <- c ;; k" := (bind c (fun x => k))
  (at level 61, c at next level, right associativity) : fit_scope.

(** ** Tactics *)

(** Inversion that cleans up after itself. *)
Ltac inv H := inversion H; subst; clear H.

(** Case analysis on the scrutinee of the first [match] of the goal. *)
Ltac break_match :=
  match goal with
  | |- context [match ?x with _ => _ end] => destruct x eqn:?
  end.

(** Turn the boolean comparisons of the context into propositions. *)
Ltac bool_to_Z :=
  repeat match goal with
  | H : (_ <=? _) = true |- _ => apply Z.leb_le in H
  | H : (_ <=? _) = false |- _ => apply Z.leb_gt in H
  | H : (_ <? _) = true |- _ => apply Z.ltb_lt in H
  | H : (_ <? _) = false |- _ => apply Z.ltb_ge in H
  | H : (_ =? _) = true |- _ => apply Z.eqb_eq in H
  | H : (_ =? _) = false |- _ => apply Z.eqb_neq in H
  end.

(** [lia] after turning [/] and [mod] into their defining equations. *)
Ltac lia_dm := Z.div_mod_to_equations; lia.

Create HintDb fit discriminated.
Create Rewrite HintDb fit_rw.

(** ** The exact sum of a list of integers *)

Definition zsum (l : list Z) : Z := fold_right Z.add 0 l.

Lemma zsum_cons (x : Z) (l : list Z) : zsum (x :: l) = x + zsum l.
Proof. reflexivity. Qed.

Lemma zsum_app (l1 l2 : list Z) : zsum (l1 ++ l2) = zsum l1 + zsum l2.
Proof.
  induction l1 as [|x l1 IH]; [reflexivity|].
  change ((x :: l1) ++ l2) with (x :: (l1 ++ l2)). rewrite !zsum_cons. lia.
Qed.

Lemma zsum_nonneg (l : list Z) : Forall (fun x => 0 <= x) l -> 0 <= zsum l.
Proof. induction 1; rewrite ?zsum_cons; [reflexivity|lia]. Qed.

Lemma zsum_repeat (x : Z) (n : nat) : zsum (repeat x n) = Z.of_nat n * x.
Proof. induction n as [|n IH]; [reflexivity|]. cbn [repeat]. rewrite zsum_cons, IH. lia. Qed.

#[export] Instance zsum_Permutation : Proper (@Permutation Z ==> eq) zsum.
Proof. intros l1 l2 HP. induction HP; rewrite ?zsum_cons in *; lia. Qed.

#[export] Hint Rewrite zsum_cons zsum_app : fit_rw.
#[export] Hint Resolve zsum_nonneg : fit.

(** ** Folds with a commutative accumulator *)

Section FoldComm.
Context {A S : Type} (f : S -> A -> S).
Hypothesis f_comm : forall s a b, f (f s a) b = f (f s b) a.

Lemma fold_left_comm_cons (l : list A) (s : S) (a : A) :
  fold_left f l (f s a) = f (fold_left f l s) a.
Proof.
  revert s. induction l as [|b l IH]; intros s; [reflexivity|].
  cbn [fold_left]. rewrite f_comm. apply IH.
Qed.

Lemma fold_left_Permutation (l1 l2 : list A) (s : S) :
  Permutation l1 l2 -> fold_left f l1 s = fold_left f l2 s.
Proof.
  intros HP. revert s.
  induction HP as [|x l1 l2 _ IH|x y l|l1 l2 l3 _ IH1 _ IH2]; intros s; cbn [fold_left].
  - reflexivity.
  - apply IH.
  - now rewrite f_comm.
  - now rewrite IH1.
Qed.

End FoldComm.

(** ** Prefixes *)

Lemma firstn_prefix {A : Type} (n : nat) (l : list A) :
  exists rest, l = firstn n l ++ rest.
Proof. exists (skipn n l). symmetry. apply firstn_skipn. Qed.

Lemma firstn_length_min {A : Type} (n : nat) (l : list A) :
  length (firstn n l) = Nat.min n (length l).
Proof. apply length_firstn. Qed.

Lemma firstn_short {A : Type} (n : nat) (l : list A) :
  (length l <= n)%nat -> firstn n l = l.
Proof. apply firstn_all2. Qed.

Lemma Forall_firstn {A : Type} (P : A -> Prop) (n : nat) (l : list A) :
  Forall P l -> Forall P (firstn n l).
Proof.
  intros H. revert n. induction H as [|x l Hx _ IH]; intros [|n]; cbn [firstn]; auto.
Qed.

(** A prefix of the right length is what [firstn] returns. *)
Lemma firstn_app_exact {A : Type} (n : nat) (a b : list A) :
  length a = Nat.min n (length (a ++ b)) -> firstn n (a ++ b) = a.
Proof.
  rewrite length_app. intros H. destruct (Nat.le_gt_cases n (length a + length b)).
  - assert (n = length a) as -> by lia. rewrite firstn_app, firstn_all, Nat.sub_diag.
    cbn [firstn]. apply app_nil_r.
  - assert (b = []) as -> by (apply length_zero_iff_nil; lia).
    rewrite app_nil_r. apply firstn_all2. lia.
Qed.

#[export] Hint Resolve Forall_firstn : fit.

(** ** Maps and sums *)

Lemma map_ext_Forall {A B : Type} (f g : A -> B) (l : list A) :
  Forall (fun x => f x = g x) l -> map f l = map g l.
Proof. induction 1; cbn [map]; congruence. Qed.

Lemma Forall_map_iff {A B : Type} (P : B -> Prop) (f : A -> B) (l : list A) :
  Forall P (map f l) <-> Forall (fun x => P (f x)) l.
Proof. apply Forall_map. Qed.

Lemma map_injective {A B : Type} (f : A -> B) (l l' : list A) :
  (forall a b, f a = f b -> a = b) -> map f l = map f l' -> l = l'.
Proof.
  intros Hf. revert l'. induction l as [|a l IH]; intros [|b l']; cbn [map]; try discriminate;
    [reflexivity|].
  intros [= E1 E2]. f_equal; auto.
Qed.

(** Elements of a list whose images are distinct are told apart by
    their images. *)
Lemma NoDup_map_In {A B : Type} (f : A -> B) (l : list A) (a b : A) :
  NoDup (map f l) -> In a l -> In b l -> f a = f b -> a = b.
Proof.
  induction l as [|x l IH]; cbn [map In]; [contradiction|].
  intros [Hx HN]%NoDup_cons_iff [<-|Ha] [<-|Hb] E; auto.
  - exfalso. apply Hx. rewrite E. now apply in_map.
  - exfalso. apply Hx. rewrite <- E. now apply in_map.
Qed.

(** ** Sorted lists *)

Section StronglySortedFacts.
Context {A : Type} (R : A -> A -> Prop).

Lemma StronglySorted_app_cross (l1 l2 : list A) :
  StronglySorted R (l1 ++ l2) -> forall a b, In a l1 -> In b l2 -> R a b.
Proof.
  induction l1 as [|x l1 IH]; intros HS a b Ha Hb; [destruct Ha|].
  cbn [app] in HS. apply StronglySorted_inv in HS as [HS HF].
  destruct Ha as [->|Ha]; [|now apply IH].
  rewrite Forall_forall in HF. apply HF, in_or_app. now right.
Qed.

Lemma StronglySorted_firstn (n : nat) (l : list A) :
  StronglySorted R l -> StronglySorted R (firstn n l).
Proof.
  revert n. induction l as [|x l IH]; intros [|n] HS; cbn [firstn]; try constructor.
  - apply IH. now apply StronglySorted_inv in HS.
  - apply Forall_firstn. now apply StronglySorted_inv in HS.
Qed.

(** Under an antisymmetric order a list has one sorted arrangement. *)
Lemma sorted_Permutation_eq (l m : list A) :
  (forall x y, R x y -> R y x -> x = y) ->
  StronglySorted R l -> StronglySorted R m -> Permutation l m -> l = m.
Proof.
  intros Hanti Hl. revert m. induction Hl as [|x l Hl IH Hx]; intros m Hm HP.
  - now apply Permutation_nil in HP.
  - destruct m as [|y m]; [now apply Permutation_sym, Permutation_nil in HP|].
    inversion Hm as [|? ? Hm' Hy]; subst. rewrite Forall_forall in Hx, Hy.
    assert (x = y) as <-.
    { assert (In x (y :: m)) as [->|Hxm] by (eapply Permutation_in; [exact HP | now left]);
        [reflexivity|].
      assert (In y (x :: l)) as [->|Hyl]
          by (eapply Permutation_in; [symmetry; exact HP | now left]); [reflexivity|].
      auto. }
    f_equal. apply IH; [assumption|]. eapply Permutation_cons_inv, HP.
Qed.

End StronglySortedFacts.

(** ** Stable sort by decreasing key *)

Section SortByDef.
Context {A : Type} (key : A -> Z).

(** Insert an element before the first one whose key is not larger. *)
Fixpoint insert_by (p : A) (l : list A) : list A :=
  match l with
  | [] => [p]
  | q :: rest => if key q <=? key p then p :: l else q :: insert_by p rest
  end.

(** Insertion sort by decreasing key; elements of the same key keep
    their order. *)
Definition sort_by (l : list A) : list A := fold_right insert_by [] l.

(** An element has a key at least as large as the next. *)
Definition key_ge (p q : A) : Prop := key q <= key p.

End SortByDef.

Section SortByFacts.
Context {A : Type} (key : A -> Z).

Lemma insert_by_Permutation (p : A) (l : list A) : Permutation (insert_by key p l) (p :: l).
Proof.
  induction l as [|q l IH]; cbn [insert_by]; [reflexivity|].
  break_match; [reflexivity|]. rewrite IH. apply perm_swap.
Qed.

Lemma sort_by_Permutation (l : list A) : Permutation (sort_by key l) l.
Proof.
  induction l as [|p l IH]; [reflexivity|].
  cbn [sort_by fold_right]. fold (sort_by key l).
  rewrite insert_by_Permutation. now constructor.
Qed.

#[export] Instance key_ge_trans : Transitive (key_ge key).
Proof. unfold key_ge. intros p q r. lia. Qed.

Lemma insert_by_sorted (p : A) (l : list A) :
  Sorted (key_ge key) l -> Sorted (key_ge key) (insert_by key p l).
Proof.
  induction 1 as [|q l HS IH HR]; cbn [insert_by]; [repeat constructor|].
  break_match; bool_to_Z.
  - constructor; [now constructor|]. constructor. unfold key_ge. lia.
  - constructor; [assumption|].
    destruct l as [|q' l]; cbn [insert_by] in *.
    + constructor. unfold key_ge. lia.
    + break_match; constructor; [unfold key_ge; lia|].
      now apply HdRel_inv in HR.
Qed.

Lemma sort_by_sorted (l : list A) : Sorted (key_ge key) (sort_by key l).
Proof.
  induction l as [|p l IH]; [constructor|].
  cbn [sort_by fold_right]. now apply insert_by_sorted.
Qed.

(** Stability: the elements of each key keep their order. *)
Lemma insert_by_filter (n : Z) (p : A) (l : list A) :
  filter (fun x => key x =? n) (insert_by key p l) =
  (if key p =? n then [p] else []) ++ filter (fun x => key x =? n) l.
Proof.
  induction l as [|q l IH]; cbn [insert_by].
  - cbn [filter]. now destruct (key p =? n).
  - destruct (Z.leb_spec (key q) (key p)) as [Hle|Hlt].
    + cbn [filter]. now destruct (key p =? n).
    + cbn [filter]. rewrite IH.
      destruct (Z.eqb_spec (key p) n), (Z.eqb_spec (key q) n); try reflexivity; lia.
Qed.

Lemma sort_by_filter (n : Z) (l : list A) :
  filter (fun x => key x =? n) (sort_by key l) = filter (fun x => key x =? n) l.
Proof.
  induction l as [|p l IH]; [reflexivity|].
  cbn [sort_by fold_right]. fold (sort_by key l). rewrite insert_by_filter, IH.
  cbn [filter]. now destruct (key p =? n).
Qed.

(** An element that is not smaller than those of the list goes first. *)
Lemma insert_by_first (p : A) (l : list A) :
  Forall (fun q => key q <= key p) l -> insert_by key p l = p :: l.
Proof.
  destruct 1 as [|q l Hq _]; cbn [insert_by]; [reflexivity|].
  now apply Z.leb_le in Hq as ->.
Qed.

(** A sorted prefix that is not smaller than the rest stays in place. *)
Lemma sort_by_app (a b : list A) :
  StronglySorted (key_ge key) a ->
  (forall p q, In p a -> In q b -> key q <= key p) ->
  sort_by key (a ++ b) = a ++ sort_by key b.
Proof.
  induction 1 as [|p a Ha IH Hp]; intros Hab; [reflexivity|].
  cbn [app sort_by fold_right]. fold (sort_by key (a ++ b)).
  rewrite IH by (intros; apply Hab; [now right | assumption]).
  apply insert_by_first, Forall_app. split; [exact Hp|].
  apply Forall_forall. intros q Hq. apply Hab; [now left|].
  eapply Permutation_in; [apply sort_by_Permutation | exact Hq].
Qed.

End SortByFacts.

(** ** Filters *)

Lemma filter_none {A : Type} (f : A -> bool) (l : list A) :
  (forall x, In x l -> f x = false) -> filter f l = [].
Proof.
  induction l as [|a l IH]; intros H; [reflexivity|]. cbn [filter].
  rewrite (H a (or_introl eq_refl)). apply IH. intros x Hx. apply H. now right.
Qed.

Lemma filter_all {A : Type} (f : A -> bool) (l : list A) :
  (forall x, In x l -> f x = true) -> filter f l = l.
Proof.
  induction l as [|a l IH]; intros H; [reflexivity|]. cbn [filter].
  rewrite (H a (or_introl eq_refl)). f_equal. apply IH. intros x Hx. apply H. now right.
Qed.

Lemma filter_snoc {A : Type} (f : A -> bool) (l : list A) (a : A) :
  filter f (l ++ [a]) = filter f l ++ (if f a then [a] else []).
Proof. rewrite filter_app. reflexivity. Qed.

Lemma Permutation_filter {A : Type} (f : A -> bool) (l1 l2 : list A) :
  Permutation l1 l2 -> Permutation (filter f l1) (filter f l2).
Proof.
  induction 1 as [|x l1 l2 _ IH|x y l|l1 l2 l3 _ IH1 _ IH2]; cbn [filter].
  - constructor.
  - destruct (f x); [now constructor | assumption].
  - destruct (f x), (f y); try reflexivity. apply perm_swap.
  - now transitivity (filter f l2).
Qed.

#[export] Instance filter_Permutation {A : Type} (f : A -> bool) :
  Proper (@Permutation A ==> @Permutation A) (filter f).
Proof. intros l1 l2. apply Permutation_filter. Qed.

(** ** Lists related element by element *)

Section Forall2Facts.
Context {A B C : Type}.

Lemma Forall2_map_l (f : A -> B) (R : B -> C -> Prop) (l : list A) (l' : list C) :
  Forall2 R (map f l) l' <-> Forall2 (fun a c => R (f a) c) l l'.
Proof.
  revert l'. induction l as [|a l IH]; intros l'; cbn [map].
  - split; inversion 1; constructor.
  - split; inversion 1; subst; constructor; auto; now apply IH.
Qed.

Lemma Forall2_map_r (f : A -> C) (R : B -> C -> Prop) (l : list B) (l' : list A) :
  Forall2 R l (map f l') <-> Forall2 (fun b a => R b (f a)) l l'.
Proof.
  revert l'. induction l as [|b l IH]; intros [|a l']; cbn [map];
    (split; inversion 1; subst; constructor; auto; now apply IH).
Qed.

End Forall2Facts.

Lemma Forall2_Forall_r {A B : Type} (R : A -> B -> Prop) (P : B -> Prop)
  (l : list A) (l' : list B) :
  (forall a b, R a b -> P b) -> Forall2 R l l' -> Forall P l'.
Proof. intros H. induction 1; constructor; eauto. Qed.

Lemma Forall2_diag {A : Type} (R : A -> A -> Prop) (l : list A) :
  Forall (fun a => R a a) l -> Forall2 R l l.
Proof. induction 1; constructor; assumption. Qed.

(** [find] returns the first element that passes the test. *)
Lemma find_first {A : Type} (p : A -> bool) (l1 l2 : list A) (c : A) :
  Forall (fun x => p x = false) l1 -> p c = true -> find p (l1 ++ c :: l2) = Some c.
Proof.
  intros H Hc. induction H as [|x l1 Hx _ IH]; cbn [app find].
  - now rewrite Hc.
  - now rewrite Hx.
Qed.

(** What [find] returns is the first element that passes the test. *)
Lemma find_split {A : Type} (p : A -> bool) (l : list A) (c : A) :
  find p l = Some c ->
  exists l1 l2, l = (l1 ++ c :: l2)%list /\ Forall (fun x => p x = false) l1 /\ p c = true.
Proof.
  induction l as [|x l IH]; cbn [find]; [discriminate|].
  destruct (p x) eqn:Hx.
  - intros [= ->]. now exists [], l.
  - intros (l1 & l2 & -> & H1 & Hc)%IH. exists (x :: l1), l2. repeat split; auto.
Qed.

(** ** Results *)

Section ResultFacts.
Context {E A B : Type}.

Lemma bind_Ok (r : result E A) (k : A -> result E B) (b : B) :
  bind r k = Ok b <-> exists a, r = Ok a /\ k a = Ok b.
Proof.
  destruct r as [a|e]; cbn [bind]; split.
  - intros H. now exists a.
  - intros (a' & Ha & H). congruence.
  - discriminate.
  - intros (a' & Ha & _). discriminate.
Qed.

Lemma bind_Err (r : result E A) (k : A -> result E B) (e : E) :
  bind r k = Err e <-> r = Err e \/ exists a, r = Ok a /\ k a = Err e.
Proof.
  destruct r as [a|e']; cbn [bind]; split.
  - intros H. right. now exists a.
  - intros [Ha|(a' & Ha & H)]; congruence.
  - intros [= ->]. now left.
  - intros [[= ->]|(a' & Ha & _)]; [reflexivity | discriminate].
Qed.

Lemma from_option_Ok (e : E) (o : option A) (a : A) :
  from_option e o = Ok a <-> o = Some a.
Proof. destruct o; cbn; split; congruence. Qed.

(** [traverse] succeeds exactly when every step does, element by
    element. *)
Lemma traverse_Ok (f : A -> result E B) (l : list A) (l' : list B) :
  traverse f l = Ok l' <-> Forall2 (fun a b => f a = Ok b) l l'.
Proof.
  revert l'. induction l as [|a l IH]; intros l'; cbn [traverse].
  - split; [intros [= <-]; constructor | now inversion 1].
  - destruct (f a) as [b|e] eqn:Ea.
    + destruct (traverse f l) as [bs|e]; split.
      * intros [= <-]. constructor; [exact Ea | now apply IH].
      * inversion 1 as [|? b' ? bs' Hb Hbs]; subst.
        apply IH in Hbs. congruence.
      * discriminate.
      * inversion 1 as [|? b' ? bs' Hb Hbs]; subst. now apply IH in Hbs.
    + split; [discriminate|]. inversion 1; congruence.
Qed.

(** An error of a traversal is the error of one of its steps. *)
Lemma traverse_Err_inv (f : A -> result E B) (l : list A) (e : E) :
  traverse f l = Err e -> exists a, In a l /\ f a = Err e.
Proof.
  induction l as [|a l IH]; cbn [traverse]; [discriminate|].
  destruct (f a) as [b|e'] eqn:Ea.
  - destruct (traverse f l) as [bs|e']; [discriminate|].
    intros [= ->]. destruct (IH eq_refl) as (x & Hx & Hf). exists x. auto with datatypes.
  - intros [= ->]. exists a. auto with datatypes.
Qed.

End ResultFacts.

(** ** Integers *)

(** Dropping the last decimal digit shortens the binary representation:
    the measure of
    the recursion on decimal digits. *)
Lemma log2_div10_lt (n : Z) : 10 <= n -> Z.log2 (n / 10) < Z.log2 n.
Proof.
  intros Hn. apply Z.log2_lt_pow2; [lia_dm|].
  pose proof (Z.log2_spec n ltac:(lia)) as [_ Hup].
  rewrite Z.pow_succ_r in Hup by apply Z.log2_nonneg. lia_dm.
Qed.

(** Powers of two. *)
Lemma log2_bounds (n : Z) : 0 < n -> 2 ^ Z.log2 n <= n < 2 * 2 ^ Z.log2 n.
Proof.
  intros Hn. pose proof (Z.log2_spec n Hn) as [Hlo Hhi].
  rewrite Z.pow_succ_r in Hhi by apply Z.log2_nonneg. lia.
Qed.

Lemma pow2_split (a b : Z) : 0 <= b -> b <= a -> 2 ^ a = 2 ^ (a - b) * 2 ^ b.
Proof. intros Hb Hab. rewrite <- Z.pow_add_r by lia. f_equal. lia. Qed.

Lemma pow2_pos (e : Z) : 0 <= e -> 0 < 2 ^ e.
Proof. intros. apply Z.pow_pos_nonneg; lia. Qed.

Lemma pow2_double (e : Z) : 0 <= e -> 2 ^ (e + 1) = 2 * 2 ^ e.
Proof. intros. rewrite Z.pow_add_r by lia. lia. Qed.
