(* ===== verification/StringOrder.v ===== *)
(** * StringOrder: the order in which pandas sorts group keys

    [groupby] sorts its keys, and the keys of [create_charts] are Python
    strings, compared character by character by code point.  On ASCII
    text this is [String.compare] of the standard library.  This file
    makes the comparison usable as a strict total order ([str_lt] with its
    [StrictOrder] instance) and proves how it acts on the concatenation of
    strings of equal length, which is what fixed-width date keys are. *)

From Stdlib Require Import String Ascii ZArith NArith List Lia Bool.
From Stdlib Require Import OrderedTypeEx RelationClasses Morphisms.
From S2P Require Import Prelude.

#[local] Open Scope string_scope.

(** ** Definitions *)

Definition str_lt (s t : string) : Prop := String.compare s t = Lt.

Definition str_le (s t : string) : Prop := String.compare s t <> Gt.

(** Combine two comparisons lexicographically. *)
Definition lex (c1 c2 : comparison) : comparison :=
  match c1 with
  | Eq => c2
  | _ => c1
  end.

(** ** Characters *)

Lemma ascii_compare_refl (a : ascii) : Ascii.compare a a = Eq.
Proof. unfold Ascii.compare. apply N.compare_refl. Qed.

Lemma ascii_compare_eq (a b : ascii) : Ascii.compare a b = Eq <-> a = b.
Proof.
  split; [apply Ascii.compare_eq_iff | intros ->; apply ascii_compare_refl].
Qed.

(** ** Strings *)

Lemma compare_refl (s : string) : String.compare s s = Eq.
Proof. induction s as [|a s IH]; cbn; [reflexivity|]. now rewrite ascii_compare_refl. Qed.

Lemma compare_eq (s t : string) : String.compare s t = Eq <-> s = t.
Proof. split; [apply String.compare_eq_iff | intros ->; apply compare_refl]. Qed.

Lemma compare_gt_lt (s t : string) : String.compare s t = Gt <-> String.compare t s = Lt.
Proof.
  rewrite (String.compare_antisym t s). destruct (String.compare s t); cbn; split; congruence.
Qed.

Lemma compare_lt_gt (s t : string) : String.compare s t = Lt <-> String.compare t s = Gt.
Proof. symmetry. apply compare_gt_lt. Qed.

Lemma compare_cons (a b : ascii) (s t : string) :
  String.compare (String a s) (String b t) = lex (Ascii.compare a b) (String.compare s t).
Proof. cbn. now destruct (Ascii.compare a b). Qed.

Lemma str_lt_trans (s t u : string) : str_lt s t -> str_lt t u -> str_lt s u.
Proof.
  unfold str_lt. intros H1 H2.
  apply String_as_OT.cmp_lt. apply String_as_OT.cmp_lt in H1, H2.
  eapply String_as_OT.lt_trans; eassumption.
Qed.

Lemma str_lt_irrefl (s : string) : ~ str_lt s s.
Proof. unfold str_lt. now rewrite compare_refl. Qed.

#[export] Instance str_lt_strict : StrictOrder str_lt.
Proof. split; [intros s; apply str_lt_irrefl | intros s t u; apply str_lt_trans]. Qed.

Lemma str_lt_neq (s t : string) : str_lt s t -> s <> t.
Proof. intros H ->. now apply str_lt_irrefl in H. Qed.

Lemma str_lt_asym (s t : string) : str_lt s t -> ~ str_lt t s.
Proof. intros H1 H2. exact (str_lt_irrefl s (str_lt_trans _ _ _ H1 H2)). Qed.

Lemma str_trichotomy (s t : string) : str_lt s t \/ s = t \/ str_lt t s.
Proof.
  unfold str_lt. destruct (String.compare s t) eqn:E.
  - right; left. now apply compare_eq.
  - now left.
  - right; right. now apply compare_gt_lt.
Qed.

#[export] Hint Resolve str_lt_trans str_lt_irrefl str_lt_neq : fit.
#[export] Hint Rewrite compare_refl compare_cons : fit_rw.

(** ** Concatenation *)

Lemma lex_assoc (a b c : comparison) : lex (lex a b) c = lex a (lex b c).
Proof. now destruct a. Qed.

Lemma lex_eq_r (a : comparison) : lex a Eq = a.
Proof. now destruct a. Qed.

(** Prefixes of the same length are compared first; the suffixes only
    break ties. *)
Lemma compare_app (s1 s2 t1 t2 : string) :
  String.length s1 = String.length s2 ->
  String.compare (s1 ++ t1) (s2 ++ t2) = lex (String.compare s1 s2) (String.compare t1 t2).
Proof.
  revert s2. induction s1 as [|a s1 IH]; intros [|b s2] Hlen; try discriminate.
  - reflexivity.
  - cbn [append]. rewrite !compare_cons, IH, lex_assoc by (cbn in Hlen; lia). reflexivity.
Qed.

Lemma length_append (s t : string) :
  String.length (s ++ t) = (String.length s + String.length t)%nat.
Proof. induction s as [|a s IH]; cbn; [reflexivity | now rewrite IH]. Qed.

Lemma append_assoc (s t u : string) : (s ++ t) ++ u = s ++ (t ++ u).
Proof. induction s as [|a s IH]; cbn; [reflexivity | now rewrite IH]. Qed.

Lemma append_nil_r (s : string) : s ++ "" = s.
Proof. induction s as [|a s IH]; cbn; [reflexivity | now rewrite IH]. Qed.

#[export] Hint Rewrite length_append append_nil_r : fit_rw.
