(* ===== verification/Int64.v ===== *)
(** * Int64: sums of int64 columns

    [df['Duration'].sum()] and [df['Calories'].sum()] are reductions of
    int64 columns; numpy adds in 64-bit two's complement and wraps silently
    on overflow.  An int64 is modelled as the [Z] it denotes, and every
    operation wraps its exact result back into [-2^63, 2^63).

    The theorems say when the wrapped sum is the exact one, that it always
    agrees with the exact sum modulo 2^64 whatever the intermediate
    overflows, and that it does not depend on the order of the rows. *)

From Stdlib Require Import ZArith List Lia Permutation Morphisms.
From S2P Require Import Prelude.
Import ListNotations.

#[local] Open Scope Z_scope.

(** ** Definitions *)

Definition int64_min : Z := - 2 ^ 63.
Definition int64_max : Z := 2 ^ 63 - 1.

Definition in_int64 (z : Z) : Prop := int64_min <= z <= int64_max.

Definition in_int64b (z : Z) : bool := (int64_min <=? z) && (z <=? int64_max).

(** The int64 that a two's-complement register holds after computing [z]. *)
Definition wrap64 (z : Z) : Z := (z + 2 ^ 63) mod 2 ^ 64 - 2 ^ 63.

(** [np.add] on int64. *)
Definition add64 (a b : Z) : Z := wrap64 (a + b).

(** [Series.sum()] on an int64 column: the reduction starts from 0. *)
Definition sum64 (l : list Z) : Z := fold_left add64 l 0.

(** ** Tactics *)

(** Expose the two constants as literals so that [lia] can use them. *)
Ltac i64_consts :=
  change (2 ^ 64) with 18446744073709551616 in *;
  change (2 ^ 63) with 9223372036854775808 in *.

Ltac i64_unfold :=
  unfold add64, wrap64, in_int64, int64_min, int64_max in *; i64_consts.

Ltac i64 := i64_unfold; lia_dm.

(** ** Wrapping *)

Lemma in_int64b_spec (z : Z) : in_int64b z = true <-> in_int64 z.
Proof. unfold in_int64b, in_int64. rewrite Bool.andb_true_iff, !Z.leb_le. tauto. Qed.

Lemma wrap64_range (z : Z) : in_int64 (wrap64 z).
Proof. i64. Qed.

Lemma wrap64_small (z : Z) : in_int64 z -> wrap64 z = z.
Proof. i64. Qed.

Lemma wrap64_idem (z : Z) : wrap64 (wrap64 z) = wrap64 z.
Proof. apply wrap64_small, wrap64_range. Qed.

Lemma wrap64_congr (z : Z) : exists k, wrap64 z = z + k * 2 ^ 64.
Proof.
  exists (- ((z + 2 ^ 63) / 2 ^ 64)). i64.
Qed.

Lemma wrap64_shift (z k : Z) : wrap64 (z + k * 2 ^ 64) = wrap64 z.
Proof.
  unfold wrap64. f_equal.
  replace (z + k * 2 ^ 64 + 2 ^ 63) with (z + 2 ^ 63 + k * 2 ^ 64) by ring.
  apply Z.mod_add. i64_consts. lia.
Qed.

Lemma wrap64_add_l (a b : Z) : wrap64 (wrap64 a + b) = wrap64 (a + b).
Proof.
  destruct (wrap64_congr a) as [k ->].
  replace (a + k * 2 ^ 64 + b) with (a + b + k * 2 ^ 64) by ring.
  apply wrap64_shift.
Qed.

Lemma wrap64_add_r (a b : Z) : wrap64 (a + wrap64 b) = wrap64 (a + b).
Proof. rewrite Z.add_comm, wrap64_add_l. f_equal. ring. Qed.

Lemma wrap64_inj_range (a b : Z) :
  in_int64 a -> in_int64 b -> wrap64 a = wrap64 b -> a = b.
Proof. intros Ha Hb. rewrite !wrap64_small by assumption. auto. Qed.

#[export] Hint Resolve wrap64_range : fit.
#[export] Hint Rewrite wrap64_idem wrap64_add_l wrap64_add_r : fit_rw.

(** ** Addition *)

Lemma add64_range (a b : Z) : in_int64 (add64 a b).
Proof. apply wrap64_range. Qed.

Lemma add64_comm (a b : Z) : add64 a b = add64 b a.
Proof. unfold add64. f_equal. ring. Qed.

Lemma add64_assoc (a b c : Z) : add64 (add64 a b) c = add64 a (add64 b c).
Proof.
  unfold add64. rewrite wrap64_add_l, wrap64_add_r. f_equal. ring.
Qed.

Lemma add64_0_l (a : Z) : in_int64 a -> add64 0 a = a.
Proof. intros H. unfold add64. now rewrite Z.add_0_l, wrap64_small. Qed.

Lemma add64_0_r (a : Z) : in_int64 a -> add64 a 0 = a.
Proof. intros H. rewrite add64_comm. now apply add64_0_l. Qed.

Lemma add64_swap (s a b : Z) : add64 (add64 s a) b = add64 (add64 s b) a.
Proof. rewrite !add64_assoc. f_equal. apply add64_comm. Qed.

Lemma add64_exact (a b : Z) : in_int64 (a + b) -> add64 a b = a + b.
Proof. apply wrap64_small. Qed.

#[export] Hint Resolve add64_range : fit.

(** ** Sums *)

Lemma fold_add64_wrap (l : list Z) (a : Z) :
  wrap64 (fold_left add64 l a) = wrap64 (a + zsum l).
Proof.
  revert a. induction l as [|x l IH]; intros a; cbn [fold_left].
  - now rewrite Z.add_0_r.
  - rewrite IH, zsum_cons. unfold add64. rewrite wrap64_add_l. f_equal. ring.
Qed.

Lemma fold_add64_range (l : list Z) (a : Z) :
  in_int64 a -> in_int64 (fold_left add64 l a).
Proof.
  revert a. induction l as [|x l IH]; intros a Ha; cbn [fold_left]; auto with fit.
Qed.

Lemma sum64_range (l : list Z) : in_int64 (sum64 l).
Proof. apply fold_add64_range. i64. Qed.

Lemma sum64_nil : sum64 [] = 0.
Proof. reflexivity. Qed.

Lemma sum64_cons (x : Z) (l : list Z) : sum64 (x :: l) = add64 x (sum64 l).
Proof.
  unfold sum64. cbn [fold_left].
  rewrite (fold_left_comm_cons add64 add64_swap). apply add64_comm.
Qed.

Lemma sum64_app (l1 l2 : list Z) : sum64 (l1 ++ l2) = add64 (sum64 l1) (sum64 l2).
Proof.
  induction l1 as [|x l1 IH].
  - cbn [app]. rewrite sum64_nil. symmetry. apply add64_0_l, sum64_range.
  - change ((x :: l1) ++ l2) with (x :: (l1 ++ l2)).
    now rewrite !sum64_cons, IH, add64_assoc.
Qed.

#[export] Instance sum64_Permutation : Proper (@Permutation Z ==> eq) sum64.
Proof. intros l1 l2 HP. apply (fold_left_Permutation add64 add64_swap); assumption. Qed.

#[export] Hint Resolve sum64_range : fit.
#[export] Hint Rewrite sum64_nil sum64_cons sum64_app : fit_rw.

(** Equations between wrapped sums: push every [wrap64] outwards, then
    compare the exact sums. *)
Ltac wrap_eq :=
  rewrite ?sum64_cons, ?sum64_nil;
  rewrite ?add64_0_r, ?add64_0_l by auto with fit;
  unfold add64;
  repeat (rewrite wrap64_add_l || rewrite wrap64_add_r);
  first [reflexivity | f_equal; lia].

(** The wrapped sum is the exact sum, wrapped once. *)
Lemma sum64_zsum (l : list Z) : sum64 l = wrap64 (zsum l).
Proof.
  rewrite <- (wrap64_small (sum64 l)) by apply sum64_range.
  unfold sum64. now rewrite fold_add64_wrap, Z.add_0_l.
Qed.

(** When the exact total fits in an int64 the sum is exact, even if a
    partial sum overflowed before later negative entries brought it back. *)
Lemma sum64_exact (l : list Z) : in_int64 (zsum l) -> sum64 l = zsum l.
Proof. intros H. rewrite sum64_zsum. now apply wrap64_small. Qed.

(** C23. Whatever overflows happen on the way, the int64 sum of a column is
    the exact sum reduced into the int64 range: it is the only int64 that
    differs from the exact sum by a multiple of 2^64.  The reduction
    shows: one more minute on top of the largest int64 makes the sum of
    two non-negative durations the smallest int64. *)
Theorem sum64_wrap (l : list Z) :
  sum64 l = wrap64 (zsum l) /\
  in_int64 (sum64 l) /\
  (forall z, in_int64 z -> (z - zsum l) mod 2 ^ 64 = 0 -> z = sum64 l) /\
  sum64 [int64_max; 1] = int64_min.
Proof.
  split; [apply sum64_zsum | split; [apply sum64_range | split; [|reflexivity]]].
  intros z Hz Hmod. rewrite sum64_zsum.
  apply Z.mod_divide in Hmod; [|i64_consts; lia]. destruct Hmod as [k Hk].
  replace (zsum l) with (z + (- k) * 2 ^ 64) by lia.
  now rewrite wrap64_shift, wrap64_small.
Qed.

(** A column of non-negative entries sums exactly below 2^63. *)
Lemma sum64_exact_nonneg (l : list Z) :
  Forall (fun x => 0 <= x) l -> zsum l <= int64_max -> sum64 l = zsum l.
Proof.
  intros Hl Hmax. apply sum64_exact. pose proof (zsum_nonneg l Hl). i64.
Qed.

