(* ===== verification/Calendar.v ===== *)
(** * Calendar: dates and the week number of [%W]

    [create_charts] groups the rows by [df['Date'].dt.strftime('%Y-%W')].
    The key depends on the date through the proleptic Gregorian ordinal
    (Python's [datetime]: [_is_leap], [_days_before_year],
    [_days_in_month], [_days_before_month], [_ymd2ord], [weekday]) and
    through the week-of-year rule of [%W]: weeks start on Monday, and the
    days of a year before its first Monday are in week 0.

    The theorems give the ranges of the day of the year, the weekday and
    the week number (week 53 occurs only on December 30 and 31), show that
    the ordinal orders dates chronologically and advances by one from a
    day to the next ([next_day]), and characterise [%W]: it is the number
    of Mondays of the year so far ([mondays_upto]), week 0 is the part of
    the year before its first Monday, within a year two dates get the
    same week number exactly when they lie in the same Monday-to-Sunday
    week, and the week number never decreases as the date advances. *)

From Stdlib Require Import ZArith List Lia Bool.
From S2P Require Import Prelude.
Import ListNotations.

#[local] Open Scope Z_scope.

(** ** Definitions *)

Record date : Type := mkdate { year : Z; month : Z; day : Z }.

(** [year % 4 == 0 and (year % 100 != 0 or year % 400 == 0)] *)
Definition is_leap (y : Z) : bool :=
  (y mod 4 =? 0) && (negb (y mod 100 =? 0) || (y mod 400 =? 0)).

(** Number of days before January 1st of year [y]. *)
Definition days_before_year (y : Z) : Z :=
  let y' := y - 1 in y' * 365 + y' / 4 - y' / 100 + y' / 400.

Definition DAYS_IN_MONTH (m : Z) : Z :=
  match m with
  | 1 => 31 | 2 => 28 | 3 => 31 | 4 => 30 | 5 => 31 | 6 => 30
  | 7 => 31 | 8 => 31 | 9 => 30 | 10 => 31 | 11 => 30 | 12 => 31
  | _ => -1
  end.

Definition days_in_month (y m : Z) : Z :=
  if (m =? 2) && is_leap y then 29 else DAYS_IN_MONTH m.

Definition DAYS_BEFORE_MONTH (m : Z) : Z :=
  match m with
  | 1 => 0 | 2 => 31 | 3 => 59 | 4 => 90 | 5 => 120 | 6 => 151
  | 7 => 181 | 8 => 212 | 9 => 243 | 10 => 273 | 11 => 304 | 12 => 334
  | _ => -1
  end.

(** Number of days in the year before the first day of month [m]. *)
Definition days_before_month (y m : Z) : Z :=
  DAYS_BEFORE_MONTH m + (if (2 <? m) && is_leap y then 1 else 0).

(** Length of year [y] in days. *)
Definition days_in_year (y : Z) : Z := if is_leap y then 366 else 365.

(** Ordinal of a date: 0001-01-01 is day 1. *)
Definition ymd2ord (y m d : Z) : Z :=
  days_before_year y + days_before_month y m + d.

Definition toordinal (d : date) : Z := ymd2ord (year d) (month d) (day d).

(** Monday is 0, Sunday is 6. *)
Definition weekday (d : date) : Z := (toordinal d + 6) mod 7.

(** Day of the year, from 1. *)
Definition yday (d : date) : Z := days_before_month (year d) (month d) + day d.

(** [%W]: with [tm_yday = yday - 1] and the Monday-based weekday,
    [(tm_yday + 7 - weekday) / 7]. *)
Definition week_W (d : date) : Z := (yday d - 1 + 7 - weekday d) / 7.

(** Dates a timestamp can hold with a four-digit year. *)
Definition valid_date (d : date) : bool :=
  (1000 <=? year d) && (year d <=? 9999) &&
  (1 <=? month d) && (month d <=? 12) &&
  (1 <=? day d) && (day d <=? days_in_month (year d) (month d)).

(** Chronological order on dates, field by field. *)
Definition date_compare (a b : date) : comparison :=
  match year a ?= year b with
  | Eq => match month a ?= month b with
          | Eq => day a ?= day b
          | c => c
          end
  | c => c
  end.

(** Ordinal of the Monday that starts the week of [d]. *)
Definition monday_of (d : date) : Z := toordinal d - weekday d.

(** The day after [d] in the calendar. *)
Definition next_day (d : date) : date :=
  if day d <? days_in_month (year d) (month d) then mkdate (year d) (month d) (day d + 1)
  else if month d <? 12 then mkdate (year d) (month d + 1) 1
  else mkdate (year d + 1) 1 1.

(** Number of Mondays among the first [n] days of year [y], counted day
    by day. *)
Fixpoint mondays_upto (y : Z) (n : nat) : Z :=
  match n with
  | O => 0
  | S n' =>
      mondays_upto y n' +
      (if (days_before_year y + Z.of_nat n + 6) mod 7 =? 0 then 1 else 0)
  end.

(** ** Tactics *)

(** Split a month known to lie in 1..12 into its twelve values. *)
Ltac month_cases m :=
  let H := fresh "Hm" in
  assert (H : m = 1 \/ m = 2 \/ m = 3 \/ m = 4 \/ m = 5 \/ m = 6 \/
              m = 7 \/ m = 8 \/ m = 9 \/ m = 10 \/ m = 11 \/ m = 12) by lia;
  repeat (destruct H as [H | H]); subst m.

(** ** Validity *)

Lemma valid_date_spec (d : date) :
  valid_date d = true <->
  1000 <= year d <= 9999 /\ 1 <= month d <= 12 /\
  1 <= day d <= days_in_month (year d) (month d).
Proof. unfold valid_date. rewrite !andb_true_iff, !Z.leb_le. tauto. Qed.

Lemma is_leap_spec (y : Z) :
  is_leap y = true <-> y mod 4 = 0 /\ (y mod 100 <> 0 \/ y mod 400 = 0).
Proof.
  unfold is_leap.
  rewrite andb_true_iff, orb_true_iff, negb_true_iff, !Z.eqb_eq, Z.eqb_neq. tauto.
Qed.

Lemma days_in_month_bounds (y m : Z) :
  1 <= m <= 12 -> 28 <= days_in_month y m <= 31.
Proof.
  intros Hm. unfold days_in_month. month_cases m; cbn; destruct (is_leap y); cbn; lia.
Qed.

Lemma days_before_month_bounds (y m : Z) :
  1 <= m <= 12 -> 0 <= days_before_month y m <= 335.
Proof.
  intros Hm. unfold days_before_month. month_cases m; cbn; destruct (is_leap y); cbn; lia.
Qed.

(** The table of cumulated days is the running sum of the month lengths. *)
Lemma days_before_month_succ (y m : Z) :
  1 <= m < 12 ->
  days_before_month y (m + 1) = days_before_month y m + days_in_month y m.
Proof.
  intros Hm. unfold days_before_month, days_in_month.
  month_cases m; try lia; cbn; destruct (is_leap y); reflexivity.
Qed.

Lemma days_before_month_last (y : Z) :
  days_before_month y 12 + days_in_month y 12 = days_in_year y.
Proof. unfold days_before_month, days_in_month, days_in_year. cbn. destruct (is_leap y); reflexivity. Qed.

Lemma days_before_year_succ (y : Z) :
  days_before_year (y + 1) = days_before_year y + days_in_year y.
Proof.
  unfold days_before_year, days_in_year. cbn zeta.
  replace (y + 1 - 1) with y by ring.
  destruct (is_leap y) eqn:E.
  - apply is_leap_spec in E. lia_dm.
  - assert (~ (y mod 4 = 0 /\ (y mod 100 <> 0 \/ y mod 400 = 0))) as N
      by (rewrite <- is_leap_spec, E; discriminate).
    lia_dm.
Qed.

Lemma days_before_year_mono (y1 y2 : Z) :
  y1 <= y2 -> days_before_year y1 <= days_before_year y2.
Proof. unfold days_before_year. cbn zeta. intros H. lia_dm. Qed.

Lemma days_in_year_bounds (y : Z) : 365 <= days_in_year y <= 366.
Proof. unfold days_in_year. destruct (is_leap y); lia. Qed.

Lemma days_before_month_end (y m : Z) :
  1 <= m <= 12 ->
  0 <= days_before_month y m /\
  days_before_month y m + days_in_month y m <= days_in_year y.
Proof.
  intros Hm. unfold days_before_month, days_in_month, days_in_year.
  month_cases m; cbn; destruct (is_leap y); cbn; lia.
Qed.

(** ** Day of the year, weekday, week number *)

Section ValidDate.
Context (d : date) (Hd : valid_date d = true).

Lemma yday_bounds : 1 <= yday d <= days_in_year (year d).
Proof.
  apply valid_date_spec in Hd. destruct Hd as (_ & Hm & Hday).
  pose proof (days_before_month_end (year d) (month d) Hm).
  unfold yday. lia.
Qed.

Lemma toordinal_yday : toordinal d = days_before_year (year d) + yday d.
Proof. unfold toordinal, ymd2ord, yday. ring. Qed.

Lemma weekday_range : 0 <= weekday d <= 6.
Proof. unfold weekday. lia_dm. Qed.

Lemma week_W_range : 0 <= week_W d <= 53.
Proof.
  pose proof yday_bounds. pose proof weekday_range.
  pose proof (days_in_year_bounds (year d)).
  unfold week_W. lia_dm.
Qed.

(** Week 0 is exactly the part of the year before its first Monday:
    the Monday that starts the week of the date lies in the previous
    year. *)
Lemma week_W_zero :
  week_W d = 0 <-> monday_of d <= days_before_year (year d).
Proof.
  pose proof yday_bounds. pose proof weekday_range.
  unfold week_W, monday_of. rewrite toordinal_yday. lia_dm.
Qed.

End ValidDate.

(** The week number seen from the Monday that starts the week. *)
Lemma week_W_monday (d : date) :
  week_W d = (monday_of d - days_before_year (year d) + 6) / 7.
Proof.
  unfold week_W, monday_of, yday, toordinal, ymd2ord. f_equal. ring.
Qed.

Lemma monday_of_mod (d : date) : (monday_of d + 6) mod 7 = 0.
Proof. unfold monday_of, weekday. lia_dm. Qed.

Lemma monday_of_mono (a b : date) :
  toordinal a <= toordinal b -> monday_of a <= monday_of b.
Proof. unfold monday_of, weekday. intros H. lia_dm. Qed.

(** Within a year, two dates have the same [%W] week number exactly
    when they lie in the same Monday-to-Sunday week. *)
Lemma week_W_same_week (a b : date) :
  year a = year b ->
  (week_W a = week_W b <-> monday_of a = monday_of b).
Proof.
  intros Hy. rewrite !week_W_monday, Hy.
  pose proof (monday_of_mod a). pose proof (monday_of_mod b).
  split; intros H1; [lia_dm | now rewrite H1].
Qed.

(** Within a year the week number never decreases as the date
    advances. *)
Lemma week_W_mono (a b : date) :
  year a = year b -> toordinal a <= toordinal b -> week_W a <= week_W b.
Proof.
  intros Hy Hord. rewrite !week_W_monday, Hy.
  pose proof (monday_of_mono a b Hord). lia_dm.
Qed.

(** ** The ordinal is strictly monotone in the date *)

Lemma toordinal_year_lt (a b : date) :
  valid_date a = true -> valid_date b = true ->
  year a < year b -> toordinal a < toordinal b.
Proof.
  intros Ha Hb Hy.
  rewrite (toordinal_yday a), (toordinal_yday b).
  pose proof (yday_bounds a Ha). pose proof (yday_bounds b Hb).
  pose proof (days_before_year_succ (year a)).
  pose proof (days_before_year_mono (year a + 1) (year b)). lia.
Qed.

Lemma days_before_month_lt (y m1 m2 : Z) :
  1 <= m1 -> m1 < m2 -> m2 <= 12 ->
  days_before_month y m1 + days_in_month y m1 <= days_before_month y m2.
Proof.
  intros H1 H12 H2. unfold days_before_month, days_in_month.
  month_cases m1; month_cases m2; try lia; cbn; destruct (is_leap y); cbn; lia.
Qed.

(** Before December the day of the year is at most 335. *)
Lemma yday_before_december (d : date) :
  valid_date d = true -> month d < 12 -> yday d <= 335.
Proof.
  intros Hd Hm. apply valid_date_spec in Hd. destruct Hd as (_ & Hm1 & Hday).
  pose proof (days_before_month_lt (year d) (month d) 12).
  assert (days_before_month (year d) 12 <= 335)
    by (unfold days_before_month; cbn; destruct (is_leap (year d)); cbn; lia).
  unfold yday. lia.
Qed.

(** C28. The week number of a valid date is between 0 and 53; week 53
    occurs only on the last two days of December, and week 0 is exactly
    the part of the year before its first Monday: the Monday that starts
    the week of the date lies in the previous year. *)
Theorem week_W_bounds (d : date) :
  valid_date d = true ->
  0 <= week_W d <= 53 /\ (week_W d = 53 -> month d = 12 /\ 30 <= day d) /\
  (week_W d = 0 <-> monday_of d <= days_before_year (year d)).
Proof.
  intros Hd. split; [now apply week_W_range|]. split; [|now apply week_W_zero].
  intros H53.
  pose proof (yday_bounds d Hd). pose proof (weekday_range d).
  pose proof (days_in_year_bounds (year d)).
  assert (365 <= yday d) as Hy by (unfold week_W in H53; lia_dm).
  destruct (Z_lt_dec (month d) 12) as [Hm|Hm];
    [pose proof (yday_before_december d Hd Hm); lia|].
  apply valid_date_spec in Hd. destruct Hd as (_ & Hm1 & Hday).
  assert (month d = 12) as Hm12 by lia. split; [assumption|].
  unfold yday in Hy. rewrite Hm12 in Hy.
  assert (days_before_month (year d) 12 <= 335)
    by (unfold days_before_month; cbn; destruct (is_leap (year d)); cbn; lia).
  lia.
Qed.

Lemma week_W_bounds_witness :
  0 <= week_W (mkdate 2024 12 31) <= 53 /\
  (week_W (mkdate 2024 12 31) = 53 ->
   month (mkdate 2024 12 31) = 12 /\ 30 <= day (mkdate 2024 12 31)) /\
  (week_W (mkdate 2024 12 31) = 0 <->
   monday_of (mkdate 2024 12 31) <= days_before_year (year (mkdate 2024 12 31))).
Proof. apply (week_W_bounds (mkdate 2024 12 31)). reflexivity. Defined.

(** On valid dates the chronological order is the order of the
    ordinals. *)
Lemma toordinal_compare (a b : date) :
  valid_date a = true -> valid_date b = true ->
  date_compare a b = (toordinal a ?= toordinal b).
Proof.
  intros Ha Hb. unfold date_compare.
  destruct (Z.compare_spec (year a) (year b)) as [Hy|Hy|Hy].
  2: { symmetry. apply Z.compare_lt_iff. now apply toordinal_year_lt. }
  2: { symmetry. apply Z.compare_gt_iff. now apply toordinal_year_lt. }
  apply valid_date_spec in Ha, Hb. destruct Ha as (_ & Hma & Hda), Hb as (_ & Hmb & Hdb).
  unfold toordinal, ymd2ord. rewrite <- Hy in *.
  destruct (Z.compare_spec (month a) (month b)) as [Hm|Hm|Hm].
  - rewrite Hm. destruct (Z.compare_spec (day a) (day b)); symmetry;
      [apply Z.compare_eq_iff | apply Z.compare_lt_iff | apply Z.compare_gt_iff]; lia.
  - symmetry. apply Z.compare_lt_iff.
    pose proof (days_before_month_lt (year a) (month a) (month b)). lia.
  - symmetry. apply Z.compare_gt_iff.
    pose proof (days_before_month_lt (year a) (month b) (month a)). lia.
Qed.

Lemma date_compare_eq (a b : date) : date_compare a b = Eq -> a = b.
Proof.
  unfold date_compare. destruct a as [y1 m1 d1], b as [y2 m2 d2]; cbn [year month day].
  destruct (Z.compare_spec y1 y2); try discriminate.
  destruct (Z.compare_spec m1 m2); try discriminate.
  intros Hd%Z.compare_eq. congruence.
Qed.

(** ** The calendar, day by day *)

(** The day after a valid date, across the ends of months and years,
    leap years included, has the next ordinal and the next weekday. *)
Lemma toordinal_next_day (d : date) :
  valid_date d = true ->
  toordinal (next_day d) = toordinal d + 1 /\
  weekday (next_day d) = (weekday d + 1) mod 7.
Proof.
  intros Hd. apply valid_date_spec in Hd. destruct Hd as (_ & Hm & Hday).
  assert (toordinal (next_day d) = toordinal d + 1) as E.
  { unfold next_day, toordinal, ymd2ord.
    destruct (Z.ltb_spec (day d) (days_in_month (year d) (month d))); cbn [year month day]; [ring|].
    destruct (Z.ltb_spec (month d) 12); cbn [year month day].
    - rewrite days_before_month_succ by lia. lia.
    - replace (month d) with 12 in * by lia.
      pose proof (days_before_month_last (year d)).
      rewrite days_before_year_succ. change (days_before_month (year d + 1) 1) with 0. lia. }
  split; [exact E|]. unfold weekday. rewrite E. lia_dm.
Qed.

(** C31. The ordinal is a faithful day count, so the weekday and the
    week number are computed from the right day: the day after a valid
    date, across the ends of months and years, leap years included, has
    the next ordinal and the next weekday, and on valid dates the order
    of the ordinals is the chronological order. *)
Theorem toordinal_counts_days (a b : date) :
  valid_date a = true -> valid_date b = true ->
  toordinal (next_day a) = toordinal a + 1 /\
  weekday (next_day a) = (weekday a + 1) mod 7 /\
  date_compare a b = (toordinal a ?= toordinal b).
Proof.
  intros Ha Hb. destruct (toordinal_next_day a Ha) as [Hn Hw].
  split; [exact Hn | split; [exact Hw | now apply toordinal_compare]].
Qed.

Lemma toordinal_counts_days_witness :
  toordinal (next_day (mkdate 2024 2 29)) = toordinal (mkdate 2024 2 29) + 1 /\
  weekday (next_day (mkdate 2024 2 29)) = (weekday (mkdate 2024 2 29) + 1) mod 7 /\
  date_compare (mkdate 2024 2 29) (mkdate 2024 3 1) =
  (toordinal (mkdate 2024 2 29) ?= toordinal (mkdate 2024 3 1)).
Proof. apply toordinal_counts_days; reflexivity. Defined.

(** The weekday is anchored: 2024-01-01 was a Monday. *)
Example weekday_anchor : weekday (mkdate 2024 1 1) = 0 /\ next_day (mkdate 2024 12 31) = mkdate 2025 1 1.
Proof. split; reflexivity. Qed.

(** The number of Mondays among the first days of a year, in closed
    form. *)
Lemma mondays_upto_closed (y : Z) (n : nat) :
  mondays_upto y n =
  (Z.of_nat n + 6 - (days_before_year y + Z.of_nat n + 6) mod 7) / 7.
Proof.
  induction n as [|n IH].
  - cbn [mondays_upto Z.of_nat]. lia_dm.
  - cbn [mondays_upto]. rewrite IH. rewrite Nat2Z.inj_succ.
    destruct (Z.eqb_spec ((days_before_year y + Z.succ (Z.of_nat n) + 6) mod 7) 0); lia_dm.
Qed.

(** C29. The week number [%W] of a date is the number of Mondays of its
    year up to that date. *)
Theorem week_W_counts_mondays (d : date) :
  valid_date d = true -> week_W d = mondays_upto (year d) (Z.to_nat (yday d)).
Proof.
  intros Hd. pose proof (yday_bounds d Hd).
  rewrite mondays_upto_closed, Z2Nat.id by lia.
  unfold week_W, weekday. rewrite (toordinal_yday d). f_equal. lia.
Qed.

Lemma week_W_counts_mondays_witness :
  week_W (mkdate 2024 1 8) = mondays_upto 2024 (Z.to_nat (yday (mkdate 2024 1 8))).
Proof. apply (week_W_counts_mondays (mkdate 2024 1 8)). reflexivity. Defined.
