(* ===== verification/Format.v ===== *)
(** * Format: the strings the page shows

    - [strftime_YW]: the group key [df['Date'].dt.strftime('%Y-%W')] of
      [create_charts], a four-digit year, a dash and a two-digit week;
    - [str_int]: Python's [str] of an integer;
    - [format_int_comma]: the [:,] format of the calories card;
    - [format_percent]: the goal card's [f"{goal_progress}%"].

    The theorems show that comparing two keys as strings is comparing
    (year, week) pairs, hence that sorted keys are in chronological order
    and that two rows share a key exactly when they share a year and a
    Monday-to-Sunday week; that the decimal digits denote the number; and
    that the [:,] format prints a number by thousands, with separators
    that can be removed to recover [str]. *)

From Stdlib Require Import String Ascii ZArith NArith List Lia Bool.
From Equations Require Import Equations.
From S2P Require Import Prelude StringOrder Calendar.
Import ListNotations.

#[local] Open Scope Z_scope.

(** ** Definitions *)

(** [chr(ord('0') + d)] *)
Definition digit_char (d : Z) : ascii := ascii_of_N (48 + Z.to_N d).

(** [w] decimal digits of [z], most significant first, zero padded: what
    [%Y] (w = 4) and [%W] (w = 2) print for [0 <= z < 10^w]. *)
Fixpoint zero_padded (w : nat) (z : Z) : string :=
  match w with
  | O => EmptyString
  | S w' => String (digit_char (z / 10 ^ Z.of_nat w'))
                   (zero_padded w' (z mod 10 ^ Z.of_nat w'))
  end.

(** The key of a (year, week) pair. *)
Definition year_week_key (y w : Z) : string :=
  (zero_padded 4 y ++ "-" ++ zero_padded 2 w)%string.

(** [d.strftime('%Y-%W')] *)
Definition strftime_YW (d : date) : string := year_week_key (year d) (week_W d).

(** Decimal digits of a natural number, most significant first. *)
Equations? digits (n : Z) : list Z by wf (Z.to_nat (Z.log2 n)) lt :=
  digits n with Z_lt_dec n 10 => {
    | left _ => [n];
    | right _ => digits (n / 10) ++ [n mod 10] }.
Proof. pose proof (log2_div10_lt n). pose proof (Z.log2_nonneg (n / 10)). lia. Qed.

(** The number a list of digits denotes. *)
Definition undigits (l : list Z) : Z := fold_left (fun acc d => acc * 10 + d) l 0.

Definition digits_string (n : Z) : string :=
  string_of_list_ascii (map digit_char (digits n)).

(** [str(z)] for an integer. *)
Definition str_int (z : Z) : string :=
  if z <? 0 then String "-" (digits_string (- z)) else digits_string z.

(** Insert a comma after every third character of a list that holds the
    digits least significant first, except at the end. *)
Fixpoint group3 (l : list ascii) : list ascii :=
  match l with
  | a :: b :: c :: ((_ :: _) as rest) => a :: b :: c :: ","%char :: group3 rest
  | _ => l
  end.

(** [f"{z:,}"] *)
Definition format_int_comma (z : Z) : string :=
  let body := string_of_list_ascii (rev (group3 (rev (map digit_char (digits (Z.abs z)))))) in
  if z <? 0 then String "-" body else body.

(** [f"{z}%"] *)
Definition format_percent (z : Z) : string := (str_int z ++ "%")%string.

Definition not_comma (c : ascii) : bool := negb (Ascii.eqb c ","%char).

(** Drop the thousands separators of a string. *)
Definition remove_commas (s : string) : string :=
  string_of_list_ascii (filter not_comma (list_ascii_of_string s)).

(** ** Digits as characters *)

Lemma N_of_digit_char (d : Z) : 0 <= d <= 9 -> N_of_ascii (digit_char d) = (48 + Z.to_N d)%N.
Proof. intros H. unfold digit_char. apply N_ascii_embedding. lia. Qed.

Lemma digit_char_compare (a b : Z) :
  0 <= a <= 9 -> 0 <= b <= 9 -> Ascii.compare (digit_char a) (digit_char b) = (a ?= b).
Proof.
  intros Ha Hb. unfold Ascii.compare. rewrite !N_of_digit_char by assumption.
  destruct (Z.compare_spec a b);
    [apply N.compare_eq_iff | apply N.compare_lt_iff | apply N.compare_gt_iff]; lia.
Qed.

Lemma digit_char_inj (a b : Z) :
  0 <= a <= 9 -> 0 <= b <= 9 -> digit_char a = digit_char b -> a = b.
Proof.
  intros Ha Hb H. apply Z.compare_eq. rewrite <- digit_char_compare by assumption.
  now apply ascii_compare_eq.
Qed.

Lemma digit_char_not_comma (d : Z) : 0 <= d <= 9 -> Ascii.eqb (digit_char d) ","%char = false.
Proof.
  intros H. assert (d = 0 \/ d = 1 \/ d = 2 \/ d = 3 \/ d = 4 \/ d = 5 \/ d = 6 \/
                    d = 7 \/ d = 8 \/ d = 9) as C by lia.
  repeat (destruct C as [C | C]); subst d; reflexivity.
Qed.

(** ** Fixed-width numbers *)

Lemma pow10_pos (w : nat) : 0 < 10 ^ Z.of_nat w.
Proof. apply Z.pow_pos_nonneg; lia. Qed.

Lemma pow10_succ (w : nat) : 10 ^ Z.of_nat (S w) = 10 * 10 ^ Z.of_nat w.
Proof. rewrite Nat2Z.inj_succ, Z.pow_succ_r by lia. reflexivity. Qed.

(** Comparing numbers is comparing quotients, then remainders. *)
Lemma compare_div_mod (a b p : Z) :
  0 < p -> (a ?= b) = lex (a / p ?= b / p) (a mod p ?= b mod p).
Proof.
  intros Hp. pose proof (Z.div_mod a p). pose proof (Z.div_mod b p).
  pose proof (Z.mod_pos_bound a p Hp). pose proof (Z.mod_pos_bound b p Hp).
  destruct (Z.compare_spec (a / p) (b / p)) as [E|E|E]; cbn [lex].
  - rewrite E in *.
    destruct (Z.compare_spec (a mod p) (b mod p));
      [apply Z.compare_eq_iff | apply Z.compare_lt_iff | apply Z.compare_gt_iff]; lia.
  - apply Z.compare_lt_iff. nia.
  - apply Z.compare_gt_iff. nia.
Qed.

Lemma leading_digit_range (a p : Z) :
  0 < p -> 0 <= a < 10 * p -> 0 <= a / p <= 9.
Proof.
  intros Hp Ha. split; [apply Z.div_pos; lia|].
  enough (a / p < 10) by lia. apply Z.div_lt_upper_bound; lia.
Qed.

Lemma zero_padded_length (w : nat) (z : Z) : String.length (zero_padded w z) = w.
Proof. revert z. induction w as [|w IH]; intros z; cbn; [reflexivity | now rewrite IH]. Qed.

Lemma zero_padded_compare (w : nat) (a b : Z) :
  0 <= a < 10 ^ Z.of_nat w -> 0 <= b < 10 ^ Z.of_nat w ->
  String.compare (zero_padded w a) (zero_padded w b) = (a ?= b).
Proof.
  revert a b. induction w as [|w IH]; intros a b Ha Hb.
  - cbn in *. assert (a = 0) by lia. assert (b = 0) by lia. now subst.
  - rewrite pow10_succ in Ha, Hb. pose proof (pow10_pos w) as Hp.
    cbn [zero_padded]. rewrite compare_cons.
    rewrite digit_char_compare, IH
      by (apply leading_digit_range || apply Z.mod_pos_bound; assumption).
    symmetry. now apply compare_div_mod.
Qed.

#[export] Hint Rewrite zero_padded_length : fit_rw.

(** ** The group key *)

Lemma year_week_key_length (y w : Z) : String.length (year_week_key y w) = 7%nat.
Proof. unfold year_week_key. now autorewrite with fit_rw. Qed.

Lemma year_week_key_compare (y1 w1 y2 w2 : Z) :
  0 <= y1 <= 9999 -> 0 <= y2 <= 9999 -> 0 <= w1 <= 99 -> 0 <= w2 <= 99 ->
  String.compare (year_week_key y1 w1) (year_week_key y2 w2) =
  lex (y1 ?= y2) (w1 ?= w2).
Proof.
  intros Hy1 Hy2 Hw1 Hw2. unfold year_week_key.
  rewrite !compare_app by (rewrite ?zero_padded_length; reflexivity).
  rewrite !zero_padded_compare by (cbn; lia).
  now rewrite compare_refl.
Qed.

Section Keys.
Context (a b : date) (Ha : valid_date a = true) (Hb : valid_date b = true).

(** Comparing two group keys as strings, which is how [groupby] sorts
    them, is comparing the years and then the week numbers. *)
Lemma strftime_YW_compare :
  String.compare (strftime_YW a) (strftime_YW b) =
  lex (year a ?= year b) (week_W a ?= week_W b).
Proof.
  pose proof (week_W_range a Ha). pose proof (week_W_range b Hb).
  apply valid_date_spec in Ha, Hb.
  apply year_week_key_compare; lia.
Qed.

(** C9. The keys are sorted chronologically: a later date never has a
    smaller key. *)
Theorem strftime_YW_chrono :
  toordinal a <= toordinal b -> str_le (strftime_YW a) (strftime_YW b).
Proof.
  intros Hord. unfold str_le. rewrite strftime_YW_compare.
  destruct (Z.compare_spec (year a) (year b)) as [Hy|Hy|Hy]; cbn [lex]; try discriminate.
  - apply Z.compare_le_iff. now apply week_W_mono.
  - pose proof (toordinal_year_lt b a Hb Ha Hy). lia.
Qed.

(** C10. Two rows fall into the same bucket exactly when their dates are
    in the same year and in the same Monday-to-Sunday week. *)
Theorem strftime_YW_same_bucket :
  strftime_YW a = strftime_YW b <-> year a = year b /\ monday_of a = monday_of b.
Proof.
  rewrite <- compare_eq, strftime_YW_compare.
  destruct (Z.compare_spec (year a) (year b)) as [Hy|Hy|Hy]; cbn [lex].
  - rewrite Z.compare_eq_iff, (week_W_same_week a b Hy). tauto.
  - split; [discriminate | lia].
  - split; [discriminate | lia].
Qed.

End Keys.

Lemma strftime_YW_chrono_witness :
  str_le (strftime_YW (mkdate 2023 12 31)) (strftime_YW (mkdate 2024 1 1)).
Proof.
  apply (strftime_YW_chrono (mkdate 2023 12 31) (mkdate 2024 1 1));
    [reflexivity | reflexivity | vm_compute; discriminate].
Defined.

Lemma strftime_YW_same_bucket_witness :
  strftime_YW (mkdate 2024 1 8) = strftime_YW (mkdate 2024 1 14) <->
  2024 = 2024 /\ monday_of (mkdate 2024 1 8) = monday_of (mkdate 2024 1 14).
Proof. apply (strftime_YW_same_bucket (mkdate 2024 1 8) (mkdate 2024 1 14)); reflexivity. Defined.

(** The scenario of the specification: 2024-01-01 and 2024-01-08 are in
    different buckets, named "2024-01" and "2024-02". *)
Example strftime_YW_scenario :
  strftime_YW (mkdate 2024 1 1) = "2024-01"%string /\
  strftime_YW (mkdate 2024 1 8) = "2024-02"%string.
Proof. split; reflexivity. Qed.

(** The key is not the ISO week: the last days of 2024 and the first
    days of 2025 lie in one Monday-to-Sunday week (ISO week 2025-W01) but
    get the keys "2024-53" and "2025-00". *)
Example strftime_YW_splits_iso_week :
  monday_of (mkdate 2024 12 31) = monday_of (mkdate 2025 1 1) /\
  strftime_YW (mkdate 2024 12 31) = "2024-53"%string /\
  strftime_YW (mkdate 2025 1 1) = "2025-00"%string.
Proof. repeat split; reflexivity. Qed.

(** ** Decimal digits *)

Lemma digits_small (n : Z) : n < 10 -> digits n = [n].
Proof. intros H. simp digits. destruct (Z_lt_dec n 10); [reflexivity | lia]. Qed.

Lemma digits_big (n : Z) : 10 <= n -> digits n = digits (n / 10) ++ [n mod 10].
Proof. intros H. rewrite digits_equation_1. destruct (Z_lt_dec n 10); [lia | reflexivity]. Qed.

Lemma undigits_snoc (l : list Z) (d : Z) : undigits (l ++ [d]) = undigits l * 10 + d.
Proof. unfold undigits. now rewrite fold_left_app. Qed.

(** Induction on a natural number through its decimal prefix. *)
Lemma decimal_ind (P : Z -> Prop) :
  (forall n, 0 <= n < 10 -> P n) ->
  (forall n, 10 <= n -> P (n / 10) -> P n) ->
  forall n, 0 <= n -> P n.
Proof.
  intros Hsmall Hbig n Hn. generalize Hn. pattern n.
  apply Z_lt_induction; [clear n Hn | exact Hn].
  intros n IH Hn. destruct (Z_lt_dec n 10) as [Hlt|Hge].
  - apply Hsmall. lia.
  - apply Hbig; [lia|]. apply IH; lia_dm.
Qed.

Lemma digits_nonempty (n : Z) : digits n <> [].
Proof.
  destruct (Z_lt_dec n 10) as [H|H].
  - now rewrite digits_small.
  - rewrite digits_big by lia. now destruct (digits (n / 10)).
Qed.

(** The digits printed for a natural number denote that number. *)
Lemma undigits_digits (n : Z) : 0 <= n -> undigits (digits n) = n.
Proof.
  revert n. apply decimal_ind; intros n Hn.
  - rewrite digits_small by lia. cbn. lia.
  - intros IH. rewrite digits_big, undigits_snoc, IH by lia. lia_dm.
Qed.

Lemma digits_range (n : Z) : 0 <= n -> Forall (fun d => 0 <= d <= 9) (digits n).
Proof.
  revert n. apply decimal_ind; intros n Hn.
  - rewrite digits_small by lia. repeat constructor; lia.
  - intros IH. rewrite digits_big by lia. apply Forall_app. split; [exact IH|].
    repeat constructor; lia_dm.
Qed.

(** No leading zero is printed, except for zero itself. *)
Lemma digits_head (n : Z) : 1 <= n -> exists d l, digits n = d :: l /\ 1 <= d.
Proof.
  intros Hn. assert (0 <= n) as Hn0 by lia. revert n Hn0 Hn.
  apply (decimal_ind (fun n => 1 <= n -> exists d l, digits n = d :: l /\ 1 <= d)); intros n Hn.
  - intros H1. exists n, []. rewrite digits_small by lia. auto.
  - intros IH _. destruct IH as (d & l & E & Hd); [lia_dm|].
    exists d, (l ++ [n mod 10]). rewrite digits_big, E by lia. auto.
Qed.

#[export] Hint Resolve digits_range digits_nonempty : fit.

(** ** Thousands separators *)

(** Induction that follows [group3]: lists of at most three elements,
    then three elements in front of a non-empty rest. *)
Lemma group3_ind (A : Type) (P : list A -> Prop) :
  (forall l, (length l <= 3)%nat -> P l) ->
  (forall a b c d rest, P (d :: rest) -> P (a :: b :: c :: d :: rest)) ->
  forall l, P l.
Proof.
  intros Hshort Hstep.
  enough (forall n l, (length l <= n)%nat -> P l) as H by (intros l; now apply (H (length l))).
  induction n as [|n IH]; intros l Hl.
  - apply Hshort. lia.
  - destruct l as [|a [|b [|c [|d rest]]]]; try (apply Hshort; cbn; lia).
    apply Hstep, IH. cbn in Hl. cbn. lia.
Qed.

Lemma group3_short (l : list ascii) : (length l <= 3)%nat -> group3 l = l.
Proof. destruct l as [|a [|b [|c [|d rest]]]]; cbn; [reflexivity.. | lia]. Qed.

Lemma group3_step (a b c d : ascii) (rest : list ascii) :
  group3 (a :: b :: c :: d :: rest) = a :: b :: c :: ","%char :: group3 (d :: rest).
Proof. reflexivity. Qed.

Lemma filter_group3 (l : list ascii) :
  Forall (fun c => not_comma c = true) l -> filter not_comma (group3 l) = l.
Proof.
  induction l as [l Hl | a b c d rest IH] using group3_ind; intros HF.
  - rewrite group3_short by assumption. apply filter_all. now apply Forall_forall.
  - rewrite group3_step.
    apply Forall_cons_iff in HF as [Ha HF]. apply Forall_cons_iff in HF as [Hb HF].
    apply Forall_cons_iff in HF as [Hc HF].
    cbn [filter]. rewrite Ha, Hb, Hc. change (not_comma ","%char) with false.
    cbn iota. now rewrite IH.
Qed.

(** One separator for every full group of three digits that has digits
    in front of it. *)
Lemma group3_length (l : list ascii) :
  length (group3 l) = (length l + (length l - 1) / 3)%nat.
Proof.
  induction l as [l Hl | a b c d rest IH] using group3_ind.
  - rewrite group3_short by assumption.
    destruct l as [|? [|? [|? [|? ?]]]]; cbn in *; try reflexivity; lia.
  - rewrite group3_step. cbn [length]. rewrite IH. cbn [length].
    replace (S (S (S (S (length rest)))) - 1)%nat with (S (length rest) - 1 + 1 * 3)%nat by lia.
    rewrite Nat.div_add by lia. lia.
Qed.

Lemma remove_commas_cons (c : ascii) (s : string) :
  remove_commas (String c s) =
  if not_comma c then String c (remove_commas s) else remove_commas s.
Proof. unfold remove_commas. cbn. now destruct (not_comma c). Qed.

Lemma remove_commas_digits (l : list ascii) :
  Forall (fun c => not_comma c = true) l ->
  remove_commas (string_of_list_ascii (rev (group3 (rev l)))) = string_of_list_ascii l.
Proof.
  intros HF. unfold remove_commas. rewrite list_ascii_of_string_of_list_ascii.
  rewrite filter_rev, filter_group3, rev_involutive; [reflexivity|].
  now apply Forall_rev.
Qed.

Lemma digit_chars_not_comma (n : Z) :
  0 <= n -> Forall (fun c => not_comma c = true) (map digit_char (digits n)).
Proof.
  intros Hn. apply Forall_map. eapply Forall_impl; [|apply digits_range; exact Hn].
  intros d Hd. unfold not_comma. now rewrite digit_char_not_comma.
Qed.

(** The separators of the [:,] format carry no information: removing
    them from the calories card gives [str] of the number, sign included. *)
Lemma format_int_comma_remove_commas (z : Z) :
  remove_commas (format_int_comma z) = str_int z.
Proof.
  unfold format_int_comma, str_int. destruct (Z.ltb_spec z 0) as [Hneg|Hpos].
  - rewrite remove_commas_cons. cbn [not_comma Ascii.eqb negb]. cbn.
    rewrite remove_commas_digits by (apply digit_chars_not_comma; lia).
    unfold digits_string. now rewrite Z.abs_neq by lia.
  - rewrite remove_commas_digits by (apply digit_chars_not_comma; lia).
    unfold digits_string. now rewrite Z.abs_eq by lia.
Qed.

(** *** Groups of three digits *)

Lemma digits_thousand (n : Z) :
  1000 <= n ->
  digits n = digits (n / 1000) ++ [n / 100 mod 10; n / 10 mod 10; n mod 10].
Proof.
  intros H. rewrite (digits_big n), (digits_big (n / 10)), (digits_big (n / 10 / 10)) by lia_dm.
  rewrite <- !app_assoc, !Z.div_div by lia. reflexivity.
Qed.

Lemma digits_short (n : Z) : 0 <= n < 1000 -> (length (digits n) <= 3)%nat.
Proof.
  intros H. destruct (Z_lt_dec n 10); [rewrite digits_small by lia; cbn; lia|].
  rewrite digits_big by lia. destruct (Z_lt_dec (n / 10) 10).
  - rewrite digits_small by lia. cbn. lia.
  - rewrite digits_big, digits_small by lia_dm. cbn. lia.
Qed.

Lemma zero_padded_3 (n : Z) :
  zero_padded 3 (n mod 1000) =
  string_of_list_ascii (map digit_char [n / 100 mod 10; n / 10 mod 10; n mod 10]).
Proof.
  cbn [zero_padded map string_of_list_ascii Z.of_nat Pos.of_succ_nat Pos.succ].
  change (10 ^ 2) with 100. change (10 ^ 1) with 10. change (10 ^ 0) with 1.
  rewrite Z.div_1_r.
  replace (n mod 1000 / 100) with (n / 100 mod 10) by lia_dm.
  replace (n mod 1000 mod 100 / 10) with (n / 10 mod 10) by lia_dm.
  now replace (n mod 1000 mod 100 mod 10) with (n mod 10) by lia_dm.
Qed.

Lemma string_of_list_app (l m : list ascii) :
  string_of_list_ascii (l ++ m) = (string_of_list_ascii l ++ string_of_list_ascii m)%string.
Proof. induction l as [|c l IH]; cbn; [reflexivity | now rewrite IH]. Qed.

(** The grouped digits of a number of more than three digits: those of
    its thousands, a comma, and its last three digits. *)
Lemma grouped_thousand (n : Z) :
  1000 <= n ->
  string_of_list_ascii (rev (group3 (rev (map digit_char (digits n))))) =
  (string_of_list_ascii (rev (group3 (rev (map digit_char (digits (n / 1000))))))
   ++ "," ++ zero_padded 3 (n mod 1000))%string.
Proof.
  intros H. rewrite zero_padded_3, digits_thousand by assumption.
  rewrite map_app, rev_app_distr. cbn [map rev app].
  pose proof (digits_nonempty (n / 1000)) as Hne.
  destruct (rev (map digit_char (digits (n / 1000)))) as [|d rest] eqn:E.
  { apply (f_equal (@length _)) in E. rewrite length_rev, length_map in E.
    now apply length_zero_iff_nil in E. }
  rewrite group3_step. cbn [rev]. rewrite <- !app_assoc. cbn [app].
  now rewrite string_of_list_app.
Qed.

(** C30. The [:,] format by thousands.  A number below 1000 is printed
    as [str] prints it; a larger one as its thousands, a comma and its
    last three digits, zeros included; a negative one as a minus sign
    and its opposite.  These equations determine the text of every
    integer; in particular removing the commas gives [str] of the
    number. *)
Theorem format_int_comma_thousands (z : Z) :
  (0 <= z < 1000 -> format_int_comma z = str_int z) /\
  (1000 <= z ->
   format_int_comma z =
   (format_int_comma (z / 1000) ++ "," ++ zero_padded 3 (z mod 1000))%string) /\
  (z < 0 -> format_int_comma z = String "-" (format_int_comma (- z))) /\
  remove_commas (format_int_comma z) = str_int z.
Proof.
  split; [|split; [|split]].
  - intros H. unfold format_int_comma, str_int, digits_string.
    destruct (Z.ltb_spec z 0); [lia|]. rewrite Z.abs_eq by lia.
    rewrite group3_short, rev_involutive; [reflexivity|].
    rewrite length_rev, length_map. now apply digits_short.
  - intros H. unfold format_int_comma.
    destruct (Z.ltb_spec z 0); [lia|]. destruct (Z.ltb_spec (z / 1000) 0); [lia_dm|].
    rewrite !Z.abs_eq by lia. now apply grouped_thousand.
  - intros H. unfold format_int_comma.
    destruct (Z.ltb_spec z 0); [|lia]. destruct (Z.ltb_spec (- z) 0); [lia|].
    now rewrite Z.abs_neq, Z.abs_eq by lia.
  - apply format_int_comma_remove_commas.
Qed.

Lemma format_int_comma_thousands_witness :
  format_int_comma 1234567 = (format_int_comma 1234 ++ "," ++ zero_padded 3 567)%string.
Proof. apply (format_int_comma_thousands 1234567). lia. Defined.

(** The calories of the specification's scenario, and a seven-digit total. *)
Example format_int_comma_examples :
  format_int_comma 750 = "750"%string /\
  format_int_comma 1234567 = "1,234,567"%string /\
  format_int_comma (-1000) = "-1,000"%string /\
  format_int_comma 0 = "0"%string.
Proof. repeat split; reflexivity. Qed.

Example format_percent_goal : format_percent 75 = "75%"%string.
Proof. reflexivity. Qed.
