(* ===== verification/Csv.v ===== *)
(** * Csv: the text of the file and its records

    [pd.read_csv] first cuts the text of the file into records, one per
    line, and each record into fields at the commas.  [tokenize] is the
    reference for that step, on the texts on which it involves nothing
    else: printable ASCII and tabs without double quotes, lines ended by
    a line feed.  Empty lines are skipped, as the reader does by
    default.  A text with a quote, a carriage return, a control
    character other than the tab or a byte above 126, or with a line
    made of blanks and tabs only, is outside the reference
    ([Unsupported]); [Tokenizer] holds the state machine that reads
    quoted fields, both line ends and lines of blanks as well, and
    proves that it refines [tokenize].

    [to_text] writes records as such a text; the two are inverse on the
    records that can be written ([record_ok]).

    The exceptions a load can end with are declared here, because the
    tokenizer is the first step that can leave the model. *)

From Stdlib Require Import String Ascii NArith List Lia Bool.
From S2P Require Import Prelude StringOrder.
Import ListNotations.

#[local] Open Scope string_scope.

(** ** Definitions *)

(** A record of the file: its fields, as text. *)
Definition record : Type := list string.

(** Inputs the model does not describe. *)
Inductive Outside : Type :=
| Characters                (** a control character other than the tab, or a byte
                                above 126; for [tokenize] also a quote or a
                                carriage return *)
| BlankLine                 (** a line of blanks and tabs, for [tokenize] *)
| LoneCR                    (** a carriage return that no line feed follows *)
| Ragged                    (** a line with fewer fields than the header, or a
                                first line of data with more *)
| NoRows                    (** a header and no data *)
| Cell (column : string).   (** a cell that its column does not read *)

Inductive LoadError : Type :=
| FileNotFoundError
| EmptyDataError
| ParserError               (** the text ends inside a quoted field, or a line
                                has more fields than the lines before it *)
| KeyError (column : string)
| Unsupported (what : Outside).

Definition newline : ascii := "010"%char.

Definition comma : ascii := ","%char.

Definition space : ascii := " "%char.

Definition tab : ascii := "009"%char.

(** What a line that is skipped may hold: blanks and tabs. *)
Definition is_whitespace (c : ascii) : bool := Ascii.eqb c space || Ascii.eqb c tab.

(** Every character of a string passes the test. *)
Fixpoint string_all (p : ascii -> bool) (s : string) : bool :=
  match s with
  | EmptyString => true
  | String c s' => p c && string_all p s'
  end.

Definition other_than (sep : ascii) (c : ascii) : bool := negb (Ascii.eqb c sep).

(** The characters of a field: the tab (9) and printable ASCII but the
    double quote (34) and the comma (44). *)
Definition field_char (c : ascii) : bool :=
  let n := N_of_ascii c in
  (((32 <=? n) && (n <? 127) || (n =? 9)) && negb (n =? 34) && negb (n =? 44))%N.

(** The characters of a text the model covers. *)
Definition text_char (c : ascii) : bool :=
  Ascii.eqb c newline || Ascii.eqb c comma || field_char c.

(** The pieces of a string between the separators; there is always at
    least one. *)
Fixpoint split_on (sep : ascii) (s : string) : list string :=
  match s with
  | EmptyString => [EmptyString]
  | String c s' =>
      if Ascii.eqb c sep then EmptyString :: split_on sep s'
      else match split_on sep s' with
           | x :: xs => String c x :: xs
           | [] => [String c EmptyString]
           end
  end.

(** The pieces with a separator between two of them. *)
Fixpoint join (sep : ascii) (l : list string) : string :=
  match l with
  | [] => EmptyString
  | x :: xs =>
      match xs with
      | [] => x
      | _ :: _ => x ++ String sep (join sep xs)
      end
  end.

(** Lines, each ended by a line feed. *)
Fixpoint unlines (ls : list string) : string :=
  match ls with
  | [] => EmptyString
  | l :: ls' => l ++ String newline (unlines ls')
  end.

Definition is_empty (s : string) : bool :=
  match s with
  | EmptyString => true
  | String _ _ => false
  end.

(** A line of blanks and tabs; the empty line is one. *)
Definition blank (l : string) : bool := string_all is_whitespace l.

(** The records of a text. *)
Definition tokenize (t : string) : result LoadError (list record) :=
  if negb (string_all text_char t) then Err (Unsupported Characters)
  else
    let lines := filter (fun l => negb (is_empty l)) (split_on newline t) in
    if existsb blank lines then Err (Unsupported BlankLine)
    else Ok (map (split_on comma) lines).

(** The text of records, as [to_csv] writes it. *)
Definition to_text (recs : list record) : string := unlines (map (join comma) recs).

(** A field that starts with something else than a blank or a tab. *)
Definition solid (s : string) : bool :=
  match s with
  | EmptyString => false
  | String c _ => negb (is_whitespace c)
  end.

(** The text of a cell that has a value: it fits in a field and is seen
    on its line. *)
Definition cell_text (s : string) : bool := solid s && string_all field_char s.

(** The records a text can hold: some fields, of field characters, not
    all of them blank. *)
Definition record_ok (r : record) : bool :=
  negb (blank (join comma r)) && forallb (string_all field_char) r &&
  match r with [] => false | _ :: _ => true end.

(** ** Characters *)

Lemma string_all_app (p : ascii -> bool) (a b : string) :
  string_all p (a ++ b) = string_all p a && string_all p b.
Proof. induction a as [|c a IH]; cbn; [reflexivity | now rewrite IH, andb_assoc]. Qed.

Lemma string_all_impl (p q : ascii -> bool) (s : string) :
  (forall c, p c = true -> q c = true) -> string_all p s = true -> string_all q s = true.
Proof.
  intros H. induction s as [|c s IH]; cbn; [reflexivity|].
  rewrite !andb_true_iff. intros [Hc Hs]. auto.
Qed.

Lemma field_char_text (c : ascii) : field_char c = true -> text_char c = true.
Proof. unfold text_char. intros ->. apply orb_true_r. Qed.

Lemma field_char_other (c sep : ascii) :
  field_char sep = false -> field_char c = true -> other_than sep c = true.
Proof.
  intros Hs Hc. unfold other_than. destruct (Ascii.eqb_spec c sep); [congruence | reflexivity].
Qed.

(** A character of a text that is neither separator is a field
    character. *)
Lemma text_char_field (c : ascii) :
  text_char c && other_than newline c && other_than comma c = field_char c.
Proof.
  unfold text_char, other_than.
  destruct (Ascii.eqb_spec c newline) as [->|]; [reflexivity|].
  destruct (Ascii.eqb_spec c comma) as [->|]; [reflexivity|].
  cbn. now rewrite !andb_true_r.
Qed.

(** ** Splitting and joining *)

Section Split.
Variable sep : ascii.

Lemma split_on_nonempty (s : string) : split_on sep s <> [].
Proof.
  induction s as [|c s IH]; cbn; [discriminate|].
  destruct (Ascii.eqb c sep); [discriminate|]. now destruct (split_on sep s).
Qed.

Lemma join_cons (x : string) (l : list string) :
  l <> [] -> join sep (x :: l) = x ++ String sep (join sep l).
Proof. now destruct l. Qed.

Lemma join_split_on (s : string) : join sep (split_on sep s) = s.
Proof.
  induction s as [|c s IH]; cbn [split_on]; [reflexivity|].
  pose proof (split_on_nonempty s) as Hne.
  destruct (Ascii.eqb_spec c sep) as [->|Hc].
  - rewrite join_cons by assumption. cbn. now rewrite IH.
  - destruct (split_on sep s) as [|x xs]; [contradiction|].
    rewrite <- IH. destruct xs; reflexivity.
Qed.

Lemma split_on_app (x s : string) :
  string_all (other_than sep) x = true ->
  split_on sep (x ++ String sep s) = x :: split_on sep s.
Proof.
  induction x as [|c x IH]; cbn [append split_on string_all].
  - now rewrite Ascii.eqb_refl.
  - unfold other_than at 1. rewrite andb_true_iff, negb_true_iff.
    intros [-> Hx]. now rewrite IH.
Qed.

Lemma split_on_none (x : string) :
  string_all (other_than sep) x = true -> split_on sep x = [x].
Proof.
  induction x as [|c x IH]; cbn [split_on string_all]; [reflexivity|].
  unfold other_than at 1. rewrite andb_true_iff, negb_true_iff.
  intros [-> Hx]. now rewrite IH.
Qed.

Lemma split_on_join (l : list string) :
  l <> [] -> Forall (fun x => string_all (other_than sep) x = true) l ->
  split_on sep (join sep l) = l.
Proof.
  intros Hne H. induction H as [|x l Hx Hl IH]; [contradiction|].
  destruct l as [|y l]; [now apply split_on_none|].
  rewrite join_cons, split_on_app, IH by (assumption || discriminate). reflexivity.
Qed.

(** The pieces hold no separator, and what holds of every character of
    the string holds of every character of the pieces. *)
Lemma split_on_pieces (p : ascii -> bool) (s : string) :
  string_all p s = true ->
  Forall (fun x => string_all (fun c => p c && other_than sep c) x = true) (split_on sep s).
Proof.
  induction s as [|c s IH]; cbn [split_on string_all]; [now repeat constructor|].
  rewrite andb_true_iff. intros [Hc Hs]. specialize (IH Hs).
  destruct (Ascii.eqb_spec c sep) as [->|Hne]; [now constructor|].
  pose proof (split_on_nonempty s) as Hs'.
  destruct (split_on sep s) as [|x xs]; [contradiction|]. inv IH. constructor; [|assumption].
  cbn [string_all]. rewrite Hc. unfold other_than at 1.
  now rewrite (proj2 (Ascii.eqb_neq c sep) Hne).
Qed.

Lemma string_all_join (p : ascii -> bool) (l : list string) :
  p sep = true -> Forall (fun x => string_all p x = true) l ->
  string_all p (join sep l) = true.
Proof.
  intros Hsep H. induction H as [|x l Hx Hl IH]; [reflexivity|].
  destruct l; [exact Hx|]. rewrite join_cons by discriminate.
  rewrite string_all_app. cbn [string_all]. now rewrite Hx, Hsep, IH.
Qed.

End Split.

Lemma split_on_unlines (ls : list string) :
  Forall (fun l => string_all (other_than newline) l = true) ls ->
  split_on newline (unlines ls) = (ls ++ [EmptyString])%list.
Proof.
  induction 1 as [|l ls Hl _ IH]; cbn [unlines app]; [reflexivity|].
  now rewrite split_on_app, IH.
Qed.

Lemma string_all_unlines (p : ascii -> bool) (ls : list string) :
  p newline = true -> Forall (fun l => string_all p l = true) ls ->
  string_all p (unlines ls) = true.
Proof.
  intros Hn. induction 1 as [|l ls Hl _ IH]; cbn [unlines]; [reflexivity|].
  rewrite string_all_app. cbn [string_all]. now rewrite Hl, Hn, IH.
Qed.

(** ** Lines and records *)

Lemma blank_solid (f : string) (r : record) :
  solid f = true -> blank (join comma (f :: r)) = false.
Proof.
  destruct f as [|c f]; [discriminate|]. unfold solid, other_than, blank.
  rewrite negb_true_iff. intros Hc. destruct r; cbn; now rewrite Hc.
Qed.

Lemma blank_not_empty (l : string) : blank l = false -> is_empty l = false.
Proof. now destruct l. Qed.

Lemma record_ok_spec (r : record) :
  record_ok r = true <->
  r <> [] /\ Forall (fun f => string_all field_char f = true) r /\
  blank (join comma r) = false.
Proof.
  unfold record_ok. rewrite !andb_true_iff, negb_true_iff, forallb_forall, Forall_forall.
  destruct r; intuition congruence.
Qed.

(** A record whose first field is the text of a cell, and whose other
    fields fit, can be written. *)
Lemma record_ok_cells (f : string) (r : record) :
  cell_text f = true -> Forall (fun x => string_all field_char x = true) r ->
  record_ok (f :: r) = true.
Proof.
  unfold cell_text. rewrite andb_true_iff. intros [Hs Hf] Hr.
  apply record_ok_spec. split; [discriminate|]. split; [now constructor|].
  now apply blank_solid.
Qed.

Lemma record_ok_texts (r : record) :
  r <> [] -> Forall (fun f => cell_text f = true) r -> record_ok r = true.
Proof.
  intros Hne H. destruct H as [|f r Hf Hr]; [contradiction|].
  apply record_ok_cells; [exact Hf|]. revert Hr. apply Forall_impl.
  intros x. unfold cell_text. now intros [_ Hx]%andb_true_iff.
Qed.

Lemma line_of_record (r : record) :
  record_ok r = true ->
  string_all text_char (join comma r) = true /\
  string_all (other_than newline) (join comma r) = true /\
  split_on comma (join comma r) = r.
Proof.
  intros (Hne & Hf & _)%record_ok_spec. split; [|split].
  - apply string_all_join; [reflexivity|]. revert Hf. apply Forall_impl.
    intros f. apply string_all_impl, field_char_text.
  - apply string_all_join; [reflexivity|]. revert Hf. apply Forall_impl.
    intros f. apply string_all_impl. intros c. now apply field_char_other.
  - apply split_on_join; [exact Hne|]. revert Hf. apply Forall_impl.
    intros f. apply string_all_impl. intros c. now apply field_char_other.
Qed.

(** ** The round trip *)

Lemma tokenize_Err (t : string) (e : LoadError) :
  tokenize t = Err e -> exists o, e = Unsupported o.
Proof.
  unfold tokenize. destruct (negb _); [intros [= <-]; eauto|].
  destruct (existsb _ _); [intros [= <-]; eauto | discriminate].
Qed.

(** Records that can be written are read back from their text. *)
Lemma tokenize_to_text (recs : list record) :
  Forall (fun r => record_ok r = true) recs -> tokenize (to_text recs) = Ok recs.
Proof.
  intros H. unfold tokenize, to_text.
  assert (H1 : Forall (fun l => string_all text_char l = true) (map (join comma) recs))
    by (apply Forall_map_iff; revert H; apply Forall_impl; intros r Hr;
        apply line_of_record, Hr).
  assert (H2 : Forall (fun l => string_all (other_than newline) l = true)
                      (map (join comma) recs))
    by (apply Forall_map_iff; revert H; apply Forall_impl; intros r Hr;
        apply line_of_record, Hr).
  assert (H3 : forall l, In l (map (join comma) recs) -> blank l = false).
  { intros l (r & <- & Hr)%in_map_iff. rewrite Forall_forall in H.
    now apply record_ok_spec, H. }
  rewrite (string_all_unlines _ _ eq_refl H1). cbn [negb].
  rewrite (split_on_unlines _ H2), filter_app. cbn [filter is_empty negb].
  rewrite app_nil_r, filter_all by (intros l Hl; now rewrite blank_not_empty by auto).
  replace (existsb blank (map (join comma) recs)) with false.
  - rewrite map_map. apply f_equal. rewrite <- (map_id recs) at 2. apply map_ext_Forall.
    revert H. apply Forall_impl. intros r Hr. apply line_of_record, Hr.
  - symmetry. apply not_true_is_false. intros (l & Hin & Hb)%existsb_exists.
    rewrite (H3 l Hin) in Hb. discriminate.
Qed.

(** Every record read from a text can be written. *)
Lemma tokenize_record_ok (t : string) (recs : list record) :
  tokenize t = Ok recs -> Forall (fun r => record_ok r = true) recs.
Proof.
  unfold tokenize. destruct (string_all text_char t) eqn:Ht; [|discriminate]. cbn [negb].
  destruct (existsb blank _) eqn:Hb; [discriminate|]. intros [= <-].
  apply Forall_map_iff, Forall_forall. intros l [Hin Hne]%filter_In.
  pose proof (split_on_pieces newline text_char t Ht) as Hp.
  rewrite Forall_forall in Hp. specialize (Hp l Hin).
  apply record_ok_spec. split; [apply split_on_nonempty|]. split.
  - apply (split_on_pieces comma) in Hp. revert Hp. apply Forall_impl. intros f Hf.
    erewrite string_all_impl; [reflexivity | | exact Hf].
    intros c Hc. now rewrite <- text_char_field.
  - rewrite join_split_on. apply not_true_is_false. intros Hl.
    enough (existsb blank (filter (fun l => negb (is_empty l)) (split_on newline t)) = true)
      by congruence.
    apply existsb_exists. exists l. split; [now apply filter_In | exact Hl].
Qed.

(** The records that can be written are exactly those that are
    read back from their text: fields of printable characters without
    comma or quote, at least one per record, on a line that is not
    blank.  In particular the records read from any text are read again
    from the text they are written to, which differs from the first by
    its empty lines and the end of its last line at most. *)
Theorem tokenize_roundtrip (recs : list record) :
  Forall (fun r => record_ok r = true) recs <-> tokenize (to_text recs) = Ok recs.
Proof. split; [apply tokenize_to_text | apply tokenize_record_ok]. Qed.
