(* ===== verification/Tokenizer.v ===== *)
(** * Tokenizer: the state machine that cuts the file into records

    [pd.read_csv] reads the file with the C tokenizer of pandas, one
    character at a time: a state ([ParserState]), the characters of the
    current field ([word]), the fields of the current line ([words]) and
    the finished lines ([lines]).  [tokenize_byte] is the transition for
    one character and [handle_eof] what happens at the end of the text,
    for the options the program leaves at their defaults: comma as
    delimiter, double quote as quote character, a doubled quote inside a
    quoted field standing for one, no escape character, no comments,
    empty lines and lines of blanks and tabs skipped.

    A quoted field may contain commas, line feeds and carriage returns.
    A quote inside a field that did not start with one is an ordinary
    character.  A line ends at a line feed or at a carriage return
    followed by one.  A text that ends inside a quoted field is refused
    ([ParserError]).

    The tokenizer backs up to the start of a line that begins with blanks
    once it meets something else; here the blanks are kept in [word] while
    the state is [WHITESPACE_LINE], which has the same effect.  The text
    is taken as one buffer.  A tab is a blank at the start of a line and
    an ordinary character of a field elsewhere.  Outside the model
    ([Unsupported]): a carriage return that no line feed follows, and
    control characters other than the tab and bytes above 126.

    [scan] refines [Csv.tokenize]: on a text without quotes and carriage
    returns the records are the lines that are not blank, cut at the
    commas ([scan_unquoted]).  Texts written with every field quoted
    ([write_quoted]) and texts with lines ended by carriage return and
    line feed ([crlf]) are read back as the same records.  In general, a
    document is a sequence of lines ([item]), each a list of fields with
    their spelling or a line of blanks and tabs, each with its line end;
    [scan_render] shows that every text of a document is read as the
    records of the document.  On a text of printable characters and line
    feeds the tokenizer always answers, with records or with
    [ParserError] ([scan_total]). *)

From Stdlib Require Import String Ascii NArith List Lia Bool.
From S2P Require Import Prelude StringOrder Csv.
Import ListNotations.

#[local] Open Scope string_scope.
#[local] Open Scope fit_scope.

(** ** Definitions *)

Inductive ParserState : Type :=
| START_RECORD
| START_FIELD
| IN_FIELD
| IN_QUOTED_FIELD
| QUOTE_IN_QUOTED_FIELD
| EAT_CRNL
| EAT_CRNL_NOP
| WHITESPACE_LINE.

Record parser : Type := mkParser {
  parser_state : ParserState;
  word : string;
  words : record;
  lines : list record
}.

Definition quote : ascii := "034"%char.

Definition carriage : ascii := "013"%char.

(** The characters of a text the model covers: printable ASCII, tab, line
    feed and carriage return. *)
Definition byte_ok (c : ascii) : bool :=
  let n := N_of_ascii c in
  ((32 <=? n) && (n <? 127) || (n =? 9) || (n =? 10) || (n =? 13))%N.

Definition parser_init : parser := mkParser START_RECORD "" [] [].

Definition set_state (s : ParserState) (p : parser) : parser :=
  mkParser s (word p) (words p) (lines p).

(** [PUSH_CHAR] *)
Definition push_char (c : ascii) (p : parser) : parser :=
  mkParser (parser_state p) (word p ++ String c "") (words p) (lines p).

(** [END_FIELD] *)
Definition end_field (p : parser) : parser :=
  mkParser (parser_state p) "" (words p ++ [word p])%list (lines p).

(** [END_LINE] *)
Definition end_line (p : parser) : parser :=
  mkParser START_RECORD "" [] (lines p ++ [words p])%list.

(** A line of blanks is dropped. *)
Definition skip_line (s : ParserState) (p : parser) : parser :=
  mkParser s "" (words p) (lines p).

(** [case IN_FIELD] *)
Definition in_field (p : parser) (c : ascii) : parser :=
  if Ascii.eqb c newline then end_line (end_field p)
  else if Ascii.eqb c carriage then set_state EAT_CRNL (end_field p)
  else if Ascii.eqb c comma then set_state START_FIELD (end_field p)
  else push_char c p.

(** [case START_FIELD] *)
Definition start_field (p : parser) (c : ascii) : parser :=
  if Ascii.eqb c newline then end_line (end_field p)
  else if Ascii.eqb c carriage then set_state EAT_CRNL (end_field p)
  else if Ascii.eqb c quote then set_state IN_QUOTED_FIELD p
  else if Ascii.eqb c comma then set_state START_FIELD (end_field p)
  else set_state IN_FIELD (push_char c p).

(** [case QUOTE_IN_QUOTED_FIELD] *)
Definition quote_in_quoted_field (p : parser) (c : ascii) : parser :=
  if Ascii.eqb c quote then set_state IN_QUOTED_FIELD (push_char c p)
  else if Ascii.eqb c comma then set_state START_FIELD (end_field p)
  else if Ascii.eqb c newline then end_line (end_field p)
  else if Ascii.eqb c carriage then set_state EAT_CRNL (end_field p)
  else set_state IN_FIELD (push_char c p).

(** One character. *)
Definition tokenize_byte (p : parser) (c : ascii) : result LoadError parser :=
  if negb (byte_ok c) then Err (Unsupported Characters)
  else
    match parser_state p with
    | START_RECORD =>
        if Ascii.eqb c newline then Ok p
        else if Ascii.eqb c carriage then Ok (set_state EAT_CRNL_NOP p)
        else if is_whitespace c then Ok (set_state WHITESPACE_LINE (push_char c p))
        else Ok (start_field p c)
    | START_FIELD => Ok (start_field p c)
    | IN_FIELD => Ok (in_field p c)
    | IN_QUOTED_FIELD =>
        if Ascii.eqb c quote then Ok (set_state QUOTE_IN_QUOTED_FIELD p)
        else Ok (push_char c p)
    | QUOTE_IN_QUOTED_FIELD => Ok (quote_in_quoted_field p c)
    | EAT_CRNL =>
        if Ascii.eqb c newline then Ok (end_line p) else Err (Unsupported LoneCR)
    | EAT_CRNL_NOP =>
        if Ascii.eqb c newline then Ok (set_state START_RECORD p)
        else Err (Unsupported LoneCR)
    | WHITESPACE_LINE =>
        if Ascii.eqb c newline then Ok (skip_line START_RECORD p)
        else if Ascii.eqb c carriage then Ok (skip_line EAT_CRNL_NOP p)
        else if is_whitespace c then Ok (push_char c p)
        else Ok (in_field (set_state IN_FIELD p) c)
    end.

(** The characters of a text, one after the other. *)
Fixpoint tokenize_bytes (p : parser) (s : string) : result LoadError parser :=
  match s with
  | EmptyString => Ok p
  | String c s' => p' <- tokenize_byte p c ;; tokenize_bytes p' s'
  end.

(** The end of the text. *)
Definition handle_eof (p : parser) : result LoadError (list record) :=
  match parser_state p with
  | START_RECORD | WHITESPACE_LINE => Ok (lines p)
  | START_FIELD | IN_FIELD | QUOTE_IN_QUOTED_FIELD => Ok (lines (end_line (end_field p)))
  | IN_QUOTED_FIELD => Err ParserError
  | EAT_CRNL | EAT_CRNL_NOP => Err (Unsupported LoneCR)
  end.

(** The records of a text. *)
Definition scan (t : string) : result LoadError (list record) :=
  p <- tokenize_bytes parser_init t ;; handle_eof p.

(** *** Texts *)

(** The characters of a line without quotes. *)
Definition line_char (c : ascii) : bool := Ascii.eqb c comma || field_char c.

(** The first piece of a line continues the current field. *)
Definition glue (w : string) (pieces : list string) : list string :=
  match pieces with
  | [] => [w]
  | x :: xs => (w ++ x) :: xs
  end.

(** The parser is between two fields, inside one that has no quote or
    past the closing quote of one, on line [fs] so far. *)
Definition in_line (p : parser) (fs : record) : Prop :=
  (parser_state p = START_FIELD \/ parser_state p = IN_FIELD \/
   parser_state p = QUOTE_IN_QUOTED_FIELD) /\ (words p ++ [word p])%list = fs.

(** The parser is at the start of a line, past blanks only. *)
Definition at_start (p : parser) : Prop :=
  words p = [] /\ blank (word p) = true /\
  (parser_state p = START_RECORD /\ word p = "" \/ parser_state p = WHITESPACE_LINE /\ word p <> "").

(** The lines of a text, each but the last followed by [term]. *)
Fixpoint join_lines (term : string) (ls : list string) : string :=
  match ls with
  | [] => ""
  | l :: ls' =>
      match ls' with
      | [] => l
      | _ :: _ => l ++ term ++ join_lines term ls'
      end
  end.

(** The records of lines without quotes. *)
Definition records_of_lines (ls : list string) : list record :=
  map (split_on comma) (filter (fun l => negb (blank l)) ls).

(** A text with its line feeds preceded by carriage returns. *)
Fixpoint crlf (t : string) : string :=
  match t with
  | EmptyString => EmptyString
  | String c t' =>
      if Ascii.eqb c newline then String carriage (String newline (crlf t'))
      else String c (crlf t')
  end.

(** A field between quotes, its quotes doubled. *)
Fixpoint escape (f : string) : string :=
  match f with
  | EmptyString => EmptyString
  | String c f' =>
      if Ascii.eqb c quote then String quote (String quote (escape f'))
      else String c (escape f')
  end.

Definition quoted (f : string) : string := String quote (escape f ++ String quote "").

(** Records written with every field quoted. *)
Definition write_quoted (recs : list record) : string :=
  unlines (map (fun r => join comma (map quoted r)) recs).

(** *** Documents *)

(** A field as it is written: between quotes or not. *)
Definition spell (qf : bool * string) : string :=
  if fst qf then quoted (snd qf) else snd qf.

(** What can be written: any character between quotes, the characters
    of a field without them. *)
Definition spelled_ok (qf : bool * string) : bool :=
  string_all (if fst qf then byte_ok else field_char) (snd qf).

(** A line of a document: fields, each with its spelling, or blanks and
    tabs only. *)
Inductive item : Type :=
| Fields (fs : list (bool * string))
| Blanks (b : string).

(** A line as text, without its end. *)
Definition item_text (i : item) : string :=
  match i with
  | Fields fs => join comma (map spell fs)
  | Blanks b => b
  end.

(** The lines that can be written: fields that can be, on a line that is
    seen (not a single field of blanks). *)
Definition item_ok (i : item) : bool :=
  match i with
  | Fields fs => negb (blank (item_text i)) && forallb spelled_ok fs
  | Blanks b => blank b
  end.

(** The records a line stands for. *)
Definition item_records (i : item) : list record :=
  match i with
  | Fields fs => [map snd fs]
  | Blanks _ => []
  end.

(** The end of a line: a line feed, after a carriage return or not. *)
Definition line_term (cr : bool) : string :=
  if cr then String carriage (String newline "") else String newline "".

(** The text of a document: its lines, each with its line end, and a
    last line without one, which may be empty. *)
Fixpoint render (d : list (item * bool)) (last : item) : string :=
  match d with
  | [] => item_text last
  | (i, cr) :: d' => item_text i ++ line_term cr ++ render d' last
  end.

(** The records of a document. *)
Definition doc_records (d : list (item * bool)) (last : item) : list record :=
  (flat_map (fun x => item_records (fst x)) d ++ item_records last)%list.

(** The state of the parser after an item. *)
Definition after_item (i : item) (p : parser) : Prop :=
  match i with
  | Fields fs => in_line p (map snd fs)
  | Blanks _ => at_start p
  end.

(** The characters of a text with line feeds as its only line ends. *)
Definition unix_char (c : ascii) : bool := byte_ok c && other_than carriage c.

(** The parser is not past a carriage return. *)
Definition no_pending_cr (p : parser) : Prop :=
  parser_state p <> EAT_CRNL /\ parser_state p <> EAT_CRNL_NOP.

(** The records a line adds. *)
Definition line_records (l : string) : list record :=
  if blank l then [] else [split_on comma l].

(** What ends a line. *)
Definition line_end (term : string) : Prop :=
  term = String newline "" \/ term = String carriage (String newline "").

(** ** Characters *)

Lemma field_char_step (c : ascii) :
  field_char c = true ->
  byte_ok c = true /\ Ascii.eqb c newline = false /\ Ascii.eqb c carriage = false /\
  Ascii.eqb c comma = false /\ Ascii.eqb c quote = false.
Proof.
  unfold field_char, byte_ok. cbn zeta.
  intros [[H1 H3]%andb_true_iff H4]%andb_true_iff.
  repeat split; [now rewrite H1 | apply Ascii.eqb_neq; intros -> ..]; discriminate.
Qed.

Lemma split_on_glue (sep : ascii) (w l : string) :
  string_all (other_than sep) w = true -> split_on sep (w ++ l) = glue w (split_on sep l).
Proof.
  intros Hw. pose proof (split_on_nonempty sep l) as Hne.
  induction w as [|c w IH]; cbn [append split_on glue string_all] in *.
  - now destruct (split_on sep l).
  - unfold other_than at 1 in Hw. apply andb_true_iff in Hw as [Hc Hw].
    apply negb_true_iff in Hc. rewrite Hc, (IH Hw).
    now destruct (split_on sep l).
Qed.

Lemma glue_nil (l : list string) : l <> [] -> glue "" l = l.
Proof. now destruct l. Qed.

Lemma run_app (s t : string) (p : parser) :
  tokenize_bytes p (s ++ t) = (p' <- tokenize_bytes p s ;; tokenize_bytes p' t).
Proof.
  revert p. induction s as [|c s IH]; intros p; cbn [append tokenize_bytes]; [reflexivity|].
  destruct (tokenize_byte p c); cbn [bind]; [apply IH | reflexivity].
Qed.

(** ** Steps *)

Ltac step_cases p H :=
  destruct p as [st w ws ls]; cbn [parser_state] in H; unfold tokenize_byte;
  repeat match type of H with
  | _ \/ _ => destruct H as [H|H]
  end; subst st; cbn.

Lemma step_field_char (p : parser) (c : ascii) :
  field_char c = true ->
  parser_state p = START_FIELD \/ parser_state p = IN_FIELD \/ parser_state p = QUOTE_IN_QUOTED_FIELD ->
  tokenize_byte p c = Ok (set_state IN_FIELD (push_char c p)).
Proof.
  intros (Hb & Hn & Hr & Hc & Hq)%field_char_step Hp.
  step_cases p Hp; unfold start_field, in_field, quote_in_quoted_field;
    now rewrite Hb, Hn, Hr, Hc, ?Hq.
Qed.

Lemma step_comma (p : parser) :
  parser_state p = START_FIELD \/ parser_state p = IN_FIELD \/ parser_state p = QUOTE_IN_QUOTED_FIELD ->
  tokenize_byte p comma = Ok (set_state START_FIELD (end_field p)).
Proof. intros Hp. step_cases p Hp; reflexivity. Qed.

Lemma step_newline (p : parser) :
  parser_state p = START_FIELD \/ parser_state p = IN_FIELD \/ parser_state p = QUOTE_IN_QUOTED_FIELD ->
  tokenize_byte p newline = Ok (end_line (end_field p)).
Proof. intros Hp. step_cases p Hp; reflexivity. Qed.

Lemma step_carriage (p : parser) :
  parser_state p = START_FIELD \/ parser_state p = IN_FIELD \/ parser_state p = QUOTE_IN_QUOTED_FIELD ->
  tokenize_byte p carriage = Ok (set_state EAT_CRNL (end_field p)).
Proof. intros Hp. step_cases p Hp; reflexivity. Qed.

(** ** Lines without quotes *)

(** Between the fields of a line: the words and the word of the parser
    are the pieces of the line read so far. *)
Lemma run_fields (l : string) :
  string_all line_char l = true ->
  forall p, parser_state p = START_FIELD \/ parser_state p = IN_FIELD \/
            parser_state p = QUOTE_IN_QUOTED_FIELD ->
  exists p', tokenize_bytes p l = Ok p' /\ lines p' = lines p /\
    in_line p' (words p ++ glue (word p) (split_on comma l))%list.
Proof.
  induction l as [|c l IH]; cbn [string_all tokenize_bytes split_on].
  - intros _ p Hp. exists p. cbn [glue]. rewrite append_nil_r. now repeat split.
  - intros [Hc Hl]%andb_true_iff p Hp. pose proof (split_on_nonempty comma l) as Hne.
    unfold line_char in Hc. destruct (Ascii.eqb_spec c comma) as [->|Hcomma].
    + rewrite step_comma by tauto. cbn [bind].
      destruct (IH Hl (set_state START_FIELD (end_field p)) (or_introl eq_refl))
        as (p' & Hrun & Hlines & Hin).
      exists p'. split; [exact Hrun|]. split; [exact Hlines|].
      cbn [set_state end_field words word glue] in Hin. rewrite glue_nil in Hin by assumption.
      cbn [glue]. now rewrite append_nil_r, <- app_assoc in *.
    + cbn [orb] in Hc. rewrite step_field_char by assumption. cbn [bind].
      destruct (IH Hl (set_state IN_FIELD (push_char c p)) (or_intror (or_introl eq_refl)))
        as (p' & Hrun & Hlines & Hin).
      exists p'. split; [exact Hrun|]. split; [exact Hlines|].
      cbn [set_state push_char words word] in Hin.
      destruct (split_on comma l) as [|x xs]; [contradiction|].
      cbn [glue] in *. now rewrite append_assoc in Hin.
Qed.

Lemma is_whitespace_field_char (c : ascii) : is_whitespace c = true -> field_char c = true.
Proof. unfold is_whitespace. now intros [->%Ascii.eqb_eq | ->%Ascii.eqb_eq]%orb_true_iff. Qed.

Lemma step_whitespace (p : parser) (c : ascii) :
  at_start p -> is_whitespace c = true ->
  tokenize_byte p c = Ok (mkParser WHITESPACE_LINE (word p ++ String c "") [] (lines p)).
Proof.
  intros (Hw & _ & Hs) Hc. destruct p as [st w ws ls]. cbn in *. subst ws.
  apply orb_true_iff in Hc as [->%Ascii.eqb_eq | ->%Ascii.eqb_eq];
    destruct Hs as [[-> _]|[-> _]]; reflexivity.
Qed.

Lemma step_at_start (p : parser) (c : ascii) :
  at_start p -> line_char c = true -> is_whitespace c = false ->
  tokenize_byte p c = tokenize_byte (set_state IN_FIELD p) c.
Proof.
  intros (_ & _ & Hs) Hc Hsp. unfold line_char in Hc.
  destruct (Ascii.eqb_spec c comma) as [->|Hcomma].
  - destruct p as [st w ws ls]. cbn in *. destruct Hs as [[-> _]|[-> _]]; reflexivity.
  - cbn [orb] in Hc. rewrite (step_field_char (set_state IN_FIELD p)) by (auto; now right).
    destruct (field_char_step c Hc) as (Hb & Hn & Hr & Hcm & Hq).
    destruct p as [st w ws ls]. cbn in Hs. unfold tokenize_byte. rewrite Hb. cbn [negb parser_state].
    destruct Hs as [[-> _]|[-> _]]; unfold start_field, in_field;
      now rewrite Hn, Hr, Hsp, ?Hq, ?Hcm.
Qed.

Lemma blank_app (a b : string) : blank (a ++ b) = blank a && blank b.
Proof. apply string_all_app. Qed.

(** From the start of a line: a line of blanks leaves the parser at the
    start of a line, another line leaves it among its fields. *)
Lemma run_line_start (l : string) :
  string_all line_char l = true ->
  forall p, at_start p ->
  exists p', tokenize_bytes p l = Ok p' /\ lines p' = lines p /\
    (blank l = true /\ at_start p' /\ word p' = word p ++ l \/
     blank l = false /\ in_line p' (glue (word p) (split_on comma l))).
Proof.
  induction l as [|c l IH]; cbn [string_all tokenize_bytes].
  - intros _ p Hp. exists p. rewrite append_nil_r. repeat split; auto.
  - intros [Hc Hl]%andb_true_iff p Hp.
    cbn [blank string_all]. fold (blank l). destruct (is_whitespace c) eqn:Hsp.
    + rewrite step_whitespace by assumption. cbn [bind].
      destruct (IH Hl (mkParser WHITESPACE_LINE (word p ++ String c "") [] (lines p)))
        as (p' & Hrun & Hlines & H).
      { destruct Hp as (_ & Hb & _). repeat split; cbn; [|right; split; [reflexivity|]].
        - rewrite blank_app, Hb. cbn [blank string_all]. now rewrite Hsp.
        - now destruct (word p). }
      exists p'. split; [exact Hrun|]. split; [exact Hlines|]. cbn [word andb] in *.
      destruct (field_char_step c (is_whitespace_field_char c Hsp)) as (_ & _ & _ & Hcm & _).
      destruct H as [(Hb & Hs & Hw)|(Hb & Hin)]; [left | right].
      * split; [exact Hb|]. split; [exact Hs|]. now rewrite Hw, append_assoc.
      * split; [exact Hb|]. cbn [split_on]. rewrite Hcm.
        pose proof (split_on_nonempty comma l). destruct (split_on comma l); [contradiction|].
        cbn [glue] in *. now rewrite append_assoc in Hin.
    + rewrite step_at_start by assumption.
      destruct (run_fields (String c l)) with (p := set_state IN_FIELD p)
        as (p' & Hrun & Hlines & Hin); [cbn [string_all]; now rewrite Hc, Hl | cbn; tauto |].
      exists p'. split; [exact Hrun|]. split; [exact Hlines|]. right.
      split; [reflexivity|].
      destruct Hp as (Hw & _). cbn [set_state words word] in Hin. now rewrite Hw in Hin.
Qed.

Lemma at_start_eq (p : parser) :
  at_start p -> parser_state p = START_RECORD -> p = mkParser START_RECORD "" [] (lines p).
Proof.
  intros (Hw & _ & [[_ Hs]|[Hs _]]) Hst; [|congruence].
  destruct p. cbn in *. now subst.
Qed.

(** The end of a line, from the start of a line and from among its
    fields. *)
Lemma run_line_end_blank (term : string) (p : parser) :
  line_end term -> at_start p -> tokenize_bytes p term = Ok (mkParser START_RECORD "" [] (lines p)).
Proof.
  intros Ht (Hw & Hb & Hs). destruct p as [st w ws ls]. cbn in *. subst ws.
  destruct Ht as [-> | ->], Hs as [[-> ->]|[-> _]]; reflexivity.
Qed.

Lemma run_line_end_fields (term : string) (p : parser) (fs : record) :
  line_end term -> in_line p fs ->
  tokenize_bytes p term = Ok (mkParser START_RECORD "" [] (lines p ++ [fs])%list).
Proof.
  intros Ht [Hs <-]. destruct Ht as [-> | ->]; cbn [tokenize_bytes].
  - rewrite step_newline by tauto. reflexivity.
  - rewrite step_carriage by tauto. reflexivity.
Qed.

Lemma run_line (term l : string) (ls : list record) :
  line_end term -> string_all line_char l = true ->
  tokenize_bytes (mkParser START_RECORD "" [] ls) (l ++ term) =
  Ok (mkParser START_RECORD "" [] (ls ++ line_records l)%list).
Proof.
  intros Ht Hl. rewrite run_app.
  destruct (run_line_start l Hl (mkParser START_RECORD "" [] ls))
    as (p' & -> & Hlines & H); [repeat split; auto|]. cbn [bind lines] in *.
  unfold line_records. destruct H as [(-> & Hs & _)|(-> & Hin)].
  - rewrite (run_line_end_blank term p' Ht Hs), Hlines. now rewrite app_nil_r.
  - rewrite (run_line_end_fields term p' _ Ht Hin), Hlines. cbn [word glue].
    now rewrite glue_nil by apply split_on_nonempty.
Qed.

Lemma finish_line (l : string) (ls : list record) :
  string_all line_char l = true ->
  (p <- tokenize_bytes (mkParser START_RECORD "" [] ls) l ;; handle_eof p) = Ok (ls ++ line_records l)%list.
Proof.
  intros Hl.
  destruct (run_line_start l Hl (mkParser START_RECORD "" [] ls))
    as (p' & -> & Hlines & H); [repeat split; auto|]. cbn [bind lines word] in *.
  unfold line_records, handle_eof. destruct H as [(-> & (_ & _ & Hs) & _)|(-> & [Hs Hfs])].
  - rewrite app_nil_r, <- Hlines. now destruct Hs as [[-> _]|[-> _]].
  - rewrite glue_nil in Hfs by apply split_on_nonempty.
    destruct Hs as [-> | [-> | ->]]; cbn [end_line end_field lines words word];
      now rewrite Hfs, Hlines.
Qed.

Lemma records_of_lines_cons (l : string) (ls : list string) :
  records_of_lines (l :: ls) = (line_records l ++ records_of_lines ls)%list.
Proof. unfold records_of_lines, line_records. cbn [filter]. now destruct (blank l). Qed.

(** The lines of a text, ended by line feeds or by carriage returns and
    line feeds: the records are the lines that are not blank, cut at the
    commas. *)
Lemma run_lines (term : string) (ls : list string) :
  line_end term -> Forall (fun l => string_all line_char l = true) ls ->
  forall acc,
  (p <- tokenize_bytes (mkParser START_RECORD "" [] acc) (join_lines term ls) ;; handle_eof p) =
  Ok (acc ++ records_of_lines ls)%list.
Proof.
  intros Ht H. induction H as [|l ls Hl Hls IH]; intros acc.
  - cbn. now rewrite app_nil_r.
  - rewrite records_of_lines_cons. cbn [join_lines]. destruct ls as [|l' ls].
    + rewrite finish_line by assumption. cbn. now rewrite app_nil_r.
    + rewrite <- append_assoc, run_app, run_line by assumption. cbn [bind].
      now rewrite IH, app_assoc.
Qed.

(** ** Texts without quotes *)

Lemma join_lines_newline (ls : list string) :
  join_lines (String newline "") ls = join newline ls.
Proof.
  induction ls as [|l ls IH]; [reflexivity|]. cbn [join_lines join].
  destruct ls; [reflexivity|]. now rewrite IH.
Qed.

Lemma text_lines (t : string) :
  string_all text_char t = true ->
  Forall (fun l => string_all line_char l = true /\ string_all (other_than newline) l = true)
         (split_on newline t).
Proof.
  intros Ht. apply (split_on_pieces newline) in Ht. revert Ht. apply Forall_impl.
  intros l Hl. split; revert Hl; apply string_all_impl; intros c [Hc Hn]%andb_true_iff;
    [|exact Hn].
  unfold text_char in Hc. unfold other_than in Hn. apply negb_true_iff in Hn.
  now rewrite Hn in Hc.
Qed.

(** On a text without quotes and carriage returns, the records are the
    lines that are not blank, cut at the commas. *)
Lemma scan_unquoted (t : string) :
  string_all text_char t = true -> scan t = Ok (records_of_lines (split_on newline t)).
Proof.
  intros Ht. unfold scan, parser_init.
  rewrite <- (join_split_on newline t) at 1. rewrite <- join_lines_newline.
  rewrite run_lines; [reflexivity | now left |].
  eapply Forall_impl; [|exact (text_lines t Ht)]. now intros l [H _].
Qed.

Lemma filter_blank (ls : list string) :
  existsb blank (filter (fun l => negb (is_empty l)) ls) = false ->
  filter (fun l => negb (blank l)) ls = filter (fun l => negb (is_empty l)) ls.
Proof.
  induction ls as [|l ls IH]; [reflexivity|]. cbn [filter].
  destruct l as [|c l]; cbn [is_empty negb]; [exact IH|].
  cbn [existsb]. intros [Hb Hr]%orb_false_iff. now rewrite Hb, IH.
Qed.

(** The state machine reads what the reference tokenizer reads. *)
Lemma scan_tokenize (t : string) (recs : list record) :
  tokenize t = Ok recs -> scan t = Ok recs.
Proof.
  unfold tokenize. destruct (string_all text_char t) eqn:Ht; [|discriminate]. cbn [negb].
  destruct (existsb _ _) eqn:Hb; [discriminate|]. intros [= <-].
  rewrite scan_unquoted by assumption. unfold records_of_lines. now rewrite filter_blank.
Qed.

Lemma crlf_line (l : string) : string_all (other_than newline) l = true -> crlf l = l.
Proof.
  induction l as [|c l IH]; cbn [crlf string_all]; [reflexivity|].
  unfold other_than at 1. intros [Hc Hl]%andb_true_iff. apply negb_true_iff in Hc.
  now rewrite Hc, IH.
Qed.

Lemma crlf_app (a b : string) : crlf (a ++ b) = crlf a ++ crlf b.
Proof.
  induction a as [|c a IH]; cbn [append crlf]; [reflexivity|].
  destruct (Ascii.eqb c newline); cbn [append]; now rewrite IH.
Qed.

Lemma crlf_join (ls : list string) :
  Forall (fun l => string_all (other_than newline) l = true) ls ->
  crlf (join newline ls) = join_lines (String carriage (String newline "")) ls.
Proof.
  induction 1 as [|l ls Hl Hls IH]; [reflexivity|]. cbn [join join_lines].
  destruct ls as [|l' ls]; [now apply crlf_line|].
  rewrite crlf_app, crlf_line by assumption. cbn [crlf]. change (Ascii.eqb newline newline) with true.
  cbn iota. now rewrite IH.
Qed.

(** Lines ended by a carriage return and a line feed are read as lines
    ended by a line feed. *)
Lemma scan_crlf (t : string) :
  string_all text_char t = true -> scan (crlf t) = scan t.
Proof.
  intros Ht. rewrite (scan_unquoted t Ht). unfold scan, parser_init.
  pose proof (text_lines t Ht) as Hl.
  rewrite <- (join_split_on newline t) at 1. rewrite crlf_join.
  - rewrite run_lines; [reflexivity | now right |].
    eapply Forall_impl; [|exact Hl]. now intros l [H _].
  - eapply Forall_impl; [|exact Hl]. now intros l [_ H].
Qed.

(** ** Quoted fields *)

Lemma step_in_quoted (p : parser) (c : ascii) :
  byte_ok c = true -> parser_state p = IN_QUOTED_FIELD ->
  tokenize_byte p c = if Ascii.eqb c quote then Ok (set_state QUOTE_IN_QUOTED_FIELD p)
             else Ok (push_char c p).
Proof. intros Hb Hs. unfold tokenize_byte. now rewrite Hb, Hs. Qed.

(** Inside the quotes every character is kept, a doubled quote once. *)
Lemma run_escape (f : string) :
  string_all byte_ok f = true ->
  forall w ws ls,
  tokenize_bytes (mkParser IN_QUOTED_FIELD w ws ls) (escape f) = Ok (mkParser IN_QUOTED_FIELD (w ++ f) ws ls).
Proof.
  induction f as [|c f IH]; cbn [string_all escape]; intros H w ws ls.
  - now rewrite append_nil_r.
  - apply andb_true_iff in H as [Hc Hf].
    destruct (Ascii.eqb_spec c quote) as [->|Hq]; cbn [tokenize_bytes].
    + rewrite step_in_quoted, Ascii.eqb_refl by reflexivity. cbn [bind].
      change (tokenize_byte _ quote) with
        (@Ok LoadError _ (mkParser IN_QUOTED_FIELD (w ++ String quote "") ws ls)).
      cbn [bind]. rewrite IH by assumption. now rewrite append_assoc.
    + rewrite step_in_quoted by (assumption || reflexivity).
      rewrite (proj2 (Ascii.eqb_neq c quote) Hq). cbn [bind]. unfold push_char.
      cbn [parser_state word words lines]. rewrite IH by assumption. now rewrite append_assoc.
Qed.

Lemma run_quoted (f : string) (p : parser) :
  string_all byte_ok f = true -> word p = "" ->
  parser_state p = START_RECORD \/ parser_state p = START_FIELD ->
  tokenize_bytes p (quoted f) = Ok (mkParser QUOTE_IN_QUOTED_FIELD f (words p) (lines p)).
Proof.
  intros Hf Hw Hs. unfold quoted. cbn [tokenize_bytes].
  assert (tokenize_byte p quote = Ok (mkParser IN_QUOTED_FIELD "" (words p) (lines p))) as ->.
  { destruct p as [st w ws ls]. cbn in *. subst w. now destruct Hs as [-> | ->]. }
  cbn [bind]. rewrite run_app, run_escape by assumption. reflexivity.
Qed.

(** The fields of a quoted line. *)
Lemma run_quoted_fields (r : record) :
  Forall (fun f => string_all byte_ok f = true) r -> r <> [] ->
  forall p, word p = "" -> parser_state p = START_RECORD \/ parser_state p = START_FIELD ->
  exists p', tokenize_bytes p (join comma (map quoted r)) = Ok p' /\ lines p' = lines p /\
    parser_state p' = QUOTE_IN_QUOTED_FIELD /\ (words p' ++ [word p'] = words p ++ r)%list.
Proof.
  induction 1 as [|f r Hf Hr IH]; [contradiction|]. intros _ p Hw Hs.
  destruct r as [|g r].
  - cbn [map join]. rewrite run_quoted by assumption. eexists. repeat split.
  - change (map quoted (f :: g :: r)) with (quoted f :: map quoted (g :: r)).
    rewrite join_cons by discriminate. rewrite run_app, run_quoted by assumption.
    cbn [bind tokenize_bytes]. rewrite step_comma by (cbn; tauto). cbn [bind].
    destruct (IH ltac:(discriminate)
                (set_state START_FIELD (end_field (mkParser QUOTE_IN_QUOTED_FIELD f (words p) (lines p)))))
      as (p' & Hrun & Hlines & Hst & Hws); [reflexivity | now right |].
    exists p'. split; [exact Hrun|]. split; [exact Hlines|]. split; [exact Hst|].
    cbn in Hws. now rewrite Hws, <- app_assoc.
Qed.

Lemma run_quoted_line (r : record) (ls : list record) :
  Forall (fun f => string_all byte_ok f = true) r -> r <> [] ->
  tokenize_bytes (mkParser START_RECORD "" [] ls) (join comma (map quoted r) ++ String newline "") =
  Ok (mkParser START_RECORD "" [] (ls ++ [r])%list).
Proof.
  intros Hr Hne. rewrite run_app.
  destruct (run_quoted_fields r Hr Hne (mkParser START_RECORD "" [] ls))
    as (p' & -> & Hlines & Hst & Hws); [reflexivity | now left |].
  cbn [bind tokenize_bytes]. rewrite step_newline by tauto. cbn [bind]. unfold end_line, end_field.
  cbn [lines words word] in *. now rewrite Hws, Hlines.
Qed.

(** Records written with every field quoted are read back, whatever the
    characters of the fields: commas, quotes and line ends included. *)
Lemma run_write_quoted (recs : list record) :
  Forall (fun r => Forall (fun f => string_all byte_ok f = true) r /\ r <> []) recs ->
  forall ls,
  tokenize_bytes (mkParser START_RECORD "" [] ls) (write_quoted recs) =
  Ok (mkParser START_RECORD "" [] (ls ++ recs)%list).
Proof.
  unfold write_quoted. induction 1 as [|r recs [Hr Hne] _ IH]; intros ls; cbn [map unlines].
  - cbn. now rewrite app_nil_r.
  - change (String newline ?s) with (String newline "" ++ s).
    rewrite <- append_assoc, run_app, run_quoted_line by assumption. cbn [bind].
    now rewrite IH, <- app_assoc.
Qed.

(** Records that can be written without quotes are read back. *)
Lemma scan_to_text (recs : list record) :
  Forall (fun r => record_ok r = true) recs -> scan (to_text recs) = Ok recs.
Proof. intros H. now apply scan_tokenize, tokenize_to_text. Qed.

(** ** Documents *)

Lemma field_line_char (f : string) :
  string_all field_char f = true ->
  string_all line_char f = true /\ split_on comma f = [f].
Proof.
  intros H. split.
  - revert H. apply string_all_impl. intros c Hc. unfold line_char. now rewrite Hc, orb_true_r.
  - apply split_on_none. revert H. apply string_all_impl. intros c Hc.
    now apply field_char_other.
Qed.

(** One field after a delimiter. *)
Lemma run_spelled (qf : bool * string) (p : parser) :
  spelled_ok qf = true -> parser_state p = START_FIELD -> word p = "" ->
  exists p', tokenize_bytes p (spell qf) = Ok p' /\ lines p' = lines p /\
    in_line p' (words p ++ [snd qf])%list.
Proof.
  destruct qf as [[|] f]; unfold spelled_ok, spell; cbn [fst snd]; intros Hf Hs Hw.
  - rewrite run_quoted by auto. eexists. split; [reflexivity|]. split; [reflexivity|].
    split; cbn; tauto.
  - destruct (field_line_char f Hf) as [Hl Hsp].
    destruct (run_fields f Hl p (or_introl Hs)) as (p' & Hrun & Hlines & Hin).
    exists p'. now rewrite Hw, Hsp in Hin.
Qed.

(** The fields of a line after its first delimiter. *)
Lemma run_spelled_fields (fs : list (bool * string)) :
  fs <> [] -> forallb spelled_ok fs = true ->
  forall p, parser_state p = START_FIELD -> word p = "" ->
  exists p', tokenize_bytes p (join comma (map spell fs)) = Ok p' /\ lines p' = lines p /\
    in_line p' (words p ++ map snd fs)%list.
Proof.
  induction fs as [|qf fs IH]; [contradiction|]. intros _ [Hqf Hfs]%andb_true_iff p Hs Hw.
  destruct (run_spelled qf p Hqf Hs Hw) as (p1 & Hrun & Hlines & [Hst Hws]).
  destruct fs as [|qg fs]; [exists p1; repeat split; assumption|].
  change (map spell (qf :: qg :: fs)) with (spell qf :: map spell (qg :: fs)).
  rewrite join_cons, run_app, Hrun by discriminate. cbn [bind tokenize_bytes].
  rewrite step_comma by assumption. cbn [bind].
  destruct (IH ltac:(discriminate) Hfs (set_state START_FIELD (end_field p1)) eq_refl eq_refl)
    as (p' & Hrun' & Hlines' & Hin).
  exists p'. split; [exact Hrun'|]. split; [now rewrite Hlines'|].
  cbn [set_state end_field words] in Hin. rewrite Hws, <- app_assoc in Hin. exact Hin.
Qed.

(** The first field of a line: a field of blanks leaves the parser at the
    start of the line. *)
Lemma run_first (qf : bool * string) (ls : list record) :
  spelled_ok qf = true ->
  exists p', tokenize_bytes (mkParser START_RECORD "" [] ls) (spell qf) = Ok p' /\ lines p' = ls /\
    words p' = [] /\ word p' = snd qf /\
    (blank (spell qf) = false /\ in_line p' [snd qf] \/ blank (spell qf) = true /\ at_start p').
Proof.
  destruct qf as [[|] f]; unfold spelled_ok, spell; cbn [fst snd]; intros Hf.
  - rewrite run_quoted by auto. eexists. repeat split. left. split; [reflexivity|].
    split; cbn; tauto.
  - destruct (field_line_char f Hf) as [Hl Hsp].
    destruct (run_line_start f Hl (mkParser START_RECORD "" [] ls)) as (p' & Hrun & Hlines & H);
      [repeat split; auto|].
    exists p'. split; [exact Hrun|]. split; [exact Hlines|]. cbn [word glue] in H. rewrite Hsp in H.
    destruct H as [(Hb & Hs & Hw)|(Hb & Hin)].
    + pose proof Hs as (Hws & _). split; [exact Hws|]. split; [exact Hw|]. right. now split.
    + pose proof Hin as [_ Hws]. cbn [glue append] in Hws, Hin.
      apply (app_inj_tail (words p') []) in Hws as [Hws Hw]. auto 6.
Qed.

(** The delimiter after the first field. *)
Lemma step_first_comma (p : parser) (f : string) (b : bool) :
  words p = [] -> word p = f ->
  (b = false /\ in_line p [f] \/ b = true /\ at_start p) ->
  tokenize_byte p comma = Ok (mkParser START_FIELD "" [f] (lines p)).
Proof.
  intros Hws Hw [[_ [Hs _]]|[_ Hs]].
  - rewrite step_comma by assumption. unfold set_state, end_field. cbn. now rewrite Hws, Hw.
  - rewrite step_at_start by (assumption || reflexivity).
    rewrite step_comma by (cbn; tauto). unfold set_state, end_field. cbn. now rewrite Hws, Hw.
Qed.

Lemma blank_line_char (b : string) : blank b = true -> string_all line_char b = true.
Proof.
  apply string_all_impl. intros c Hc%is_whitespace_field_char. unfold line_char.
  now rewrite Hc, orb_true_r.
Qed.

(** An item, from the start of a line. *)
Lemma run_item_text (i : item) (ls : list record) :
  item_ok i = true ->
  exists p', tokenize_bytes (mkParser START_RECORD "" [] ls) (item_text i) = Ok p' /\
    lines p' = ls /\ after_item i p'.
Proof.
  destruct i as [fs|b]; cbn [item_ok item_text after_item].
  - intros [Hb Hfs]%andb_true_iff. apply negb_true_iff in Hb.
    destruct fs as [|qf fs]; [discriminate|]. cbn [forallb] in Hfs.
    apply andb_true_iff in Hfs as [Hqf Hfs].
    destruct (run_first qf ls Hqf) as (p1 & Hrun & Hlines & Hws & Hw & H).
    destruct fs as [|qg fs].
    + exists p1. cbn [map join] in *. split; [exact Hrun|]. split; [exact Hlines|].
      destruct H as [[_ H]|[H _]]; [exact H | congruence].
    + change (map spell (qf :: qg :: fs)) with (spell qf :: map spell (qg :: fs)).
      rewrite join_cons, run_app, Hrun by discriminate. cbn [bind tokenize_bytes].
      rewrite (step_first_comma p1 (snd qf) (blank (spell qf))) by (auto; tauto). cbn [bind].
      destruct (run_spelled_fields (qg :: fs) ltac:(discriminate) Hfs
                  (mkParser START_FIELD "" [snd qf] (lines p1)) eq_refl eq_refl)
        as (p' & Hrun' & Hlines' & Hin).
      exists p'. split; [exact Hrun'|]. split; [now rewrite Hlines'|]. exact Hin.
  - intros Hb. pose proof (blank_line_char b Hb) as Hl.
    destruct (run_line_start b Hl (mkParser START_RECORD "" [] ls))
      as (p' & Hrun & Hlines & [(_ & Hs & _)|(Hnb & _)]); [repeat split; auto | | congruence].
    exists p'. auto.
Qed.

Lemma line_term_end (cr : bool) : line_end (line_term cr).
Proof. destruct cr; [now right | now left]. Qed.

(** An item and the end of its line. *)
Lemma run_item (i : item) (cr : bool) (ls : list record) :
  item_ok i = true ->
  tokenize_bytes (mkParser START_RECORD "" [] ls) (item_text i ++ line_term cr) =
  Ok (mkParser START_RECORD "" [] (ls ++ item_records i)%list).
Proof.
  intros Hi. destruct (run_item_text i ls Hi) as (p' & Hrun & Hlines & Hafter).
  rewrite run_app, Hrun. cbn [bind]. destruct i as [fs|n]; cbn [after_item item_records] in *.
  - now rewrite (run_line_end_fields _ p' _ (line_term_end cr) Hafter), Hlines.
  - now rewrite (run_line_end_blank _ p' (line_term_end cr) Hafter), Hlines, app_nil_r.
Qed.

(** An item at the end of the text. *)
Lemma finish_item (i : item) (ls : list record) :
  item_ok i = true ->
  (p <- tokenize_bytes (mkParser START_RECORD "" [] ls) (item_text i) ;; handle_eof p) =
  Ok (ls ++ item_records i)%list.
Proof.
  intros Hi. destruct (run_item_text i ls Hi) as (p' & -> & Hlines & Hafter).
  cbn [bind]. unfold handle_eof. destruct i as [fs|n]; cbn [after_item item_records] in *.
  - destruct Hafter as [Hs Hws].
    destruct Hs as [-> | [-> | ->]]; cbn [end_line end_field lines words word];
      now rewrite Hws, Hlines.
  - rewrite app_nil_r, <- Hlines. now destruct Hafter as (_ & _ & [[-> _]|[-> _]]).
Qed.

(** The lines of a document, one after the other. *)
Lemma run_render (d : list (item * bool)) (last : item) :
  Forall (fun x => item_ok (fst x) = true) d -> item_ok last = true ->
  forall ls,
  (p <- tokenize_bytes (mkParser START_RECORD "" [] ls) (render d last) ;; handle_eof p) =
  Ok (ls ++ doc_records d last)%list.
Proof.
  intros Hd Hlast. unfold doc_records.
  induction Hd as [|[i cr] d Hi _ IH]; intros ls; cbn [render flat_map fst].
  - now apply finish_item.
  - rewrite <- append_assoc, run_app, run_item by assumption. cbn [bind].
    now rewrite IH, <- !app_assoc.
Qed.

(** ** Errors *)

Lemma step_Err (p : parser) (c : ascii) (e : LoadError) :
  tokenize_byte p c = Err e -> e = Unsupported Characters \/ e = Unsupported LoneCR.
Proof.
  unfold tokenize_byte. destruct (byte_ok c); cbn [negb]; [|intros [= <-]; now left].
  destruct (parser_state p); repeat break_match; intros [= <-]; now right.
Qed.

Lemma run_Err (t : string) (p : parser) (e : LoadError) :
  tokenize_bytes p t = Err e -> e = Unsupported Characters \/ e = Unsupported LoneCR.
Proof.
  revert p. induction t as [|c t IH]; intros p; cbn [tokenize_bytes]; [discriminate|].
  intros [H|(p' & _ & H)]%bind_Err; [now apply step_Err in H | now apply IH in H].
Qed.

Lemma scan_Err (t : string) (e : LoadError) :
  scan t = Err e ->
  e = ParserError \/ e = Unsupported Characters \/ e = Unsupported LoneCR.
Proof.
  unfold scan. intros [H|(p & _ & H)]%bind_Err; [apply run_Err in H; tauto|].
  unfold handle_eof in H. destruct (parser_state p); inv H; auto.
Qed.

Lemma step_total (p : parser) (c : ascii) :
  unix_char c = true -> no_pending_cr p ->
  exists p', tokenize_byte p c = Ok p' /\ no_pending_cr p'.
Proof.
  unfold unix_char, other_than, no_pending_cr, tokenize_byte.
  intros [-> Hc%negb_true_iff]%andb_true_iff [H1 H2]. cbn [negb].
  destruct p as [st w ws ls]. cbn [parser_state] in *.
  destruct st; try contradiction; unfold start_field, in_field, quote_in_quoted_field;
    rewrite ?Hc; repeat break_match; eexists; (split; [reflexivity|]); split; discriminate.
Qed.

Lemma run_total (t : string) (p : parser) :
  string_all unix_char t = true -> no_pending_cr p ->
  exists p', tokenize_bytes p t = Ok p' /\ no_pending_cr p'.
Proof.
  revert p. induction t as [|c t IH]; intros p; cbn [string_all tokenize_bytes]; [eauto|].
  intros [Hc Ht]%andb_true_iff Hp. destruct (step_total p c Hc Hp) as (p1 & -> & Hp1).
  cbn [bind]. now apply IH.
Qed.

(** On a text of printable characters and line feeds the tokenizer
    answers: it returns records, or stops inside a quoted field. *)
Lemma scan_total (t : string) :
  string_all unix_char t = true ->
  (exists recs, scan t = Ok recs) \/ scan t = Err ParserError.
Proof.
  intros Ht. unfold scan.
  destruct (run_total t parser_init Ht) as (p & -> & [H1 H2]); [split; discriminate|].
  cbn [bind]. unfold handle_eof. destruct (parser_state p); try contradiction; eauto.
Qed.

(** A text that ends inside a quoted field is refused with
    [ParserError], whatever was read before it. *)
Lemma scan_unterminated (recs : list record) (f : string) :
  Forall (fun r => Forall (fun f => string_all byte_ok f = true) r /\ r <> []) recs ->
  string_all byte_ok f = true ->
  scan (write_quoted recs ++ String quote (escape f)) = Err ParserError.
Proof.
  intros Hr Hf. unfold scan, parser_init. rewrite run_app, run_write_quoted by assumption.
  cbn [bind tokenize_bytes app tokenize_byte byte_ok]. change (tokenize_byte _ quote) with
    (@Ok LoadError _ (mkParser IN_QUOTED_FIELD "" [] ([] ++ recs)%list)).
  cbn [bind]. now rewrite run_escape.
Qed.

(** ** What the tokenizer promises *)

Lemma tokenize_text (t : string) (recs : list record) :
  tokenize t = Ok recs -> string_all text_char t = true.
Proof. unfold tokenize. now destruct (string_all text_char t). Qed.

(** C18. The state machine refines the reference tokenizer: the records
    [tokenize] cuts from a text are the records the state machine reads
    from it, and from the same text with its lines ended by carriage
    return and line feed. *)
Theorem scan_refines_tokenize (t : string) (recs : list record) :
  tokenize t = Ok recs -> scan t = Ok recs /\ scan (crlf t) = Ok recs.
Proof.
  intros H. pose proof (scan_tokenize t recs H) as Hs. split; [exact Hs|].
  now rewrite scan_crlf by exact (tokenize_text t recs H).
Qed.

Lemma scan_refines_tokenize_witness :
  scan "Date,Duration
2024-01-01,30
" = Ok [["Date"; "Duration"]; ["2024-01-01"; "30"]] /\
  scan (crlf "Date,Duration
2024-01-01,30
") = Ok [["Date"; "Duration"]; ["2024-01-01"; "30"]].
Proof. apply scan_refines_tokenize. reflexivity. Defined.

(** C19. Every spelling of a document is read back as its records:
    fields written between quotes (whatever their characters, commas,
    quotes and line ends included) or without, lines ended by a line
    feed or by carriage return and line feed, lines of blanks and tabs
    in between, a last line with or without its line end. *)
Theorem scan_render (d : list (item * bool)) (last : item) :
  Forall (fun x => item_ok (fst x) = true) d -> item_ok last = true ->
  scan (render d last) = Ok (doc_records d last).
Proof. intros Hd Hl. unfold scan, parser_init. now rewrite run_render. Qed.

Lemma scan_render_witness :
  scan (render [(Fields [(true, "Run, easy"); (false, "30")], true); (Blanks (String tab " "), false)]
               (Fields [(false, " Walk"); (true, String quote "x")])) =
  Ok [["Run, easy"; "30"]; [" Walk"; String quote "x"]].
Proof. apply scan_render; [repeat constructor | reflexivity]. Defined.

(** Round trip through quotes: records written with every field
    quoted are read back as they were, whatever the characters of the
    fields, commas, quotes and line ends included. *)
Theorem scan_write_quoted (recs : list record) :
  Forall (fun r => Forall (fun f => string_all byte_ok f = true) r /\ r <> []) recs ->
  scan (write_quoted recs) = Ok recs.
Proof. intros H. unfold scan, parser_init. now rewrite run_write_quoted. Qed.

Lemma scan_write_quoted_witness :
  scan (write_quoted [["Run, easy"; String quote "x"]; [""]]) =
  Ok [["Run, easy"; String quote "x"]; [""]].
Proof. apply scan_write_quoted. repeat constructor; discriminate. Defined.
