(* ===== verification/Parse.v ===== *)
(** * Parse: the text of the cells of the file

    [pd.read_csv] gives every column the type it infers from the text of
    its cells, and [pd.to_datetime] turns the text of the [Date] column
    into timestamps.  What pandas accepts is more than what this file
    describes: the parsers below accept the integers the library reads
    as int64, and dates and labels in the forms on which the result of
    pandas is not in doubt:

    - [str_to_int64]: a decimal integer that fits in an int64, as the
      reader of the library accepts it: blanks, an optional sign, digits
      (leading zeros included), blanks.  The digit loop keeps the number
      in range the way the library does, with a guard before every
      digit; [read_digits_app] shows that this amounts to computing the
      exact number and comparing it with the limits;
    - [parse_date]: a date [YYYY-MM-DD] of the calendar, in the years
      1678 to 2261 that a nanosecond timestamp can hold in full;
    - [plain_label]: printable text and tabs without comma or quote that
      starts with a letter and does not end with a blank or a tab, other
      than the words
      pandas reads as a missing value, a number or a boolean ([NA],
      [N/A], [nan], [null], [None], [inf], [true], ...).  A number starts
      with a digit, a sign, a point or a blank, so one such cell makes
      the column a column of text, in which every cell is kept as it is.

    Text outside these forms is rejected here, which only says that the
    model does not describe what the program does with it.

    [Codec] is the interface between the text of a cell and its value: a
    parser, a printer, the values that have a text, that what is printed
    is read back, that what is read has a text, and that the text of a
    value can stand in a field of the file.  [Verbatim] marks the codecs
    whose values have one spelling only (dates and labels), for which
    the value tells the text of the cell.  The record store is written
    and proved against them. *)

From Stdlib Require Import String Ascii ZArith List Lia Bool.
From S2P Require Import Prelude StringOrder Int64 Calendar Format Csv.
Import ListNotations.

#[local] Open Scope Z_scope.

(** ** Definitions *)

(** The value of a decimal digit. *)
Definition digit_val (c : ascii) : option Z :=
  let n := Z.of_N (N_of_ascii c) in
  if (48 <=? n) && (n <=? 57) then Some (n - 48) else None.

(** The text of a list of digits. *)
Definition digits_text (l : list Z) : string := string_of_list_ascii (map digit_char l).

(** Read a string of digits, continuing the number [acc]. *)
Fixpoint parse_digits (s : string) (acc : Z) : option Z :=
  match s with
  | EmptyString => Some acc
  | String c s' =>
      match digit_val c with
      | Some d => parse_digits s' (acc * 10 + d)
      | None => None
      end
  end.

(** [isspace_ascii]: a blank, or one of the five characters from the tab
    to the carriage return. *)
Definition isspace_ascii (c : ascii) : bool :=
  let n := Z.of_N (N_of_ascii c) in
  (n =? 32) || ((9 <=? n) && (n <=? 13)).

(** The string after the blanks at its start. *)
Fixpoint skip_space (s : string) : string :=
  match s with
  | String c s' => if isspace_ascii c then skip_space s' else s
  | EmptyString => EmptyString
  end.

(** The guard of the digit loop: one more digit can be taken without
    leaving the range of int64.  The bounds are those of the library:
    the quotient and the remainder of the limit by ten, rounded towards
    zero. *)
Definition fits (isneg : bool) (number d : Z) : bool :=
  if isneg
  then (Z.quot int64_min 10 <? number) ||
       ((number =? Z.quot int64_min 10) && (d <=? - Z.rem int64_min 10))
  else (number <? Z.quot int64_max 10) ||
       ((number =? Z.quot int64_max 10) && (d <=? Z.rem int64_max 10)).

(** [number = number * 10 - d] for a negative number,
    [number * 10 + d] otherwise. *)
Definition push_digit (isneg : bool) (number d : Z) : Z :=
  if isneg then number * 10 - d else number * 10 + d.

(** The digit loop: the number after the digits and the rest of the
    string, or nothing when a digit would overflow. *)
Fixpoint read_digits (isneg : bool) (s : string) (number : Z) : option (Z * string) :=
  match s with
  | String c s' =>
      match digit_val c with
      | Some d =>
          if fits isneg number d then read_digits isneg s' (push_digit isneg number d)
          else None
      | None => Some (number, s)
      end
  | EmptyString => Some (number, EmptyString)
  end.

(** [str_to_int64]: a cell of an int64 column.  Blanks, a sign, at least
    one digit, the digits while they fit, blanks, and nothing else. *)
Definition str_to_int64 (s : string) : option Z :=
  let p := skip_space s in
  let isneg := match p with String c _ => Ascii.eqb c "-" | EmptyString => false end in
  let p := match p with
           | String c p' => if isneg || Ascii.eqb c "+" then p' else p
           | EmptyString => p
           end in
  match p with
  | String c _ =>
      match digit_val c with
      | Some _ =>
          match read_digits isneg p 0 with
          | Some (number, rest) =>
              match skip_space rest with
              | EmptyString => Some number
              | String _ _ => None
              end
          | None => None
          end
      | None => None
      end
  | EmptyString => None
  end.

(** The sign a spelling may carry. *)
Definition sign_of (sign : string) (z : Z) : Prop :=
  (sign = "" \/ sign = "+")%string /\ 0 <= z \/ sign = "-"%string /\ z <= 0.

(** The spellings of an integer: blanks, a sign, digits, blanks. *)
Definition int_spelling (s : string) (z : Z) : Prop :=
  exists lead sign ds trail,
    s = (lead ++ sign ++ ds ++ trail)%string /\
    string_all isspace_ascii lead = true /\ string_all isspace_ascii trail = true /\
    ds <> EmptyString /\ parse_digits ds 0 = Some (Z.abs z) /\ sign_of sign z.

(** The string does not go on with a digit. *)
Definition stops (rest : string) : Prop :=
  match rest with
  | String c _ => digit_val c = None
  | EmptyString => True
  end.

(** The number of a sign and a magnitude. *)
Definition signed (isneg : bool) (v : Z) : Z := if isneg then - v else v.

(** Read exactly [w] digits, continuing the number [acc]; the rest of the
    string is returned. *)
Fixpoint take_digits (w : nat) (s : string) (acc : Z) : option (Z * string) :=
  match w with
  | O => Some (acc, s)
  | S w' =>
      match s with
      | String c s' =>
          match digit_val c with
          | Some d => take_digits w' s' (acc * 10 + d)
          | None => None
          end
      | EmptyString => None
      end
  end.

(** The dates a nanosecond timestamp holds, whole years only. *)
Definition loadable_date (d : date) : bool :=
  (1678 <=? year d) && (year d <=? 2261) &&
  (1 <=? month d) && (month d <=? 12) &&
  (1 <=? day d) && (day d <=? days_in_month (year d) (month d)).

(** A cell of the [Date] column: [YYYY-MM-DD]. *)
Definition parse_date (s : string) : option date :=
  match take_digits 4 s 0 with
  | Some (y, String c1 s1) =>
      match take_digits 2 s1 0 with
      | Some (m, String c2 s2) =>
          match take_digits 2 s2 0 with
          | Some (d, EmptyString) =>
              if Ascii.eqb c1 "-" && Ascii.eqb c2 "-" && loadable_date (mkdate y m d)
              then Some (mkdate y m d) else None
          | _ => None
          end
      | _ => None
      end
  | _ => None
  end.

(** [d.isoformat()]: the text of a date. *)
Definition isoformat (d : date) : string :=
  (zero_padded 4 (year d) ++ "-" ++ zero_padded 2 (month d) ++ "-" ++
   zero_padded 2 (day d))%string.

Definition is_upper (c : ascii) : bool :=
  let n := Z.of_N (N_of_ascii c) in (65 <=? n) && (n <=? 90).

Definition is_lower (c : ascii) : bool :=
  let n := Z.of_N (N_of_ascii c) in (97 <=? n) && (n <=? 122).

Definition is_letter (c : ascii) : bool := is_upper c || is_lower c.

Definition to_lower (c : ascii) : ascii :=
  if is_upper c then ascii_of_N (N_of_ascii c + 32) else c.

Fixpoint lower (s : string) : string :=
  match s with
  | EmptyString => EmptyString
  | String c s' => String (to_lower c) (lower s')
  end.

(** Words that pandas does not keep as text, in lower case: missing
    values, floats and booleans. *)
Definition reserved_words : list string :=
  ["na"; "n/a"; "nan"; "null"; "none"; "inf"; "infinity"; "true"; "false"]%string.

(** The first character is a letter. *)
Definition starts_with_letter (s : string) : bool :=
  match s with
  | EmptyString => false
  | String c _ => is_letter c
  end.

(** The last character, if there is one, is not a blank or a tab. *)
Fixpoint ends_solid (s : string) : bool :=
  match s with
  | EmptyString => true
  | String c s' =>
      match s' with
      | EmptyString => negb (is_whitespace c)
      | String _ _ => ends_solid s'
      end
  end.

(** A cell of a text column that pandas keeps as it is. *)
Definition plain_label (s : string) : bool :=
  starts_with_letter s && string_all field_char s && ends_solid s &&
  negb (existsb (String.eqb (lower s)) reserved_words).

(** The text of a cell and the value it denotes. *)
Class Codec (A : Type) : Type := {
  decode : string -> option A;
  encode : A -> string;
  (** the values that some cell denotes *)
  canonical : A -> Prop;
  decode_encode : forall a, canonical a -> decode (encode a) = Some a;
  decode_canonical : forall s a, decode s = Some a -> canonical a;
  encode_text : forall a, canonical a -> cell_text (encode a) = true
}.

(** The codecs whose values have one spelling only. *)
Class Verbatim (A : Type) `{Codec A} : Prop := {
  encode_decode : forall s a, decode s = Some a -> encode a = s
}.

(** ** Digits *)

(** Split a digit known to lie in 0..9 into its ten values. *)
Ltac digit_cases d :=
  let H := fresh "Hd" in
  assert (H : d = 0 \/ d = 1 \/ d = 2 \/ d = 3 \/ d = 4 \/ d = 5 \/ d = 6 \/
              d = 7 \/ d = 8 \/ d = 9) by lia;
  repeat (destruct H as [H | H]); subst d.

Lemma digit_val_char (d : Z) : 0 <= d <= 9 -> digit_val (digit_char d) = Some d.
Proof. intros H. digit_cases d; reflexivity. Qed.

Lemma digit_val_inv (c : ascii) (d : Z) :
  digit_val c = Some d -> c = digit_char d /\ 0 <= d <= 9.
Proof.
  unfold digit_val, digit_char. cbn zeta.
  destruct (Z.leb_spec 48 (Z.of_N (N_of_ascii c))); [|discriminate].
  destruct (Z.leb_spec (Z.of_N (N_of_ascii c)) 57); [|discriminate].
  cbn [andb]. intros [= <-]. split; [|lia].
  replace (48 + Z.to_N (Z.of_N (N_of_ascii c) - 48))%N with (N_of_ascii c) by lia.
  now rewrite ascii_N_embedding.
Qed.

Lemma digit_char_not_zero (d : Z) : 1 <= d <= 9 -> Ascii.eqb (digit_char d) "0" = false.
Proof. intros H. digit_cases d; try lia; reflexivity. Qed.

Lemma digit_char_not_minus (d : Z) : 0 <= d <= 9 -> Ascii.eqb (digit_char d) "-" = false.
Proof. intros H. digit_cases d; reflexivity. Qed.

Lemma parse_digits_text (l : list Z) (acc : Z) :
  Forall (fun d => 0 <= d <= 9) l ->
  parse_digits (digits_text l) acc = Some (fold_left (fun a d => a * 10 + d) l acc).
Proof.
  intros H. revert acc. induction H as [|d l Hd _ IH]; intros acc; [reflexivity|].
  cbn [digits_text map string_of_list_ascii parse_digits fold_left].
  rewrite digit_val_char by assumption. apply IH.
Qed.

Lemma parse_digits_inv (s : string) (acc v : Z) :
  parse_digits s acc = Some v ->
  exists l, Forall (fun d => 0 <= d <= 9) l /\ s = digits_text l /\
            v = fold_left (fun a d => a * 10 + d) l acc.
Proof.
  revert acc. induction s as [|c s IH]; intros acc; cbn [parse_digits].
  - intros [= <-]. now exists [].
  - destruct (digit_val c) as [d|] eqn:Ed; [|discriminate].
    apply digit_val_inv in Ed as [-> Hd]. intros H.
    apply IH in H as (l & Hl & -> & ->). exists (d :: l). auto.
Qed.

(** A list of digits without a leading zero is the list of the digits of
    its number. *)
Lemma digits_undigits (l : list Z) (d : Z) :
  Forall (fun x => 0 <= x <= 9) (d :: l) -> 1 <= d ->
  digits (undigits (d :: l)) = d :: l /\ 1 <= undigits (d :: l).
Proof.
  intros HF Hd. induction l as [|x l IH] using rev_ind.
  - apply Forall_inv in HF. unfold undigits. cbn [fold_left].
    rewrite digits_small by lia. split; [f_equal|]; lia.
  - change (d :: l ++ [x]) with ((d :: l) ++ [x]) in *.
    apply Forall_app in HF as [HF Hx]. apply Forall_inv in Hx.
    destruct (IH HF) as [E Hpos]. rewrite undigits_snoc.
    split; [|lia]. rewrite digits_big by lia.
    replace ((undigits (d :: l) * 10 + x) / 10) with (undigits (d :: l)) by lia_dm.
    replace ((undigits (d :: l) * 10 + x) mod 10) with x by lia_dm.
    now rewrite E.
Qed.

(** ** Natural numbers *)

Lemma digits_string_head (n : Z) :
  0 <= n -> exists d s, digits_string n = String (digit_char d) s /\ 0 <= d <= 9.
Proof.
  intros Hn. pose proof (digits_range n Hn) as HF. pose proof (digits_nonempty n) as Hne.
  unfold digits_string. destruct (digits n) as [|d l]; [contradiction|].
  exists d, (digits_text l). split; [reflexivity | exact (Forall_inv HF)].
Qed.

(** ** Fixed-width fields and dates *)

Lemma take_digits_padded (w : nat) (z acc : Z) (rest : string) :
  0 <= z < 10 ^ Z.of_nat w ->
  take_digits w (zero_padded w z ++ rest) acc = Some (acc * 10 ^ Z.of_nat w + z, rest).
Proof.
  revert z acc. induction w as [|w IH]; intros z acc Hz.
  - cbn in *. repeat f_equal. lia.
  - rewrite pow10_succ in *. pose proof (pow10_pos w) as Hp.
    cbn [zero_padded append take_digits].
    rewrite digit_val_char by (apply leading_digit_range; assumption).
    rewrite IH by (apply Z.mod_pos_bound; assumption).
    do 2 f_equal. pose proof (Z.div_mod z (10 ^ Z.of_nat w) ltac:(lia)). nia.
Qed.

Lemma take_digits_inv (w : nat) (s rest : string) (acc v : Z) :
  take_digits w s acc = Some (v, rest) ->
  exists z, 0 <= z < 10 ^ Z.of_nat w /\ v = acc * 10 ^ Z.of_nat w + z /\
            s = (zero_padded w z ++ rest)%string.
Proof.
  revert s acc. induction w as [|w IH]; intros s acc; cbn [take_digits].
  - intros [= <- <-]. exists 0. cbn. split; [lia|]. split; [lia | reflexivity].
  - destruct s as [|c s]; [discriminate|].
    destruct (digit_val c) as [d|] eqn:Ed; [|discriminate].
    apply digit_val_inv in Ed as [-> Hd]. intros H.
    apply IH in H as (z & Hz & -> & ->). pose proof (pow10_pos w) as Hp.
    exists (d * 10 ^ Z.of_nat w + z). rewrite pow10_succ.
    split; [nia|]. split; [lia|].
    cbn [zero_padded append].
    replace ((d * 10 ^ Z.of_nat w + z) / 10 ^ Z.of_nat w) with d
      by (apply Z.div_unique with z; lia).
    replace ((d * 10 ^ Z.of_nat w + z) mod 10 ^ Z.of_nat w) with z; [reflexivity|].
    apply Z.mod_unique with d; lia.
Qed.

Lemma loadable_date_spec (d : date) :
  loadable_date d = true <->
  1678 <= year d <= 2261 /\ 1 <= month d <= 12 /\
  1 <= day d <= days_in_month (year d) (month d).
Proof. unfold loadable_date. rewrite !andb_true_iff, !Z.leb_le. tauto. Qed.

Lemma loadable_date_valid (d : date) : loadable_date d = true -> valid_date d = true.
Proof.
  intros H. apply loadable_date_spec in H as (Hy & Hm & Hd).
  apply valid_date_spec. repeat split; lia.
Qed.

Lemma parse_date_isoformat (d : date) :
  loadable_date d = true -> parse_date (isoformat d) = Some d.
Proof.
  intros Hd. pose proof Hd as Hd'. apply loadable_date_spec in Hd' as (Hy & Hm & Hday).
  pose proof (days_in_month_bounds (year d) (month d) Hm).
  unfold parse_date, isoformat.
  rewrite take_digits_padded by (cbn; lia). cbn [append].
  rewrite take_digits_padded by (cbn; lia). cbn [append].
  rewrite <- (append_nil_r (zero_padded 2 (day d))).
  rewrite take_digits_padded by (cbn; lia).
  rewrite !Z.mul_0_l, !Z.add_0_l. destruct d as [y m dd]. cbn [year month day] in *.
  change (Ascii.eqb "-" "-") with true. cbn [andb]. now rewrite Hd.
Qed.

Lemma parse_date_inv (s : string) (d : date) :
  parse_date s = Some d -> isoformat d = s /\ loadable_date d = true.
Proof.
  unfold parse_date.
  destruct (take_digits 4 s 0) as [[y [|c1 s1]]|] eqn:E1; try discriminate.
  destruct (take_digits 2 s1 0) as [[m [|c2 s2]]|] eqn:E2; try discriminate.
  destruct (take_digits 2 s2 0) as [[dd [|]]|] eqn:E3; try discriminate.
  destruct (Ascii.eqb_spec c1 "-") as [->|]; [|discriminate].
  destruct (Ascii.eqb_spec c2 "-") as [->|]; [|discriminate]. cbn [andb].
  destruct (loadable_date (mkdate y m dd)) eqn:El; [|discriminate].
  intros [= <-]. split; [|exact El].
  apply take_digits_inv in E1 as (zy & _ & -> & ->).
  apply take_digits_inv in E2 as (zm & _ & -> & ->).
  apply take_digits_inv in E3 as (zd & _ & -> & ->).
  unfold isoformat. cbn [year month day]. rewrite !Z.mul_0_l, !Z.add_0_l.
  now rewrite append_nil_r.
Qed.

(** ** The characters of a cell *)

Lemma field_char_spec (c : ascii) :
  field_char c = true <->
  ((32 <= N_of_ascii c < 127 \/ N_of_ascii c = 9) /\ N_of_ascii c <> 34 /\ N_of_ascii c <> 44)%N.
Proof.
  unfold field_char. cbn zeta.
  rewrite !andb_true_iff, orb_true_iff, !negb_true_iff, andb_true_iff, N.leb_le, N.ltb_lt,
    N.eqb_eq, !N.eqb_neq.
  tauto.
Qed.

Lemma not_whitespace (c : ascii) :
  N_of_ascii c <> 32%N -> N_of_ascii c <> 9%N -> is_whitespace c = false.
Proof.
  intros H1 H2. unfold is_whitespace.
  destruct (Ascii.eqb_spec c space) as [->|]; [now destruct H1|].
  destruct (Ascii.eqb_spec c tab) as [->|]; [now destruct H2 | reflexivity].
Qed.

Lemma digit_field_char (c : ascii) (d : Z) :
  digit_val c = Some d -> field_char c = true /\ is_whitespace c = false.
Proof.
  unfold digit_val. cbn zeta.
  destruct (Z.leb_spec 48 (Z.of_N (N_of_ascii c))); [|discriminate].
  destruct (Z.leb_spec (Z.of_N (N_of_ascii c)) 57); [|discriminate]. intros _.
  split; [apply field_char_spec | apply not_whitespace]; lia.
Qed.

Lemma letter_field_char (c : ascii) :
  is_letter c = true -> field_char c = true /\ is_whitespace c = false.
Proof.
  unfold is_letter, is_upper, is_lower. cbn zeta.
  rewrite orb_true_iff, !andb_true_iff, !Z.leb_le. intros H.
  split; [apply field_char_spec | apply not_whitespace]; lia.
Qed.

Lemma parse_digits_chars (s : string) (acc v : Z) :
  parse_digits s acc = Some v -> string_all field_char s = true.
Proof.
  revert acc. induction s as [|c s IH]; intros acc; cbn [parse_digits string_all].
  - reflexivity.
  - destruct (digit_val c) as [d|] eqn:Ed; [|discriminate].
    apply digit_field_char in Ed as [-> _]. apply IH.
Qed.

Lemma take_digits_chars (w : nat) (s rest : string) (acc v : Z) :
  take_digits w s acc = Some (v, rest) ->
  string_all field_char rest = true ->
  string_all field_char s = true /\ (w <> O -> solid s = true).
Proof.
  revert s acc. induction w as [|w IH]; intros s acc; cbn [take_digits].
  - intros [= <- <-] Hr. now split.
  - destruct s as [|c s]; [discriminate|].
    destruct (digit_val c) as [d|] eqn:Ed; [|discriminate].
    apply digit_field_char in Ed as [Hc Hs]. intros H Hr.
    destruct (IH _ _ H Hr) as [Hall _]. cbn [string_all solid]. now rewrite Hc, Hall, Hs.
Qed.

Lemma parse_date_text (s : string) (d : date) : parse_date s = Some d -> cell_text s = true.
Proof.
  unfold parse_date.
  destruct (take_digits 4 s 0) as [[y [|c1 s1]]|] eqn:E1; try discriminate.
  destruct (take_digits 2 s1 0) as [[m [|c2 s2]]|] eqn:E2; try discriminate.
  destruct (take_digits 2 s2 0) as [[dd [|]]|] eqn:E3; try discriminate.
  destruct (Ascii.eqb_spec c1 "-") as [->|]; [|discriminate].
  destruct (Ascii.eqb_spec c2 "-") as [->|]; [|discriminate]. intros _.
  apply take_digits_chars in E3 as [H3 _]; [|reflexivity].
  apply take_digits_chars in E2 as [H2 _]; [|cbn [string_all]; now rewrite H3].
  apply take_digits_chars in E1 as [H1 Hs]; [|cbn [string_all]; now rewrite H2].
  unfold cell_text. now rewrite H1, Hs.
Qed.

Lemma starts_with_letter_solid (s : string) : starts_with_letter s = true -> solid s = true.
Proof. destruct s as [|c s]; [discriminate|]. cbn. now intros [_ ->]%letter_field_char. Qed.

Lemma plain_label_text (s : string) : plain_label s = true -> cell_text s = true.
Proof.
  unfold plain_label, cell_text. rewrite !andb_true_iff.
  intros [[[Hl Hf] _] _]. split; [now apply starts_with_letter_solid | exact Hf].
Qed.

(** Labels with digits and punctuation are kept; numbers, missing values
    and labels that end with a blank are not labels. *)
Example plain_label_samples :
  map plain_label ["Run"; "Strength Training"; "Weight-Lifting"; "HIIT 2"; "Run (easy)";
                   "5K Run"; "N/A"; "NaN"; "True"; "Run "; " Run"; ""; "inf"]%string =
  [true; true; true; true; true; false; false; false; false; false; false; false; false].
Proof. reflexivity. Qed.

(** ** Blanks *)

Lemma skip_space_app (lead rest : string) :
  string_all isspace_ascii lead = true -> skip_space (lead ++ rest) = skip_space rest.
Proof.
  induction lead as [|c lead IH]; cbn [string_all append skip_space]; [reflexivity|].
  intros [-> H]%andb_true_iff. now apply IH.
Qed.

Lemma skip_space_split (s : string) :
  exists lead, s = (lead ++ skip_space s)%string /\ string_all isspace_ascii lead = true.
Proof.
  induction s as [|c s (lead & E & H)]; [now exists EmptyString|]. cbn [skip_space].
  destruct (isspace_ascii c) eqn:Ec; [|now exists EmptyString].
  exists (String c lead). cbn [append string_all]. now rewrite Ec, <- E.
Qed.

Lemma skip_space_blank (s : string) :
  skip_space s = EmptyString <-> string_all isspace_ascii s = true.
Proof.
  induction s as [|c s IH]; cbn [skip_space string_all]; [tauto|].
  destruct (isspace_ascii c); cbn [andb]; [exact IH | split; discriminate].
Qed.

Lemma digit_not_space (c : ascii) (d : Z) : digit_val c = Some d -> isspace_ascii c = false.
Proof.
  unfold digit_val, isspace_ascii. cbn zeta.
  destruct (Z.leb_spec 48 (Z.of_N (N_of_ascii c))); [|discriminate]. intros _.
  bool_to_Z. lia.
Qed.

Lemma space_not_digit (c : ascii) : isspace_ascii c = true -> digit_val c = None.
Proof.
  intros H. destruct (digit_val c) as [d|] eqn:E; [|reflexivity].
  apply digit_not_space in E. congruence.
Qed.

Lemma blank_stops (trail : string) : string_all isspace_ascii trail = true -> stops trail.
Proof.
  destruct trail as [|c t]; [easy|]. cbn [string_all stops].
  intros [H _]%andb_true_iff. now apply space_not_digit.
Qed.

(** ** The digit loop *)

Lemma fits_spec (isneg : bool) (n d : Z) :
  0 <= d <= 9 -> in_int64 n -> (if isneg then n <= 0 else 0 <= n) ->
  fits isneg n d = in_int64b (push_digit isneg n d).
Proof.
  unfold fits, push_digit, in_int64b, in_int64.
  change (Z.quot int64_min 10) with (-922337203685477580).
  change (Z.rem int64_min 10) with (-8).
  change (Z.quot int64_max 10) with 922337203685477580.
  change (Z.rem int64_max 10) with 7.
  change int64_min with (-9223372036854775808). change int64_max with 9223372036854775807.
  intros Hd Hn Hs. destruct isneg; bool_to_Z; lia.
Qed.

Lemma parse_digits_ge (ds : string) (acc v : Z) :
  0 <= acc -> parse_digits ds acc = Some v -> acc <= v.
Proof.
  revert acc. induction ds as [|c ds IH]; intros acc Hacc; cbn [parse_digits].
  - intros [= <-]. lia.
  - destruct (digit_val c) as [d|] eqn:Ed; [|discriminate].
    apply digit_val_inv in Ed as [_ Hd]. intros H. apply IH in H; lia.
Qed.

(** The digits of a string: as many as there are. *)
Lemma span_digits (s : string) (acc : Z) :
  exists ds rest v, s = (ds ++ rest)%string /\ parse_digits ds acc = Some v /\ stops rest.
Proof.
  revert acc. induction s as [|c s IH]; intros acc.
  - now exists EmptyString, EmptyString, acc.
  - destruct (digit_val c) as [d|] eqn:Ed.
    + destruct (IH (acc * 10 + d)) as (ds & rest & v & -> & Hv & Hr).
      exists (String c ds), rest, v. cbn [append parse_digits]. now rewrite Ed.
    + now exists EmptyString, (String c s), acc.
Qed.

(** The loop computes the exact number and refuses it when it leaves the
    range. *)
Lemma read_digits_app (isneg : bool) (ds rest : string) (n v : Z) :
  parse_digits ds (Z.abs n) = Some v -> stops rest ->
  in_int64 n -> (if isneg then n <= 0 else 0 <= n) ->
  read_digits isneg (ds ++ rest) n =
  if in_int64b (signed isneg v) then Some (signed isneg v, rest) else None.
Proof.
  revert n. induction ds as [|c ds IH]; intros n; cbn [parse_digits append].
  - intros [= <-] Hr Hn Hs.
    assert (signed isneg (Z.abs n) = n) as -> by (unfold signed; destruct isneg; lia).
    apply in_int64b_spec in Hn. rewrite Hn.
    destruct rest as [|c r]; [reflexivity|]. cbn [read_digits stops] in *. now rewrite Hr.
  - destruct (digit_val c) as [d|] eqn:Ed; [|discriminate]. cbn [read_digits]. rewrite Ed.
    apply digit_val_inv in Ed as [_ Hd]. intros Hv Hr Hn Hs.
    rewrite fits_spec by assumption.
    assert (Z.abs (push_digit isneg n d) = Z.abs n * 10 + d) as Habs
      by (unfold push_digit; destruct isneg; lia).
    destruct (in_int64b (push_digit isneg n d)) eqn:Ef.
    + apply in_int64b_spec in Ef. apply IH; rewrite ?Habs; try assumption.
      unfold push_digit. destruct isneg; lia.
    + apply parse_digits_ge in Hv; [|lia].
      destruct (in_int64b (signed isneg v)) eqn:Ev; [|reflexivity].
      apply in_int64b_spec in Ev. apply not_true_iff_false in Ef.
      exfalso. apply Ef, in_int64b_spec. unfold in_int64, signed, push_digit in *.
      destruct isneg; lia.
Qed.

(** ** Integers *)

Lemma parse_digits_digits_string (n : Z) : 0 <= n -> parse_digits (digits_string n) 0 = Some n.
Proof.
  intros Hn. unfold digits_string. fold (digits_text (digits n)).
  rewrite parse_digits_text by now apply digits_range.
  fold (undigits (digits n)). now rewrite undigits_digits.
Qed.

Lemma parse_digits_head (ds : string) (acc v : Z) :
  ds <> EmptyString -> parse_digits ds acc = Some v ->
  exists c d r, ds = String c r /\ digit_val c = Some d.
Proof.
  destruct ds as [|c r]; [contradiction|]. intros _. cbn [parse_digits].
  destruct (digit_val c) as [d|] eqn:Ed; [intros _; now exists c, d, r | discriminate].
Qed.

(** A spelling is read as its number. *)
Lemma str_to_int64_spelling (s : string) (z : Z) :
  in_int64 z -> int_spelling s z -> str_to_int64 s = Some z.
Proof.
  intros Hz (lead & sign & ds & trail & -> & Hl & Ht & Hne & Hv & Hs).
  destruct (parse_digits_head ds 0 _ Hne Hv) as (c & d & r & -> & Ed).
  pose proof (digit_not_space c d Ed) as Hc. pose proof (digit_char_not_minus d) as Hm.
  destruct (digit_val_inv c d Ed) as [-> Hd].
  assert (Ascii.eqb (digit_char d) "+" = false) as Hp by (digit_cases d; reflexivity).
  specialize (Hm Hd). unfold str_to_int64. rewrite skip_space_app by assumption.
  assert (forall isneg : bool, (if isneg then z <= 0 else 0 <= z) ->
            match read_digits isneg (String (digit_char d) (r ++ trail)) 0 with
            | Some (number, rest) =>
                match skip_space rest with
                | EmptyString => Some number
                | String _ _ => None
                end
            | None => None
            end = Some (signed isneg (Z.abs z))) as Hrun.
  { intros isneg Hsg. change (String (digit_char d) (r ++ trail)) with (String (digit_char d) r ++ trail)%string.
    rewrite (read_digits_app isneg _ trail 0 (Z.abs z)); try assumption;
      [|now apply blank_stops | split; discriminate | now destruct isneg].
    assert (signed isneg (Z.abs z) = z) as -> by (unfold signed; destruct isneg; lia).
    apply in_int64b_spec in Hz. rewrite Hz. now apply skip_space_blank in Ht as ->. }
  destruct Hs as [[[-> | ->] Hz0]|[-> Hz0]]; cbn [append skip_space];
    change (isspace_ascii "+") with false; change (isspace_ascii "-") with false;
    rewrite ?Hc; cbn [Ascii.eqb Bool.eqb orb]; rewrite ?Hm, ?Hp; cbn [orb];
    rewrite digit_val_char by assumption.
  - rewrite (Hrun false Hz0). unfold signed. f_equal. lia.
  - rewrite (Hrun false Hz0). unfold signed. f_equal. lia.
  - rewrite (Hrun true Hz0). unfold signed. f_equal. lia.
Qed.

(** What is read as a number is one of its spellings. *)
Lemma str_to_int64_inv (s : string) (z : Z) :
  str_to_int64 s = Some z -> in_int64 z /\ int_spelling s z.
Proof.
  unfold str_to_int64. destruct (skip_space_split s) as (lead & Es & Hl).
  destruct (skip_space s) as [|c p] eqn:Ep; [discriminate|].
  set (isneg := Ascii.eqb c "-").
  set (sign := if isneg || Ascii.eqb c "+" then String c EmptyString else EmptyString).
  set (q := if isneg || Ascii.eqb c "+" then p else String c p).
  assert (String c p = (sign ++ q)%string) as Eq by (unfold sign, q; now destruct (_ || _)).
  destruct q as [|c' q'] eqn:Eq'; [discriminate|].
  destruct (digit_val c') as [d|] eqn:Ed; [|discriminate].
  destruct (span_digits (String c' q') 0) as (ds & rest & v & E & Hv & Hr).
  assert (ds <> EmptyString) as Hne.
  { intros ->. cbn [append] in E. subst rest. cbn [stops] in Hr. congruence. }
  pose proof (parse_digits_ge ds 0 v ltac:(lia) Hv) as Hv0.
  rewrite E, (read_digits_app isneg ds rest 0 v);
    [|assumption | assumption | split; discriminate | now destruct isneg].
  destruct (in_int64b (signed isneg v)) eqn:Er; [|discriminate].
  destruct (skip_space rest) eqn:Et; [|discriminate]. intros [= <-].
  apply in_int64b_spec in Er. split; [exact Er|].
  exists lead, sign, ds, rest. apply skip_space_blank in Et.
  assert (Z.abs (signed isneg v) = v) as -> by (unfold signed; destruct isneg; lia).
  repeat split; try assumption.
  - now rewrite Es, Eq, E.
  - unfold sign_of, sign, signed, isneg. destruct (Ascii.eqb_spec c "-") as [->|Hc]; cbn [orb].
    + right. split; [reflexivity | lia].
    + left. split; [|lia]. destruct (Ascii.eqb_spec c "+") as [->|]; auto.
Qed.

Lemma str_to_int64_str_int (z : Z) : in_int64 z -> str_to_int64 (str_int z) = Some z.
Proof.
  intros Hz. apply str_to_int64_spelling; [exact Hz|].
  exists EmptyString, (if z <? 0 then "-"%string else EmptyString), (digits_string (Z.abs z)), EmptyString.
  split; [|split; [reflexivity|split; [reflexivity|split; [|split]]]].
  - unfold str_int. rewrite append_nil_r.
    destruct (Z.ltb_spec z 0); cbn [append]; f_equal; f_equal; lia.
  - unfold digits_string. pose proof (digits_nonempty (Z.abs z)).
    destruct (digits (Z.abs z)); [contradiction | discriminate].
  - apply parse_digits_digits_string. lia.
  - unfold sign_of. destruct (Z.ltb_spec z 0); [right | left]; split; auto; lia.
Qed.

Lemma str_int_text (z : Z) : cell_text (str_int z) = true.
Proof.
  assert (forall n, 0 <= n -> cell_text (digits_string n) = true) as H.
  { intros n Hn. unfold cell_text.
    rewrite (parse_digits_chars _ _ _ (parse_digits_digits_string n Hn)), andb_true_r.
    destruct (digits_string_head n Hn) as (d & s & -> & Hd). cbn [solid].
    now destruct (digit_field_char _ d (digit_val_char d Hd)) as [_ ->]. }
  unfold str_int. destruct (Z.ltb_spec z 0); [|now apply H].
  specialize (H (- z) ltac:(lia)). unfold cell_text in *.
  apply andb_true_iff in H as [_ H]. cbn. exact H.
Qed.

Example str_to_int64_samples :
  map str_to_int64 ["30"; " 30"; "30 "; "+30"; "007"; "-0"; "-9223372036854775808";
                    "9223372036854775808"; "3 0"; "- 30"; "30.0"; ""; "+"; "1e3"]%string =
  [Some 30; Some 30; Some 30; Some 30; Some 7; Some 0; Some (-9223372036854775808);
   None; None; None; None; None; None; None].
Proof. reflexivity. Qed.

(** ** The texts the parsers accept *)

(** C17. The cells the model reads.  [str_to_int64] gives [z] for a text
    if and only if [z] is an int64 and the text is one of its spellings:
    blanks, an optional sign, digits (leading zeros included) whose
    number is the magnitude of [z], blanks; a number out of range is not
    read, whatever its spelling.  [parse_date] accepts a text and gives
    [d] if and only if [d] is a date of the calendar between 1678 and
    2261 and the text is its [YYYY-MM-DD] form. *)
Theorem parse_cells_iff :
  (forall s z, str_to_int64 s = Some z <-> in_int64 z /\ int_spelling s z) /\
  (forall s d, parse_date s = Some d <-> loadable_date d = true /\ isoformat d = s).
Proof.
  split; intros s a; split.
  - apply str_to_int64_inv.
  - intros [Hz Hs]. now apply str_to_int64_spelling.
  - intros H. apply parse_date_inv in H. tauto.
  - intros [Hd <-]. now apply parse_date_isoformat.
Qed.

(** ** The codecs of the three kinds of cell *)

Lemma str_to_int64_in_int64 (s : string) (z : Z) : str_to_int64 s = Some z -> in_int64 z.
Proof. intros H. now apply str_to_int64_inv in H. Qed.

#[export] Instance int64_codec : Codec Z := {
  decode := str_to_int64;
  encode := str_int;
  canonical := in_int64;
  decode_encode := str_to_int64_str_int;
  decode_canonical := str_to_int64_in_int64;
  encode_text := fun z _ => str_int_text z
}.

Lemma parse_date_loadable (s : string) (d : date) : parse_date s = Some d -> loadable_date d = true.
Proof. intros H. now apply parse_date_inv in H. Qed.

Lemma isoformat_text (d : date) : loadable_date d = true -> cell_text (isoformat d) = true.
Proof. intros H. eapply parse_date_text, parse_date_isoformat, H. Qed.

#[export] Instance date_codec : Codec date := {
  decode := parse_date;
  encode := isoformat;
  canonical := fun d => loadable_date d = true;
  decode_encode := parse_date_isoformat;
  decode_canonical := parse_date_loadable;
  encode_text := isoformat_text
}.

#[export] Instance date_verbatim : Verbatim date.
Proof. constructor. intros s d H. now apply parse_date_inv in H. Qed.

Lemma label_decode_inv (s a : string) :
  (if plain_label s then Some s else None) = Some a -> a = s /\ plain_label a = true.
Proof. destruct (plain_label s) eqn:E; [intros [= <-]; auto | discriminate]. Qed.

Lemma label_decode_plain (a : string) :
  plain_label a = true -> (if plain_label a then Some a else None) = Some a.
Proof. now intros ->. Qed.

Lemma label_decode_canonical (s a : string) :
  (if plain_label s then Some s else None) = Some a -> plain_label a = true.
Proof. intros H. now apply label_decode_inv in H. Qed.

#[export] Instance label_codec : Codec string := {
  decode := fun s => if plain_label s then Some s else None;
  encode := fun s => s;
  canonical := fun s => plain_label s = true;
  decode_encode := label_decode_plain;
  decode_canonical := label_decode_canonical;
  encode_text := plain_label_text
}.

#[export] Instance label_verbatim : Verbatim string.
Proof. constructor. intros s a H. now apply label_decode_inv in H. Qed.

(** ** Consequences of the round trips *)

Section CodecFacts.
Context {A : Type} `{Codec A}.

(** Two values with the same text are equal. *)
Lemma encode_inj (a b : A) : canonical a -> canonical b -> encode a = encode b -> a = b.
Proof.
  intros Ha Hb E. enough (Some a = Some b) by congruence.
  rewrite <- (decode_encode a Ha), <- (decode_encode b Hb). now rewrite E.
Qed.

(** With one spelling per value, a text has at most one value and the
    value tells the text. *)
Lemma decode_inj `{!Verbatim A} (s t : string) (a : A) :
  decode s = Some a -> decode t = Some a -> s = t.
Proof. intros Hs Ht. apply encode_decode in Hs as <-. now apply encode_decode in Ht as <-. Qed.

End CodecFacts.
