(* ===== verification/Float64.v ===== *)
(** * Float64: the value and the text of the hours card

    [total_hours = df['Duration'].sum() / 60] divides an int64 by an
    integer: numpy converts both to binary64 and divides, and
    [f"{total_hours:.1f}"] prints the result with one decimal, correctly
    rounded from the exact binary value.

    A finite binary64 number is modelled by its integer mantissa and binary
    exponent ([dyadic]).  IEEE 754 defines conversion and division as the
    exact result rounded to nearest, ties to even, at 53 bits of precision
    ([rne53]); the [:.1f] format rounds the exact value of the double to
    one decimal, ties to even ([format_f1]).  The quotient of an int64 by
    60 is never subnormal, infinite or a negative zero, so these cases are
    not represented.

    The theorems characterise [round_half_even] as rounding to nearest
    with ties to even, show that [rne53] returns a normalised mantissa and
    that conversion and division err by at most 2^-53 of the exact value
    (and conversion not at all below 2^53), and that [rne53] is determined
    by the value of the quotient and by its binade ([rne53_eq]), which is
    what the comparison with the standard library's specification of IEEE
    arithmetic in [Ieee] rests on.  [card_text] is the text of the card
    as a function of the total of minutes: the exact quotient rounded to
    one decimal, except at the decimal ties, where the binary rounding of
    the division decides ([hours_of_card_text]). *)

From Stdlib Require Import String Ascii ZArith List Lia Bool.
From S2P Require Import Prelude Format.
Import ListNotations.

#[local] Open Scope Z_scope.

(** ** Definitions *)

(** The number [mant * 2 ^ expo]. *)
Record dyadic : Type := mkdy { mant : Z; expo : Z }.

(** The integer nearest to [n / d] for [d > 0], ties to even. *)
Definition round_half_even (n d : Z) : Z :=
  let q := n / d in
  match 2 * (n mod d) ?= d with
  | Lt => q
  | Gt => q + 1
  | Eq => if Z.even q then q else q + 1
  end.

(** The fraction [(n / d) / 2 ^ e] as a numerator and a denominator. *)
Definition scale2 (n d e : Z) : Z * Z :=
  if 0 <=? e then (n, d * 2 ^ e) else (n * 2 ^ (- e), d).

(** [floor (log2 (n / d))] for positive [n] and [d]. *)
Definition floor_log2_ratio (n d : Z) : Z :=
  let k := Z.log2 n - Z.log2 d in
  let '(n', d') := scale2 n d k in
  if d' <=? n' then k else k - 1.

(** [2 ^ k <= n / d < 2 ^ (k + 1)], without division. *)
Definition between_pow2 (n d k : Z) : Prop :=
  let '(a, b) := scale2 n d k in b <= a < 2 * b.

(** The binary64 number nearest to [n / d] ([d > 0]), ties to even, for a
    quotient in the normal range: the mantissa has 53 bits. *)
Definition rne53 (n d : Z) : dyadic :=
  if n =? 0 then mkdy 0 0 else
  let e := floor_log2_ratio (Z.abs n) d - 52 in
  let '(n', d') := scale2 n d e in
  mkdy (round_half_even n' d') e.

(** Conversion of an int64 to binary64. *)
Definition float_of_int64 (z : Z) : dyadic := rne53 z 1.

(** The value of a dyadic as a fraction with a positive denominator. *)
Definition dy_num (x : dyadic) : Z :=
  if 0 <=? expo x then mant x * 2 ^ expo x else mant x.

Definition dy_den (x : dyadic) : Z :=
  if 0 <=? expo x then 1 else 2 ^ (- expo x).

(** Division of binary64 numbers, for a divisor that is not zero. *)
Definition fdiv (x y : dyadic) : dyadic :=
  let n := dy_num x * dy_den y in
  let d := dy_den x * dy_num y in
  if 0 <? d then rne53 n d else rne53 (- n) (- d).

(** The text of a number of tenths. *)
Definition tenths_text (N : Z) : string :=
  (digits_string (N / 10) ++ "." ++ digits_string (N mod 10))%string.

(** [f"{x:.1f}"] *)
Definition format_f1 (x : dyadic) : string :=
  let N := round_half_even (Z.abs (dy_num x) * 10) (dy_den x) in
  if mant x <? 0 then String "-" (tenths_text N) else tenths_text N.

(** The hours of a total of minutes. *)
Definition hours_of (minutes : Z) : dyadic := fdiv (float_of_int64 minutes) (float_of_int64 60).

(** The tenth shown for a total of minutes that lies halfway between two
    tenths of an hour, from the side on which the double lies of the
    exact quotient: below, above, or on it. *)
Definition tie_break (c : comparison) (s : Z) : Z :=
  match c with
  | Eq => round_half_even s 6
  | Lt => s / 6
  | Gt => s / 6 + 1
  end.

(** The tenths of an hour shown for [s >= 0] minutes: the exact quotient
    rounded to one decimal, and at a tie what the binary rounding of the
    division decides. *)
Definition card_tenths (s : Z) : Z :=
  if s mod 6 =? 3
  then tie_break (dy_num (hours_of s) * 60 ?= s * dy_den (hours_of s)) s
  else round_half_even s 6.

(** The text of the hours card for a total of [s] minutes. *)
Definition card_text (s : Z) : string :=
  if s <? 0 then String "-" (tenths_text (card_tenths (- s))) else tenths_text (card_tenths s).

(** A fraction [fst p / snd p] with 53 bits before the point. *)
Definition in_binade (p : Z * Z) : Prop := 2 ^ 52 * snd p <= fst p < 2 ^ 53 * snd p.

(** ** Rounding to the nearest integer *)

Section RoundHalfEven.
Context (n d : Z) (Hd : 0 < d).

Lemma round_half_even_floor :
  n / d <= round_half_even n d <= n / d + 1.
Proof.
  unfold round_half_even. cbn zeta.
  destruct (2 * (n mod d) ?= d); [destruct (Z.even (n / d))|..]; lia.
Qed.

(** The rounded value is within one half of the exact quotient. *)
Lemma round_half_even_error :
  2 * Z.abs (round_half_even n d * d - n) <= d.
Proof.
  unfold round_half_even. cbn zeta.
  pose proof (Z.div_mod n d ltac:(lia)). pose proof (Z.mod_pos_bound n d Hd).
  destruct (Z.compare_spec (2 * (n mod d)) d); [destruct (Z.even (n / d))|..]; nia.
Qed.

(** An integer strictly within one half of the quotient is the rounded
    value: off the ties, rounding does not depend on the tie rule. *)
Lemma round_half_even_unique (k : Z) :
  2 * Z.abs (k * d - n) < d -> round_half_even n d = k.
Proof.
  intros Hk. unfold round_half_even. cbn zeta.
  pose proof (Z.div_mod n d ltac:(lia)). pose proof (Z.mod_pos_bound n d Hd).
  destruct (Z.compare_spec (2 * (n mod d)) d); [destruct (Z.even (n / d))|..]; nia.
Qed.

(** At a tie the two neighbours are the floor and the next integer. *)
Lemma round_half_even_tie (k : Z) :
  2 * Z.abs (k * d - n) = d -> 2 * (n mod d) = d /\ (k = n / d \/ k = n / d + 1).
Proof.
  intros Hk. pose proof (Z.div_mod n d ltac:(lia)). pose proof (Z.mod_pos_bound n d Hd).
  assert (k = n / d \/ k = n / d + 1) as Hq by nia.
  split; [|exact Hq]. destruct Hq as [-> | ->]; nia.
Qed.

(** C12. Rounding to nearest, ties to even, is characterised by its
    result: an integer is the rounded quotient exactly when it is strictly
    within one half of the quotient, or at one half and even. *)
Theorem round_half_even_spec (k : Z) :
  round_half_even n d = k <->
  2 * Z.abs (k * d - n) < d \/ (2 * Z.abs (k * d - n) = d /\ Z.even k = true).
Proof.
  split.
  - intros <-. pose proof round_half_even_error as He.
    destruct (Z.eq_dec (2 * Z.abs (round_half_even n d * d - n)) d) as [E|E]; [|left; lia].
    right. split; [exact E|]. apply round_half_even_tie in E as [Ht _].
    unfold round_half_even. cbn zeta. rewrite Ht, Z.compare_refl.
    destruct (Z.even (n / d)) eqn:Ev; [exact Ev|].
    now rewrite Z.add_1_r, Z.even_succ, <- Z.negb_even, Ev.
  - intros [Hlt | [Heq Hev]]; [now apply round_half_even_unique|].
    apply round_half_even_tie in Heq as [Ht Hq].
    unfold round_half_even. cbn zeta. rewrite Ht, Z.compare_refl.
    destruct Hq as [-> | ->]; [now rewrite Hev|].
    rewrite Z.add_1_r, Z.even_succ, <- Z.negb_even in Hev.
    apply Bool.negb_true_iff in Hev. now rewrite Hev, Z.add_1_r.
Qed.

End RoundHalfEven.

Lemma round_half_even_spec_witness :
  round_half_even 75 6 = 12 <->
  2 * Z.abs (12 * 6 - 75) < 6 \/ (2 * Z.abs (12 * 6 - 75) = 6 /\ Z.even 12 = true).
Proof. apply (round_half_even_spec 75 6). reflexivity. Defined.

Lemma round_half_even_exact (k d : Z) : 0 < d -> round_half_even (k * d) d = k.
Proof. intros Hd. apply round_half_even_unique; [assumption|]. rewrite Z.sub_diag. cbn. lia. Qed.

Lemma round_half_even_one (n : Z) : round_half_even n 1 = n.
Proof. rewrite <- (Z.mul_1_r n) at 1. now apply round_half_even_exact. Qed.

#[export] Hint Rewrite round_half_even_one : fit_rw.

(** Quotient and rest depend on the fraction only, not on its numerator
    and denominator. *)
Lemma div_ratio (a b a' b' : Z) :
  0 < b -> 0 < b' -> a * b' = a' * b ->
  a / b = a' / b' /\ (a mod b) * b' = (a' mod b') * b.
Proof.
  intros Hb Hb' E.
  pose proof (Z.div_mod a b ltac:(lia)). pose proof (Z.mod_pos_bound a b Hb).
  pose proof (Z.div_mod a' b' ltac:(lia)). pose proof (Z.mod_pos_bound a' b' Hb').
  assert (b' * (a / b) <= a' < b' * (a / b) + b') as Hq.
  { split; [apply (Z.mul_le_mono_pos_r _ _ b Hb) | apply (Z.mul_lt_mono_pos_r b _ _ Hb)]; nia. }
  assert (a / b = a' / b') as Eq by (apply Z.div_unique with (a' - b' * (a / b)); lia).
  split; [exact Eq|]. rewrite Eq in *. nia.
Qed.

Lemma round_half_even_ratio (a b a' b' : Z) :
  0 < b -> 0 < b' -> a * b' = a' * b -> round_half_even a b = round_half_even a' b'.
Proof.
  intros Hb Hb' E. destruct (div_ratio a b a' b' Hb Hb' E) as [Eq Er].
  unfold round_half_even. cbn zeta. rewrite Eq.
  replace (2 * (a mod b) ?= b) with (2 * (a' mod b') ?= b'); [reflexivity|].
  destruct (Z.compare_spec (2 * (a' mod b')) b'); symmetry;
    [apply Z.compare_eq_iff | apply Z.compare_lt_iff | apply Z.compare_gt_iff]; nia.
Qed.

(** Rounding to nearest, ties to even, is symmetric about zero. *)
Lemma round_half_even_opp (n d : Z) :
  0 < d -> round_half_even (- n) d = - round_half_even n d.
Proof.
  intros Hd. unfold round_half_even. cbn zeta.
  pose proof (Z.mod_pos_bound n d Hd).
  destruct (Z.eq_dec (n mod d) 0) as [E|E].
  - rewrite Z.div_opp_l_z, Z.mod_opp_l_z, E by lia.
    destruct (Z.compare_spec (2 * 0) d); lia.
  - rewrite Z.div_opp_l_nz, Z.mod_opp_l_nz by lia.
    destruct (Z.compare_spec (2 * (n mod d)) d), (Z.compare_spec (2 * (d - n mod d)) d);
      try lia.
    replace (- (n / d) - 1) with (- Z.succ (n / d)) by lia.
    rewrite Z.even_opp, Z.even_succ, <- Z.negb_even.
    destruct (Z.even (n / d)); cbn; lia.
Qed.

(** A fraction with 53 bits before the point rounds to a mantissa of 53
    bits, or to [2^53]. *)
Lemma round_half_even_binade (n d : Z) :
  0 < d -> in_binade (n, d) -> 2 ^ 52 <= round_half_even n d <= 2 ^ 53.
Proof.
  intros Hd [Hlo Hhi]. cbn [fst snd] in *. pose proof (round_half_even_floor n d) as Hf.
  assert (2 ^ 52 <= n / d < 2 ^ 53); [|lia].
  split; [apply Z.div_le_lower_bound | apply Z.div_lt_upper_bound]; lia.
Qed.

(** ** Conversion of integers *)

Lemma floor_log2_ratio_int (n : Z) : 0 < n -> floor_log2_ratio n 1 = Z.log2 n.
Proof.
  intros Hn. unfold floor_log2_ratio, scale2. cbn [Z.log2]. rewrite Z.sub_0_r.
  pose proof (Z.log2_nonneg n). pose proof (Z.log2_spec n Hn) as [Hlo _].
  destruct (Z.leb_spec 0 (Z.log2 n)); [|lia].
  rewrite Z.mul_1_l. destruct (Z.leb_spec (2 ^ Z.log2 n) n); [reflexivity | lia].
Qed.

(** An int64 of magnitude below 2^53 converts to binary64 without
    rounding: the double denotes the same integer. *)
Lemma float_of_int64_exact (z : Z) :
  Z.abs z < 2 ^ 53 ->
  dy_num (float_of_int64 z) = z * dy_den (float_of_int64 z).
Proof.
  intros Hz. unfold float_of_int64, rne53.
  destruct (Z.eqb_spec z 0) as [->|Hnz]; [reflexivity|].
  rewrite floor_log2_ratio_int by lia.
  assert (Z.log2 (Z.abs z) < 53) as Hlog by (apply Z.log2_lt_pow2; lia).
  pose proof (Z.log2_nonneg (Z.abs z)).
  unfold scale2, dy_num, dy_den.
  destruct (Z.leb_spec 0 (Z.log2 (Z.abs z) - 52)); cbn [mant expo].
  - replace (Z.log2 (Z.abs z) - 52) with 0 by lia.
    cbn [Z.pow Z.pow_pos Pos.iter]. rewrite Z.mul_1_l, round_half_even_one.
    destruct (Z.leb_spec 0 0); lia.
  - rewrite round_half_even_one.
    destruct (Z.leb_spec 0 (Z.log2 (Z.abs z) - 52)); [lia | reflexivity].
Qed.

(** Above 2^53 the conversion rounds: 2^53 + 1 becomes 2^53. *)
Example float_of_int64_rounds :
  float_of_int64 9007199254740993 = mkdy 4503599627370496 1.
Proof. reflexivity. Qed.

(** ** Division *)

Lemma scale2_nonneg (n d e : Z) : 0 <= e -> scale2 n d e = (n, d * 2 ^ e).
Proof. intros H. unfold scale2. destruct (Z.leb_spec 0 e); [reflexivity | lia]. Qed.

Lemma scale2_neg (n d e : Z) : e < 0 -> scale2 n d e = (n * 2 ^ (- e), d).
Proof. intros H. unfold scale2. destruct (Z.leb_spec 0 e); [lia | reflexivity]. Qed.

Lemma floor_log2_ratio_spec (n d : Z) :
  0 < n -> 0 < d -> between_pow2 n d (floor_log2_ratio n d).
Proof.
  intros Hn Hd. unfold between_pow2, floor_log2_ratio. cbn zeta.
  pose proof (log2_bounds n Hn) as Hln. pose proof (log2_bounds d Hd) as Hld.
  pose proof (Z.log2_nonneg n). pose proof (Z.log2_nonneg d).
  set (ln := Z.log2 n) in *. set (ld := Z.log2 d) in *.
  destruct (Z_le_gt_dec 0 (ln - ld)) as [Hk|Hk].
  - rewrite (scale2_nonneg n d (ln - ld)) by lia.
    pose proof (pow2_split ln ld ltac:(lia) ltac:(lia)) as Hs.
    pose proof (pow2_pos (ln - ld) Hk) as Hp. pose proof (pow2_pos ld ltac:(lia)).
    destruct (Z.leb_spec (d * 2 ^ (ln - ld)) n) as [Hle|Hgt].
    + rewrite scale2_nonneg by lia. nia.
    + destruct (Z.eq_dec (ln - ld) 0) as [E|E].
      * rewrite scale2_neg by lia. rewrite E in *.
        replace (- (0 - 1)) with 1 by lia. change (2 ^ 1) with 2. change (2 ^ 0) with 1 in *. nia.
      * rewrite scale2_nonneg by lia.
        pose proof (pow2_double (ln - ld - 1) ltac:(lia)) as Hdb.
        replace (ln - ld - 1 + 1) with (ln - ld) in Hdb by lia.
        pose proof (pow2_pos (ln - ld - 1) ltac:(lia)). nia.
  - rewrite (scale2_neg n d (ln - ld)) by lia.
    pose proof (pow2_split ld ln ltac:(lia) ltac:(lia)) as Hs.
    replace (- (ln - ld)) with (ld - ln) by lia.
    pose proof (pow2_pos (ld - ln) ltac:(lia)) as Hp. pose proof (pow2_pos ln ltac:(lia)).
    destruct (Z.leb_spec d (n * 2 ^ (ld - ln))) as [Hle|Hgt].
    + rewrite scale2_neg by lia. replace (- (ln - ld)) with (ld - ln) by lia. nia.
    + rewrite scale2_neg by lia. replace (- (ln - ld - 1)) with (ld - ln + 1) by lia.
      rewrite pow2_double by lia. nia.
Qed.

(** The fraction that [rne53] rounds has 53 bits before the point. *)
Lemma rne53_scaled (n d : Z) :
  0 < d -> n <> 0 ->
  let '(n', d') := scale2 n d (floor_log2_ratio (Z.abs n) d - 52) in
  0 < d' /\ 2 ^ 52 * d' <= Z.abs n' < 2 ^ 53 * d'.
Proof.
  intros Hd Hn. pose proof (floor_log2_ratio_spec (Z.abs n) d ltac:(lia) Hd) as Hk.
  unfold between_pow2 in Hk. set (k := floor_log2_ratio (Z.abs n) d) in *.
  change (2 ^ 53) with (2 * 2 ^ 52).
  destruct (Z_le_gt_dec 52 k) as [H52|H52].
  - rewrite scale2_nonneg in Hk |- * by lia.
    pose proof (pow2_split k 52 ltac:(lia) H52) as Hs.
    pose proof (pow2_pos (k - 52) ltac:(lia)). nia.
  - rewrite (scale2_neg n d (k - 52)) by lia. replace (- (k - 52)) with (52 - k) by lia.
    rewrite Z.abs_mul, (Z.abs_eq (2 ^ (52 - k))) by (apply Z.pow_nonneg; lia).
    destruct (Z_le_gt_dec 0 k) as [H0|H0].
    + rewrite scale2_nonneg in Hk by lia.
      pose proof (pow2_split 52 k H0 ltac:(lia)) as Hs.
      pose proof (pow2_pos (52 - k) ltac:(lia)). pose proof (pow2_pos k H0). nia.
    + rewrite scale2_neg in Hk by lia.
      pose proof (pow2_split (52 - k) 52 ltac:(lia) ltac:(lia)) as Hs.
      replace (52 - k - 52) with (- k) in Hs by lia. nia.
Qed.

(** ** The binade of a quotient is unique *)

Lemma scale2_eq (n d e : Z) : scale2 n d e = (n * 2 ^ Z.max 0 (- e), d * 2 ^ Z.max 0 e).
Proof.
  destruct (Z_le_gt_dec 0 e); [rewrite scale2_nonneg | rewrite scale2_neg]; try lia.
  - rewrite (Z.max_l 0 (- e)), (Z.max_r 0 e) by lia. now rewrite Z.mul_1_r.
  - rewrite (Z.max_r 0 (- e)), (Z.max_l 0 e) by lia. now rewrite Z.mul_1_r.
Qed.

Lemma scale2_pos (n d e : Z) : 0 < n -> 0 < d -> 0 < fst (scale2 n d e) /\ 0 < snd (scale2 n d e).
Proof.
  intros Hn Hd. rewrite scale2_eq. cbn [fst snd].
  pose proof (pow2_pos (Z.max 0 (- e)) ltac:(lia)). pose proof (pow2_pos (Z.max 0 e) ltac:(lia)).
  nia.
Qed.

(** Scaling by [2 ^ e'] is scaling by [2 ^ e] and then by [2 ^ (e' - e)]. *)
Lemma scale2_ratio (n d e e' : Z) :
  e <= e' ->
  fst (scale2 n d e') * snd (scale2 n d e) * 2 ^ (e' - e) =
  fst (scale2 n d e) * snd (scale2 n d e').
Proof.
  intros He. rewrite !scale2_eq. cbn [fst snd].
  transitivity (n * d * (2 ^ Z.max 0 (- e') * 2 ^ Z.max 0 e * 2 ^ (e' - e))); [ring|].
  transitivity (n * d * (2 ^ Z.max 0 (- e) * 2 ^ Z.max 0 e')); [|ring].
  f_equal. rewrite <- !Z.pow_add_r by lia. f_equal. lia.
Qed.

Lemma in_binade_lt (n d e e' : Z) :
  0 < n -> 0 < d -> in_binade (scale2 n d e) -> in_binade (scale2 n d e') -> ~ e < e'.
Proof.
  intros Hn Hd [Hlo Hhi] [Hlo' Hhi'] Hlt.
  pose proof (scale2_ratio n d e e' ltac:(lia)) as Hr.
  pose proof (scale2_pos n d e Hn Hd) as [Ha Hb].
  pose proof (scale2_pos n d e' Hn Hd) as [Ha' Hb'].
  assert (2 <= 2 ^ (e' - e)) as Hc.
  { change 2 with (2 ^ 1) at 1. apply Z.pow_le_mono_r; lia. }
  revert Hr Hc. generalize (2 ^ (e' - e)). intros c Hr Hc.
  change (2 ^ 53) with (2 * 2 ^ 52) in *. pose proof (pow2_pos 52 ltac:(lia)) as H.
  revert Hlo Hhi Hlo' Hhi'. generalize (2 ^ 52) H. intros P HP.
  destruct (scale2 n d e) as [a b], (scale2 n d e') as [a' b']. cbn [fst snd] in *.
  intros.
  assert (P * b' * b <= a' * b) as H1 by (apply Z.mul_le_mono_nonneg_r; lia).
  assert (a' * b * 2 <= a' * b * c) as H2 by (apply Z.mul_le_mono_nonneg_l; nia).
  assert (a * b' < 2 * P * b * b') as H3 by (apply Z.mul_lt_mono_pos_r; lia).
  lia.
Qed.

Lemma in_binade_unique (n d e e' : Z) :
  0 < n -> 0 < d -> in_binade (scale2 n d e) -> in_binade (scale2 n d e') -> e = e'.
Proof.
  intros Hn Hd H H'. pose proof (in_binade_lt n d e e' Hn Hd H H').
  pose proof (in_binade_lt n d e' e Hn Hd H' H). lia.
Qed.

(** [rne53] is determined by the value of the quotient: whenever
    [n / d = (N / D) * 2 ^ e] with [N / D] of 53 bits before the point, the
    result is [N / D] rounded, with exponent [e]. *)
Lemma rne53_eq (n d N D e : Z) :
  0 < n -> 0 < d -> 0 < D -> in_binade (N, D) ->
  fst (scale2 n d e) * D = N * snd (scale2 n d e) ->
  rne53 n d = mkdy (round_half_even N D) e.
Proof.
  intros Hn Hd HD HN Hr. unfold in_binade in HN. cbn [fst snd] in HN.
  pose proof (rne53_scaled n d Hd ltac:(lia)) as Hs. rewrite Z.abs_eq in Hs by lia.
  pose proof (scale2_pos n d e Hn Hd) as [Ha Hb].
  assert (e = floor_log2_ratio n d - 52) as E.
  { apply (in_binade_unique n d); try assumption.
    - unfold in_binade. destruct (scale2 n d e) as [a b]. cbn [fst snd] in *.
      revert HN. generalize (2 ^ 52) (2 ^ 53). intros. nia.
    - pose proof (scale2_pos n d (floor_log2_ratio n d - 52) Hn Hd) as [Ha' _].
      destruct (scale2 n d (floor_log2_ratio n d - 52)) as [a b].
      unfold in_binade. cbn [fst snd] in *. rewrite Z.abs_eq in Hs by lia. tauto. }
  unfold rne53. destruct (Z.eqb_spec n 0); [lia|]. rewrite Z.abs_eq, <- E by lia.
  cbn zeta. destruct (scale2 n d e) as [a b]. cbn [fst snd] in *.
  f_equal. now apply round_half_even_ratio.
Qed.

(** The quotient of the opposite is the opposite of the quotient. *)
Lemma rne53_opp (n d : Z) :
  0 < d -> rne53 (- n) d = mkdy (- mant (rne53 n d)) (expo (rne53 n d)).
Proof.
  intros Hd. unfold rne53. rewrite Z.abs_opp.
  destruct (Z.eqb_spec n 0) as [->|Hn]; [reflexivity|].
  destruct (Z.eqb_spec (- n) 0); [lia|]. cbn zeta. rewrite !scale2_eq. cbn [mant expo].
  rewrite Z.mul_opp_l, round_half_even_opp; [reflexivity|].
  pose proof (pow2_pos (Z.max 0 (floor_log2_ratio (Z.abs n) d - 52)) ltac:(lia)). nia.
Qed.

(** A quotient that is not zero is rounded to a normalised double:
    the mantissa has exactly 53 bits, or is 2^53 after rounding up. *)
Theorem rne53_mant_bounds (n d : Z) :
  0 < d -> n <> 0 -> 2 ^ 52 <= Z.abs (mant (rne53 n d)) <= 2 ^ 53.
Proof.
  intros Hd Hn. pose proof (rne53_scaled n d Hd Hn) as Hs.
  unfold rne53. destruct (Z.eqb_spec n 0); [contradiction|]. cbn zeta.
  destruct (scale2 n d (floor_log2_ratio (Z.abs n) d - 52)) as [n' d'].
  cbn [mant]. destruct Hs as (Hd' & Hlo & Hhi).
  pose proof (round_half_even_error n' d' Hd').
  change (2 ^ 53) with 9007199254740992 in *. change (2 ^ 52) with 4503599627370496 in *. nia.
Qed.

Lemma rne53_mant_bounds_witness : 2 ^ 52 <= Z.abs (mant (rne53 75 60)) <= 2 ^ 53.
Proof. apply (rne53_mant_bounds 75 60); [reflexivity | discriminate]. Defined.

(** The rounded quotient differs from the exact one by at most 2^-53 of
    its magnitude. *)
Lemma rne53_relative_error (n d : Z) :
  0 < d ->
  let x := rne53 n d in
  2 ^ 53 * Z.abs (dy_num x * d - n * dy_den x) <= Z.abs n * dy_den x.
Proof.
  intros Hd. cbn zeta. destruct (Z.eq_dec n 0) as [->|Hn]; [reflexivity|].
  pose proof (rne53_scaled n d Hd Hn) as Hs.
  unfold rne53. destruct (Z.eqb_spec n 0); [contradiction|]. cbn zeta.
  set (e := floor_log2_ratio (Z.abs n) d - 52) in *.
  unfold dy_num, dy_den.
  destruct (Z_le_gt_dec 0 e) as [He|He].
  - rewrite scale2_nonneg in Hs |- * by lia. cbn [mant expo].
    destruct (Z.leb_spec 0 e); [|lia]. destruct Hs as (Hd' & Hlo & Hhi).
    pose proof (round_half_even_error n (d * 2 ^ e) Hd').
    change (2 ^ 53) with (2 * 2 ^ 52). 
    replace (round_half_even n (d * 2 ^ e) * 2 ^ e * d - n * 1)
      with (round_half_even n (d * 2 ^ e) * (d * 2 ^ e) - n) by ring. nia.
  - rewrite scale2_neg in Hs |- * by lia. cbn [mant expo].
    destruct (Z.leb_spec 0 e); [lia|]. destruct Hs as (Hd' & Hlo & Hhi).
    pose proof (round_half_even_error (n * 2 ^ (- e)) d Hd').
    rewrite Z.abs_mul, (Z.abs_eq (2 ^ (- e))) in Hlo by (apply Z.pow_nonneg; lia).
    change (2 ^ 53) with (2 * 2 ^ 52). nia.
Qed.

(** Conversion of an int64 to binary64 is correctly rounded: the
    double differs from the integer by at most 2^-53 of its magnitude,
    and not at all below 2^53. *)
Theorem float_of_int64_correct (z : Z) :
  let x := float_of_int64 z in
  2 ^ 53 * Z.abs (dy_num x - z * dy_den x) <= Z.abs z * dy_den x /\
  (Z.abs z < 2 ^ 53 -> dy_num x = z * dy_den x).
Proof.
  cbn zeta. split; [|apply float_of_int64_exact].
  pose proof (rne53_relative_error z 1 ltac:(lia)) as H. cbn zeta in H.
  now rewrite Z.mul_1_r in H.
Qed.

Lemma dy_den_pos (x : dyadic) : 0 < dy_den x.
Proof.
  unfold dy_den. destruct (Z.leb_spec 0 (expo x)); [lia | apply pow2_pos; lia].
Qed.

Lemma dy_num_eq (x : dyadic) : dy_num x = mant x * 2 ^ Z.max 0 (expo x).
Proof.
  unfold dy_num. destruct (Z.leb_spec 0 (expo x)); [now rewrite Z.max_r by lia|].
  rewrite Z.max_l by lia. cbn. lia.
Qed.

Lemma dy_den_eq (x : dyadic) : dy_den x = 2 ^ Z.max 0 (- expo x).
Proof.
  unfold dy_den. destruct (Z.leb_spec 0 (expo x)); [now rewrite Z.max_l by lia|].
  now rewrite Z.max_r by lia.
Qed.

(** Division is correctly rounded: the quotient differs from the exact
    one by at most 2^-53 of its magnitude. *)
Lemma fdiv_relative_error (x y : dyadic) :
  dy_num y <> 0 ->
  let q := fdiv x y in
  2 ^ 53 * Z.abs (dy_num q * (dy_den x * dy_num y) - dy_num x * dy_den y * dy_den q)
  <= Z.abs (dy_num x * dy_den y) * dy_den q.
Proof.
  intros Hy. cbn zeta. unfold fdiv. cbn zeta.
  pose proof (dy_den_pos x). 
  set (n := dy_num x * dy_den y). set (d := dy_den x * dy_num y).
  assert (d <> 0) by (unfold d; nia).
  destruct (Z.ltb_spec 0 d) as [Hd|Hd].
  - now apply rne53_relative_error.
  - pose proof (rne53_relative_error (- n) (- d) ltac:(lia)) as H1. cbn zeta in H1.
    rewrite Z.abs_opp in H1.
    replace (dy_num (rne53 (- n) (- d)) * d - n * dy_den (rne53 (- n) (- d)))
      with (- (dy_num (rne53 (- n) (- d)) * - d - - n * dy_den (rne53 (- n) (- d)))) by ring.
    now rewrite Z.abs_opp.
Qed.

(** The hours of a total below 2^53 minutes: the only rounding is that of
    the division by 60. *)
Lemma hours_of_relative_error (s : Z) :
  Z.abs s < 2 ^ 53 ->
  let h := hours_of s in
  2 ^ 53 * Z.abs (dy_num h * 60 - s * dy_den h) <= Z.abs s * dy_den h.
Proof.
  intros Hs. cbn zeta. unfold hours_of.
  set (x := float_of_int64 s). set (y := float_of_int64 60).
  pose proof (fdiv_relative_error x y) as H. cbn zeta in H.
  pose proof (float_of_int64_exact s Hs) as Hx. fold x in Hx.
  assert (dy_num y = 60 * dy_den y) as Hy by reflexivity.
  pose proof (dy_den_pos x) as Hdx. pose proof (dy_den_pos y) as Hdy.
  pose proof (dy_den_pos (fdiv x y)) as Hdq.
  specialize (H ltac:(lia)). rewrite Hx, Hy in H.
  set (q := fdiv x y) in *. 
  replace (dy_num q * (dy_den x * (60 * dy_den y)) - s * dy_den x * dy_den y * dy_den q)
    with ((dy_den x * dy_den y) * (dy_num q * 60 - s * dy_den q)) in H by ring.
  replace (s * dy_den x * dy_den y) with ((dy_den x * dy_den y) * s) in H by ring.
  assert (0 < dy_den x * dy_den y) as Hp by nia.
  revert H Hp. generalize (dy_den x * dy_den y). intros c H Hp.
  rewrite !(Z.abs_mul c), (Z.abs_eq c) in H by lia.
  apply (Z.mul_le_mono_pos_l _ _ c Hp).
  change (2 ^ 53) with 9007199254740992 in *. lia.
Qed.

(** ** The text of the hours *)

Lemma round_half_even_nonneg (n d : Z) : 0 < d -> 0 <= n -> 0 <= round_half_even n d.
Proof.
  intros Hd Hn. pose proof (round_half_even_floor n d).
  pose proof (Z.div_pos n d Hn Hd). lia.
Qed.

Lemma scale2_sign (n d e : Z) :
  0 < d -> 0 <= n -> 0 <= fst (scale2 n d e) /\ 0 < snd (scale2 n d e).
Proof.
  intros Hd Hn. destruct (Z_le_gt_dec 0 e).
  - rewrite scale2_nonneg by lia. cbn [fst snd]. pose proof (pow2_pos e ltac:(lia)). nia.
  - rewrite scale2_neg by lia. cbn [fst snd]. pose proof (pow2_pos (- e) ltac:(lia)). nia.
Qed.

Lemma rne53_nonneg (n d : Z) : 0 < d -> 0 <= n -> 0 <= mant (rne53 n d).
Proof.
  intros Hd Hn. unfold rne53. destruct (n =? 0); [cbn; lia|]. cbn zeta.
  pose proof (scale2_sign n d (floor_log2_ratio (Z.abs n) d - 52) Hd Hn) as [H1 H2].
  destruct (scale2 n d (floor_log2_ratio (Z.abs n) d - 52)) as [n' d']. cbn [mant fst snd] in *.
  now apply round_half_even_nonneg.
Qed.

Lemma dy_num_sign (x : dyadic) : 0 <= mant x -> 0 <= dy_num x.
Proof.
  intros H. unfold dy_num. destruct (Z.leb_spec 0 (expo x)); [|assumption].
  pose proof (pow2_pos (expo x) ltac:(lia)). nia.
Qed.

Lemma float_of_int64_nonneg (z : Z) : 0 <= z -> 0 <= mant (float_of_int64 z).
Proof. intros H. apply rne53_nonneg; lia. Qed.

Lemma hours_of_nonneg (s : Z) : 0 <= s -> 0 <= mant (hours_of s).
Proof.
  intros Hs. unfold hours_of, fdiv. cbn zeta.
  pose proof (dy_num_sign _ (float_of_int64_nonneg s Hs)) as Hx.
  pose proof (dy_den_pos (float_of_int64 s)) as Hdx.
  assert (0 < dy_num (float_of_int64 60)) as Hy by reflexivity.
  assert (0 < dy_den (float_of_int64 60)) as Hdy by reflexivity.
  destruct (Z.ltb_spec 0 (dy_den (float_of_int64 s) * dy_num (float_of_int64 60))); [|nia].
  apply rne53_nonneg; nia.
Qed.

(** Off the decimal ties, the tenth of an hour that is displayed is the
    one nearest to the exact quotient. *)
Lemma hours_of_tenths (s : Z) :
  0 <= s < 2 ^ 53 -> s mod 6 <> 3 ->
  round_half_even (dy_num (hours_of s) * 10) (dy_den (hours_of s)) = round_half_even s 6.
Proof.
  intros Hs Htie.
  pose proof (hours_of_relative_error s ltac:(lia)) as He. cbn zeta in He.
  pose proof (dy_den_pos (hours_of s)) as Hd.
  pose proof (round_half_even_error s 6 ltac:(lia)) as Hk.
  apply round_half_even_unique; [assumption|].
  set (k := round_half_even s 6) in *. set (num := dy_num (hours_of s)) in *.
  set (den := dy_den (hours_of s)) in *.
  assert (Z.abs (k * 6 - s) <= 2) as Hk2.
  { destruct (Z.eq_dec (2 * Z.abs (k * 6 - s)) 6) as [E|E]; [|lia].
    apply round_half_even_tie in E; [|lia]. lia. }
  assert (Z.abs (num * 60 - s * den) < den) as Hq.
  { change (2 ^ 53) with 9007199254740992 in *. rewrite (Z.abs_eq s) in He by lia. nia. }
  assert (6 * (k * den - num * 10) = (k * 6 - s) * den - (num * 60 - s * den)) as E6 by ring.
  assert (Z.abs ((k * 6 - s) * den) <= 2 * den) by (rewrite Z.abs_mul, (Z.abs_eq den) by lia; nia).
  lia.
Qed.

(** Off the decimal ties the card shows the exact quotient rounded to one
    decimal. *)
Lemma hours_of_text (s : Z) :
  0 <= s < 2 ^ 53 -> s mod 6 <> 3 ->
  format_f1 (hours_of s) = tenths_text (round_half_even s 6).
Proof.
  intros Hs Htie. unfold format_f1. cbn zeta.
  pose proof (hours_of_nonneg s ltac:(lia)) as Hm.
  destruct (Z.ltb_spec (mant (hours_of s)) 0); [lia|].
  now rewrite Z.abs_eq, hours_of_tenths by (try apply dy_num_sign; assumption).
Qed.

(** At a decimal tie the tenth follows the binary rounding of the division. *)
Lemma hours_of_tenths_tie (s : Z) :
  0 <= s < 2 ^ 53 -> s mod 6 = 3 ->
  round_half_even (dy_num (hours_of s) * 10) (dy_den (hours_of s)) =
  tie_break (dy_num (hours_of s) * 60 ?= s * dy_den (hours_of s)) s.
Proof.
  intros Hs Htie.
  pose proof (hours_of_relative_error s ltac:(lia)) as He. cbn zeta in He.
  pose proof (dy_den_pos (hours_of s)) as Hd.
  set (num := dy_num (hours_of s)) in *. set (den := dy_den (hours_of s)) in *.
  assert (Z.abs (num * 60 - s * den) < den) as Hq.
  { change (2 ^ 53) with 9007199254740992 in *. rewrite (Z.abs_eq s) in He by lia. nia. }
  assert (s = 6 * (s / 6) + 3) as Ek by lia_dm.
  destruct (Z.compare_spec (num * 60) (s * den)) as [E|E|E]; cbn [tie_break].
  - apply round_half_even_ratio; lia.
  - apply round_half_even_unique; [assumption|]. nia.
  - apply round_half_even_unique; [assumption|]. nia.
Qed.

Lemma hours_of_card_tenths (s : Z) :
  0 <= s < 2 ^ 53 ->
  round_half_even (dy_num (hours_of s) * 10) (dy_den (hours_of s)) = card_tenths s.
Proof.
  intros Hs. unfold card_tenths. destruct (Z.eqb_spec (s mod 6) 3) as [E|E].
  - now apply hours_of_tenths_tie.
  - now apply hours_of_tenths.
Qed.

(** The hours of a negative total are the opposite of the hours of its
    magnitude. *)
Lemma hours_of_opp (s : Z) :
  hours_of (- s) = mkdy (- mant (hours_of s)) (expo (hours_of s)).
Proof.
  unfold hours_of, fdiv, float_of_int64. cbn zeta. rewrite rne53_opp by lia.
  set (x := rne53 s 1). set (y := rne53 60 1).
  assert (dy_num (mkdy (- mant x) (expo x)) = - dy_num x) as ->.
  { unfold dy_num. cbn [mant expo]. destruct (0 <=? expo x); lia. }
  change (dy_den (mkdy (- mant x) (expo x))) with (dy_den x).
  pose proof (dy_den_pos x). assert (0 < dy_num y) by reflexivity.
  destruct (Z.ltb_spec 0 (dy_den x * dy_num y)); [|nia].
  rewrite Z.mul_opp_l. now apply rne53_opp.
Qed.

Lemma hours_of_pos (s : Z) : 0 < s -> 0 < mant (hours_of s).
Proof.
  intros Hs. pose proof (hours_of_nonneg s ltac:(lia)).
  enough (mant (hours_of s) <> 0) by lia.
  unfold hours_of, fdiv. cbn zeta.
  pose proof (dy_den_pos (float_of_int64 s)). assert (0 < dy_num (float_of_int64 60)) by reflexivity.
  destruct (Z.ltb_spec 0 (dy_den (float_of_int64 s) * dy_num (float_of_int64 60))); [|nia].
  assert (0 < dy_num (float_of_int64 s)).
  { pose proof (float_of_int64_nonneg s ltac:(lia)).
    pose proof (rne53_mant_bounds s 1 ltac:(lia) ltac:(lia)) as Hb. fold (float_of_int64 s) in Hb.
    rewrite dy_num_eq. pose proof (pow2_pos (Z.max 0 (expo (float_of_int64 s))) ltac:(lia)).
    pose proof (pow2_pos 52 ltac:(lia)). nia. }
  set (n := dy_num (float_of_int64 s) * dy_den (float_of_int64 60)).
  assert (n <> 0) as Hn by (unfold n; assert (0 < dy_den (float_of_int64 60)) by reflexivity; nia).
  pose proof (rne53_mant_bounds n _ H2 Hn). pose proof (pow2_pos 52 ltac:(lia)). lia.
Qed.

(** The text of the card for every total below 2^53 in magnitude. *)
Lemma hours_of_card_text (s : Z) :
  Z.abs s < 2 ^ 53 -> format_f1 (hours_of s) = card_text s.
Proof.
  intros Hs. unfold card_text. destruct (Z.ltb_spec s 0) as [Hneg|Hpos].
  - rewrite <- (Z.opp_involutive s) at 1. rewrite hours_of_opp.
    pose proof (hours_of_pos (- s) ltac:(lia)) as Hm. unfold format_f1. cbn zeta. cbn [mant].
    destruct (Z.ltb_spec (- mant (hours_of (- s))) 0); [|lia].
    f_equal. f_equal. rewrite <- hours_of_card_tenths by lia.
    unfold dy_num, dy_den. cbn [mant expo].
    destruct (Z.leb_spec 0 (expo (hours_of (- s)))); f_equal; lia.
  - unfold format_f1. cbn zeta. pose proof (hours_of_nonneg s Hpos).
    destruct (Z.ltb_spec (mant (hours_of s)) 0); [lia|].
    rewrite Z.abs_eq by now apply dy_num_sign. now rewrite hours_of_card_tenths by lia.
Qed.

(** ** Sample texts *)

(** The text of the hours card on sample totals of minutes, ties
    included: 3 and 9 minutes both print 0.1, 15 minutes prints 0.2. *)
Example hours_card_samples :
  map (fun s => format_f1 (hours_of s)) [0; 3; 9; 15; 21; 75; 100; -1; 9223372036854775807] =
  ["0.0"; "0.1"; "0.1"; "0.2"; "0.3"; "1.2"; "1.7"; "-0.0"; "153722867280912928.0"]%string.
Proof. vm_compute. reflexivity. Qed.
