(* ===== verification/Ieee.v ===== *)
(** * Ieee: the binary64 model agrees with the standard library's IEEE 754

    [Float64] defines conversion and division by their mathematical
    meaning: the exact value rounded to nearest, ties to even, at 53 bits
    ([rne53]).  The standard library's [SpecFloat] defines the same
    operations the way hardware computes them: mantissas are aligned,
    divided as integers, shifted right bit by bit while a round bit and a
    sticky bit record what is lost, and rounded from these two bits.

    This file proves that the two agree: for every integer below 2^1023
    in magnitude, [float_of_int64] is [binary_normalize]
    ([float_of_int64_normalize]); for all normal doubles whose quotient is
    normal, [fdiv] is [SFdiv] ([fdiv_SFdiv]); hence the hours of the card
    are the IEEE quotient of the total by 60 ([hours_of_SFdiv]).

    The proof characterises the shift record of [SpecFloat] arithmetically
    ([shr_of]: the integer part of a quotient, whether the rest is at
    least one half, whether it is off zero and one half), shows that one
    shift doubles the denominator ([shr_1_shr_of]) and that rounding from
    the record is [round_half_even] ([round_nearest_even_shr_of]).

    Zeros are positive in the model: a quotient [0 / y] with [y < 0] is
    [-0.0] in IEEE arithmetic, which is why [fdiv_SFdiv] is stated for
    dividends that are not zero. *)

From Stdlib Require Import ZArith Lia Bool SpecFloat.
From S2P Require Import Prelude Float64.

#[local] Open Scope Z_scope.

(** ** Definitions *)

(** A double in the standard library's representation. *)
Definition to_spec_float (x : dyadic) : spec_float :=
  binary_normalize 53 1024 (mant x) (expo x) false.

(** The IEEE quotient of two integers converted to binary64. *)
Definition spec_float_div_int (a b : Z) : spec_float :=
  SFdiv 53 1024 (binary_normalize 53 1024 a 0 false) (binary_normalize 53 1024 b 0 false).

(** The shift record of the quotient [n / d]: its integer part, whether
    the rest is at least one half, and whether it is off zero and one
    half. *)
Definition shr_of (n d : Z) : shr_record :=
  let r := n mod d in
  Build_shr_record (n / d) (d <=? 2 * r) (negb (r =? 0) && negb (2 * r =? d)).

(** The double of sign [sx], mantissa [m] in [2^52, 2^53] and exponent
    [e]: a mantissa that rounding has carried to [2^53] is renormalised. *)
Definition normal (sx : bool) (m e : Z) : spec_float :=
  if m =? 2 ^ 53 then S754_finite sx (Z.to_pos (2 ^ 52)) (e + 1)
  else S754_finite sx (Z.to_pos m) e.

(** The mantissa [rne53] chooses for a positive integer. *)
Definition int_mant (z : Z) : Z :=
  let e := Z.log2 z - 52 in round_half_even (z * 2 ^ Z.max 0 (- e)) (1 * 2 ^ Z.max 0 e).

(** Case analysis on the boolean comparisons of the goal. *)
Ltac bool_cases :=
  repeat match goal with
  | |- context [?a <=? ?b] => destruct (Z.leb_spec a b)
  | |- context [?a <? ?b] => destruct (Z.ltb_spec a b)
  | |- context [?a =? ?b] => destruct (Z.eqb_spec a b)
  end.

(** ** Shifting right *)

Lemma div_mod_double (n d : Z) :
  0 < d -> n / (2 * d) = n / d / 2 /\ n mod (2 * d) = n mod d + d * ((n / d) mod 2).
Proof.
  intros Hd. split.
  - rewrite (Z.mul_comm 2 d). symmetry. apply Z.div_div; lia.
  - rewrite (Z.mul_comm 2 d). apply Z.rem_mul_r; lia.
Qed.

Lemma shr_1_shr_of (n d : Z) : 0 <= n -> 0 < d -> shr_1 (shr_of n d) = shr_of n (2 * d).
Proof.
  intros Hn Hd. unfold shr_of. cbn zeta.
  destruct (div_mod_double n d Hd) as [-> ->].
  pose proof (Z.mod_pos_bound n d Hd). pose proof (Z.div_pos n d Hn Hd).
  generalize dependent (n mod d). generalize dependent (n / d). clear n Hn.
  intros q Hq r Hr.
  destruct q as [|[p|p|]|p]; try lia; cbn [shr_1];
    match goal with |- context [?x mod 2] =>
      first [replace (x mod 2) with 0 by lia_dm | replace (x mod 2) with 1 by lia_dm]
    end;
    rewrite ?Z.mul_0_r, ?Z.mul_1_r, ?Z.add_0_r;
    f_equal; try lia_dm; bool_cases; cbn; try reflexivity; exfalso; lia.
Qed.

Lemma pow2_xO (p : positive) : 2 ^ Zpos p~0 = 2 ^ Zpos p * 2 ^ Zpos p.
Proof. rewrite <- Z.pow_add_r by lia. f_equal. lia. Qed.

Lemma pow2_xI (p : positive) : 2 ^ Zpos p~1 = 2 * (2 ^ Zpos p * 2 ^ Zpos p).
Proof. rewrite <- Z.pow_add_r, <- Z.pow_succ_r by lia. f_equal. lia. Qed.

Lemma iter_pos_shr_of (p : positive) (n : Z) :
  0 <= n -> forall d, 0 < d -> iter_pos shr_1 p (shr_of n d) = shr_of n (d * 2 ^ Zpos p).
Proof.
  intros Hn. induction p as [p IH|p IH|]; intros d Hd; cbn [iter_pos].
  - pose proof (pow2_pos (Zpos p) ltac:(lia)).
    rewrite shr_1_shr_of, !IH, pow2_xI by nia. f_equal. ring.
  - pose proof (pow2_pos (Zpos p) ltac:(lia)).
    rewrite !IH, pow2_xO by nia. f_equal. ring.
  - rewrite shr_1_shr_of by assumption. f_equal. change (2 ^ 1) with 2. ring.
Qed.

Lemma shr_shr_of (n d e k : Z) :
  0 <= n -> 0 < d ->
  shr (shr_of n d) e k = (shr_of n (d * 2 ^ Z.max 0 k), e + Z.max 0 k).
Proof.
  intros Hn Hd. destruct k as [|p|p]; cbn [shr Z.max Z.compare].
  - now rewrite Z.mul_1_r, Z.add_0_r.
  - now rewrite iter_pos_shr_of.
  - now rewrite Z.mul_1_r, Z.add_0_r.
Qed.

Lemma round_nearest_even_shr_of (n d : Z) :
  0 < d ->
  round_nearest_even (shr_m (shr_of n d)) (loc_of_shr_record (shr_of n d)) = round_half_even n d.
Proof.
  intros Hd. unfold shr_of, round_half_even. cbn zeta. cbn [shr_m loc_of_shr_record].
  pose proof (Z.mod_pos_bound n d Hd).
  destruct (Z.compare_spec (2 * (n mod d)) d); bool_cases; cbn; try reflexivity; lia.
Qed.

Lemma digits2_pos_size (p : positive) : digits2_pos p = Pos.size p.
Proof. induction p; cbn; congruence. Qed.

Lemma Zdigits2_log2 (m : Z) : 0 < m -> Zdigits2 m = Z.log2 m + 1.
Proof.
  destruct m as [|p|p]; try lia. intros _. cbn [Zdigits2]. rewrite digits2_pos_size.
  destruct p; cbn [Z.log2 Pos.size]; lia.
Qed.

Lemma shr_fexp_shr_of (m e : Z) (l : location) (n d : Z) :
  0 <= n -> 0 < d -> shr_record_of_loc m l = shr_of n d -> 0 < m ->
  -1074 <= e + (Z.log2 m - 52) ->
  shr_fexp 53 1024 m e l =
  (shr_of n (d * 2 ^ Z.max 0 (Z.log2 m - 52)), e + Z.max 0 (Z.log2 m - 52)).
Proof.
  intros Hn Hd Hl Hm He. unfold shr_fexp. rewrite Hl, Zdigits2_log2, shr_shr_of by assumption.
  unfold fexp, emin. now replace (Z.max (Z.log2 m + 1 + e - 53) (3 - 1024 - 53) - e)
    with (Z.log2 m - 52) by lia.
Qed.

Lemma shr_of_exact (m : Z) : shr_record_of_loc m loc_Exact = shr_of m 1.
Proof.
  unfold shr_of. cbn zeta. rewrite Z.mod_1_r, Z.div_1_r. reflexivity.
Qed.

Lemma shr_of_m (m : Z) (l : location) (n d : Z) :
  shr_record_of_loc m l = shr_of n d -> m = n / d.
Proof. intros H. apply (f_equal shr_m) in H. now destruct l as [|[]]. Qed.

Lemma log2_53 (m : Z) : 2 ^ 52 <= m < 2 ^ 53 -> Z.log2 m = 52.
Proof. intros H. apply Z.log2_unique; [lia | exact H]. Qed.

(** The second normalisation of [binary_round_aux]: a mantissa that
    rounding has carried to [2^53] is shifted once more. *)
Lemma shr_fexp_exact (M e : Z) :
  2 ^ 52 <= M <= 2 ^ 53 -> -1074 <= e ->
  shr_fexp 53 1024 M e loc_Exact =
  if M =? 2 ^ 53 then (shr_of (2 ^ 52) 1, e + 1) else (shr_of M 1, e).
Proof.
  intros HM He. pose proof (pow2_pos 52 ltac:(lia)).
  rewrite (shr_fexp_shr_of M e loc_Exact M 1) by
    (try apply shr_of_exact; try lia; pose proof (Z.log2_le_mono _ _ (proj1 HM));
     rewrite Z.log2_pow2 in *; lia).
  destruct (Z.eqb_spec M (2 ^ 53)) as [->|Hne].
  - reflexivity.
  - rewrite log2_53 by lia. cbn [Z.max Z.sub Z.add Z.opp Z.pos_sub Z.compare Z.pow].
    now rewrite Z.mul_1_r, Z.add_0_r.
Qed.

Lemma finite_normal (sx : bool) (M e : Z) :
  2 ^ 52 <= M <= 2 ^ 53 -> -1074 <= e <= 970 ->
  (let '(mrs, e') := shr_fexp 53 1024 M e loc_Exact in
   match shr_m mrs with
   | 0 => S754_zero sx
   | Zpos m => if e' <=? 1024 - 53 then S754_finite sx m e' else S754_infinity sx
   | Zneg _ => S754_nan
   end) = normal sx M e.
Proof.
  intros HM He. rewrite shr_fexp_exact by lia. unfold normal.
  destruct (Z.eqb_spec M (2 ^ 53)) as [->|Hne].
  - cbn [shr_of shr_m]. change (2 ^ 52 / 1) with (Zpos (Z.to_pos (2 ^ 52))). cbn iota.
    destruct (Z.leb_spec (e + 1) (1024 - 53)); [reflexivity | lia].
  - cbn [shr_of shr_m]. rewrite Z.div_1_r. pose proof (pow2_pos 52 ltac:(lia)).
    destruct M as [|m|m]; try lia. cbn [Z.to_pos].
    destruct (Z.leb_spec e (1024 - 53)); [reflexivity | lia].
Qed.

Lemma binary_round_aux_exact (sx : bool) (M e : Z) :
  2 ^ 52 <= M <= 2 ^ 53 -> -1074 <= e <= 970 ->
  binary_round_aux 53 1024 sx M e loc_Exact = normal sx M e.
Proof.
  intros HM He. unfold binary_round_aux. rewrite shr_fexp_exact by lia.
  destruct (Z.eqb_spec M (2 ^ 53)) as [->|Hne].
  - change (round_nearest_even _ _) with (2 ^ 52).
    unfold normal. change (2 ^ 53 =? 2 ^ 53) with true. cbn iota.
    destruct (Z.eq_dec e 970) as [->|]; [reflexivity|].
    rewrite finite_normal by lia. reflexivity.
  - rewrite round_nearest_even_shr_of, round_half_even_one by lia.
    apply finite_normal; lia.
Qed.

(** A quotient whose integer part has [k + 53] bits has 53 bits before the
    point once divided by [2 ^ k]. *)
Lemma log2_binade (n d k : Z) :
  0 < d -> 0 < n / d -> 0 <= k -> Z.log2 (n / d) = k + 52 -> in_binade (n, d * 2 ^ k).
Proof.
  intros Hd Hq Hk El. pose proof (log2_bounds (n / d) Hq) as Hb.
  rewrite El, Z.pow_add_r in Hb by lia. change (2 ^ 53) with (2 * 2 ^ 52).
  pose proof (pow2_pos k Hk). pose proof (pow2_pos 52 ltac:(lia)).
  pose proof (Z.mul_div_le n d Hd). pose proof (Z.mul_succ_div_gt n d Hd).
  split; cbn [fst snd]; nia.
Qed.

(** [binary_round_aux] on a quotient of at least 53 bits: the quotient is
    shifted to 53 bits and rounded to nearest, ties to even. *)
Lemma binary_round_aux_shr_of (sx : bool) (m e : Z) (l : location) (n d k : Z) :
  0 < d -> shr_record_of_loc m l = shr_of n d -> 2 ^ 52 <= m -> Z.log2 m = k + 52 ->
  -1074 <= e + k <= 970 ->
  binary_round_aux 53 1024 sx m e l = normal sx (round_half_even n (d * 2 ^ k)) (e + k).
Proof.
  intros Hd Hl Hm Ek He. pose proof (shr_of_m _ _ _ _ Hl) as Em.
  pose proof (pow2_pos 52 ltac:(lia)) as H52.
  assert (0 <= n) as Hn.
  { destruct (Z_lt_le_dec n 0) as [Hlt|]; [|assumption].
    pose proof (Z.div_lt_upper_bound n d 0 Hd ltac:(lia)). lia. }
  assert (0 <= k) as Hk by (apply Z.log2_le_mono in Hm; rewrite Z.log2_pow2 in Hm by lia; lia).
  assert (0 < d * 2 ^ k) as Hdk by (pose proof (pow2_pos k Hk); nia).
  unfold binary_round_aux.
  rewrite (shr_fexp_shr_of m e l n d Hn Hd Hl) by lia.
  replace (Z.log2 m - 52) with k by lia. rewrite Z.max_r by exact Hk.
  rewrite round_nearest_even_shr_of by exact Hdk.
  apply finite_normal; [|lia]. apply round_half_even_binade; [exact Hdk|].
  apply log2_binade; subst m; lia.
Qed.

(** ** Conversion of integers *)

Lemma iter_xO (q p : positive) : Zpos (Pos.iter xO p q) = Zpos p * 2 ^ Zpos q.
Proof.
  revert p. induction q as [q IH|q IH|]; intros p; cbn [Pos.iter].
  - rewrite Pos2Z.inj_xO, !IH, pow2_xI. ring.
  - rewrite !IH, pow2_xO. ring.
  - rewrite Pos2Z.inj_xO. change (2 ^ 1) with 2. ring.
Qed.

Lemma float_of_int64_pos (z : Z) :
  0 < z -> float_of_int64 z = mkdy (int_mant z) (Z.log2 z - 52).
Proof.
  intros Hz. unfold float_of_int64, rne53. destruct (Z.eqb_spec z 0); [lia|].
  now rewrite Z.abs_eq, floor_log2_ratio_int, scale2_eq by lia.
Qed.

Lemma binary_round_int (sx : bool) (p : positive) :
  Zpos p < 2 ^ 1023 ->
  binary_round 53 1024 sx p 0 = normal sx (int_mant (Zpos p)) (Z.log2 (Zpos p) - 52).
Proof.
  intros Hp. assert (Z.log2 (Zpos p) < 1023) as Hl by (apply Z.log2_lt_pow2; lia).
  pose proof (Z.log2_nonneg (Zpos p)) as Hl0. pose proof (pow2_pos 52 ltac:(lia)) as H52.
  pose proof (log2_bounds (Zpos p) ltac:(lia)) as Hb.
  unfold binary_round, int_mant. cbn zeta.
  change (Zpos (digits2_pos p)) with (Zdigits2 (Zpos p)). rewrite Zdigits2_log2 by lia.
  unfold fexp, emin.
  replace (Z.max (Z.log2 (Zpos p) + 1 + 0 - 53) (3 - 1024 - 53)) with (Z.log2 (Zpos p) - 52) by lia.
  remember (Z.log2 (Zpos p)) as lg eqn:Elg. remember (lg - 52) as e eqn:Ee.
  unfold shl_align. rewrite Z.sub_0_r.
  destruct (Z_le_gt_dec 0 e) as [He|He].
  - replace (match e with Zneg d => (Pos.iter xO p d, e) | _ => (p, 0) end) with (p, 0)
      by (destruct e; [reflexivity..|lia]).
    rewrite (binary_round_aux_shr_of sx (Zpos p) 0 loc_Exact (Zpos p) 1 e);
      try apply shr_of_exact; try lia.
    + rewrite Z.max_l, Z.max_r by lia. cbn [Z.opp Z.pow]. now rewrite Z.mul_1_r.
    + rewrite (pow2_split lg 52) in Hb by lia. pose proof (pow2_pos (lg - 52)). nia.
  - destruct e as [|k|k]; try lia.
    rewrite (binary_round_aux_shr_of sx (Zpos (Pos.iter xO p k)) (Zneg k) loc_Exact
               (Zpos (Pos.iter xO p k)) 1 0); try apply shr_of_exact; rewrite ?iter_xO; try lia.
    + rewrite Z.max_r, Z.max_l by lia. cbn [Z.opp Z.pow]. now rewrite Z.add_0_r.
    + rewrite (pow2_split 52 lg) by lia. replace (52 - lg) with (Zpos k) by lia. nia.
    + rewrite Z.log2_mul_pow2 by lia. lia.
Qed.

Lemma int_mant_bounds (z : Z) : 0 < z -> 2 ^ 52 <= int_mant z <= 2 ^ 53.
Proof.
  intros Hz. pose proof (rne53_scaled z 1 ltac:(lia) ltac:(lia)) as Hs.
  pose proof (scale2_pos z 1 (Z.log2 z - 52) Hz ltac:(lia)) as [Ha _].
  rewrite Z.abs_eq, floor_log2_ratio_int, scale2_eq in * by lia. cbn [fst snd] in Ha.
  destruct Hs as (Hd & Hb). rewrite Z.abs_eq in Hb by lia.
  now apply round_half_even_binade.
Qed.

Lemma binary_round_normal (sx : bool) (p : positive) (e : Z) :
  2 ^ 52 <= Zpos p <= 2 ^ 53 -> -1074 <= e <= 970 ->
  binary_round 53 1024 sx p e = normal sx (Zpos p) e.
Proof.
  intros Hp He. unfold binary_round.
  change (Zpos (digits2_pos p)) with (Zdigits2 (Zpos p)). rewrite Zdigits2_log2 by lia.
  pose proof (Z.log2_le_mono _ _ (proj1 Hp)) as Hl. rewrite Z.log2_pow2 in Hl by lia.
  unfold shl_align, fexp, emin.
  destruct (Z.max (Z.log2 (Zpos p) + 1 + e - 53) (3 - 1024 - 53) - e) eqn:E; try lia;
    now apply binary_round_aux_exact.
Qed.

Lemma to_spec_float_normal (sx : bool) (M E : Z) :
  2 ^ 52 <= M <= 2 ^ 53 -> -1074 <= E <= 970 ->
  to_spec_float (mkdy (cond_Zopp sx M) E) = normal sx M E.
Proof.
  intros HM HE. pose proof (pow2_pos 52 ltac:(lia)). destruct M as [|p|p]; try lia.
  unfold to_spec_float. cbn [mant expo]. destruct sx; cbn [cond_Zopp Z.opp binary_normalize];
    now apply binary_round_normal.
Qed.

(** Conversion is the standard library's: an integer below 2^1023 in
    magnitude converts to the double [binary_normalize] gives. *)
Lemma float_of_int64_normalize (z : Z) :
  Z.abs z < 2 ^ 1023 ->
  to_spec_float (float_of_int64 z) = binary_normalize 53 1024 z 0 false.
Proof.
  intros Hz. destruct z as [|p|p]; [reflexivity|..]; cbn [binary_normalize];
    rewrite binary_round_int by lia.
  - rewrite float_of_int64_pos by lia.
    apply (to_spec_float_normal false); [apply int_mant_bounds; lia|].
    pose proof (Z.log2_nonneg (Zpos p)).
    assert (Z.log2 (Zpos p) < 1023) by (apply Z.log2_lt_pow2; lia). lia.
  - change (Zneg p) with (- Zpos p). unfold float_of_int64.
    rewrite rne53_opp by lia. fold (float_of_int64 (Zpos p)).
    rewrite float_of_int64_pos by lia. cbn [mant expo].
    apply (to_spec_float_normal true); [apply int_mant_bounds; lia|].
    pose proof (Z.log2_nonneg (Zpos p)).
    assert (Z.log2 (Zpos p) < 1023) by (apply Z.log2_lt_pow2; lia). lia.
Qed.

(** ** Division *)

Lemma div_eucl_div_mod (a b : Z) : Z.div_eucl a b = (a / b, a mod b).
Proof. unfold Z.div, Z.modulo. now destruct (Z.div_eucl a b). Qed.

Lemma new_location_shr_of (a b : Z) :
  0 < b -> shr_record_of_loc (a / b) (new_location b (a mod b)) = shr_of a b.
Proof.
  intros Hb. pose proof (Z.mod_pos_bound a b Hb) as Hr.
  assert (Z.even b = false -> 2 * (a mod b) <> b) as Hodd.
  { intros Hev E. rewrite <- E, Z.even_mul in Hev. discriminate. }
  unfold new_location, new_location_even, new_location_odd, shr_of. cbn zeta.
  generalize dependent (a mod b). intros r Hr Hodd.
  destruct (Z.even b); [|specialize (Hodd eq_refl)];
    destruct (Z.eqb_spec r 0); cbn [negb andb shr_record_of_loc].
  - f_equal. destruct (Z.leb_spec b (2 * r)); [lia | reflexivity].
  - destruct (Z.compare_spec (2 * r) b); cbn [shr_record_of_loc]; f_equal;
      bool_cases; cbn; try reflexivity; lia.
  - f_equal. destruct (Z.leb_spec b (2 * r)); [lia | reflexivity].
  - destruct (Z.compare_spec (2 * r + 1) b); cbn [shr_record_of_loc]; f_equal;
      bool_cases; cbn; try reflexivity; lia.
Qed.

Lemma SFdiv_normal (sx sy : bool) (px py : positive) (ex ey k : Z) :
  2 ^ 52 <= Zpos px < 2 ^ 53 -> 2 ^ 52 <= Zpos py < 2 ^ 53 ->
  Z.log2 (Zpos px * 2 ^ 53 / Zpos py) = k + 52 ->
  -1074 <= ex - ey - 53 -> ex - ey - 53 + k <= 970 ->
  SFdiv 53 1024 (S754_finite sx px ex) (S754_finite sy py ey) =
  normal (xorb sx sy) (round_half_even (Zpos px * 2 ^ 53) (Zpos py * 2 ^ k)) (ex - ey - 53 + k).
Proof.
  intros Hx Hy Hk Hlo Hhi. unfold SFdiv, SFdiv_core_binary. cbn zeta.
  rewrite !Zdigits2_log2, !log2_53 by lia. unfold fexp, emin.
  replace (Z.min (Z.max (52 + 1 + ex - (52 + 1 + ey) - 53) (3 - 1024 - 53)) (ex - ey))
    with (ex - ey - 53) by lia.
  replace (ex - ey - (ex - ey - 53)) with 53 by lia.
  rewrite Z.shiftl_mul_pow2 by lia.
  rewrite (div_eucl_div_mod (Zpos px * 2 ^ 53) (Zpos py)).
  assert (2 ^ 52 <= Zpos px * 2 ^ 53 / Zpos py) as Hq.
  { apply Z.div_le_lower_bound; [lia|]. change (2 ^ 53) with (2 * 2 ^ 52) in *.
    pose proof (pow2_pos 52 ltac:(lia)). nia. }
  pose proof (Z.log2_le_mono _ _ Hq) as Hl. rewrite Z.log2_pow2 in Hl by lia.
  apply binary_round_aux_shr_of; try lia. now apply new_location_shr_of.
Qed.

Lemma normal_finite (sx : bool) (M E : Z) :
  2 ^ 52 <= M <= 2 ^ 53 ->
  exists (p : positive) (a : Z),
    normal sx M E = S754_finite sx p (E + a) /\ 0 <= a <= 1 /\ M = Zpos p * 2 ^ a /\
    2 ^ 52 <= Zpos p < 2 ^ 53.
Proof.
  intros HM. unfold normal. destruct (Z.eqb_spec M (2 ^ 53)) as [->|Hne].
  - exists (Z.to_pos (2 ^ 52)), 1. repeat split; lia.
  - pose proof (pow2_pos 52 ltac:(lia)).
    exists (Z.to_pos M), 0. rewrite Z.add_0_r, Z2Pos.id by lia. repeat split; lia.
Qed.

Lemma cond_Zopp_mul (s : bool) (a b : Z) : cond_Zopp s a * b = cond_Zopp s (a * b).
Proof. destruct s; cbn; ring. Qed.

(** The sign of a quotient is the exclusive or of the signs. *)
Lemma fdiv_signed (sx sy : bool) (Mx My Ex Ey : Z) :
  0 < Mx -> 0 < My ->
  let r := rne53 (Mx * 2 ^ Z.max 0 Ex * 2 ^ Z.max 0 (- Ey))
                 (2 ^ Z.max 0 (- Ex) * (My * 2 ^ Z.max 0 Ey)) in
  fdiv (mkdy (cond_Zopp sx Mx) Ex) (mkdy (cond_Zopp sy My) Ey) =
  mkdy (cond_Zopp (xorb sx sy) (mant r)) (expo r).
Proof.
  intros HMx HMy r. unfold fdiv. cbn zeta. rewrite !dy_num_eq, !dy_den_eq. cbn [mant expo].
  rewrite !cond_Zopp_mul, (Z.mul_comm (2 ^ Z.max 0 (- Ex))), cond_Zopp_mul,
    (Z.mul_comm _ (2 ^ Z.max 0 (- Ex))). fold r.
  set (P := Mx * 2 ^ Z.max 0 Ex * 2 ^ Z.max 0 (- Ey)) in *.
  set (Q := 2 ^ Z.max 0 (- Ex) * (My * 2 ^ Z.max 0 Ey)) in *.
  assert (0 < Q) as HQ.
  { pose proof (pow2_pos (Z.max 0 (- Ex)) ltac:(lia)). pose proof (pow2_pos (Z.max 0 Ey) ltac:(lia)).
    unfold Q. nia. }
  destruct sx, sy; cbn [cond_Zopp xorb].
  - destruct (Z.ltb_spec 0 (- Q)); [lia|]. rewrite !Z.opp_involutive. subst r; now destruct (rne53 P Q).
  - destruct (Z.ltb_spec 0 Q); [|lia]. now rewrite rne53_opp.
  - destruct (Z.ltb_spec 0 (- Q)); [lia|]. rewrite Z.opp_involutive. now rewrite rne53_opp.
  - destruct (Z.ltb_spec 0 Q); [|lia]. subst r; now destruct (rne53 P Q).
Qed.

Lemma cond_Zopp_abs (m : Z) : m = cond_Zopp (m <? 0) (Z.abs m).
Proof. destruct (Z.ltb_spec m 0); cbn; lia. Qed.

(** The quotient of two mantissas of 53 bits, scaled by [2^53], has 53 or
    54 bits. *)
Lemma quotient_bits (px py k : Z) :
  2 ^ 52 <= px < 2 ^ 53 -> 2 ^ 52 <= py < 2 ^ 53 ->
  Z.log2 (px * 2 ^ 53 / py) = k + 52 ->
  0 <= k <= 1 /\ in_binade (px * 2 ^ 53, py * 2 ^ k).
Proof.
  intros Hx Hy Hk. pose proof (pow2_pos 52 ltac:(lia)) as H52.
  assert (2 ^ 52 <= px * 2 ^ 53 / py < 2 ^ 54) as Hq.
  { change (2 ^ 54) with (4 * 2 ^ 52). change (2 ^ 53) with (2 * 2 ^ 52) in *.
    split; [apply Z.div_le_lower_bound | apply Z.div_lt_upper_bound]; nia. }
  pose proof (Z.log2_le_mono _ _ (proj1 Hq)) as Hl. rewrite Z.log2_pow2 in Hl by lia.
  assert (Z.log2 (px * 2 ^ 53 / py) < 54) by (apply Z.log2_lt_pow2; lia).
  split; [lia|]. apply log2_binade; lia.
Qed.

(** Division is the standard library's: on normal doubles whose quotient
    is in the range of the normal doubles, [fdiv] is [SFdiv]. *)
Lemma fdiv_SFdiv (x y : dyadic) :
  2 ^ 52 <= Z.abs (mant x) <= 2 ^ 53 -> 2 ^ 52 <= Z.abs (mant y) <= 2 ^ 53 ->
  -1074 <= expo x <= 970 -> -1074 <= expo y <= 970 -> -1020 <= expo x - expo y <= 1021 ->
  to_spec_float (fdiv x y) = SFdiv 53 1024 (to_spec_float x) (to_spec_float y).
Proof.
  intros Hx Hy HEx HEy HE. destruct x as [mx Ex], y as [my Ey]. cbn [mant expo] in *.
  pose proof (pow2_pos 52 ltac:(lia)) as H52.
  rewrite (cond_Zopp_abs mx), (cond_Zopp_abs my).
  generalize dependent (Z.abs mx). generalize (mx <? 0). intros sx Mx Hx.
  generalize dependent (Z.abs my). generalize (my <? 0). intros sy My Hy. clear mx my.
  destruct (normal_finite sx Mx Ex Hx) as (px & a & Enx & Ha & EMx & Hpx).
  destruct (normal_finite sy My Ey Hy) as (py & b & Eny & Hb & EMy & Hpy).
  rewrite !to_spec_float_normal, Enx, Eny by assumption.
  destruct (quotient_bits (Zpos px) (Zpos py) (Z.log2 (Zpos px * 2 ^ 53 / Zpos py) - 52))
    as [Hk HN]; [lia..|].
  set (k := Z.log2 (Zpos px * 2 ^ 53 / Zpos py) - 52) in *.
  rewrite (SFdiv_normal sx sy px py (Ex + a) (Ey + b) k) by (unfold k; lia).
  rewrite fdiv_signed by lia. cbn zeta.
  pose proof (pow2_pos k ltac:(lia)) as Hpk.
  rewrite (rne53_eq _ _ (Zpos px * 2 ^ 53) (Zpos py * 2 ^ k) (Ex + a - (Ey + b) - 53 + k)).
  - cbn [mant expo]. apply to_spec_float_normal; [|lia].
    apply round_half_even_binade; [lia | exact HN].
  - pose proof (pow2_pos (Z.max 0 Ex) ltac:(lia)). pose proof (pow2_pos (Z.max 0 (- Ey)) ltac:(lia)).
    nia.
  - pose proof (pow2_pos (Z.max 0 (- Ex)) ltac:(lia)). pose proof (pow2_pos (Z.max 0 Ey) ltac:(lia)).
    nia.
  - lia.
  - exact HN.
  - rewrite scale2_eq. cbn [fst snd]. rewrite EMx, EMy.
    set (e := Ex + a - (Ey + b) - 53 + k).
    transitivity (Zpos px * Zpos py *
      2 ^ (a + Z.max 0 Ex + Z.max 0 (- Ey) + Z.max 0 (- e) + k));
      [rewrite !Z.pow_add_r by lia; ring|].
    transitivity (Zpos px * Zpos py *
      2 ^ (53 + Z.max 0 (- Ex) + b + Z.max 0 Ey + Z.max 0 e));
      [|rewrite !Z.pow_add_r by lia; ring].
    f_equal. f_equal. unfold e. lia.
Qed.

(** The double of an integer that is not zero is normal. *)
Lemma float_of_int64_normal (z : Z) :
  z <> 0 ->
  2 ^ 52 <= Z.abs (mant (float_of_int64 z)) <= 2 ^ 53 /\
  expo (float_of_int64 z) = Z.log2 (Z.abs z) - 52.
Proof.
  intros Hz. destruct z as [|p|p]; [contradiction|..].
  - rewrite float_of_int64_pos by lia. cbn [mant expo Z.abs].
    pose proof (int_mant_bounds (Zpos p) ltac:(lia)). pose proof (pow2_pos 52 ltac:(lia)).
    rewrite Z.abs_eq by lia. auto.
  - change (Zneg p) with (- Zpos p). unfold float_of_int64. rewrite rne53_opp by lia.
    fold (float_of_int64 (Zpos p)). rewrite float_of_int64_pos by lia. cbn [mant expo].
    rewrite Z.abs_opp. cbn [Z.abs].
    pose proof (int_mant_bounds (Zpos p) ltac:(lia)). pose proof (pow2_pos 52 ltac:(lia)).
    rewrite Z.abs_eq by lia. auto.
Qed.

(** ** The hours of the card *)

(** C13. The hours of the card are the IEEE 754 quotient: for every total
    of minutes [s] below 2^1023 in magnitude, every int64 included,
    [hours_of s] is the double that the standard library's [SFdiv]
    computes from the conversions of [s] and of 60 at precision 53, bit
    for bit (sign, mantissa and exponent). *)
Theorem hours_of_SFdiv (s : Z) :
  Z.abs s < 2 ^ 1023 -> to_spec_float (hours_of s) = spec_float_div_int s 60.
Proof.
  intros Hs. unfold spec_float_div_int.
  rewrite <- !float_of_int64_normalize by (try assumption; reflexivity).
  destruct (Z.eq_dec s 0) as [->|Hnz]; [reflexivity|].
  destruct (float_of_int64_normal s Hnz) as [Hm He].
  assert (Z.log2 (Z.abs s) < 1023) by (apply Z.log2_lt_pow2; lia).
  pose proof (Z.log2_nonneg (Z.abs s)).
  unfold hours_of. apply fdiv_SFdiv; rewrite ?He; try assumption; try lia.
  - change (mant (float_of_int64 60)) with (15 * 2 ^ 49). change (2 ^ 53) with (16 * 2 ^ 49).
    change (2 ^ 52) with (8 * 2 ^ 49). pose proof (pow2_pos 49 ltac:(lia)).
    rewrite Z.abs_eq by lia. lia.
  - change (expo (float_of_int64 60)) with (-47). lia.
  - change (expo (float_of_int64 60)) with (-47). lia.
Qed.

Lemma hours_of_SFdiv_witness :
  to_spec_float (hours_of 4500) = spec_float_div_int 4500 60.
Proof. apply (hours_of_SFdiv 4500). reflexivity. Defined.
