(* ===== verification/GroupBy.v ===== *)
(** * GroupBy: [groupby(key).agg({'Calories': 'sum', 'Duration': 'sum'})]

    [create_charts] groups the rows of the frame by a string key, sums two
    int64 columns per group and calls [reset_index()], which yields one row
    per distinct key, in increasing key order, with the columns [Date] (the
    key), [Calories] and [Duration].

    [groupby_sum] computes that table in one pass over the rows, keeping
    the table sorted ([week_upsert]).  [groupby_spec] is the definition by
    split-apply-combine: the sorted distinct keys, and for each key the
    sums over the rows that carry it.

    Theorems: the keys of the result are strictly increasing (hence
    unique) and are exactly the keys of the input; every row of the result
    holds the int64 sums of its group; the column totals are conserved;
    the one-pass table equals the split-apply-combine table; and the
    result does not depend on the order of the input rows. *)

From Stdlib Require Import String ZArith List Lia Bool.
From Stdlib Require Import Permutation Sorted Morphisms RelationClasses.
From S2P Require Import Prelude StringOrder Int64.
Import ListNotations.

#[local] Open Scope Z_scope.

(** ** Definitions *)

(** A row of the grouped table. *)
Record WeeklyRow : Type := mkWeekly { wk_Date : string; wk_Calories : Z; wk_Duration : Z }.

(** Add the values [c], [d] of one input row with key [k] to a table
    sorted by key. *)
Fixpoint week_upsert (k : string) (c d : Z) (l : list WeeklyRow) : list WeeklyRow :=
  match l with
  | [] => [mkWeekly k c d]
  | r :: rest =>
      match String.compare k (wk_Date r) with
      | Lt => mkWeekly k c d :: l
      | Eq => mkWeekly k (add64 (wk_Calories r) c) (add64 (wk_Duration r) d) :: rest
      | Gt => r :: week_upsert k c d rest
      end
  end.

(** Insert a key into a sorted list of distinct keys. *)
Fixpoint key_insert (k : string) (l : list string) : list string :=
  match l with
  | [] => [k]
  | k' :: rest =>
      match String.compare k k' with
      | Lt => k :: l
      | Eq => l
      | Gt => k' :: key_insert k rest
      end
  end.

(** The distinct keys in increasing order. *)
Definition sort_keys (keys : list string) : list string :=
  fold_left (fun acc k => key_insert k acc) keys [].

(** The two summed columns, so that lemmas are stated once for both. *)
Inductive column : Type := Calories_col | Duration_col.

Definition wk_get (col : column) (w : WeeklyRow) : Z :=
  match col with
  | Calories_col => wk_Calories w
  | Duration_col => wk_Duration w
  end.

Definition pick (col : column) (c d : Z) : Z :=
  match col with
  | Calories_col => c
  | Duration_col => d
  end.

Definition has_key (k : string) (w : WeeklyRow) : bool := String.eqb (wk_Date w) k.

(** Both sums of a table row are int64 values. *)
Definition wk_in_range (w : WeeklyRow) : Prop :=
  in_int64 (wk_Calories w) /\ in_int64 (wk_Duration w).

(** Sum of a column over the rows of the table that carry key [k]. *)
Definition table_sum (col : column) (k : string) (l : list WeeklyRow) : Z :=
  sum64 (map (wk_get col) (filter (has_key k) l)).

Section GroupBy.
Context {R : Type} (key : R -> string) (cal dur : R -> Z).

(** The rows of the group of [k]. *)
Definition group_of (k : string) (rows : list R) : list R :=
  filter (fun r => String.eqb (key r) k) rows.

(** One pass over the rows. *)
Definition groupby_sum (rows : list R) : list WeeklyRow :=
  fold_left (fun acc r => week_upsert (key r) (cal r) (dur r) acc) rows [].

(** Split by key, apply the sums, combine in key order. *)
Definition groupby_spec (rows : list R) : list WeeklyRow :=
  map (fun k => mkWeekly k (sum64 (map cal (group_of k rows)))
                           (sum64 (map dur (group_of k rows))))
      (sort_keys (map key rows)).

(** The value an input row contributes to a column. *)
Definition row_pick (col : column) (r : R) : Z := pick col (cal r) (dur r).

(** The input columns hold int64 values. *)
Definition rows_in_range (rows : list R) : Prop :=
  Forall (fun r => in_int64 (cal r) /\ in_int64 (dur r)) rows.

End GroupBy.

(** Three input rows as (key, calories, minutes); two share a key and
    arrive out of key order. *)
Definition sample_rows : list (string * (Z * Z)) :=
  [("2024-02"%string, (450, 45)); ("2024-01"%string, (300, 30)); ("2024-02"%string, (100, 10))].

Definition sample_key (r : string * (Z * Z)) : string := fst r.
Definition sample_cal (r : string * (Z * Z)) : Z := fst (snd r).
Definition sample_dur (r : string * (Z * Z)) : Z := snd (snd r).

(** ** Sorted lists of strings *)

Lemma sorted_head_min (k : string) (l : list string) (x : string) :
  StronglySorted str_lt (k :: l) -> In x (k :: l) -> x = k \/ str_lt k x.
Proof.
  intros HS [->|Hin]; [now left|]. right.
  apply StronglySorted_inv in HS as [_ HF]. rewrite Forall_forall in HF. now apply HF.
Qed.

(** Two strictly sorted lists with the same elements are equal. *)
Lemma sorted_ext (l1 l2 : list string) :
  StronglySorted str_lt l1 -> StronglySorted str_lt l2 ->
  (forall x, In x l1 <-> In x l2) -> l1 = l2.
Proof.
  revert l2. induction l1 as [|a l1 IH]; intros [|b l2] H1 H2 Hin.
  - reflexivity.
  - now destruct (proj2 (Hin b) (or_introl eq_refl)).
  - now destruct (proj1 (Hin a) (or_introl eq_refl)).
  - assert (a = b) as ->.
    { destruct (sorted_head_min b l2 a H2 (proj1 (Hin a) (or_introl eq_refl))) as [|Hba]; [assumption|].
      destruct (sorted_head_min a l1 b H1 (proj2 (Hin b) (or_introl eq_refl))) as [|Hab]; [congruence|].
      now destruct (str_lt_asym _ _ Hab). }
    f_equal. pose proof (StronglySorted_inv H1) as [H1' F1].
    pose proof (StronglySorted_inv H2) as [H2' F2].
    rewrite Forall_forall in F1, F2.
    apply IH; [assumption..|]. intros x. split; intros Hx.
    + destruct (proj1 (Hin x) (or_intror Hx)) as [<-|]; [|assumption].
      now destruct (str_lt_irrefl _ (F1 _ Hx)).
    + destruct (proj2 (Hin x) (or_intror Hx)) as [<-|]; [|assumption].
      now destruct (str_lt_irrefl _ (F2 _ Hx)).
Qed.

Lemma sorted_NoDup (l : list string) : StronglySorted str_lt l -> NoDup l.
Proof.
  induction 1 as [|a l _ IH HF]; constructor; [|assumption].
  rewrite Forall_forall in HF. intros Hin. exact (str_lt_irrefl _ (HF _ Hin)).
Qed.

(** ** Keys *)

Lemma key_insert_In (k x : string) (l : list string) :
  In x (key_insert k l) <-> x = k \/ In x l.
Proof.
  induction l as [|k' l IH]; cbn [key_insert].
  - cbn. intuition.
  - destruct (String.compare k k') eqn:E; cbn [In]; [apply compare_eq in E; subst|..];
      rewrite ?IH; intuition.
Qed.

Lemma key_insert_Forall (P : string -> Prop) (k : string) (l : list string) :
  P k -> Forall P l -> Forall P (key_insert k l).
Proof.
  intros Hk HF. apply Forall_forall. intros x Hx.
  apply key_insert_In in Hx as [->|Hx]; [assumption|].
  rewrite Forall_forall in HF. now apply HF.
Qed.

Lemma key_insert_sorted (k : string) (l : list string) :
  StronglySorted str_lt l -> StronglySorted str_lt (key_insert k l).
Proof.
  induction 1 as [|k' l HS IH HF]; cbn [key_insert].
  - repeat constructor.
  - destruct (String.compare k k') eqn:E.
    + now constructor.
    + constructor; [now constructor|]. constructor; [exact E|].
      eapply Forall_impl; [|exact HF]. intros x Hx. exact (str_lt_trans _ _ _ E Hx).
    + constructor; [assumption|]. apply key_insert_Forall; [|assumption].
      now apply compare_gt_lt.
Qed.

Lemma sort_keys_snoc (keys : list string) (k : string) :
  sort_keys (keys ++ [k]) = key_insert k (sort_keys keys).
Proof. unfold sort_keys. now rewrite fold_left_app. Qed.

Lemma sort_keys_sorted (keys : list string) : StronglySorted str_lt (sort_keys keys).
Proof.
  induction keys as [|k keys IH] using rev_ind; [constructor|].
  rewrite sort_keys_snoc. now apply key_insert_sorted.
Qed.

Lemma sort_keys_In (keys : list string) (x : string) : In x (sort_keys keys) <-> In x keys.
Proof.
  induction keys as [|k keys IH] using rev_ind; [reflexivity|].
  rewrite sort_keys_snoc, key_insert_In, in_app_iff, IH. cbn. intuition.
Qed.

#[export] Hint Resolve sort_keys_sorted key_insert_sorted : fit.

(** ** One step of the pass *)

Lemma week_upsert_keys (k : string) (c d : Z) (l : list WeeklyRow) :
  map wk_Date (week_upsert k c d l) = key_insert k (map wk_Date l).
Proof.
  induction l as [|r l IH]; cbn [week_upsert key_insert map]; [reflexivity|].
  destruct (String.compare k (wk_Date r)) eqn:E; cbn [map wk_Date].
  - apply compare_eq in E. now subst.
  - reflexivity.
  - now rewrite IH.
Qed.

(** Reduce the projections of table rows and close an equation between
    wrapped sums, for either column. *)
Ltac wk_sums col :=
  destruct col; cbn [wk_get pick wk_Date wk_Calories wk_Duration]; wrap_eq.

Lemma week_upsert_total (col : column) (k : string) (c d : Z) (l : list WeeklyRow) :
  sum64 (map (wk_get col) (week_upsert k c d l)) =
  add64 (sum64 (map (wk_get col) l)) (pick col c d).
Proof.
  induction l as [|r l IH]; cbn [week_upsert map]; [wk_sums col|].
  destruct (String.compare k (wk_Date r)); cbn [map]; rewrite ?sum64_cons, ?IH; wk_sums col.
Qed.

Lemma week_upsert_table_sum (col : column) (k' k : string) (c d : Z) (l : list WeeklyRow) :
  table_sum col k' (week_upsert k c d l) =
  if String.eqb k k' then add64 (table_sum col k' l) (pick col c d) else table_sum col k' l.
Proof.
  unfold table_sum, has_key. induction l as [|r l IH]; cbn [week_upsert].
  - cbn [filter wk_Date]. destruct (String.eqb k k'); cbn [map]; wk_sums col.
  - destruct (String.compare k (wk_Date r)) eqn:E; [apply compare_eq in E; subst k|..];
      cbn [filter wk_Date]; destruct (String.eqb (wk_Date r) k') eqn:E1;
      rewrite ?E1; try destruct (String.eqb k k') eqn:E2; cbn [map];
      rewrite ?sum64_cons, ?IH, ?E2; wk_sums col.
Qed.

Lemma week_upsert_in_range (k : string) (c d : Z) (l : list WeeklyRow) :
  in_int64 c -> in_int64 d ->
  Forall wk_in_range l -> Forall wk_in_range (week_upsert k c d l).
Proof.
  intros Hc Hd. induction 1 as [|r l Hr HF IH]; cbn [week_upsert].
  - constructor; [split; assumption | constructor].
  - destruct (String.compare k (wk_Date r)).
    + constructor; [split; apply add64_range | assumption].
    + constructor; [split; assumption | now constructor].
    + now constructor.
Qed.

(** In a table with distinct keys the rows of a key are that row alone. *)
Lemma filter_has_key_unique (w : WeeklyRow) (l : list WeeklyRow) :
  NoDup (map wk_Date l) -> In w l -> filter (has_key (wk_Date w)) l = [w].
Proof.
  induction l as [|r l IH]; intros HN Hin; [destruct Hin|].
  cbn [map] in HN. apply NoDup_cons_iff in HN as [Hnotin HN]. cbn [filter].
  destruct Hin as [->|Hin].
  - unfold has_key at 1. rewrite String.eqb_refl. f_equal.
    apply filter_none. intros x Hx. unfold has_key.
    apply String.eqb_neq. intros E. apply Hnotin. rewrite <- E. now apply in_map.
  - unfold has_key at 1. destruct (String.eqb_spec (wk_Date r) (wk_Date w)) as [E|_]; [|now apply IH].
    exfalso. apply Hnotin. rewrite E. now apply in_map.
Qed.

(** ** The whole pass *)

Section GroupByFacts.
Context {R : Type} (key : R -> string) (cal dur : R -> Z).

Lemma groupby_sum_snoc (rows : list R) (r : R) :
  groupby_sum key cal dur (rows ++ [r]) =
  week_upsert (key r) (cal r) (dur r) (groupby_sum key cal dur rows).
Proof. unfold groupby_sum. now rewrite fold_left_app. Qed.

Lemma groupby_sum_keys (rows : list R) :
  map wk_Date (groupby_sum key cal dur rows) = sort_keys (map key rows).
Proof.
  induction rows as [|r rows IH] using rev_ind; [reflexivity|].
  rewrite groupby_sum_snoc, week_upsert_keys, IH, map_app. cbn [map].
  now rewrite sort_keys_snoc.
Qed.

(** The keys of the grouped table are strictly increasing in string
    order, hence distinct. *)
Lemma groupby_sum_sorted (rows : list R) :
  StronglySorted str_lt (map wk_Date (groupby_sum key cal dur rows)).
Proof. rewrite groupby_sum_keys. apply sort_keys_sorted. Qed.

(** The grouped table has a row for a key exactly when some input row
    carries that key: no bucket is invented and none is lost. *)
Lemma groupby_sum_keys_In (rows : list R) (k : string) :
  In k (map wk_Date (groupby_sum key cal dur rows)) <-> In k (map key rows).
Proof. rewrite groupby_sum_keys. apply sort_keys_In. Qed.

(** Conservation: for each summed column, the int64 sum of the
    grouped table equals the int64 sum of the input column. *)
Lemma groupby_sum_total (col : column) (rows : list R) :
  sum64 (map (wk_get col) (groupby_sum key cal dur rows)) = sum64 (map (row_pick cal dur col) rows).
Proof.
  induction rows as [|r rows IH] using rev_ind; [reflexivity|].
  rewrite groupby_sum_snoc, week_upsert_total, IH, map_app, sum64_app.
  cbn [map]. unfold row_pick. wrap_eq.
Qed.

Lemma group_of_snoc (k : string) (rows : list R) (r : R) :
  group_of key k (rows ++ [r]) =
  group_of key k rows ++ (if String.eqb (key r) k then [r] else []).
Proof. unfold group_of. now rewrite filter_snoc. Qed.

Lemma groupby_sum_table_sum (col : column) (k : string) (rows : list R) :
  table_sum col k (groupby_sum key cal dur rows) =
  sum64 (map (row_pick cal dur col) (group_of key k rows)).
Proof.
  induction rows as [|r rows IH] using rev_ind; [reflexivity|].
  rewrite groupby_sum_snoc, week_upsert_table_sum, IH, group_of_snoc.
  destruct (String.eqb (key r) k); rewrite map_app, sum64_app; cbn [map];
    unfold row_pick; wrap_eq.
Qed.

Lemma groupby_sum_in_range (rows : list R) :
  rows_in_range cal dur rows -> Forall wk_in_range (groupby_sum key cal dur rows).
Proof.
  unfold rows_in_range.
  induction rows as [|r rows IH] using rev_ind; intros HF; [constructor|].
  apply Forall_app in HF as [HF Hr]. apply Forall_cons_iff in Hr as [[Hc Hd] _].
  rewrite groupby_sum_snoc. apply week_upsert_in_range; auto.
Qed.

(** Every row of the grouped table holds, in each summed column, the
    int64 sum of that column over the input rows of its key. *)
Lemma groupby_sum_row (col : column) (rows : list R) (w : WeeklyRow) :
  rows_in_range cal dur rows ->
  In w (groupby_sum key cal dur rows) ->
  wk_get col w = sum64 (map (row_pick cal dur col) (group_of key (wk_Date w) rows)).
Proof.
  intros HR Hin. rewrite <- groupby_sum_table_sum. unfold table_sum.
  rewrite (filter_has_key_unique w) by (try apply sorted_NoDup, groupby_sum_sorted; assumption).
  cbn [map]. rewrite sum64_cons, sum64_nil. symmetry. apply add64_0_r.
  pose proof (groupby_sum_in_range rows HR) as HF. rewrite Forall_forall in HF.
  destruct (HF w Hin). now destruct col.
Qed.

(** Refinement: the one-pass table is the split-apply-combine table
    that defines [groupby(...).agg(sum)]. *)
Lemma groupby_sum_refines (rows : list R) :
  rows_in_range cal dur rows -> groupby_sum key cal dur rows = groupby_spec key cal dur rows.
Proof.
  intros HR. unfold groupby_spec. rewrite <- groupby_sum_keys, map_map.
  rewrite <- (map_id (groupby_sum key cal dur rows)) at 1.
  apply map_ext_in. intros w Hin.
  pose proof (groupby_sum_row Calories_col rows w HR Hin) as Hc.
  pose proof (groupby_sum_row Duration_col rows w HR Hin) as Hd.
  destruct w as [k c d]. cbn [wk_get wk_Date wk_Calories wk_Duration] in *.
  now rewrite Hc, Hd.
Qed.

Lemma groupby_spec_Permutation (rows rows' : list R) :
  Permutation rows rows' -> groupby_spec key cal dur rows = groupby_spec key cal dur rows'.
Proof.
  intros HP. unfold groupby_spec.
  assert (sort_keys (map key rows) = sort_keys (map key rows')) as ->.
  { apply sorted_ext; auto with fit. intros x. rewrite !sort_keys_In.
    split; apply Permutation_in; [|symmetry]; now apply Permutation_map. }
  apply map_ext. intros k. unfold group_of.
  f_equal; apply sum64_Permutation, Permutation_map, Permutation_filter; assumption.
Qed.

(** The grouped table does not depend on the order of the rows of the
    frame. *)
Lemma groupby_sum_Permutation (rows rows' : list R) :
  rows_in_range cal dur rows -> Permutation rows rows' ->
  groupby_sum key cal dur rows = groupby_sum key cal dur rows'.
Proof.
  intros HR HP. rewrite !groupby_sum_refines; [now apply groupby_spec_Permutation | | assumption].
  unfold rows_in_range. now rewrite <- HP.
Qed.

End GroupByFacts.

(** ** A worked example *)

Example groupby_sum_sample :
  groupby_sum sample_key sample_cal sample_dur sample_rows =
  [mkWeekly "2024-01" 300 30; mkWeekly "2024-02" 550 55].
Proof. reflexivity. Qed.
