(* ===== verification/Counts.v ===== *)
(** * Counts: [df['Workout_Type'].value_counts()]

    [value_counts] returns one entry per distinct value of the column with
    the number of rows that carry it, sorted by decreasing count.  The
    donut chart takes its labels from the index of the result and its
    values from the counts.

    [counts_first_seen] counts the values in order of first appearance;
    [sort_desc] is an insertion sort by decreasing count
    ([Prelude.sort_by] on the counts).  The library sorts the counts with
    the default sort of numpy, which does not promise an order among
    labels of the same count; the model returns them in order of first
    appearance, one of the orders the library may return.  A
    [distribution] of a column is any table the library may return: one
    entry per distinct value with the number of its occurrences, by
    decreasing count.

    Theorems: the counts add up to the number of rows; every label of the
    column appears exactly once, with the number of its occurrences; the
    counts are positive and decreasing; permuting the rows permutes the
    result; and [value_counts] is a distribution that every distribution
    of the column agrees with up to the order of tied labels: the same
    sequence of counts, the same label at every place whose count no
    other label has, the same table when no two counts are equal.  No
    theorem of the development outside this file depends on the order
    of tied labels. *)

From Stdlib Require Import String ZArith List Lia Bool.
From Stdlib Require Import Permutation Sorted Morphisms RelationClasses.
From S2P Require Import Prelude StringOrder.
Import ListNotations.

#[local] Open Scope Z_scope.

(** ** Definitions *)

(** Count one more occurrence of [k]. *)
Fixpoint count_upsert (k : string) (l : list (string * Z)) : list (string * Z) :=
  match l with
  | [] => [(k, 1)]
  | (k', n) :: rest =>
      if String.eqb k k' then (k', n + 1) :: rest else (k', n) :: count_upsert k rest
  end.

(** The distinct values with their counts, in order of first appearance. *)
Definition counts_first_seen (xs : list string) : list (string * Z) :=
  fold_left (fun acc k => count_upsert k acc) xs [].

(** Insert an entry before the first entry whose count is not larger. *)
Fixpoint insert_desc (p : string * Z) (l : list (string * Z)) : list (string * Z) :=
  match l with
  | [] => [p]
  | q :: rest => if snd q <=? snd p then p :: l else q :: insert_desc p rest
  end.

(** Sort by decreasing count; equal counts keep their order. *)
Definition sort_desc (l : list (string * Z)) : list (string * Z) :=
  fold_right insert_desc [] l.

(** [Series.value_counts()] *)
Definition value_counts (xs : list string) : list (string * Z) :=
  sort_desc (counts_first_seen xs).

(** The count recorded for a label: the sum over its entries. *)
Definition count_of (k : string) (l : list (string * Z)) : Z :=
  zsum (map snd (filter (fun p => String.eqb (fst p) k) l)).

(** An entry is at least as frequent as the one that follows it. *)
Definition count_ge (p q : string * Z) : Prop := snd q <= snd p.

(** The entries with count [n]. *)
Definition has_count (n : Z) (p : string * Z) : bool := snd p =? n.

(** The tables [value_counts] may return for a column, whatever sort the
    library runs: one entry per distinct value, with the number of its
    occurrences, by decreasing count. *)
Definition distribution (xs : list string) (t : list (string * Z)) : Prop :=
  NoDup (map fst t) /\
  (forall k n, In (k, n) t <-> In k xs /\ n = Z.of_nat (count_occ string_dec xs k)) /\
  Sorted count_ge t.

(** An entry whose count no other entry has. *)
Definition untied (t : list (string * Z)) (p : string * Z) : Prop :=
  forall q, In q t -> snd q = snd p -> q = p.

(** ** Counting *)

Lemma count_upsert_total (k : string) (l : list (string * Z)) :
  zsum (map snd (count_upsert k l)) = zsum (map snd l) + 1.
Proof.
  induction l as [|[k' n] l IH]; cbn [count_upsert]; [reflexivity|].
  destruct (String.eqb k k'); cbn [map snd]; autorewrite with fit_rw; rewrite ?IH; lia.
Qed.

Lemma count_upsert_labels (k x : string) (l : list (string * Z)) :
  In x (map fst (count_upsert k l)) <-> x = k \/ In x (map fst l).
Proof.
  induction l as [|[k' n] l IH]; cbn [count_upsert]; [cbn; intuition|].
  destruct (String.eqb_spec k k') as [->|Hne]; cbn [map fst In]; rewrite ?IH; intuition.
Qed.

Lemma count_upsert_NoDup (k : string) (l : list (string * Z)) :
  NoDup (map fst l) -> NoDup (map fst (count_upsert k l)).
Proof.
  induction l as [|[k' n] l IH]; cbn [count_upsert]; intros HN.
  - repeat constructor. intros [].
  - cbn [map fst] in HN. apply NoDup_cons_iff in HN as [Hnotin HN].
    destruct (String.eqb_spec k k') as [->|Hne]; cbn [map fst]; constructor; auto.
    rewrite count_upsert_labels. intros [E|Hin]; [congruence | contradiction].
Qed.

Lemma count_upsert_count_of (k' k : string) (l : list (string * Z)) :
  count_of k' (count_upsert k l) = count_of k' l + (if String.eqb k k' then 1 else 0).
Proof.
  unfold count_of. induction l as [|[k0 n] l IH]; cbn [count_upsert].
  - cbn [filter fst]. destruct (String.eqb k k'); reflexivity.
  - destruct (String.eqb_spec k k0) as [->|Hne]; cbn [filter fst].
    + destruct (String.eqb k0 k'); cbn [map snd]; autorewrite with fit_rw; lia.
    + destruct (String.eqb k0 k') eqn:E; cbn [map snd]; autorewrite with fit_rw; rewrite IH; lia.
Qed.

Lemma count_upsert_positive (k : string) (l : list (string * Z)) :
  Forall (fun p => 1 <= snd p) l -> Forall (fun p => 1 <= snd p) (count_upsert k l).
Proof.
  induction 1 as [|[k' n] l Hp HF IH]; cbn [count_upsert].
  - repeat constructor. cbn. lia.
  - cbn [snd] in Hp. destruct (String.eqb k k'); constructor; cbn [snd]; auto; lia.
Qed.

Section FirstSeen.
Context (xs : list string).

Lemma counts_first_seen_snoc (k : string) :
  counts_first_seen (xs ++ [k]) = count_upsert k (counts_first_seen xs).
Proof. unfold counts_first_seen. now rewrite fold_left_app. Qed.

End FirstSeen.

Lemma counts_first_seen_total (xs : list string) :
  zsum (map snd (counts_first_seen xs)) = Z.of_nat (length xs).
Proof.
  induction xs as [|k xs IH] using rev_ind; [reflexivity|].
  rewrite counts_first_seen_snoc, count_upsert_total, IH, length_app. cbn [length]. lia.
Qed.

Lemma counts_first_seen_labels (xs : list string) (x : string) :
  In x (map fst (counts_first_seen xs)) <-> In x xs.
Proof.
  induction xs as [|k xs IH] using rev_ind; [reflexivity|].
  rewrite counts_first_seen_snoc, count_upsert_labels, in_app_iff, IH. cbn. intuition.
Qed.

Lemma counts_first_seen_NoDup (xs : list string) : NoDup (map fst (counts_first_seen xs)).
Proof.
  induction xs as [|k xs IH] using rev_ind; [constructor|].
  rewrite counts_first_seen_snoc. now apply count_upsert_NoDup.
Qed.

Lemma counts_first_seen_positive (xs : list string) :
  Forall (fun p => 1 <= snd p) (counts_first_seen xs).
Proof.
  induction xs as [|k xs IH] using rev_ind; [constructor|].
  rewrite counts_first_seen_snoc. now apply count_upsert_positive.
Qed.

Lemma count_occ_snoc (xs : list string) (k x : string) :
  Z.of_nat (count_occ string_dec (xs ++ [k]) x) =
  Z.of_nat (count_occ string_dec xs x) + (if String.eqb k x then 1 else 0).
Proof.
  rewrite count_occ_app. cbn [count_occ].
  destruct (string_dec k x) as [->|Hne].
  - rewrite String.eqb_refl. lia.
  - apply String.eqb_neq in Hne. rewrite Hne. lia.
Qed.

Lemma counts_first_seen_count_of (xs : list string) (x : string) :
  count_of x (counts_first_seen xs) = Z.of_nat (count_occ string_dec xs x).
Proof.
  induction xs as [|k xs IH] using rev_ind; [reflexivity|].
  now rewrite counts_first_seen_snoc, count_upsert_count_of, IH, count_occ_snoc.
Qed.

(** ** Sorting *)

(** [sort_desc] is the stable sort of [Prelude] on the counts. *)
Lemma sort_desc_by : insert_desc = insert_by snd /\ sort_desc = sort_by snd.
Proof. split; reflexivity. Qed.

Lemma insert_desc_Permutation (p : string * Z) (l : list (string * Z)) :
  Permutation (insert_desc p l) (p :: l).
Proof. exact (insert_by_Permutation snd p l). Qed.

Lemma sort_desc_Permutation (l : list (string * Z)) : Permutation (sort_desc l) l.
Proof. exact (sort_by_Permutation snd l). Qed.

#[export] Instance count_ge_trans : Transitive count_ge.
Proof. exact (key_ge_trans snd). Qed.

Lemma insert_desc_sorted (p : string * Z) (l : list (string * Z)) :
  Sorted count_ge l -> Sorted count_ge (insert_desc p l).
Proof. exact (insert_by_sorted snd p l). Qed.

Lemma sort_desc_sorted (l : list (string * Z)) : Sorted count_ge (sort_desc l).
Proof. exact (sort_by_sorted snd l). Qed.

#[export] Hint Resolve counts_first_seen_NoDup : fit.

(** ** The distribution *)

Lemma count_of_unique (k : string) (n : Z) (l : list (string * Z)) :
  NoDup (map fst l) -> In (k, n) l -> count_of k l = n.
Proof.
  unfold count_of. induction l as [|[k' n'] l IH]; intros HN Hin; [destruct Hin|].
  cbn [map fst] in HN. apply NoDup_cons_iff in HN as [Hnotin HN]. cbn [filter fst].
  destruct Hin as [E|Hin].
  - inv E. rewrite String.eqb_refl. cbn [map snd]. rewrite zsum_cons, filter_none; [cbn; lia|].
    intros [k1 n1] Hx. cbn [fst]. apply String.eqb_neq. intros ->.
    apply Hnotin. change k with (fst (k, n1)). now apply in_map.
  - destruct (String.eqb_spec k' k) as [->|_]; [|now apply IH].
    exfalso. apply Hnotin. change k with (fst (k, n)). now apply in_map.
Qed.

Lemma value_counts_first_seen (xs : list string) :
  Permutation (value_counts xs) (counts_first_seen xs).
Proof. apply sort_desc_Permutation. Qed.

(** The counts of the distribution add up to the number of rows. *)
Lemma value_counts_total (xs : list string) :
  zsum (map snd (value_counts xs)) = Z.of_nat (length xs).
Proof. now rewrite value_counts_first_seen, counts_first_seen_total. Qed.

(** The distribution is sorted by decreasing count. *)
Lemma value_counts_sorted (xs : list string) :
  StronglySorted count_ge (value_counts xs).
Proof. apply Sorted_StronglySorted; [apply count_ge_trans | apply sort_desc_sorted]. Qed.

(** Every label of the column appears in the distribution, once. *)
Lemma value_counts_labels (xs : list string) :
  NoDup (map fst (value_counts xs)) /\
  forall x, In x (map fst (value_counts xs)) <-> In x xs.
Proof.
  split.
  - eapply Permutation_NoDup; [|apply (counts_first_seen_NoDup xs)].
    symmetry. apply Permutation_map, value_counts_first_seen.
  - intros x. rewrite <- (counts_first_seen_labels xs x).
    split; apply Permutation_in, Permutation_map;
      [|symmetry]; apply value_counts_first_seen.
Qed.

(** The count shown for a label is the number of rows with that
    label. *)
Lemma value_counts_count (xs : list string) (k : string) (n : Z) :
  In (k, n) (value_counts xs) -> n = Z.of_nat (count_occ string_dec xs k).
Proof.
  intros Hin. rewrite <- counts_first_seen_count_of. symmetry.
  apply count_of_unique; [apply counts_first_seen_NoDup|].
  eapply Permutation_in; [apply value_counts_first_seen | exact Hin].
Qed.

Lemma value_counts_complete (xs : list string) (k : string) :
  In k xs -> In (k, Z.of_nat (count_occ string_dec xs k)) (value_counts xs).
Proof.
  intros Hin. apply (proj2 (value_counts_labels xs)) in Hin.
  apply in_map_iff in Hin as ([k' n] & E & Hin). cbn [fst] in E. subst k'.
  now rewrite <- (value_counts_count xs k n Hin).
Qed.

Lemma value_counts_positive (xs : list string) :
  Forall (fun p => 1 <= snd p) (value_counts xs).
Proof.
  eapply Permutation_Forall; [symmetry; apply value_counts_first_seen|].
  apply counts_first_seen_positive.
Qed.

Lemma NoDup_of_fst {A B : Type} (l : list (A * B)) : NoDup (map fst l) -> NoDup l.
Proof. apply NoDup_map_inv. Qed.

(** ** Stability *)

Lemma insert_desc_filter (n : Z) (p : string * Z) (l : list (string * Z)) :
  filter (has_count n) (insert_desc p l) =
  (if has_count n p then [p] else []) ++ filter (has_count n) l.
Proof. exact (insert_by_filter snd n p l). Qed.

Lemma sort_desc_filter (n : Z) (l : list (string * Z)) :
  filter (has_count n) (sort_desc l) = filter (has_count n) l.
Proof. exact (sort_by_filter snd n l). Qed.

Lemma sorted_head_max (p : string * Z) (l : list (string * Z)) (x : string * Z) :
  Sorted count_ge (p :: l) -> In x (p :: l) -> snd x <= snd p.
Proof.
  intros HS%Sorted_StronglySorted Hx; [|exact count_ge_trans].
  inversion HS as [|? ? _ Hall]; subst. destruct Hx as [<-|Hx]; [lia|].
  rewrite Forall_forall in Hall. now apply Hall.
Qed.

Lemma filter_has_count_head (p : string * Z) (l : list (string * Z)) :
  filter (has_count (snd p)) (p :: l) = p :: filter (has_count (snd p)) l.
Proof. cbn [filter]. unfold has_count at 1. now rewrite Z.eqb_refl. Qed.

(** A table sorted by decreasing count is determined by its entries of
    each count, in their order. *)
Lemma sorted_by_count_unique (l m : list (string * Z)) :
  Sorted count_ge l -> Sorted count_ge m ->
  (forall n, filter (has_count n) l = filter (has_count n) m) -> l = m.
Proof.
  revert m. induction l as [|p l IH]; intros m Hl Hm H.
  - destruct m as [|q m]; [reflexivity|]. specialize (H (snd q)).
    rewrite filter_has_count_head in H. discriminate.
  - destruct m as [|q m]; [specialize (H (snd p)); rewrite filter_has_count_head in H; discriminate|].
    assert (In p (q :: m)) as Hp.
    { apply (filter_In (has_count (snd p))). rewrite <- H, filter_has_count_head. now left. }
    assert (In q (p :: l)) as Hq.
    { apply (filter_In (has_count (snd q))). rewrite H, filter_has_count_head. now left. }
    pose proof (sorted_head_max _ _ _ Hm Hp). pose proof (sorted_head_max _ _ _ Hl Hq).
    assert (snd q = snd p) as E by lia.
    pose proof (H (snd p)) as Hn. rewrite filter_has_count_head, <- E, filter_has_count_head in Hn.
    injection Hn as -> Hn. f_equal. apply IH; [now inv Hl | now inv Hm|].
    intros n. specialize (H n). cbn [filter] in H. destruct (has_count n q); congruence.
Qed.

(** The order the model gives to tied labels: the table is sorted by
    decreasing count, labels with the same count appear in the order in
    which they first appear in the column, and it is the only such
    table. *)
Lemma value_counts_stable (xs : list string) (l : list (string * Z)) :
  l = value_counts xs <->
  Sorted count_ge l /\
  forall n, filter (has_count n) l = filter (has_count n) (counts_first_seen xs).
Proof.
  split.
  - intros ->. split; [apply sort_desc_sorted | intros n; apply sort_desc_filter].
  - intros [Hs Hf]. apply sorted_by_count_unique; [exact Hs | apply sort_desc_sorted|].
    intros n. rewrite Hf. symmetry. apply sort_desc_filter.
Qed.

(** ** Up to ties *)

Lemma value_counts_distribution (xs : list string) : distribution xs (value_counts xs).
Proof.
  split; [apply value_counts_labels|]. split; [|apply sort_desc_sorted].
  intros k n. split.
  - intros Hin. split; [|now apply value_counts_count].
    apply (proj2 (value_counts_labels xs)). change k with (fst (k, n)). now apply in_map.
  - intros [Hin ->]. now apply value_counts_complete.
Qed.

Lemma distribution_Permutation (xs : list string) (t t' : list (string * Z)) :
  distribution xs t -> distribution xs t' -> Permutation t t'.
Proof.
  intros (Hn & Hin & _) (Hn' & Hin' & _).
  apply NoDup_Permutation; [now apply NoDup_of_fst | now apply NoDup_of_fst|].
  intros [k n]. now rewrite Hin, Hin'.
Qed.

Lemma sorted_counts (t : list (string * Z)) :
  Sorted count_ge t -> StronglySorted Z.ge (map snd t).
Proof.
  intros H%Sorted_StronglySorted; [|exact count_ge_trans].
  induction H as [|p t _ IH Hp]; cbn [map]; constructor; [exact IH|].
  apply Forall_map. revert Hp. apply Forall_impl. unfold count_ge. lia.
Qed.

(** Two sorted tables with the same entries have the same counts at the
    same places. *)
Lemma sorted_counts_eq (l m : list (string * Z)) :
  Sorted count_ge l -> Sorted count_ge m -> Permutation l m -> map snd l = map snd m.
Proof.
  intros Hl Hm HP. apply (sorted_Permutation_eq Z.ge); [lia | | |now apply Permutation_map];
    now apply sorted_counts.
Qed.

Lemma untied_nth (l m : list (string * Z)) (i : nat) (p : string * Z) :
  Permutation m l -> map snd m = map snd l ->
  nth_error l i = Some p -> untied l p -> nth_error m i = Some p.
Proof.
  intros HP E Hp Hu. pose proof (f_equal (fun s => nth_error s i) E) as Hi. cbn beta in Hi.
  rewrite !nth_error_map, Hp in Hi. destruct (nth_error m i) as [q|] eqn:Hq; [|discriminate].
  injection Hi as Hi. f_equal. apply Hu; [|exact Hi].
  eapply Permutation_in; [exact HP | eapply nth_error_In, Hq].
Qed.

(** C14. What the code determines of the distribution.  [value_counts]
    returns a distribution of the column, and every distribution of the
    column (whatever the sort does with equal counts) is a permutation
    of it with the same sequence of counts, has the same label at every
    place whose count no other label has, and is the same table when no
    two labels have the same count. *)
Theorem value_counts_up_to_ties (xs : list string) (t : list (string * Z)) :
  distribution xs t ->
  distribution xs (value_counts xs) /\
  Permutation t (value_counts xs) /\
  map snd t = map snd (value_counts xs) /\
  (forall i p, nth_error (value_counts xs) i = Some p -> untied (value_counts xs) p ->
               nth_error t i = Some p) /\
  (NoDup (map snd t) -> t = value_counts xs).
Proof.
  intros Ht. pose proof (value_counts_distribution xs) as Hv.
  pose proof (distribution_Permutation xs t _ Ht Hv) as HP.
  assert (map snd t = map snd (value_counts xs)) as E.
  { apply sorted_counts_eq; [apply Ht | apply Hv | exact HP]. }
  split; [exact Hv|]. split; [exact HP|]. split; [exact E|].
  split; [intros i p; now apply untied_nth|].
  intros HN. apply nth_error_ext. intros i.
  destruct (nth_error (value_counts xs) i) as [p|] eqn:Hp.
  - apply (untied_nth _ _ i p HP E Hp). intros q Hq Hs.
    rewrite E in HN. apply (NoDup_map_In snd _ q p HN Hq); [eapply nth_error_In, Hp | exact Hs].
  - apply nth_error_None. apply nth_error_None in Hp.
    now rewrite <- (length_map snd), E, length_map.
Qed.

(** A column with a tie: the table with the tied labels the other way
    round is a distribution too, with "Run" at the same place. *)
Lemma value_counts_up_to_ties_witness :
  [("Run", 3); ("Swim", 1); ("Yoga", 1)]%string <>
    value_counts ["Yoga"; "Run"; "Swim"; "Run"; "Run"]%string /\
  map snd [("Run", 3); ("Swim", 1); ("Yoga", 1)]%string =
    map snd (value_counts ["Yoga"; "Run"; "Swim"; "Run"; "Run"]%string) /\
  nth_error [("Run", 3); ("Swim", 1); ("Yoga", 1)]%string 0 = Some ("Run", 3)%string.
Proof.
  split; [discriminate|].
  assert (distribution ["Yoga"; "Run"; "Swim"; "Run"; "Run"]%string
            [("Run", 3); ("Swim", 1); ("Yoga", 1)]%string) as H.
  { split; [repeat constructor; cbn; intuition discriminate|]. split.
    - intros k n. cbn [In]. split.
      + intros [E|[E|[E|[]]]]; inv E; split; (tauto || reflexivity).
      + intros [Hin ->]. repeat destruct Hin as [<-|Hin]; cbn; tauto.
    - repeat constructor; unfold count_ge; cbn; lia. }
  destruct (value_counts_up_to_ties _ _ H) as (_ & _ & Hc & Hn & _).
  split; [exact Hc|]. apply Hn.
  - reflexivity.
  - intros q Hq Hs. cbn in Hq. repeat destruct Hq as [<-|Hq]; try reflexivity; try discriminate.
    contradiction.
Defined.

(** ** Reordering the rows *)

(** Reordering the rows only reorders the distribution: the same labels
    with the same counts. *)
#[export] Instance value_counts_Permutation :
  Proper (@Permutation string ==> @Permutation (string * Z)) value_counts.
Proof.
  intros xs xs' HP. apply NoDup_Permutation; try apply NoDup_of_fst, value_counts_labels.
  assert (forall ys ys' p, Permutation ys ys' -> In p (value_counts ys) -> In p (value_counts ys')) as H.
  { intros ys ys' [k n] HP' Hin. rewrite (value_counts_count ys k n Hin).
    rewrite (proj1 (Permutation_count_occ string_dec ys ys') HP' k).
    apply value_counts_complete. eapply Permutation_in; [exact HP'|].
    apply (proj2 (value_counts_labels ys)). change k with (fst (k, n)). now apply in_map. }
  intros p. split; apply H; [|symmetry]; assumption.
Qed.

(** The distribution of a small column; "Yoga" and "Swim" are tied and
    the model lists them in order of first appearance. *)
Example value_counts_sample :
  value_counts ["Yoga"; "Run"; "Swim"; "Run"; "Run"]%string =
  [("Run", 3); ("Yoga", 1); ("Swim", 1)]%string.
Proof. reflexivity. Qed.
