(* ===== verification/Aggregator.v ===== *)
(** * Aggregator: what the views rely on

    The charts and the cards do not depend on how the aggregates are
    computed, only on a few facts about them.  [Aggregator] states these
    facts as an interface: the three read-only operations over a sequence
    of records (the total of the calories, the weekly series and the
    distribution by category) with the laws that relate them.  [Frame]
    provides the instance for the frame of [src/app.py]; the theorems of
    [Dashboard] about the two charts are proved for any instance. *)

From Stdlib Require Import String ZArith List Lia Sorted.
From S2P Require Import Prelude StringOrder Int64 GroupBy Counts.
Import ListNotations.

#[local] Open Scope Z_scope.

Class Aggregator (Rec : Type) : Type := {
  (** the total shown on the calories card *)
  summarize_calories : list Rec -> Z;
  (** one entry per bucket of the weekly chart *)
  weekly_series : list Rec -> list WeeklyRow;
  (** one entry per category of the donut chart *)
  distribution : list Rec -> list (string * Z);

  (** the bucket keys are strictly increasing, hence unique *)
  weekly_series_sorted :
    forall rs, StronglySorted str_lt (map wk_Date (weekly_series rs));
  (** conservation: no record is dropped or counted twice *)
  weekly_series_conserved :
    forall rs, sum64 (map wk_Calories (weekly_series rs)) = summarize_calories rs;
  (** every category has one entry *)
  distribution_NoDup :
    forall rs, NoDup (map fst (distribution rs));
  (** the most frequent category comes first *)
  distribution_sorted :
    forall rs, StronglySorted count_ge (distribution rs);
  (** a category that is listed occurs *)
  distribution_positive :
    forall rs, Forall (fun p => 1 <= snd p) (distribution rs);
  (** the counts add up to the number of records *)
  distribution_total :
    forall rs, zsum (map snd (distribution rs)) = Z.of_nat (length rs)
}.

(** ** Consequences of the laws *)

Lemma zsum_ge_length (l : list Z) :
  Forall (fun z => 1 <= z) l -> Z.of_nat (length l) <= zsum l.
Proof.
  induction 1 as [|z l Hz _ IH]; [reflexivity|].
  autorewrite with fit_rw. cbn [length]. lia.
Qed.

Section AggregatorFacts.
Context {Rec : Type} `{Aggregator Rec}.

Lemma weekly_series_NoDup (rs : list Rec) : NoDup (map wk_Date (weekly_series rs)).
Proof. apply sorted_NoDup, weekly_series_sorted. Qed.

(** There are at most as many categories as records. *)
Lemma distribution_length (rs : list Rec) : (length (distribution rs) <= length rs)%nat.
Proof.
  apply Nat2Z.inj_le. rewrite <- (distribution_total rs), <- (length_map snd).
  apply zsum_ge_length, Forall_map_iff, distribution_positive.
Qed.

(** Without records there is no category. *)
Lemma distribution_nil : distribution (@nil Rec) = [].
Proof.
  pose proof (distribution_length []) as Hl. cbn [length] in Hl.
  destruct (distribution []); [reflexivity | cbn in Hl; lia].
Qed.

End AggregatorFacts.
