(* ===== verification/Frame.v ===== *)
(** * Frame: the record store and its aggregates

    [df] is the frame read from [fitness_data.csv], with the [Date] column
    converted to timestamps.  A row is a record of its five columns and the
    frame is the list of rows in file order.

    This file holds what [src/app.py] computes from [df]:
    - [total_hours], [total_calories], [goal_progress] (create_kpi_cards);
    - [weekly_data], the calories and minutes per [%Y-%W] bucket, and
      [workout_dist], the number of rows per workout type (create_charts);
    - [head], the first rows of the frame (the argument of
      create_activity_log).

    The theorems are the properties the specification lists for the
    aggregator, as the code delivers them: conservation of calories and
    minutes across the weekly buckets, strictly increasing bucket keys, a
    bucket for exactly the keys that occur, equality with the
    split-apply-combine table, counts that are the numbers of rows per
    type and add up to the number of rows, exact calories and correctly
    rounded hours within range, independence of the weekly table from the
    row order, and the frames on which [head], which keeps file order,
    returns what the selector of the specification ([most_recent]: the
    rows by date descending, ties in file order, truncated) returns.
    [frame_aggregator] packs the laws the views need as an instance of
    [Aggregator]. *)

From Stdlib Require Import String ZArith List Lia Bool.
From Stdlib Require Import Permutation Sorted Morphisms RelationClasses.
From S2P Require Import Prelude StringOrder Int64 Calendar Format Float64 GroupBy Counts.
From S2P Require Import Aggregator.
Import ListNotations.

#[local] Open Scope Z_scope.

(** ** Definitions *)

(** One row of the frame, with the columns of the CSV header. *)
Record Row : Type := mkRow {
  Date : date;
  Workout_Type : string;
  Duration : Z;
  Calories : Z;
  Intensity : string
}.

Definition DataFrame : Type := list Row.

(** What loading guarantees of a row: a date a timestamp can hold and
    int64 values in the numeric columns. *)
Definition row_wf (r : Row) : Prop :=
  valid_date (Date r) = true /\ in_int64 (Duration r) /\ in_int64 (Calories r).

Definition frame_wf (df : DataFrame) : Prop := Forall row_wf df.

(** [df['Duration'].sum() / 60] *)
Definition total_hours (df : DataFrame) : dyadic :=
  fdiv (float_of_int64 (sum64 (map Duration df))) (float_of_int64 60).

(** [df['Calories'].sum()] *)
Definition total_calories (df : DataFrame) : Z := sum64 (map Calories df).

(** [goal_progress = 75] *)
Definition goal_progress : Z := 75.

(** [df['Date'].dt.strftime('%Y-%W')] for one row. *)
Definition week_key (r : Row) : string := strftime_YW (Date r).

(** [df.groupby(df['Date'].dt.strftime('%Y-%W')).agg({'Calories': 'sum',
    'Duration': 'sum'}).reset_index()] *)
Definition weekly_data (df : DataFrame) : list WeeklyRow :=
  groupby_sum week_key Calories Duration df.

(** [df['Workout_Type'].value_counts()] *)
Definition workout_dist (df : DataFrame) : list (string * Z) :=
  value_counts (map Workout_Type df).

(** [df.head(n)] for [n >= 0] *)
Definition head (n : nat) (df : DataFrame) : DataFrame := firstn n df.

(** The rows sorted by date, most recent first, would have this
    property. *)
Definition most_recent_first (df : DataFrame) : Prop :=
  StronglySorted (fun a b => toordinal (Date b) <= toordinal (Date a)) df.

(** The day of a row, as a number. *)
Definition date_key (r : Row) : Z := toordinal (Date r).

(** The selector of the specification: the rows by date descending, rows
    of the same date in file order, truncated to [n]. *)
Definition most_recent (n : nat) (df : DataFrame) : DataFrame :=
  firstn n (sort_by date_key df).

(** The frames that begin with their [n] most recent rows, most recent
    first. *)
Definition recent_first (n : nat) (df : DataFrame) : Prop :=
  exists a b, df = a ++ b /\ length a = Nat.min n (length df) /\
    most_recent_first a /\
    forall r r', In r a -> In r' b -> toordinal (Date r') <= toordinal (Date r).

(** The scenario of the specification: two runs, a week apart. *)
Definition scenario_df : DataFrame :=
  [mkRow (mkdate 2024 1 1) "Run" 30 300 "High";
   mkRow (mkdate 2024 1 8) "Run" 45 450 "Medium"].

(** ** Well-formed frames *)

Lemma frame_wf_in_range (df : DataFrame) :
  frame_wf df -> rows_in_range Calories Duration df.
Proof. apply Forall_impl. intros r (_ & Hd & Hc). now split. Qed.

Lemma frame_wf_Permutation (df df' : DataFrame) :
  Permutation df df' -> frame_wf df -> frame_wf df'.
Proof. intros HP. apply Permutation_Forall, HP. Qed.

Lemma frame_wf_head (n : nat) (df : DataFrame) : frame_wf df -> frame_wf (head n df).
Proof. apply Forall_firstn. Qed.

Lemma scenario_df_wf : frame_wf scenario_df.
Proof. repeat constructor; discriminate. Qed.

#[export] Hint Resolve frame_wf_in_range frame_wf_head scenario_df_wf : fit.

(** On the scenario the aggregates are the ones the specification
    expects: 750 calories, 1.25 hours (shown as 1.2), two weekly
    buckets; and the totals of an empty frame are zero. *)
Example scenario_aggregates :
  total_calories scenario_df = 750 /\
  total_hours scenario_df = mkdy 5629499534213120 (-52) /\
  format_f1 (total_hours scenario_df) = "1.2"%string /\
  weekly_data scenario_df = [mkWeekly "2024-01" 300 30; mkWeekly "2024-02" 450 45] /\
  workout_dist scenario_df = [("Run"%string, 2)] /\
  total_calories [] = 0 /\ format_f1 (total_hours []) = "0.0"%string.
Proof. repeat split; vm_compute; reflexivity. Qed.

(** ** Totals *)

(** C24. Within range the totals of the cards are the sums of the
    columns: if the exact total of the calories fits in an int64, the
    card shows the exact total, and below 2^53 minutes the hours are the
    exact quotient of the total by 60, rounded once: they differ from it
    by at most 2^-53 of its magnitude. *)
Theorem totals_exact (df : DataFrame) :
  let s := sum64 (map Duration df) in
  let h := total_hours df in
  in_int64 (zsum (map Calories df)) -> Z.abs s < 2 ^ 53 ->
  total_calories df = zsum (map Calories df) /\
  2 ^ 53 * Z.abs (dy_num h * 60 - s * dy_den h) <= Z.abs s * dy_den h.
Proof.
  cbn zeta. intros Hc Hs. split; [now apply sum64_exact | now apply hours_of_relative_error].
Qed.

Lemma totals_exact_witness :
  total_calories scenario_df = zsum (map Calories scenario_df) /\
  2 ^ 53 * Z.abs (dy_num (total_hours scenario_df) * 60 - 75 * dy_den (total_hours scenario_df))
  <= Z.abs 75 * dy_den (total_hours scenario_df).
Proof.
  apply (totals_exact scenario_df); [vm_compute; split; discriminate | reflexivity].
Defined.

(** C25. The text of the hours card for every total below 2^53 minutes
    in magnitude.  Unless the exact quotient by 60 lies halfway between
    two tenths, the card shows the exact quotient rounded to one decimal:
    the binary rounding of the division does not show.  At a tie it
    shows one of the two neighbouring tenths, the upper one exactly when
    the double lies above the exact quotient ([card_tenths]); a negative
    total is shown as its magnitude after a minus sign. *)
Theorem total_hours_text (df : DataFrame) :
  let s := sum64 (map Duration df) in
  Z.abs s < 2 ^ 53 ->
  format_f1 (total_hours df) = card_text s /\
  (0 <= s -> s mod 6 <> 3 -> card_text s = tenths_text (round_half_even s 6)) /\
  (0 <= s -> s mod 6 = 3 ->
   card_text s = tenths_text (s / 6) \/ card_text s = tenths_text (s / 6 + 1)).
Proof.
  cbn zeta. intros Hs. split; [now apply hours_of_card_text|].
  unfold card_text, card_tenths. split; intros H0 Htie.
  - destruct (Z.ltb_spec (sum64 (map Duration df)) 0); [lia|].
    now destruct (Z.eqb_spec (sum64 (map Duration df) mod 6) 3).
  - destruct (Z.ltb_spec (sum64 (map Duration df)) 0); [lia|]. rewrite Htie. cbn [Z.eqb Pos.eqb].
    destruct (_ ?= _); cbn [tie_break]; auto.
    pose proof (round_half_even_floor (sum64 (map Duration df)) 6).
    assert (round_half_even (sum64 (map Duration df)) 6 = sum64 (map Duration df) / 6 \/
            round_half_even (sum64 (map Duration df)) 6 = sum64 (map Duration df) / 6 + 1) as [-> | ->]
      by lia; auto.
Qed.

Lemma total_hours_text_witness :
  format_f1 (total_hours [mkRow (mkdate 2024 1 1) "Run" 45 450 "High";
                          mkRow (mkdate 2024 1 8) "Yoga" 30 300 "Low"]) = card_text 75 /\
  (0 <= 75 -> 75 mod 6 <> 3 -> card_text 75 = tenths_text (round_half_even 75 6)) /\
  (0 <= 75 -> 75 mod 6 = 3 -> card_text 75 = tenths_text (75 / 6) \/ card_text 75 = tenths_text (75 / 6 + 1)).
Proof.
  apply (total_hours_text [mkRow (mkdate 2024 1 1) "Run" 45 450 "High";
                           mkRow (mkdate 2024 1 8) "Yoga" 30 300 "Low"]).
  reflexivity.
Defined.

#[export] Instance total_calories_Permutation : Proper (@Permutation Row ==> eq) total_calories.
Proof. intros df df' HP. unfold total_calories. now rewrite HP. Qed.

#[export] Instance total_hours_Permutation : Proper (@Permutation Row ==> eq) total_hours.
Proof. intros df df' HP. unfold total_hours. now rewrite HP. Qed.

(** ** Weekly buckets *)

(** C1. Conservation: the calories of the weekly buckets add up to the
    total of the calories card, and the minutes to the total of the
    minutes, in int64 arithmetic; no row is dropped or counted twice. *)
Theorem weekly_totals_conserved (df : DataFrame) :
  sum64 (map wk_Calories (weekly_data df)) = total_calories df /\
  sum64 (map wk_Duration (weekly_data df)) = sum64 (map Duration df).
Proof.
  split; [apply (groupby_sum_total week_key Calories Duration Calories_col)
         | apply (groupby_sum_total week_key Calories Duration Duration_col)].
Qed.

(** C2. The bucket keys of the weekly table are strictly increasing as
    strings, hence unique, and the series is sparse: a bucket exists
    exactly for the keys of the rows. *)
Theorem weekly_keys_increasing (df : DataFrame) :
  StronglySorted str_lt (map wk_Date (weekly_data df)) /\
  forall k, In k (map wk_Date (weekly_data df)) <-> exists r, In r df /\ week_key r = k.
Proof.
  split; [apply groupby_sum_sorted|]. intros k.
  unfold weekly_data. rewrite groupby_sum_keys_In, in_map_iff.
  split; intros (r & H1 & H2); exists r; auto.
Qed.

(** C3. The weekly table is the split-apply-combine table of the
    frame. *)
Theorem weekly_data_refines (df : DataFrame) :
  frame_wf df -> weekly_data df = groupby_spec week_key Calories Duration df.
Proof. intros H. apply groupby_sum_refines. auto with fit. Qed.

Lemma weekly_data_refines_witness :
  weekly_data scenario_df = groupby_spec week_key Calories Duration scenario_df.
Proof. apply weekly_data_refines, scenario_df_wf. Defined.

(** C26. The aggregates do not depend on the order of the rows: the
    weekly table and the totals are the same, and the workout
    distribution has the same types with the same counts. *)
Theorem aggregates_Permutation (df df' : DataFrame) :
  frame_wf df -> Permutation df df' ->
  weekly_data df = weekly_data df' /\
  total_calories df = total_calories df' /\ total_hours df = total_hours df' /\
  Permutation (workout_dist df) (workout_dist df').
Proof.
  intros H HP. split; [apply groupby_sum_Permutation; auto with fit|].
  split; [now rewrite HP | split; [now rewrite HP|]].
  unfold workout_dist. now rewrite HP.
Qed.

Lemma aggregates_Permutation_witness :
  weekly_data scenario_df = weekly_data (rev scenario_df) /\
  total_calories scenario_df = total_calories (rev scenario_df) /\
  total_hours scenario_df = total_hours (rev scenario_df) /\
  Permutation (workout_dist scenario_df) (workout_dist (rev scenario_df)).
Proof. apply aggregates_Permutation; [apply scenario_df_wf | apply Permutation_rev]. Defined.

(** ** Workout distribution *)

(** The counts of the workout distribution add up to the number of
    rows of the frame. *)
Lemma workout_dist_total (df : DataFrame) :
  zsum (map snd (workout_dist df)) = Z.of_nat (length df).
Proof. unfold workout_dist. now rewrite value_counts_total, length_map. Qed.

(** C8. The count of a workout type is the number of rows of that
    type. *)
Theorem workout_dist_count (df : DataFrame) (k : string) (n : Z) :
  In (k, n) (workout_dist df) ->
  n = Z.of_nat (count_occ string_dec (map Workout_Type df) k).
Proof. apply value_counts_count. Qed.

Lemma workout_dist_count_witness :
  2 = Z.of_nat (count_occ string_dec (map Workout_Type scenario_df) "Run"%string).
Proof. apply (workout_dist_count scenario_df "Run"%string 2). left. reflexivity. Defined.


(** ** The first rows *)

(** [head(n)] returns [min(n, len(df))] rows: the first rows of the
    frame, in file order. *)
Lemma head_prefix (n : nat) (df : DataFrame) :
  length (head n df) = Nat.min n (length df) /\
  exists rest, df = head n df ++ rest.
Proof. split; [apply firstn_length_min | apply firstn_prefix]. Qed.

(** [most_recent] is what the specification asks of the selector: at
    most [n] rows, by date descending, no row left out more recent than
    a row returned, and rows of the same date in file order. *)
Lemma most_recent_spec (n : nat) (df : DataFrame) :
  length (most_recent n df) = Nat.min n (length df) /\
  most_recent_first (most_recent n df) /\
  (forall r r', In r (most_recent n df) -> In r' (skipn n (sort_by date_key df)) ->
                toordinal (Date r') <= toordinal (Date r)) /\
  Permutation (most_recent n df ++ skipn n (sort_by date_key df)) df /\
  forall d, filter (fun r => date_key r =? d) (sort_by date_key df) =
            filter (fun r => date_key r =? d) df.
Proof.
  unfold most_recent.
  assert (StronglySorted (key_ge date_key) (sort_by date_key df)) as HS
      by (apply Sorted_StronglySorted; [apply key_ge_trans | apply sort_by_sorted]).
  split; [|split; [|split; [|split]]].
  - rewrite firstn_length_min. now rewrite (Permutation_length (sort_by_Permutation date_key df)).
  - now apply StronglySorted_firstn.
  - apply (StronglySorted_app_cross (key_ge date_key)). now rewrite firstn_skipn.
  - rewrite firstn_skipn. apply sort_by_Permutation.
  - intros d. apply sort_by_filter.
Qed.

(** [head] returns the rows of the selector exactly on the frames that
    begin with them. *)
Lemma head_most_recent_iff (n : nat) (df : DataFrame) :
  head n df = most_recent n df <-> recent_first n df.
Proof.
  destruct (most_recent_spec n df) as (Hlen & Hs & Hc & HP & _). split.
  - intros E. exists (head n df), (skipn n df). unfold head in *.
    split; [symmetry; apply firstn_skipn|]. split; [apply firstn_length_min|].
    rewrite E. split; [exact Hs|]. intros r r' Hr Hr'. apply (Hc r r' Hr).
    assert (Permutation (firstn n df ++ skipn n (sort_by date_key df))
                        (firstn n df ++ skipn n df)) as HP'
        by (rewrite firstn_skipn, E; exact HP).
    apply Permutation_app_inv_l in HP'. eapply Permutation_in; [symmetry; exact HP' | exact Hr'].
  - intros (a & b & -> & Hla & Ha & Hab). unfold head, most_recent.
    rewrite sort_by_app by assumption. rewrite !firstn_app_exact; [reflexivity | | exact Hla].
    rewrite Hla, !length_app. now rewrite (Permutation_length (sort_by_Permutation date_key b)).
Qed.

(** ** The aggregates as an aggregator *)

(** The aggregates of the frame satisfy the laws the views rely on. *)
#[export] Instance frame_aggregator : Aggregator Row := {
  summarize_calories := total_calories;
  weekly_series := weekly_data;
  distribution := workout_dist;
  weekly_series_sorted := groupby_sum_sorted week_key Calories Duration;
  weekly_series_conserved := groupby_sum_total week_key Calories Duration Calories_col;
  distribution_NoDup := fun df => proj1 (value_counts_labels (map Workout_Type df));
  distribution_sorted := fun df => value_counts_sorted (map Workout_Type df);
  distribution_positive := fun df => value_counts_positive (map Workout_Type df);
  distribution_total := fun df =>
    eq_trans (value_counts_total (map Workout_Type df))
             (f_equal Z.of_nat (length_map Workout_Type df))
}.
