(* ===== verification/Store.v ===== *)
(** * Store: loading the record store

    [src/app.py] reads the frame once, when the module is loaded:
    [df = pd.read_csv('fitness_data.csv')] and
    [df['Date'] = pd.to_datetime(df['Date'])]; the other columns are
    looked up where the page is built ([df['Duration']] and
    [df['Calories']] in create_kpi_cards, [df['Workout_Type']] in
    create_charts, the five columns in create_activity_log), all of it
    before the server starts.

    A [source] is [None] when there is no file and otherwise the text of
    the file.  [read_csv] cuts the text into records ([Tokenizer.scan])
    and takes the first as the header; [load] performs the steps above in
    the order of the program and returns the frame of [Frame], or the
    exception that stops the program:

    - [FileNotFoundError], [EmptyDataError] and [ParserError] from
      [read_csv]: no file, no record, a text that ends inside a quoted
      field or a line with more fields than the header;
    - [KeyError c] from the first lookup of a column [c] that the header
      does not have;
    - [Unsupported] marks a text, a table or a cell outside the forms
      that [Tokenizer] and [Parse] cover.  The program may or may not fail on
      these; the model says nothing about them.

    [load_Ok] characterises the successful loads; the theorems are the
    round trip with [to_csv] and with every other spelling of the same
    records ([Tokenizer.render]), that every date and label of the frame
    is the cell of the file it was read from and every number the value
    of its cell, the invariant [frame_wf] that the
    aggregates rely on, and which exception a missing file or column
    raises. *)

From Stdlib Require Import String Ascii ZArith List Lia Bool.
From S2P Require Import Prelude Int64 Calendar Format Csv Tokenizer Parse Frame.
Import ListNotations.

#[local] Open Scope Z_scope.
#[local] Open Scope fit_scope.

(** ** Definitions *)

(** The file: absent, or its text. *)
Definition source : Type := option string.

(** The frame as [read_csv] returns it, the cells still text. *)
Record RawFrame : Type := mkRaw { columns : list string; values : list record }.

Definition rectangular (w : nat) (rows : list record) : bool :=
  forallb (fun r => Nat.eqb (length r) w) rows.

(** Opening the file and cutting its text into records. *)
Definition records_of (src : source) : result LoadError (list record) :=
  match src with
  | None => Err FileNotFoundError
  | Some t => scan t
  end.

(** A line after the first line of data has more fields than the header,
    and the first line of data has not: the tokenizer expects on each
    line at most the fields of the line before, once that line is filled
    up to the fields of the header. *)
Definition too_many_fields (w : nat) (rows : list record) : bool :=
  match rows with
  | [] => false
  | first :: rest =>
      (length first <=? w)%nat && existsb (fun r => (w <? length r)%nat) rest
  end.

(** The first record is the header, the others are the data. *)
Definition header_and_rows (recs : list record) : result LoadError RawFrame :=
  match recs with
  | [] => Err EmptyDataError
  | h :: rows =>
      match rows with
      | [] => Err (Unsupported NoRows)
      | _ :: _ =>
          if rectangular (length h) rows then Ok (mkRaw h rows)
          else if too_many_fields (length h) rows then Err ParserError
          else Err (Unsupported Ragged)
      end
  end.

(** [pd.read_csv('fitness_data.csv')] *)
Definition read_csv (src : source) : result LoadError RawFrame :=
  recs <- records_of src ;;
  header_and_rows recs.

(** The position of a column: the first with that name. *)
Fixpoint index_of (name : string) (l : list string) : option nat :=
  match l with
  | [] => None
  | c :: l' => if String.eqb name c then Some O else option_map S (index_of name l')
  end.

(** [df[name]]: the cells of a column, or [KeyError]. *)
Definition getitem (name : string) (f : RawFrame) : result LoadError (list string) :=
  i <- from_option (KeyError name) (index_of name (columns f)) ;;
  Ok (map (fun r => nth i r EmptyString) (values f)).

(** The values of the cells of a column. *)
Definition astype {A : Type} `{Codec A} (name : string) (cells : list string)
  : result LoadError (list A) :=
  traverse (fun c => from_option (Unsupported (Cell name)) (decode c)) cells.

Definition typed_column {A : Type} `{Codec A} (name : string) (f : RawFrame)
  : result LoadError (list A) :=
  cells <- getitem name f ;; astype name cells.

(** [pd.to_datetime(df['Date'])] *)
Definition to_datetime (f : RawFrame) : result LoadError (list date) :=
  typed_column "Date" f.

(** The rows of five columns. *)
Fixpoint zip_rows (ds : list date) (ws : list string) (us cs : list Z) (ns : list string)
  : DataFrame :=
  match ds, ws, us, cs, ns with
  | d :: ds, w :: ws, u :: us, c :: cs, n :: ns =>
      mkRow d w u c n :: zip_rows ds ws us cs ns
  | _, _, _, _, _ => []
  end.

(** The columns the page looks up, in the order in which it first uses
    them ([df['Duration']] and [df['Calories']] in create_kpi_cards,
    [df['Workout_Type']] in create_charts, [Intensity] in
    create_activity_log), and the rows they make with the dates. *)
Definition frame_of (f : RawFrame) (dates : list date) : result LoadError DataFrame :=
  durations <- typed_column "Duration" f ;;
  calories <- typed_column "Calories" f ;;
  types <- typed_column "Workout_Type" f ;;
  intensities <- typed_column "Intensity" f ;;
  Ok (zip_rows dates types durations calories intensities).

(** The frame the page is built from: the file read, the dates
    converted, and the columns the page uses. *)
Definition load (src : source) : result LoadError DataFrame :=
  f <- read_csv src ;;
  dates <- to_datetime f ;;
  frame_of f dates.

(** The columns the page looks up, and the columns the program uses, in
    the order of their first use. *)
Definition page_columns : list string :=
  ["Duration"; "Calories"; "Workout_Type"; "Intensity"]%string.

Definition required : list string := "Date"%string :: page_columns.

(** The first column the program would miss. *)
Definition missing (h : list string) : option string :=
  find (fun c => match index_of c h with None => true | Some _ => false end) required.

(** The cell of a record under a column, and its value. *)
Definition cell (name : string) (h : list string) (row : record) : option string :=
  option_map (fun i => nth i row EmptyString) (index_of name h).

Definition field {A : Type} `{Codec A} (name : string) (h : list string) (row : record)
  : option A :=
  match cell name h row with
  | Some c => decode c
  | None => None
  end.

Definition field_is {A : Type} `{Codec A} (name : string) (h : list string)
  (row : record) (a : A) : Prop :=
  field name h row = Some a.

(** A record of the file and the row it is read as. *)
Definition reads (h : list string) (row : record) (r : Row) : Prop :=
  field_is "Date" h row (Date r) /\
  field_is "Duration" h row (Duration r) /\
  field_is "Calories" h row (Calories r) /\
  field_is "Workout_Type" h row (Workout_Type r) /\
  field_is "Intensity" h row (Intensity r).

(** A table the model covers: data records, of the length of the
    header. *)
Definition table_ok (h : list string) (rows : list record) : Prop :=
  rows <> [] /\ rectangular (length h) rows = true.

(** What makes [read_csv] raise [ParserError]: the text ends inside a
    quoted field, or a line has too many fields. *)
Definition parser_error (src : source) : Prop :=
  records_of src = Err ParserError \/
  exists h rows, records_of src = Ok (h :: rows) /\ too_many_fields (length h) rows = true.

(** Rows that have a text: what a file can hold. *)
Definition row_loadable (r : Row) : Prop :=
  canonical (Date r) /\ canonical (Duration r) /\ canonical (Calories r) /\
  canonical (Workout_Type r) /\ canonical (Intensity r).

Definition store_wf (df : DataFrame) : Prop := Forall row_loadable df.

(** Writing a frame as a file, the reference for the round trip. *)
Definition csv_header : record :=
  ["Date"; "Workout_Type"; "Duration"; "Calories"; "Intensity"]%string.

Definition csv_row (r : Row) : record :=
  [encode (Date r); encode (Workout_Type r); encode (Duration r);
   encode (Calories r); encode (Intensity r)].

Definition csv_records (df : DataFrame) : list record := csv_header :: map csv_row df.

Definition to_csv (df : DataFrame) : string := to_text (csv_records df).

(** A record and the row it stands for: the date and the labels have
    the text of their cells, the numbers are the values of theirs,
    however these are spelled. *)
Definition verbatim (h : list string) (row : record) (r : Row) : Prop :=
  cell "Date" h row = Some (isoformat (Date r)) /\
  cell "Workout_Type" h row = Some (Workout_Type r) /\
  (exists c, cell "Duration" h row = Some c /\ str_to_int64 c = Some (Duration r)) /\
  (exists c, cell "Calories" h row = Some c /\ str_to_int64 c = Some (Calories r)) /\
  cell "Intensity" h row = Some (Intensity r).

(** A table without one of its columns. *)
Fixpoint drop_nth {A : Type} (i : nat) (l : list A) : list A :=
  match i, l with
  | _, [] => []
  | O, _ :: l' => l'
  | S i', a :: l' => a :: drop_nth i' l'
  end.

Definition drop_column (name : string) (table : list record) : list record :=
  match table with
  | [] => []
  | h :: _ =>
      match index_of name h with
      | Some i => map (drop_nth i) table
      | None => table
      end
  end.

(** A file of three activities, and the same file without its
    [Calories] column. *)
Definition sample_file : source :=
  Some "Date,Workout_Type,Duration,Calories,Intensity
2024-01-01,Run,30,300,High
2024-01-03,Weight Training,60,420,Medium
2024-01-08,Run,45,450,Medium
"%string.

Definition sample_frame : DataFrame :=
  [mkRow (mkdate 2024 1 1) "Run" 30 300 "High";
   mkRow (mkdate 2024 1 3) "Weight Training" 60 420 "Medium";
   mkRow (mkdate 2024 1 8) "Run" 45 450 "Medium"].

Definition sample_file_no_calories : source :=
  Some "Date,Workout_Type,Duration,Intensity
2024-01-01,Run,30,High
2024-01-03,Weight Training,60,Medium
"%string.

(** ** Reading the file *)

Lemma header_and_rows_Ok (recs : list record) (f : RawFrame) :
  header_and_rows recs = Ok f <->
  recs = columns f :: values f /\ table_ok (columns f) (values f).
Proof.
  unfold table_ok. destruct f as [h rows]. cbn [columns values]. split.
  - destruct recs as [|h' [|row rows']]; cbn [header_and_rows]; try discriminate.
    destruct (rectangular _ _) eqn:E; [|now destruct (too_many_fields _ _)]. intros [= <- <-].
    repeat split; [discriminate | exact E].
  - intros (-> & Hr & E). destruct rows; [contradiction|].
    cbn [header_and_rows]. now rewrite E.
Qed.

Lemma read_csv_Ok (src : source) (f : RawFrame) :
  read_csv src = Ok f <->
  records_of src = Ok (columns f :: values f) /\ table_ok (columns f) (values f).
Proof.
  unfold read_csv. rewrite bind_Ok. split.
  - intros (recs & Hrecs & [-> Hok]%header_and_rows_Ok). now split.
  - intros [Hrecs Hok]. eexists. split; [exact Hrecs|]. now apply header_and_rows_Ok.
Qed.

(** ** Columns *)

Section Column.
Context {A : Type} `{Codec A}.
Variables (name : string) (f : RawFrame).

Lemma typed_column_Ok (col : list A) :
  typed_column name f = Ok col <->
  index_of name (columns f) <> None /\ Forall2 (field_is name (columns f)) (values f) col.
Proof.
  unfold typed_column, getitem, astype, field_is, field, cell.
  destruct (index_of name (columns f)) as [i|]; cbn [from_option bind option_map].
  - rewrite traverse_Ok, Forall2_map_l. split.
    + intros HF. split; [discriminate|]. revert HF. apply Forall2_impl.
      intros row a. apply from_option_Ok.
    + intros [_ HF]. revert HF. apply Forall2_impl. intros row a. apply from_option_Ok.
  - split; [discriminate | now intros [[] _]].
Qed.

(** A column fails with [KeyError] when the header does not have it,
    and in no other way that the model describes. *)
Lemma typed_column_Err (e : LoadError) :
  typed_column name f = Err e ->
  (e = KeyError name /\ index_of name (columns f) = None) \/
  (e = Unsupported (Cell name) /\ index_of name (columns f) <> None).
Proof.
  unfold typed_column, getitem, astype.
  destruct (index_of name (columns f)) as [i|]; cbn [from_option bind].
  - intros HE. apply traverse_Err_inv in HE as (c & _ & Hc).
    destruct (decode c); [discriminate|]. injection Hc as <-. right. now split.
  - intros [= <-]. now left.
Qed.

Lemma typed_column_KeyError :
  index_of name (columns f) = None -> typed_column name f = Err (KeyError name).
Proof. unfold typed_column, getitem. now intros ->. Qed.

End Column.

(** ** Rows *)

Section ZipRows.
Context {X : Type}.
Variables (P1 : X -> date -> Prop) (P2 P5 : X -> string -> Prop) (P3 P4 : X -> Z -> Prop).

Let row_rel (x : X) (r : Row) : Prop :=
  P1 x (Date r) /\ P3 x (Duration r) /\ P4 x (Calories r) /\
  P2 x (Workout_Type r) /\ P5 x (Intensity r).

Lemma zip_rows_Forall2 (xs : list X) ds ws us cs ns :
  Forall2 P1 xs ds -> Forall2 P2 xs ws -> Forall2 P3 xs us -> Forall2 P4 xs cs ->
  Forall2 P5 xs ns -> Forall2 row_rel xs (zip_rows ds ws us cs ns).
Proof.
  intros H1. revert ws us cs ns.
  induction H1 as [|x d xs ds Hd _ IH]; intros ws us cs ns H2 H3 H4 H5;
    inv H2; inv H3; inv H4; inv H5; cbn [zip_rows]; constructor.
  - repeat split; assumption.
  - now apply IH.
Qed.

End ZipRows.

Lemma zip_rows_columns (df : DataFrame) :
  zip_rows (map Date df) (map Workout_Type df) (map Duration df) (map Calories df)
           (map Intensity df) = df.
Proof. induction df as [|[d w u c n] df IH]; cbn; [reflexivity | now rewrite IH]. Qed.

(** ** Successful loads *)

Lemma field_is_index {A : Type} `{Codec A} (name : string) (h : list string)
  (row : record) (a : A) :
  field_is name h row a -> index_of name h <> None.
Proof. unfold field_is, field, cell. now destruct (index_of name h). Qed.

(** The loads that succeed: the table is one the model covers and every
    record reads as the row at its position. *)
Lemma load_Ok (src : source) (df : DataFrame) :
  load src = Ok df <->
  exists h rows, records_of src = Ok (h :: rows) /\ table_ok h rows /\
                 Forall2 (reads h) rows df.
Proof.
  unfold load, frame_of, to_datetime. split.
  - intros H. apply bind_Ok in H as (f & Hf & H). apply read_csv_Ok in Hf as [Hrecs Hok].
    apply bind_Ok in H as (ds & [_ H1]%typed_column_Ok & H).
    apply bind_Ok in H as (us & [_ H3]%typed_column_Ok & H).
    apply bind_Ok in H as (cs & [_ H4]%typed_column_Ok & H).
    apply bind_Ok in H as (ws & [_ H2]%typed_column_Ok & H).
    apply bind_Ok in H as (ns & [_ H5]%typed_column_Ok & H).
    injection H as <-. exists (columns f), (values f).
    split; [exact Hrecs|]. split; [exact Hok|]. now apply zip_rows_Forall2.
  - intros (h & rows & Hrecs & Hok & HF).
    rewrite (proj2 (read_csv_Ok src (mkRaw h rows))) by now split.
    assert (Hidx : forall (A : Type) (C : Codec A) (name : string) (g : Row -> A),
               Forall2 (fun row r => field_is name h row (g r)) rows df ->
               typed_column name (mkRaw h rows) = Ok (map g df)).
    { intros A C name g Hg. apply typed_column_Ok. cbn [columns values].
      split; [|now apply Forall2_map_r].
      destruct Hok as (Hr & _). destruct Hg; [contradiction|].
      eapply field_is_index; eassumption. }
    cbn [bind].
    rewrite (Hidx _ _ _ Date), (Hidx _ _ _ Duration), (Hidx _ _ _ Calories),
      (Hidx _ _ _ Workout_Type), (Hidx _ _ _ Intensity);
      try (revert HF; apply Forall2_impl; intros row r Hr; apply Hr).
    cbn [bind]. now rewrite zip_rows_columns.
Qed.

Lemma row_loadable_wf (r : Row) : row_loadable r -> row_wf r.
Proof. intros (Hd & Hu & Hc & _). split; [now apply loadable_date_valid | now split]. Qed.

Lemma store_wf_frame_wf (df : DataFrame) : store_wf df -> frame_wf df.
Proof. apply Forall_impl, row_loadable_wf. Qed.

Lemma field_is_cell {A : Type} `{Codec A} (name : string) (h : list string)
  (row : record) (a : A) :
  field_is name h row a -> exists c, cell name h row = Some c /\ decode c = Some a.
Proof.
  unfold field_is, field. destruct (cell name h row) as [c|]; [|discriminate]. eauto.
Qed.

Lemma field_is_canonical {A : Type} `{Codec A} (name : string) (h : list string)
  (row : record) (a : A) :
  field_is name h row a -> canonical a.
Proof. intros (c & _ & Hc)%field_is_cell. eapply decode_canonical, Hc. Qed.

Lemma field_is_verbatim {A : Type} `{Verbatim A} (name : string) (h : list string)
  (row : record) (a : A) :
  field_is name h row a -> cell name h row = Some (encode a).
Proof. intros (c & Hcell & Hc)%field_is_cell. now apply encode_decode in Hc as ->. Qed.

Lemma reads_verbatim (h : list string) (row : record) (r : Row) :
  reads h row r -> verbatim h row r /\ row_loadable r.
Proof.
  intros (H1 & H2 & H3 & H4 & H5). split.
  - split; [exact (field_is_verbatim _ _ _ _ H1)|].
    split; [exact (field_is_verbatim _ _ _ _ H4)|].
    split; [exact (field_is_cell _ _ _ _ H2)|].
    split; [exact (field_is_cell _ _ _ _ H3) | exact (field_is_verbatim _ _ _ _ H5)].
  - split; [exact (field_is_canonical _ _ _ _ H1)|].
    split; [exact (field_is_canonical _ _ _ _ H2)|].
    split; [exact (field_is_canonical _ _ _ _ H3)|].
    split; [exact (field_is_canonical _ _ _ _ H4) | exact (field_is_canonical _ _ _ _ H5)].
Qed.

Lemma reads_csv_row (r : Row) : row_loadable r -> reads csv_header (csv_row r) r.
Proof.
  intros (H1 & H2 & H3 & H4 & H5).
  repeat split; unfold field_is, field; cbn -[encode decode]; now apply decode_encode.
Qed.

Lemma to_csv_table_ok (df : DataFrame) : df <> [] -> table_ok csv_header (map csv_row df).
Proof.
  intros Hdf. split; [now destruct df|].
  unfold rectangular. rewrite forallb_forall. intros row Hrow.
  apply in_map_iff in Hrow as (r & <- & _). reflexivity.
Qed.

(** The cells of a loadable row can be written, whichever column is left
    out. *)
Lemma csv_row_texts (r : Row) :
  row_loadable r -> Forall (fun f => cell_text f = true) (csv_row r).
Proof. intros (H1 & H2 & H3 & H4 & H5). repeat constructor; now apply encode_text. Qed.

Lemma Forall_drop_nth {A : Type} (P : A -> Prop) (i : nat) (l : list A) :
  Forall P l -> Forall P (drop_nth i l).
Proof.
  intros H. revert i. induction H as [|a l Ha Hl IH]; intros [|i]; cbn [drop_nth];
    try constructor; auto.
Qed.

Lemma dropped_row_ok (i : nat) (r : Row) :
  row_loadable r -> record_ok (drop_nth i (csv_row r)) = true.
Proof.
  intros Hr. apply record_ok_texts; [|now apply Forall_drop_nth, csv_row_texts].
  unfold csv_row. do 5 (destruct i as [|i]; [discriminate|]). discriminate.
Qed.

Lemma csv_records_ok (df : DataFrame) :
  store_wf df -> Forall (fun r => record_ok r = true) (csv_records df).
Proof.
  intros Hwf. constructor; [reflexivity|]. apply Forall_map_iff.
  revert Hwf. apply Forall_impl. intros r Hr.
  apply record_ok_texts; [discriminate | now apply csv_row_texts].
Qed.

Lemma load_Ok_wf (src : source) (df : DataFrame) :
  load src = Ok df -> store_wf df /\ df <> [].
Proof.
  intros H. apply load_Ok in H as (h & rows & _ & (Hr & _) & HF). split.
  - revert HF. apply Forall2_Forall_r. intros row r Hrow. now apply reads_verbatim in Hrow.
  - destruct HF; [contradiction | discriminate].
Qed.

(** ** Failed loads *)

Lemma read_csv_Err (src : source) (e : LoadError) :
  read_csv src = Err e ->
  (e = FileNotFoundError /\ src = None) \/
  (e = EmptyDataError /\ records_of src = Ok []) \/
  (e = ParserError /\ parser_error src) \/
  (exists o, e = Unsupported o).
Proof.
  unfold read_csv, parser_error. intros [H|(recs & Hrecs & H)]%bind_Err.
  - destruct src as [t|]; cbn [records_of] in H; [|injection H as <-; auto].
    destruct (scan_Err t e H) as [->|[->| ->]]; eauto 7.
  - destruct recs as [|h [|row rows]]; cbn [header_and_rows] in H;
      try destruct (rectangular _ _); try destruct (too_many_fields _ _) eqn:E;
      first [discriminate | injection H as <-; eauto 9].
Qed.

Lemma too_many_fields_ragged (w : nat) (rows : list record) :
  too_many_fields w rows = true -> rows <> [] /\ rectangular w rows = false.
Proof.
  destruct rows as [|first rest]; [discriminate|]. cbn [too_many_fields].
  intros [_ (r & Hr & Hlen)%existsb_exists]%andb_true_iff. split; [discriminate|].
  apply not_true_is_false. unfold rectangular. rewrite forallb_forall. intros Hall.
  specialize (Hall r (or_intror Hr)). apply Nat.eqb_eq in Hall. apply Nat.ltb_lt in Hlen. lia.
Qed.

Lemma read_csv_ParserError (src : source) :
  parser_error src -> read_csv src = Err ParserError.
Proof.
  unfold read_csv. intros [->|(h & rows & -> & H)]; [reflexivity|]. cbn [bind].
  pose proof (too_many_fields_ragged _ _ H) as [Hne Hr]. destruct rows; [contradiction|].
  cbn [header_and_rows]. now rewrite Hr, H.
Qed.

Lemma index_of_None (name : string) (h : list string) :
  index_of name h = None <-> ~ In name h.
Proof.
  induction h as [|c h IH]; cbn [index_of In]; [tauto|].
  destruct (String.eqb_spec name c) as [->|Hc].
  - split; [discriminate | intros []; now left].
  - destruct (index_of name h) as [i|]; cbn [option_map].
    + split; [discriminate|]. intros Hn.
      enough (Some i = None) by discriminate. apply IH. intros Hin. apply Hn. now right.
    + split; [|reflexivity]. intros _ [E|Hin]; [congruence | now apply IH].
Qed.

Lemma missing_first (h before after : list string) (c : string) :
  required = before ++ c :: after ->
  Forall (fun n => index_of n h <> None) before -> index_of c h = None ->
  missing h = Some c /\ In c required /\ ~ In c h.
Proof.
  intros E Hb Hc. unfold missing. rewrite E. split; [|split].
  - apply find_first; [|now rewrite Hc].
    revert Hb. apply Forall_impl. intros n Hn. now destruct (index_of n h).
  - apply in_elt.
  - now apply index_of_None.
Qed.

(** The case of [frame_of_Err] in which the column after [before]
    fails. *)
Ltac fails_at before H :=
  apply typed_column_Err in H; exists before; do 2 eexists;
  split; [reflexivity|]; split; [repeat constructor; assumption | exact H].

(** Where the lookups of the page fail: at the first column that is
    missing or has a cell the model does not cover. *)
Lemma frame_of_Err (f : RawFrame) (dates : list date) (e : LoadError) :
  frame_of f dates = Err e ->
  exists before c after,
    page_columns = before ++ c :: after /\
    Forall (fun n => index_of n (columns f) <> None) before /\
    ((e = KeyError c /\ index_of c (columns f) = None) \/
     (e = Unsupported (Cell c) /\ index_of c (columns f) <> None)).
Proof.
  unfold frame_of. intros H.
  apply bind_Err in H as [H|(us & [I2 _]%typed_column_Ok & H)];
    [fails_at (@nil string) H|].
  apply bind_Err in H as [H|(cs & [I3 _]%typed_column_Ok & H)];
    [fails_at ["Duration"]%string H|].
  apply bind_Err in H as [H|(ws & [I4 _]%typed_column_Ok & H)];
    [fails_at ["Duration"; "Calories"]%string H|].
  apply bind_Err in H as [H|(ns & [I5 _]%typed_column_Ok & H)];
    [fails_at ["Duration"; "Calories"; "Workout_Type"]%string H|].
  discriminate.
Qed.

(** Where a load fails: in [read_csv], or at the first use of a column
    that is missing or has a cell the model does not cover. *)
Lemma load_Err (src : source) (e : LoadError) :
  load src = Err e ->
  read_csv src = Err e \/
  exists f before c after,
    read_csv src = Ok f /\ required = before ++ c :: after /\
    Forall (fun n => index_of n (columns f) <> None) before /\
    ((e = KeyError c /\ index_of c (columns f) = None) \/
     (e = Unsupported (Cell c) /\ index_of c (columns f) <> None)).
Proof.
  unfold load, to_datetime. intros H.
  apply bind_Err in H as [H|(f & Hf & H)]; [now left|]. right. exists f.
  apply bind_Err in H as [H|(ds & [I1 _]%typed_column_Ok & H)].
  - apply typed_column_Err in H. exists [], "Date"%string, page_columns. auto.
  - apply frame_of_Err in H as (before & c & after & E & Hb & H).
    exists ("Date"%string :: before), c, after. unfold required. rewrite E. auto.
Qed.

(** ** Tables written from a frame *)

Section Written.
Variables (h : list string) (pr : Row -> record) (df : DataFrame).
Hypothesis Hh : record_ok h = true.
Hypothesis Hdf : df <> [].
Hypothesis Hpr : forall r, length (pr r) = length h.
Hypothesis Hok : Forall (fun r => record_ok (pr r) = true) df.

Lemma read_csv_written :
  read_csv (Some (to_text (h :: map pr df))) = Ok (mkRaw h (map pr df)).
Proof.
  apply read_csv_Ok. cbn [columns values records_of]. split.
  - apply scan_to_text. constructor; [exact Hh | now apply Forall_map_iff].
  - split; [now destruct df|].
    unfold rectangular. rewrite forallb_forall. intros row Hrow.
    apply in_map_iff in Hrow as (r & <- & _). apply Nat.eqb_eq, Hpr.
Qed.

Lemma typed_column_written {A : Type} `{Codec A} (name : string) (g : Row -> A) (i : nat) :
  index_of name h = Some i ->
  Forall (fun r => decode (nth i (pr r) EmptyString) = Some (g r)) df ->
  typed_column name (mkRaw h (map pr df)) = Ok (map g df).
Proof.
  intros Hi Hg. apply typed_column_Ok. cbn [columns values]. split; [congruence|].
  apply Forall2_map_l, Forall2_map_r, Forall2_diag. revert Hg. apply Forall_impl.
  intros r Hr. unfold field_is, field, cell. now rewrite Hi.
Qed.

End Written.

(** ** What loading promises *)

(** A text whose records are those of a frame of loadable rows loads as
    that frame. *)
Lemma load_records (src : source) (df : DataFrame) :
  records_of src = Ok (csv_records df) -> store_wf df -> df <> [] -> load src = Ok df.
Proof.
  intros Hsrc Hwf Hdf. apply load_Ok. exists csv_header, (map csv_row df).
  split; [exact Hsrc|]. split; [now apply to_csv_table_ok|].
  apply Forall2_map_l, Forall2_diag. revert Hwf. apply Forall_impl, reads_csv_row.
Qed.

Lemma record_ok_bytes (r : record) :
  record_ok r = true -> Forall (fun f => string_all byte_ok f = true) r /\ r <> [].
Proof.
  intros (Hne & Hf & _)%record_ok_spec. split; [|exact Hne]. revert Hf. apply Forall_impl.
  intros f. apply string_all_impl. intros c Hc. now apply field_char_step in Hc.
Qed.

(** C5. Round trip: a frame of loadable rows, written as a file with
    the five columns and read back, is the same frame, row for row;
    and so is every other spelling of the file: fields between quotes
    or not, lines ended by a line feed or by carriage return and line
    feed, lines of blanks in between, a last line with or without its
    line end. *)
Theorem load_to_csv (df : DataFrame) :
  store_wf df -> df <> [] ->
  load (Some (to_csv df)) = Ok df /\
  (forall d last,
     Forall (fun x => item_ok (fst x) = true) d -> item_ok last = true ->
     doc_records d last = csv_records df -> load (Some (render d last)) = Ok df) /\
  load (Some (write_quoted (csv_records df))) = Ok df /\
  load (Some (crlf (to_csv df))) = Ok df.
Proof.
  intros Hwf Hdf. pose proof (csv_records_ok df Hwf) as Hok.
  pose proof (scan_to_text _ Hok) as Hs.
  repeat split; try intros d last Hd Hlast Hrecs; apply load_records; try assumption;
    cbn [records_of].
  - unfold scan, parser_init. now rewrite run_render, Hrecs.
  - unfold scan, parser_init. rewrite run_write_quoted; [reflexivity|].
    revert Hok. apply Forall_impl, record_ok_bytes.
  - rewrite scan_crlf; [exact Hs|]. now apply tokenize_text with (csv_records df), tokenize_to_text.
Qed.

Lemma load_to_csv_witness :
  load (Some (to_csv sample_frame)) = Ok sample_frame /\
  (forall d last,
     Forall (fun x => item_ok (fst x) = true) d -> item_ok last = true ->
     doc_records d last = csv_records sample_frame -> load (Some (render d last)) = Ok sample_frame) /\
  load (Some (write_quoted (csv_records sample_frame))) = Ok sample_frame /\
  load (Some (crlf (to_csv sample_frame))) = Ok sample_frame.
Proof. apply load_to_csv; [|discriminate]. repeat constructor; discriminate. Defined.

(** The line ends do not matter: a text without quotes loads the same
    with its lines ended by carriage return and line feed. *)
Lemma load_line_ends (t : string) :
  string_all text_char t = true -> load (Some (crlf t)) = load (Some t).
Proof. intros Ht. unfold load, read_csv. cbn [records_of]. now rewrite scan_crlf. Qed.

(** C20. The load depends on the records of the file, not on how they
    are spelled: two documents with the same records (fields between
    quotes or not, either line end, lines of blanks and tabs anywhere, a
    last line with or without its end) give the same frame, or stop the
    program with the same exception. *)
Theorem load_spelling (d d' : list (item * bool)) (last last' : item) :
  Forall (fun x => item_ok (fst x) = true) d -> item_ok last = true ->
  Forall (fun x => item_ok (fst x) = true) d' -> item_ok last' = true ->
  doc_records d last = doc_records d' last' ->
  load (Some (render d last)) = load (Some (render d' last')).
Proof.
  intros Hd Hl Hd' Hl' E. unfold load, read_csv, records_of, scan, parser_init.
  now rewrite !run_render, E by assumption.
Qed.

Lemma load_spelling_witness :
  load (Some (render [(Fields [(false, "Date"); (false, "Duration")], false);
                      (Fields [(false, "2024-01-01"); (false, "30")], false)] (Blanks "")))%string =
  load (Some (render [(Fields [(true, "Date"); (false, "Duration")], true); (Blanks (String tab "  "), false)]
                     (Fields [(true, "2024-01-01"); (true, "30")])))%string.
Proof. apply load_spelling; repeat constructor. Defined.

(** C15. A file that loads yields one row per data record, in file
    order; the date and the two labels of a row print as the cells they
    were read from and the two numbers are the values of their cells,
    however these are spelled: nothing is dropped, reordered or altered,
    wherever the columns stand in the header. *)
Theorem load_verbatim (src : source) (df : DataFrame) :
  load src = Ok df ->
  exists h rows, records_of src = Ok (h :: rows) /\ length df = length rows /\
                 Forall2 (verbatim h) rows df.
Proof.
  intros H. apply load_Ok in H as (h & rows & Hrecs & _ & HF). exists h, rows.
  split; [exact Hrecs|]. split; [symmetry; eapply Forall2_length, HF|].
  revert HF. apply Forall2_impl. intros row r Hr. now apply reads_verbatim.
Qed.

Lemma load_verbatim_witness :
  exists h rows, records_of sample_file = Ok (h :: rows) /\
                 length sample_frame = length rows /\
                 Forall2 (verbatim h) rows sample_frame.
Proof. apply load_verbatim. reflexivity. Defined.

(** C6. The exceptions of a load.  [FileNotFoundError] is raised
    exactly when there is no file and [EmptyDataError] exactly when the
    file has no record, [ParserError] exactly when the text ends inside
    a quoted field, or the first line of data has no more fields than
    the header and a later line has more; a [KeyError] names a
    column the program uses and the header does not have, the first such
    column in the order of use. *)
Theorem load_errors (src : source) :
  (load src = Err FileNotFoundError <-> src = None) /\
  (load src = Err EmptyDataError <-> records_of src = Ok []) /\
  (load src = Err ParserError <-> parser_error src) /\
  (forall recs f,
     Forall (fun r => Forall (fun x => string_all byte_ok x = true) r /\ r <> []) recs ->
     string_all byte_ok f = true ->
     load (Some (write_quoted recs ++ String quote (escape f))%string) = Err ParserError) /\
  (forall c, load src = Err (KeyError c) ->
     exists h rows, records_of src = Ok (h :: rows) /\ table_ok h rows /\
                    missing h = Some c /\ In c required /\ ~ In c h).
Proof.
  split; [|split; [|split; [|split]]].
  - split; [|now intros ->]. intros H.
    apply load_Err in H as [H|(f & b & c & a & _ & _ & _ & [[? _]|[? _]])]; try discriminate.
    apply read_csv_Err in H as [[_ ->]|[[? _]|[[? _]|[o ?]]]]; [reflexivity | discriminate..].
  - split; [|intros H; unfold load, read_csv; now rewrite H]. intros H.
    apply load_Err in H as [H|(f & b & c & a & _ & _ & _ & [[? _]|[? _]])]; try discriminate.
    apply read_csv_Err in H as [[? _]|[[_ H]|[[? _]|[o ?]]]];
      [discriminate | exact H | discriminate..].
  - split; [|intros H; unfold load; now rewrite read_csv_ParserError]. intros H.
    apply load_Err in H as [H|(f & b & c & a & _ & _ & _ & [[? _]|[? _]])]; try discriminate.
    apply read_csv_Err in H as [[? _]|[[? _]|[[_ H]|[o ?]]]];
      [discriminate.. | exact H | discriminate].
  - intros recs f Hr Hf. unfold load. rewrite read_csv_ParserError; [reflexivity|].
    left. cbn [records_of]. now apply scan_unterminated.
  - intros c H.
    apply load_Err in H as [H|(f & b & c' & a & Hf & E & Hb & [[[= <-] Hc]|[? _]])];
      [|apply read_csv_Ok in Hf as [Hrecs Hok]|discriminate].
    + apply read_csv_Err in H as [[? _]|[[? _]|[[? _]|[o ?]]]]; discriminate.
    + exists (columns f), (values f). split; [exact Hrecs|]. split; [exact Hok|].
      eapply missing_first; eassumption.
Qed.

(** A label written between quotes loads as the label, and numbers
    written with blanks, tabs, a plus sign or leading zeros as their
    values; a line of blanks and tabs gives no row; a line with a sixth
    field stops the load. *)
Example load_quoted_and_long_lines :
  load (Some ("Date,Workout_Type,Duration,Calories,Intensity
2024-01-01," ++ quoted "Run" ++ "," ++ String tab " 030,+300 ,High
 " ++ String tab "
"))%string = Ok [mkRow (mkdate 2024 1 1) "Run" 30 300 "High"] /\
  load (Some "Date,Workout_Type,Duration,Calories,Intensity
2024-01-01,Run,30,300,High
2024-01-03,Run,45,450,High,outdoors
"%string) = Err ParserError.
Proof. split; reflexivity. Qed.

(** C16. A missing column is reported by name.  When the file written
    from a frame of loadable rows lacks one of the five columns, the
    load raises [KeyError] for that column. *)
Theorem load_dropped_column (df : DataFrame) (c : string) :
  store_wf df -> df <> [] -> In c required ->
  load (Some (to_text (drop_column c (csv_records df)))) = Err (KeyError c).
Proof.
  intros Hwf Hdf Hc.
  assert (Hcol : forall (A : Type) (C : Codec A) (i : nat) (g : Row -> A) (pr : Row -> record),
             (forall r, nth i (pr r) EmptyString = encode (g r)) ->
             (forall r, row_loadable r -> canonical (g r)) ->
             Forall (fun r => decode (nth i (pr r) EmptyString) = Some (g r)) df).
  { intros A C i g pr Hi Hg. revert Hwf. apply Forall_impl. intros r Hr.
    rewrite Hi. apply decode_encode, Hg, Hr. }
  unfold load, frame_of, to_datetime, required in *. cbn [In] in Hc.
  repeat (destruct Hc as [<-|Hc]); [..|contradiction];
    cbv [drop_column csv_records csv_header index_of String.eqb Ascii.eqb Bool.eqb andb
         option_map];
    cbn [map]; rewrite map_map, read_csv_written
      by first [reflexivity | assumption | now intros r
               | revert Hwf; apply Forall_impl; intros r; apply dropped_row_ok];
    cbn [bind];
    repeat (erewrite typed_column_written;
            [cbn [bind] | reflexivity | apply Hcol; [reflexivity | now intros r (?&?&?&?&?)]]);
    now rewrite typed_column_KeyError.
Qed.

Lemma load_dropped_column_witness :
  load (Some (to_text (drop_column "Calories" (csv_records sample_frame)))) =
  Err (KeyError "Calories").
Proof.
  apply load_dropped_column; [repeat constructor; discriminate | discriminate |].
  cbn. tauto.
Defined.
