(* ===== verification/Figure.v ===== *)
(** * Figure: plotly figures as data

    [create_charts] builds two figures: a [go.Figure] to which it adds one
    [go.Scatter] trace and whose layout it updates, and the result of
    [px.pie], whose layout it updates as well.  A figure is the data the
    browser receives: a list of traces and a layout dictionary.

    Property values ([prop_value]) are the Python literals the program
    passes: [None], booleans, integers, decimal literals, strings, lists
    and dictionaries.  [update_layout] sets the given keys, replacing a
    key that is present and keeping the order of first insertion; on the
    layouts of this program, which start without the updated keys, this is
    what plotly's recursive update does.  [px_pie] records the arguments
    the program passes; the defaults that plotly express adds on its own
    are not represented.

    Theorems: reading a key after an update gives the value written
    (insert/lookup round trip), an update does not disturb other keys nor
    the traces, and keys stay unique. *)

From Stdlib Require Import String ZArith List Lia Bool.
From S2P Require Import Prelude.
Import ListNotations.

(** ** Definitions *)

#[local] Set Warnings "-register-all".

Inductive prop_value : Type :=
| PNone
| PBool (b : bool)
| PInt (z : Z)
| PDec (m : Z) (e : nat)
| PStr (s : string)
| PList (l : list prop_value)
| PDict (kvs : list (string * prop_value)).

(** Keyword arguments and dictionaries, in source order. *)
Definition props : Type := list (string * prop_value).

Inductive trace : Type :=
| Scatter (x : list string) (y : list Z) (attrs : props)
| Pie (labels : list string) (values : list Z) (attrs : props).

Record Figure : Type := mkFigure { fig_data : list trace; fig_layout : props }.

(** [d[k]] *)
Fixpoint dict_get (k : string) (d : props) : option prop_value :=
  match d with
  | [] => None
  | (k', v) :: rest => if String.eqb k k' then Some v else dict_get k rest
  end.

(** [d[k] = v] *)
Fixpoint dict_set (k : string) (v : prop_value) (d : props) : props :=
  match d with
  | [] => [(k, v)]
  | (k', v') :: rest =>
      if String.eqb k k' then (k', v) :: rest else (k', v') :: dict_set k v rest
  end.

(** [d.update(kvs)] *)
Definition dict_update (kvs d : props) : props :=
  fold_left (fun acc kv => dict_set (fst kv) (snd kv) acc) kvs d.

(** [go.Figure()] *)
Definition go_Figure : Figure := mkFigure [] [].

(** [fig.add_trace(t)] *)
Definition add_trace (t : trace) (f : Figure) : Figure :=
  mkFigure (fig_data f ++ [t]) (fig_layout f).

(** [fig.update_layout(k1=v1, ...)] *)
Definition update_layout (kvs : props) (f : Figure) : Figure :=
  mkFigure (fig_data f) (dict_update kvs (fig_layout f)).

(** [px.pie(values=, names=, hole=, color_discrete_sequence=)] *)
Definition px_pie (values : list Z) (names : list string) (hole : prop_value)
    (color_discrete_sequence : list string) : Figure :=
  mkFigure [Pie names values [("hole"%string, hole)]]
           [("piecolorway"%string, PList (map PStr color_discrete_sequence))].

(** The values a trace plots. *)
Definition trace_values (t : trace) : list Z :=
  match t with
  | Scatter _ y _ => y
  | Pie _ values _ => values
  end.

(** The categories or abscissas of a trace. *)
Definition trace_labels (t : trace) : list string :=
  match t with
  | Scatter x _ _ => x
  | Pie labels _ _ => labels
  end.

(** Every point of a trace has both coordinates. *)
Definition trace_wf (t : trace) : Prop :=
  length (trace_labels t) = length (trace_values t).

Definition figure_wf (f : Figure) : Prop :=
  Forall trace_wf (fig_data f) /\ NoDup (map fst (fig_layout f)).

(** ** Dictionaries *)

Lemma dict_get_set_eq (k : string) (v : prop_value) (d : props) :
  dict_get k (dict_set k v d) = Some v.
Proof.
  induction d as [|[k' v'] d IH]; cbn [dict_set dict_get].
  - now rewrite String.eqb_refl.
  - destruct (String.eqb k k') eqn:E; cbn [dict_get]; rewrite E; [reflexivity | exact IH].
Qed.

Lemma dict_get_set_ne (k k' : string) (v : prop_value) (d : props) :
  k <> k' -> dict_get k' (dict_set k v d) = dict_get k' d.
Proof.
  intros Hne. induction d as [|[k0 v0] d IH]; cbn [dict_set dict_get].
  - apply String.eqb_neq in Hne. now rewrite String.eqb_sym, Hne.
  - destruct (String.eqb_spec k k0) as [->|Hk]; cbn [dict_get].
    + destruct (String.eqb_spec k' k0) as [->|_]; [congruence | reflexivity].
    + now rewrite IH.
Qed.

Lemma dict_set_keys (k x : string) (v : prop_value) (d : props) :
  In x (map fst (dict_set k v d)) <-> x = k \/ In x (map fst d).
Proof.
  induction d as [|[k' v'] d IH]; cbn [dict_set]; [cbn; intuition|].
  destruct (String.eqb_spec k k') as [->|Hne]; cbn [map fst In]; rewrite ?IH; intuition.
Qed.

Lemma dict_set_NoDup (k : string) (v : prop_value) (d : props) :
  NoDup (map fst d) -> NoDup (map fst (dict_set k v d)).
Proof.
  induction d as [|[k' v'] d IH]; cbn [dict_set]; intros HN.
  - repeat constructor. intros [].
  - cbn [map fst] in HN. apply NoDup_cons_iff in HN as [Hnotin HN].
    destruct (String.eqb_spec k k') as [->|Hne]; cbn [map fst]; constructor; auto.
    rewrite dict_set_keys. intros [E|Hin]; [congruence | contradiction].
Qed.

Lemma dict_update_NoDup (kvs d : props) :
  NoDup (map fst d) -> NoDup (map fst (dict_update kvs d)).
Proof.
  unfold dict_update. revert d.
  induction kvs as [|[k v] kvs IH]; intros d HN; cbn [fold_left]; [assumption|].
  apply IH. now apply dict_set_NoDup.
Qed.

Lemma dict_update_snoc (kvs d : props) (k : string) (v : prop_value) :
  dict_update (kvs ++ [(k, v)]) d = dict_set k v (dict_update kvs d).
Proof. unfold dict_update. now rewrite fold_left_app. Qed.

(** A key that the update does not mention keeps its value. *)
Lemma dict_get_update_other (k : string) (kvs d : props) :
  ~ In k (map fst kvs) -> dict_get k (dict_update kvs d) = dict_get k d.
Proof.
  induction kvs as [|[k' v] kvs IH] using rev_ind; intros Hnotin; [reflexivity|].
  rewrite map_app, in_app_iff in Hnotin. cbn in Hnotin.
  rewrite dict_update_snoc, dict_get_set_ne by intuition. apply IH. intuition.
Qed.

(** The last value written for a key wins. *)
Lemma dict_get_update_last (k : string) (v : prop_value) (kvs1 kvs2 d : props) :
  ~ In k (map fst kvs2) ->
  dict_get k (dict_update (kvs1 ++ (k, v) :: kvs2) d) = Some v.
Proof.
  intros Hnotin. unfold dict_update. rewrite fold_left_app. cbn [fold_left fst snd].
  fold (dict_update kvs2 (dict_set k v (fold_left (fun acc kv => dict_set (fst kv) (snd kv) acc) kvs1 d))).
  rewrite dict_get_update_other by assumption. apply dict_get_set_eq.
Qed.

#[export] Hint Resolve dict_set_NoDup dict_update_NoDup : fit.
#[export] Hint Rewrite dict_get_set_eq : fit_rw.

(** ** Figures *)

Lemma go_Figure_wf : figure_wf go_Figure.
Proof. split; constructor. Qed.

Lemma add_trace_wf (t : trace) (f : Figure) :
  trace_wf t -> figure_wf f -> figure_wf (add_trace t f).
Proof.
  intros Ht [Hd Hl]. split; [|exact Hl]. apply Forall_app. split; [exact Hd|].
  now constructor.
Qed.

Lemma update_layout_wf (kvs : props) (f : Figure) :
  figure_wf f -> figure_wf (update_layout kvs f).
Proof. intros [Hd Hl]. split; [exact Hd | now apply dict_update_NoDup]. Qed.

Lemma update_layout_data (kvs : props) (f : Figure) :
  fig_data (update_layout kvs f) = fig_data f.
Proof. reflexivity. Qed.

Lemma px_pie_wf (values : list Z) (names : list string) (hole : prop_value)
    (colors : list string) :
  length names = length values -> figure_wf (px_pie values names hole colors).
Proof.
  intros H. split; cbn.
  - now repeat constructor.
  - repeat constructor. intros [].
Qed.

#[export] Hint Resolve go_Figure_wf add_trace_wf update_layout_wf px_pie_wf : fit.

(** Reading a key of the layout after [update_layout] gives the last
    value the update wrote for it, a key the update does not mention
    keeps its value, and the traces are not touched. *)
Lemma update_layout_get (k k' : string) (v : prop_value) (kvs1 kvs2 : props) (f : Figure) :
  ~ In k (map fst kvs2) ->
  ~ In k' (map fst (kvs1 ++ (k, v) :: kvs2)) ->
  let f' := update_layout (kvs1 ++ (k, v) :: kvs2) f in
  dict_get k (fig_layout f') = Some v /\
  dict_get k' (fig_layout f') = dict_get k' (fig_layout f) /\
  fig_data f' = fig_data f.
Proof.
  intros Hk Hk'. cbn zeta. cbn [update_layout fig_layout fig_data].
  split; [now apply dict_get_update_last | split; [now apply dict_get_update_other | reflexivity]].
Qed.
