(* ===== verification/Component.v ===== *)
(** * Component: the Dash component tree

    A Dash layout is a tree of components.  Each component has a type
    ([html.Div], [dbc.Card], ...), children (components or strings) and
    keyword properties.  [component] represents the trees that
    [src/app.py] builds: [Node] for the html and bootstrap components,
    [Text] for a string child, [Graph] for [dcc.Graph] with its figure, and
    [DataTable] for the result of [dbc.Table.from_dataframe], kept as the
    column names and the cell values it is given.  A single child and a
    one-element list of children are not distinguished.

    The traversals collect what a reader of the page sees: the text under
    a component, the components of a class, the figures and the tables.
    [grid_ok] is the bootstrap grid discipline: a column is a direct child
    of a row, and the explicit widths of the columns of a row fit in the
    twelve units of the grid. *)

From Stdlib Require Import String ZArith List Lia Bool.
From S2P Require Import Prelude Calendar Figure.
Import ListNotations.

#[local] Open Scope Z_scope.

(** ** Definitions *)

(** The component constructors the program uses. *)
Inductive tag : Type :=
| dbc_Navbar | dbc_Container | dbc_Nav | dbc_NavItem | dbc_NavLink
| dbc_Row | dbc_Col | dbc_Card | dbc_CardBody | dbc_CardHeader
| dbc_Button | dbc_ButtonGroup
| html_Div | html_I | html_H1 | html_H3 | html_H5 | html_P | html_Img | html_Span.

(** A value of a frame as a table cell. *)
Inductive cell : Type :=
| CDate (d : date)
| CStr (s : string)
| CInt (z : Z).

#[local] Set Warnings "-register-all".

Inductive component : Type :=
| Text (s : string)
| Node (t : tag) (children : list component) (attrs : props)
| Graph (figure : Figure) (attrs : props)
| DataTable (columns : list string) (rows : list (list cell)) (attrs : props).

Definition tag_eqb (a b : tag) : bool :=
  match a, b with
  | dbc_Navbar, dbc_Navbar | dbc_Container, dbc_Container | dbc_Nav, dbc_Nav
  | dbc_NavItem, dbc_NavItem | dbc_NavLink, dbc_NavLink | dbc_Row, dbc_Row
  | dbc_Col, dbc_Col | dbc_Card, dbc_Card | dbc_CardBody, dbc_CardBody
  | dbc_CardHeader, dbc_CardHeader | dbc_Button, dbc_Button
  | dbc_ButtonGroup, dbc_ButtonGroup | html_Div, html_Div | html_I, html_I
  | html_H1, html_H1 | html_H3, html_H3 | html_H5, html_H5 | html_P, html_P
  | html_Img, html_Img | html_Span, html_Span => true
  | _, _ => false
  end.

Definition attrs_of (c : component) : props :=
  match c with
  | Text _ => []
  | Node _ _ a | Graph _ a | DataTable _ _ a => a
  end.

Definition has_tag (t : tag) (c : component) : bool :=
  match c with
  | Node t' _ _ => tag_eqb t t'
  | _ => false
  end.

(** The [className] of a component. *)
Definition class_of (c : component) : option string :=
  match dict_get "className" (attrs_of c) with
  | Some (PStr s) => Some s
  | _ => None
  end.

Definition has_class (cls : string) (c : component) : bool :=
  match class_of c with
  | Some s => String.eqb s cls
  | None => false
  end.

(** A component and all its descendants, parents first. *)
Fixpoint subcomponents (c : component) : list component :=
  match c with
  | Node _ ch _ => c :: flat_map subcomponents ch
  | _ => [c]
  end.

(** The text under a component, in document order. *)
Fixpoint text_of (c : component) : string :=
  match c with
  | Text s => s
  | Node _ ch _ => String.concat "" (map text_of ch)
  | _ => ""%string
  end.

(** The texts of the components of a class. *)
Definition texts_by_class (cls : string) (c : component) : list string :=
  map text_of (filter (has_class cls) (subcomponents c)).

(** The figures shown under a component. *)
Definition figures_of (c : component) : list Figure :=
  flat_map (fun x => match x with Graph f _ => [f] | _ => [] end) (subcomponents c).

(** The tables under a component, as their rows. *)
Definition tables_of (c : component) : list (list (list cell)) :=
  flat_map (fun x => match x with DataTable _ rows _ => [rows] | _ => [] end)
           (subcomponents c).

(** The explicit [width] of a column. *)
Definition width_of (c : component) : Z :=
  match dict_get "width" (attrs_of c) with
  | Some (PInt w) => w
  | _ => 0
  end.

(** The bootstrap grid discipline, given whether the parent is a row. *)
Fixpoint grid_ok (in_row : bool) (c : component) : bool :=
  match c with
  | Node t ch _ =>
      (if tag_eqb t dbc_Col then in_row else true) &&
      (if tag_eqb t dbc_Row
       then forallb (has_tag dbc_Col) ch && (zsum (map width_of ch) <=? 12)
       else true) &&
      forallb (grid_ok (tag_eqb t dbc_Row)) ch
  | _ => true
  end.

(** Number of components of a tree. *)
Fixpoint size (c : component) : nat :=
  match c with
  | Node _ ch _ => S (list_sum (map size ch))
  | _ => 1%nat
  end.

(** ** Traversals *)

Lemma tag_eqb_spec (a b : tag) : reflect (a = b) (tag_eqb a b).
Proof. destruct a, b; cbn; constructor; congruence. Qed.

Lemma tag_eqb_refl (a : tag) : tag_eqb a a = true.
Proof. now destruct a. Qed.

Lemma subcomponents_self (c : component) : In c (subcomponents c).
Proof. destruct c; cbn; auto. Qed.

Lemma subcomponents_child (t : tag) (ch : list component) (a : props) (x y : component) :
  In x ch -> In y (subcomponents x) -> In y (subcomponents (Node t ch a)).
Proof.
  intros Hx Hy. cbn [subcomponents]. right. apply in_flat_map. now exists x.
Qed.

Lemma subcomponents_length (c : component) : length (subcomponents c) = size c.
Proof.
  revert c. fix IH 1. intros [s|t ch a|f a|cols rows a]; cbn [subcomponents size length];
    try reflexivity.
  f_equal. induction ch as [|x ch IHch]; [reflexivity|].
  cbn [flat_map map list_sum]. now rewrite length_app, IH, IHch.
Qed.

(** A leaf contributes its own figure or table and nothing else. *)
Lemma figures_of_Graph (f : Figure) (a : props) : figures_of (Graph f a) = [f].
Proof. reflexivity. Qed.

Lemma tables_of_DataTable (cols : list string) (rows : list (list cell)) (a : props) :
  tables_of (DataTable cols rows a) = [rows].
Proof. reflexivity. Qed.

Lemma figures_of_Node (t : tag) (ch : list component) (a : props) :
  figures_of (Node t ch a) = flat_map figures_of ch.
Proof.
  unfold figures_of. cbn [subcomponents flat_map]. cbn [app].
  induction ch as [|x ch IH]; [reflexivity|].
  cbn [flat_map]. now rewrite flat_map_app, IH.
Qed.

Lemma tables_of_Node (t : tag) (ch : list component) (a : props) :
  tables_of (Node t ch a) = flat_map tables_of ch.
Proof.
  unfold tables_of. cbn [subcomponents flat_map]. cbn [app].
  induction ch as [|x ch IH]; [reflexivity|].
  cbn [flat_map]. now rewrite flat_map_app, IH.
Qed.

#[export] Hint Rewrite figures_of_Graph tables_of_DataTable figures_of_Node tables_of_Node : fit_rw.
