(* ===== verification/Dashboard.v ===== *)
(** * Dashboard: the page of [src/app.py]

    The five functions that build the page, transcribed from the source
    with their component types, children and keyword properties in source
    order: [create_header], [create_kpi_cards], [create_charts] (split into
    [line_chart] and [pie_chart], the two figures it returns),
    [create_activity_log] and [layout] (the value of [app.layout], as a
    function of the frame).

    The theorems tie what the page shows to the aggregates of [Frame]: the
    three cards show the formatted totals and the constant goal; the line
    chart plots the weekly buckets in increasing key order and its points
    add up to the number on the calories card; the donut chart has one
    slice per workout type and its slices add up to the number of rows;
    the table of recent activities holds the first five rows of the frame
    in file order, which are the rows the selector of the specification
    returns exactly when the file begins with its five most recent rows,
    most recent first; the page contains exactly these two figures and
    this table; and the bootstrap grid of the page is well formed for
    every frame. *)

From Stdlib Require Import String ZArith List Lia Bool.
From Stdlib Require Import Permutation Sorted.
From S2P Require Import Prelude StringOrder Int64 Calendar Format Float64.
From S2P Require Import GroupBy Counts Aggregator Frame Figure Component.
Import ListNotations.

#[local] Open Scope Z_scope.
#[local] Open Scope string_scope.

(** ** Definitions *)

Definition className (s : string) : string * prop_value := ("className", PStr s).

(** [create_header()] *)
Definition create_header : component :=
  Node dbc_Navbar
    [Node dbc_Container
       [Node html_Div
          [Node html_I [] [className "fas fa-dumbbell me-2"];
           Node html_H1 [Text "FitTrack"] [className "navbar-brand mb-0"]]
          [className "d-flex align-items-center"];
        Node dbc_Nav
          [Node dbc_NavItem
             [Node dbc_NavLink [Text "Dashboard"] [("href", PStr "#"); ("active", PBool true)]]
             [];
           Node dbc_NavItem
             [Node html_Div
                [Node html_Img [] [("src", PStr "/assets/boy.png"); className "avatar"];
                 Node html_Span [Text "Waliy"] [className "ms-2 d-none d-md-inline"]]
                [className "user-profile"]]
             []]
          [className "ms-auto"]]
       []]
    [className "navbar-custom"; ("dark", PBool false)].

(** One card of [create_kpi_cards]: an icon and the three lines beside
    it. *)
Definition stat_card (icon : string) (lines : list component) : component :=
  Node dbc_Col
    [Node dbc_Card
       [Node dbc_CardBody
          [Node html_Div
             [Node html_I [] [className icon];
              Node html_Div lines []]
             [className "d-flex align-items-center"]]
          []]
       [className "stat-card"]]
    [].

(** [create_kpi_cards(df)] *)
Definition create_kpi_cards (df : DataFrame) : component :=
  Node dbc_Row
    [stat_card "fas fa-clock stat-icon"
       [Node html_P [Text "Total Hours"] [className "stat-label"];
        Node html_H3 [Text (format_f1 (total_hours df))] [className "stat-value"];
        Node html_P [Text "↑ 12% vs last month"] [className "stat-change positive"]];
     stat_card "fas fa-fire stat-icon"
       [Node html_P [Text "Calories Burned"] [className "stat-label"];
        Node html_H3 [Text (format_int_comma (total_calories df))] [className "stat-value"];
        Node html_P [Text "↑ 8% vs last month"] [className "stat-change positive"]];
     stat_card "fas fa-bullseye stat-icon"
       [Node html_P [Text "Goal Progress"] [className "stat-label"];
        Node html_H3 [Text (format_percent goal_progress)] [className "stat-value"];
        Node html_Div
          [Node html_Div []
             [className "progress-bar";
              ("style", PDict [("width", PStr (format_percent goal_progress))])]]
          [className "progress mt-2"]]]
    [className "g-4 mb-4"].

Definition margin_20 : prop_value :=
  PDict [("l", PInt 20); ("r", PInt 20); ("t", PInt 20); ("b", PInt 20)].

(** The first figure of [create_charts]: calories per week. *)
Definition line_chart (weekly : list WeeklyRow) : Figure :=
  update_layout
    [("title", PNone);
     ("template", PStr "plotly_white");
     ("height", PInt 350);
     ("margin", margin_20);
     ("paper_bgcolor", PStr "white");
     ("plot_bgcolor", PStr "white");
     ("font", PDict [("family", PStr "Inter")]);
     ("xaxis", PDict [("showgrid", PBool false)]);
     ("yaxis", PDict [("showgrid", PBool true); ("gridcolor", PStr "#f0f0f0")])]
    (add_trace
       (Scatter (map wk_Date weekly) (map wk_Calories weekly)
          [("name", PStr "Calories");
           ("line", PDict [("color", PStr "#4361ee"); ("width", PInt 3)]);
           ("fill", PStr "tonexty");
           ("fillcolor", PStr "rgba(67, 97, 238, 0.1)")])
       go_Figure).

(** The second figure of [create_charts]: rows per workout type. *)
Definition pie_chart (dist : list (string * Z)) : Figure :=
  update_layout
    [("title", PNone);
     ("height", PInt 350);
     ("margin", margin_20);
     ("paper_bgcolor", PStr "white");
     ("font", PDict [("family", PStr "Inter")]);
     ("showlegend", PBool true);
     ("legend", PDict [("orientation", PStr "h"); ("yanchor", PStr "bottom");
                       ("y", PDec 102 2); ("xanchor", PStr "right"); ("x", PInt 1)])]
    (px_pie (map snd dist) (map fst dist) (PDec 7 1)
       ["#4361ee"; "#3f37c9"; "#3a0ca3"; "#480ca8"]).

(** The points of a figure: the abscissa or label of each point with its
    value, trace by trace. *)
Definition chart_points (f : Figure) : list (string * Z) :=
  flat_map (fun t => combine (trace_labels t) (trace_values t)) (fig_data f).

(** [create_charts(df)] *)
Definition create_charts (df : DataFrame) : Figure * Figure :=
  (line_chart (weekly_data df), pie_chart (workout_dist df)).

Definition activity_columns : list string :=
  ["Date"; "Workout_Type"; "Duration"; "Calories"; "Intensity"].

(** The cells of a row under [activity_columns]. *)
Definition row_cells (r : Row) : list cell :=
  [CDate (Date r); CStr (Workout_Type r); CInt (Duration r); CInt (Calories r);
   CStr (Intensity r)].

(** [create_activity_log(df)] *)
Definition create_activity_log (df : DataFrame) : component :=
  DataTable activity_columns (map row_cells df)
    [("striped", PBool true); ("bordered", PBool true); ("hover", PBool true);
     ("responsive", PBool true); className "activity-table"].

Definition no_mode_bar : props := [("config", PDict [("displayModeBar", PBool false)])].

(** [app.layout], as a function of the frame loaded at start-up. *)
Definition layout (df : DataFrame) : component :=
  Node dbc_Container
    [create_header;
     Node html_Div
       [create_kpi_cards df;
        Node dbc_Row
          [Node dbc_Col
             [Node dbc_Card
                [Node dbc_CardHeader
                   [Node html_H5 [Text "Weekly Progress"] [className "mb-0"];
                    Node dbc_ButtonGroup
                      [Node dbc_Button [Text "Week"] [("color", PStr "light"); ("size", PStr "sm")];
                       Node dbc_Button [Text "Month"]
                         [("color", PStr "light"); ("size", PStr "sm"); ("outline", PBool true)];
                       Node dbc_Button [Text "Year"]
                         [("color", PStr "light"); ("size", PStr "sm"); ("outline", PBool true)]]
                      [("size", PStr "sm")]]
                   [className "d-flex justify-content-between align-items-center"];
                 Node dbc_CardBody [Graph (fst (create_charts df)) no_mode_bar] []]
                [className "chart-card"]]
             [("width", PInt 8)];
           Node dbc_Col
             [Node dbc_Card
                [Node dbc_CardHeader
                   [Node html_H5 [Text "Workout Distribution"] [className "mb-0"]]
                   [];
                 Node dbc_CardBody [Graph (snd (create_charts df)) no_mode_bar] []]
                [className "chart-card"]]
             [("width", PInt 4)]]
          [className "g-4 mb-4"];
        Node dbc_Card
          [Node dbc_CardHeader
             [Node html_H5 [Text "Recent Activities"] [className "mb-0"];
              Node dbc_Button [Text "View All"] [("color", PStr "primary"); ("size", PStr "sm")]]
             [className "d-flex justify-content-between align-items-center"];
           Node dbc_CardBody [create_activity_log (head 5 df)] []]
          [className "chart-card"]]
       [className "dashboard-content"]]
    [("fluid", PBool true); className "px-4 py-3"].

(** ** The chart builders, for any aggregator *)

Lemma combine_map_fst_snd {A B : Type} (l : list (A * B)) :
  combine (map fst l) (map snd l) = l.
Proof. induction l as [|[a b] l IH]; cbn; [reflexivity | now rewrite IH]. Qed.

Lemma combine_map_map {A B C : Type} (f : A -> B) (g : A -> C) (l : list A) :
  combine (map f l) (map g l) = map (fun x => (f x, g x)) l.
Proof. induction l as [|a l IH]; cbn; [reflexivity | now rewrite IH]. Qed.

(** The line chart plots one point per row of the table it is given, in
    the order of the table. *)
Lemma line_chart_points (weekly : list WeeklyRow) :
  chart_points (line_chart weekly) = map (fun w => (wk_Date w, wk_Calories w)) weekly.
Proof.
  unfold chart_points, line_chart. rewrite update_layout_data.
  cbn [add_trace go_Figure fig_data app flat_map trace_labels trace_values].
  now rewrite app_nil_r, combine_map_map.
Qed.

(** The donut chart has one slice per entry it is given, in order. *)
Lemma pie_chart_points (dist : list (string * Z)) : chart_points (pie_chart dist) = dist.
Proof.
  unfold chart_points, pie_chart. rewrite update_layout_data.
  cbn [px_pie fig_data flat_map trace_labels trace_values].
  now rewrite app_nil_r, combine_map_fst_snd.
Qed.

Lemma line_chart_wf (weekly : list WeeklyRow) : figure_wf (line_chart weekly).
Proof.
  apply update_layout_wf, add_trace_wf; [|apply go_Figure_wf].
  unfold trace_wf. cbn [trace_labels trace_values]. now rewrite !length_map.
Qed.

Lemma pie_chart_wf (dist : list (string * Z)) : figure_wf (pie_chart dist).
Proof. apply update_layout_wf, px_pie_wf. now rewrite !length_map. Qed.

Section ChartBuilder.
Context {Rec : Type} `{Aggregator Rec}.

(** On a weekly series the abscissas increase strictly and the ordinates
    add up to the total of the calories. *)
Lemma line_chart_of_series (rs : list Rec) :
  StronglySorted str_lt (map fst (chart_points (line_chart (weekly_series rs)))) /\
  sum64 (map snd (chart_points (line_chart (weekly_series rs)))) = summarize_calories rs.
Proof.
  rewrite line_chart_points, !map_map. cbn [fst snd].
  split; [apply weekly_series_sorted | apply weekly_series_conserved].
Qed.

(** On a distribution the labels are distinct, the counts decrease and
    add up to the number of records. *)
Lemma pie_chart_of_distribution (rs : list Rec) :
  NoDup (map fst (chart_points (pie_chart (distribution rs)))) /\
  StronglySorted count_ge (chart_points (pie_chart (distribution rs))) /\
  zsum (map snd (chart_points (pie_chart (distribution rs)))) = Z.of_nat (length rs).
Proof.
  rewrite pie_chart_points.
  split; [apply distribution_NoDup | split; [apply distribution_sorted | apply distribution_total]].
Qed.

End ChartBuilder.

(** ** The cards *)

(** The three cards show, in this order, the total hours with one
    decimal, the total calories with thousands separators, and the goal
    percentage. *)
Lemma kpi_cards_show_totals (df : DataFrame) :
  texts_by_class "stat-value" (create_kpi_cards df) =
    [format_f1 (total_hours df); format_int_comma (total_calories df); "75%"] /\
  texts_by_class "stat-label" (create_kpi_cards df) =
    ["Total Hours"; "Calories Burned"; "Goal Progress"].
Proof. split; reflexivity. Qed.

(** ** The charts *)

(** C4. The line chart has one point per weekly bucket, in strictly
    increasing key order, and its ordinates add up (in int64) to the
    number shown on the calories card. *)
Theorem line_chart_plots_weekly (df : DataFrame) :
  let pts := chart_points (fst (create_charts df)) in
  pts = map (fun w => (wk_Date w, wk_Calories w)) (weekly_data df) /\
  StronglySorted str_lt (map fst pts) /\
  sum64 (map snd pts) = total_calories df.
Proof.
  cbn zeta. split; [apply line_chart_points|].
  apply (line_chart_of_series (H := frame_aggregator)).
Qed.

(** C27. The donut chart has one slice per workout type of the frame,
    ordered by decreasing count, and the slices add up to the number of
    rows. *)
Theorem pie_chart_slices (df : DataFrame) :
  let slices := chart_points (snd (create_charts df)) in
  slices = workout_dist df /\
  NoDup (map fst slices) /\
  StronglySorted count_ge slices /\
  zsum (map snd slices) = Z.of_nat (length df).
Proof.
  cbn zeta. split; [apply pie_chart_points|].
  apply (pie_chart_of_distribution (H := frame_aggregator)).
Qed.

(** Both figures are well formed: every point has both coordinates
    and no layout key is set twice; the line chart is 350 units high on
    the white template. *)
Lemma create_charts_wf (df : DataFrame) :
  figure_wf (fst (create_charts df)) /\ figure_wf (snd (create_charts df)) /\
  dict_get "height" (fig_layout (fst (create_charts df))) = Some (PInt 350) /\
  dict_get "template" (fig_layout (fst (create_charts df))) = Some (PStr "plotly_white").
Proof.
  split; [apply line_chart_wf | split; [apply pie_chart_wf | split; reflexivity]].
Qed.

(** ** The page *)

(** C11. The table of recent activities is the only table of the page; it
    holds the first [min(5, len(df))] rows of the frame, in file order,
    under the five column names of the file. *)
Theorem layout_recent_activities (df : DataFrame) :
  tables_of (layout df) = [map row_cells (head 5 df)] /\
  length (map row_cells (head 5 df)) = Nat.min 5 (length df) /\
  exists rest, map row_cells df = (map row_cells (head 5 df) ++ rest)%list.
Proof.
  split; [reflexivity | split].
  - rewrite length_map. apply firstn_length_min.
  - destruct (firstn_prefix 5 df) as [rest Hrest]. exists (map row_cells rest).
    unfold head. now rewrite <- map_app, <- Hrest.
Qed.

Lemma row_cells_inj (r r' : Row) : row_cells r = row_cells r' -> r = r'.
Proof. destruct r, r'. unfold row_cells. cbn. now intros [= -> -> -> -> ->]. Qed.

(** C21. The table of recent activities against the selector of the
    specification.  The page shows the table the specification asks for
    (the five most recent rows, most recent first, rows of the same date
    in file order) exactly when the file begins with them: its first
    five rows are in date-descending order and no later row is more
    recent than one of them. *)
Theorem recent_activities_vs_selector (df : DataFrame) :
  tables_of (layout df) = [map row_cells (most_recent 5 df)] <-> recent_first 5 df.
Proof.
  rewrite <- head_most_recent_iff. change (tables_of (layout df)) with [map row_cells (head 5 df)].
  split; [|now intros ->].
  intros [= E]. now apply (map_injective row_cells) in E; [|apply row_cells_inj].
Qed.

(** A file in chronological order: the table shows the five oldest rows
    and the selector the five most recent. *)
Example recent_activities_chronological :
  let df := map (fun d => mkRow (mkdate 2024 1 d) "Run" 30 300 "High") [1; 2; 3; 4; 5; 6] in
  map (fun r => day (Date r)) (head 5 df) = [1; 2; 3; 4; 5] /\
  map (fun r => day (Date r)) (most_recent 5 df) = [6; 5; 4; 3; 2].
Proof. split; reflexivity. Qed.

(** The page shows the three cards (total hours with one decimal,
    total calories with thousands separators, and a goal of 75% whose
    progress bar does not depend on the data), exactly the two figures of
    [create_charts] with the line chart first, and the three card
    titles; and its bootstrap grid is well formed for every frame: each
    column is a direct child of a row, rows hold only columns, and the
    explicit widths of a row fit in twelve units. *)
Lemma layout_content (df : DataFrame) :
  texts_by_class "stat-value" (layout df) =
    [format_f1 (total_hours df); format_int_comma (total_calories df); "75%"] /\
  map (fun c => dict_get "style" (attrs_of c))
      (filter (has_class "progress-bar") (subcomponents (layout df))) =
    [Some (PDict [("width", PStr "75%")])] /\
  figures_of (layout df) = [fst (create_charts df); snd (create_charts df)] /\
  texts_by_class "mb-0" (layout df) =
    ["Weekly Progress"; "Workout Distribution"; "Recent Activities"] /\
  grid_ok false (layout df) = true.
Proof. repeat split. Qed.

