(* ===== verification/Imports.v ===== *)
(** * Imports: the libraries the module loads before anything else

    The first six lines of [src/app.py] import the libraries: [dash],
    [dash_bootstrap_components] as [dbc], four names from [dash],
    [plotly.express] as [px], [plotly.graph_objects] as [go] and [pandas]
    as [pd].  They are executed in order before any other statement, and
    each either binds names in the namespace of the module or raises.

    An [environment] says which modules are installed, by their dotted
    names, and which names each defines.  Importing [a.b] imports the
    package [a] and then [a.b]; a module that is missing raises
    [ModuleNotFoundError] with the name of the outermost package that is
    missing.  [from m import n] succeeds when [m] defines [n] or has a
    submodule [m.n], and raises [ImportError] otherwise.  A module that
    is found and then fails while it is loaded is not represented.

    [exec_imports] executes the statements; [exec_imports_spec] shows
    that this amounts to checking their requirements in source order and
    then binding their names, so the exception of a failed start is the
    one of the first requirement the environment does not meet.  The
    model knows of a module only whether it is found: nothing is claimed
    about what the libraries do while they load. *)

From Stdlib Require Import String List Bool.
From S2P Require Import Prelude.
Import ListNotations.

#[local] Open Scope string_scope.
#[local] Open Scope fit_scope.

(** ** Definitions *)

(** The path of a module: [plotly.express] is [["plotly"; "express"]]. *)
Definition module_path : Type := list string.

(** The forms of import the module uses. *)
Inductive import_stmt : Type :=
| Import (path : module_path)
| ImportAs (path : module_path) (alias : string)
| FromImport (path : module_path) (names : list string).

(** The imports of the module, in source order. *)
Definition imports : list import_stmt :=
  [Import ["dash"];
   ImportAs ["dash_bootstrap_components"] "dbc";
   FromImport ["dash"] ["html"; "dcc"; "Input"; "Output"];
   ImportAs ["plotly"; "express"] "px";
   ImportAs ["plotly"; "graph_objects"] "go";
   ImportAs ["pandas"] "pd"].

(** What is installed: modules by dotted name, with the names each
    defines. *)
Definition environment : Type := list (string * list string).

Inductive ImportError : Type :=
| ModuleNotFoundError (name : string)       (** No module named [name] *)
| CannotImportName (name from : string).    (** cannot import name [name] from [from] *)

(** What a name is bound to. *)
Inductive object : Type :=
| PyModule (name : string)
| PyMember (module name : string).

Definition namespace : Type := list (string * object).

Fixpoint lookup {A : Type} (k : string) (l : list (string * A)) : option A :=
  match l with
  | [] => None
  | (k', a) :: l' => if String.eqb k k' then Some a else lookup k l'
  end.

Definition installed (env : environment) (m : string) : bool :=
  match lookup m env with
  | Some _ => true
  | None => false
  end.

Definition submodule (m name : string) : string := m ++ "." ++ name.

(** [from m import name] finds an attribute of [m] or a submodule. *)
Definition defines (env : environment) (m name : string) : bool :=
  match lookup m env with
  | Some names => existsb (String.eqb name) names
  | None => false
  end || installed env (submodule m name).

(** The packages on the way to a module, outermost first. *)
Fixpoint packages (parent : option string) (path : module_path) : list string :=
  match path with
  | [] => []
  | c :: rest =>
      let p := match parent with
               | None => c
               | Some q => submodule q c
               end in
      p :: packages (Some p) rest
  end.

Definition dotted (path : module_path) : string := last (packages None path) "".

(** Importing modules, outermost first. *)
Fixpoint import_packages (env : environment) (ps : list string) : result ImportError unit :=
  match ps with
  | [] => Ok tt
  | p :: ps' =>
      if installed env p then import_packages env ps' else Err (ModuleNotFoundError p)
  end.

(** Binding the names of [from m import ...], left to right. *)
Fixpoint import_names (env : environment) (m : string) (names : list string) (ns : namespace)
  : result ImportError namespace :=
  match names with
  | [] => Ok ns
  | n :: names' =>
      if defines env m n then import_names env m names' ((n, PyMember m n) :: ns)
      else Err (CannotImportName n m)
  end.

(** One import statement. *)
Definition exec_import (env : environment) (ns : namespace) (s : import_stmt)
  : result ImportError namespace :=
  match s with
  | Import path =>
      _ <- import_packages env (packages None path) ;;
      Ok ((hd "" path, PyModule (hd "" path)) :: ns)
  | ImportAs path alias =>
      _ <- import_packages env (packages None path) ;;
      Ok ((alias, PyModule (dotted path)) :: ns)
  | FromImport path names =>
      _ <- import_packages env (packages None path) ;;
      import_names env (dotted path) names ns
  end.

(** The import statements, one after the other. *)
Fixpoint exec_imports (env : environment) (ns : namespace) (l : list import_stmt)
  : result ImportError namespace :=
  match l with
  | [] => Ok ns
  | s :: l' => ns' <- exec_import env ns s ;; exec_imports env ns' l'
  end.

(** *** What the imports need and what they bind *)

Inductive requirement : Type :=
| NeedModule (m : string)
| NeedName (m name : string).

Definition met (env : environment) (r : requirement) : bool :=
  match r with
  | NeedModule m => installed env m
  | NeedName m n => defines env m n
  end.

Definition error_of (r : requirement) : ImportError :=
  match r with
  | NeedModule m => ModuleNotFoundError m
  | NeedName m n => CannotImportName n m
  end.

Definition requirements_of (s : import_stmt) : list requirement :=
  match s with
  | Import path | ImportAs path _ => map NeedModule (packages None path)
  | FromImport path names =>
      map NeedModule (packages None path) ++ map (NeedName (dotted path)) names
  end.

Definition bindings_of (s : import_stmt) : namespace :=
  match s with
  | Import path => [(hd "" path, PyModule (hd "" path))]
  | ImportAs path alias => [(alias, PyModule (dotted path))]
  | FromImport path names => map (fun n => (n, PyMember (dotted path) n)) names
  end.

(** The first requirement the environment does not meet. *)
Definition first_unmet (env : environment) (l : list import_stmt) : option requirement :=
  find (fun r => negb (met env r)) (flat_map requirements_of l).

(** The namespace after the statements: the last binding first. *)
Definition bind_all (l : list import_stmt) (ns : namespace) : namespace :=
  (rev (flat_map bindings_of l) ++ ns)%list.

(** An environment with the libraries of the module. *)
Definition sample_env : environment :=
  [("dash", ["html"; "dcc"; "Input"; "Output"; "Dash"]);
   ("dash_bootstrap_components", ["themes"; "Container"]);
   ("plotly", []); ("plotly.express", ["pie"]);
   ("plotly.graph_objects", ["Figure"; "Scatter"]);
   ("pandas", ["read_csv"; "to_datetime"])].

(** ** Execution against requirements *)

Lemma import_packages_spec (env : environment) (ps : list string) :
  import_packages env ps =
  match find (fun r => negb (met env r)) (map NeedModule ps) with
  | Some r => Err (error_of r)
  | None => Ok tt
  end.
Proof.
  induction ps as [|p ps IH]; [reflexivity|]. cbn [import_packages map find met].
  destruct (installed env p); [exact IH | reflexivity].
Qed.

Lemma import_names_spec (env : environment) (m : string) (names : list string) (ns : namespace) :
  import_names env m names ns =
  match find (fun r => negb (met env r)) (map (NeedName m) names) with
  | Some r => Err (error_of r)
  | None => Ok (rev (map (fun n => (n, PyMember m n)) names) ++ ns)%list
  end.
Proof.
  revert ns. induction names as [|n names IH]; intros ns; [reflexivity|].
  cbn [import_names map find met rev]. destruct (defines env m n); [|reflexivity].
  cbn [negb]. rewrite IH. destruct (find _ _); [reflexivity|]. now rewrite <- app_assoc.
Qed.

Lemma find_app {A : Type} (f : A -> bool) (l l' : list A) :
  find f (l ++ l') = match find f l with Some a => Some a | None => find f l' end.
Proof. induction l as [|a l IH]; [reflexivity|]. cbn. now destruct (f a). Qed.

Lemma exec_import_spec (env : environment) (ns : namespace) (s : import_stmt) :
  exec_import env ns s =
  match find (fun r => negb (met env r)) (requirements_of s) with
  | Some r => Err (error_of r)
  | None => Ok (rev (bindings_of s) ++ ns)%list
  end.
Proof.
  destruct s as [path|path alias|path names]; cbn [exec_import requirements_of bindings_of];
    rewrite import_packages_spec, ?find_app;
    destruct (find _ (map NeedModule _)); cbn [bind]; try reflexivity.
  apply import_names_spec.
Qed.

(** The imports check their requirements in source order and then bind
    their names. *)
Lemma exec_imports_first_unmet (env : environment) (l : list import_stmt) (ns : namespace) :
  exec_imports env ns l =
  match first_unmet env l with
  | Some r => Err (error_of r)
  | None => Ok (bind_all l ns)
  end.
Proof.
  unfold first_unmet, bind_all. revert ns.
  induction l as [|s l IH]; intros ns; [reflexivity|].
  cbn [exec_imports flat_map]. rewrite exec_import_spec, find_app.
  destruct (find _ (requirements_of s)); cbn [bind]; [reflexivity|].
  rewrite IH. destruct (find _ _); [reflexivity|]. now rewrite rev_app_distr, <- app_assoc.
Qed.

(** ** The imports of the module *)

(** What the six statements need, in the order in which they ask for
    it. *)
Lemma imports_requirements :
  flat_map requirements_of imports =
  [NeedModule "dash"; NeedModule "dash_bootstrap_components"; NeedModule "dash";
   NeedName "dash" "html"; NeedName "dash" "dcc"; NeedName "dash" "Input";
   NeedName "dash" "Output"; NeedModule "plotly"; NeedModule "plotly.express";
   NeedModule "plotly"; NeedModule "plotly.graph_objects"; NeedModule "pandas"].
Proof. reflexivity. Qed.

(** The namespace after the imports. *)
Lemma imports_namespace :
  bind_all imports [] =
  [("pd", PyModule "pandas"); ("go", PyModule "plotly.graph_objects");
   ("px", PyModule "plotly.express"); ("Output", PyMember "dash" "Output");
   ("Input", PyMember "dash" "Input"); ("dcc", PyMember "dash" "dcc");
   ("html", PyMember "dash" "html"); ("dbc", PyModule "dash_bootstrap_components");
   ("dash", PyModule "dash")].
Proof. reflexivity. Qed.

(** With the libraries installed the imports succeed; without pandas the
    last of them raises. *)
Example imports_samples :
  exec_imports sample_env [] imports = Ok (bind_all imports []) /\
  exec_imports (removelast sample_env) [] imports = Err (ModuleNotFoundError "pandas") /\
  exec_imports [("dash", ["Dash"]); ("dash_bootstrap_components", [])] [] imports =
  Err (CannotImportName "html" "dash").
Proof. repeat split. Qed.

(** A start that fails at the imports raises the exception of the
    first requirement, in source order, that the environment does not
    meet: every requirement before it is met, and nothing after it is
    looked at. *)
Lemma imports_raise (env : environment) (e : ImportError) :
  exec_imports env [] imports = Err e <->
  exists before r after,
    flat_map requirements_of imports = (before ++ r :: after)%list /\
    forallb (met env) before = true /\ met env r = false /\ e = error_of r.
Proof.
  rewrite exec_imports_first_unmet. unfold first_unmet. split.
  - destruct (find _ _) as [r|] eqn:E; [|discriminate]. intros [= <-].
    apply find_split in E as (before & after & -> & Hb & Hr).
    exists before, r, after. rewrite negb_true_iff in Hr. repeat split; try assumption.
    rewrite forallb_forall. rewrite Forall_forall in Hb. intros x Hx.
    now apply negb_false_iff, Hb.
  - intros (before & r & after & -> & Hb & Hr & ->). rewrite find_first; [reflexivity| |now rewrite Hr].
    apply Forall_forall. intros x Hx. rewrite forallb_forall in Hb. now rewrite (Hb x Hx).
Qed.
