(* ===== verification/App.v ===== *)
(** * App: the module as a whole

    The top level of [src/app.py], statement by statement: the
    application object is created with its three style sheets, the frame
    is loaded, and [app.layout] is set to the page built from the frame.
    An exception of the load, or of the first use of a column while the
    page is built, ends the program before a layout is assigned.

    [main] is the outcome of the module for a given file: the
    application with its layout, or the exception.  The theorems compose
    the record store with the page: the page of a file that loads shows
    the records of the file (the first five in the table, their weekly
    split-apply-combine sums in the line chart, their workout types in
    the donut), and the program has a page exactly when the load
    succeeds.

    [app.run(debug=True)], the server, is not modelled. *)

From Stdlib Require Import String ZArith List Lia Bool.
From S2P Require Import Prelude Calendar Format Csv Parse GroupBy Counts Frame Store.
From S2P Require Import Figure Component Dashboard.
Import ListNotations.

#[local] Open Scope Z_scope.
#[local] Open Scope fit_scope.

(** ** Definitions *)

(** An entry of [external_stylesheets]: the bootstrap theme of
    [dash_bootstrap_components], or the address of a style sheet. *)
Inductive stylesheet : Type :=
| BOOTSTRAP
| Url (href : string).

(** The application object, as far as the module sets it. *)
Record Dash : Type := mkDash {
  external_stylesheets : list stylesheet;
  app_layout : option component
}.

(** [dash.Dash(__name__, external_stylesheets=sheets)] *)
Definition dash_Dash (sheets : list stylesheet) : Dash := mkDash sheets None.

(** [app], as created at the top of the module. *)
Definition app : Dash :=
  dash_Dash
    [BOOTSTRAP;
     Url "https://fonts.googleapis.com/css2?family=Inter:wght@400;500;600;700&display=swap";
     Url "https://cdnjs.cloudflare.com/ajax/libs/font-awesome/5.15.3/css/all.min.css"].

(** [app.layout = page] *)
Definition set_layout (page : component) (a : Dash) : Dash :=
  mkDash (external_stylesheets a) (Some page).

(** The module, run on a file. *)
Definition main (src : source) : result LoadError Dash :=
  df <- load src ;;
  Ok (set_layout (layout df) app).

(** ** The module and its file *)

Lemma main_Ok (src : source) (a : Dash) :
  main src = Ok a <-> exists df, load src = Ok df /\ a = set_layout (layout df) app.
Proof.
  unfold main. rewrite bind_Ok. split; intros (df & Hdf & E); exists df; split; congruence.
Qed.

Lemma workout_dist_nonempty (df : DataFrame) : df <> [] -> workout_dist df <> [].
Proof.
  intros Hdf E. pose proof (value_counts_total (map Workout_Type df)) as H.
  fold (workout_dist df) in H. rewrite E, length_map in H. now destruct df.
Qed.

(** C7. End to end: when the module has a page, the file has a header
    and data records, the frame has one row per record with the date,
    the labels and the values of the numbers of the record, and the page
    shows that frame: its only
    table holds the first five records, the line chart plots the
    split-apply-combine sums of calories per week, and the donut has a
    slice per workout type, at least one. *)
Theorem page_of_file (src : source) (a : Dash) :
  main src = Ok a ->
  exists h rows df page,
    records_of src = Ok (h :: rows) /\ Forall2 (verbatim h) rows df /\
    app_layout a = Some page /\
    tables_of page = [map row_cells (firstn 5 df)] /\
    map chart_points (figures_of page) =
      [map (fun w => (wk_Date w, wk_Calories w)) (groupby_spec week_key Calories Duration df);
       workout_dist df] /\
    workout_dist df <> [].
Proof.
  intros H. apply main_Ok in H as (df & Hload & ->).
  destruct (load_Ok_wf _ _ Hload) as [Hwf Hne].
  apply load_Ok in Hload as (h & rows & Hrecs & _ & HF).
  exists h, rows, df, (layout df).
  split; [exact Hrecs|]. split.
  { revert HF. apply Forall2_impl. intros row r Hr. now apply reads_verbatim. }
  split; [reflexivity|]. split; [reflexivity|]. split; [|now apply workout_dist_nonempty].
  change (figures_of (layout df)) with [fst (create_charts df); snd (create_charts df)].
  cbn [map create_charts fst snd]. rewrite line_chart_points, pie_chart_points.
  unfold weekly_data. rewrite groupby_sum_refines; [reflexivity|].
  now apply frame_wf_in_range, store_wf_frame_wf.
Qed.

Lemma page_of_file_witness :
  exists h rows df page,
    records_of sample_file = Ok (h :: rows) /\ Forall2 (verbatim h) rows df /\
    app_layout (set_layout (layout sample_frame) app) = Some page /\
    tables_of page = [map row_cells (firstn 5 df)] /\
    map chart_points (figures_of page) =
      [map (fun w => (wk_Date w, wk_Calories w)) (groupby_spec week_key Calories Duration df);
       workout_dist df] /\
    workout_dist df <> [].
Proof. apply page_of_file. reflexivity. Defined.
