(* ===== verification/Script.v ===== *)
(** * Script: the statements of the module, one step at a time

    [src/app.py] is executed from top to bottom when it is run or
    imported.  Its statements that do something are, in order:
    [app = dash.Dash(...)], [df = pd.read_csv(...)],
    [df['Date'] = pd.to_datetime(df['Date'])], the assignment of
    [app.layout] (which calls the four functions of the page and looks
    up the other columns of [df]), and the guard
    [if __name__ == '__main__': app.run(debug=True)].

    A [state] is a point between two statements with the globals bound
    so far; [step] is the execution of the next statement, which either
    binds a global or raises; [next] is the same as a function and [run]
    iterates it.  The theorem locates the exception of a missing column:
    a [KeyError] for a column other than [Date] is raised by the layout
    statement, after both statements of the load have completed.  The
    lemmas beside it justify the fuel of [run] and tie the steps to
    [App.main]: every execution ends after at most five steps, in the
    outcome [main] computes in one go, and in every reachable state the
    globals are what the file determines.  They hold for any five
    statements in a row and say nothing more of the program than its
    order.  [module_run] puts the imports ([Imports]) before the
    statements.  The state [Serving] is final here: the model ends where
    [app.run] is called and does not follow the server, which does not
    return. *)

From Stdlib Require Import String ZArith List Lia Bool Relations Wellfounded.
From S2P Require Import Prelude Calendar Csv Frame Store Component Dashboard Imports App.
Import ListNotations.

#[local] Open Scope fit_scope.
#[local] Open Scope string_scope.

(** ** Definitions *)

(** The points of the module and the globals bound at each. *)
Inductive state : Type :=
| Start
| Created (a : Dash)
| Read (a : Dash) (f : RawFrame)
| Dated (a : Dash) (f : RawFrame) (dates : list date)
| Ready (a : Dash)
| Serving (a : Dash) (debug : bool)
| Imported (a : Dash)
| Raised (e : LoadError).

(** The right-hand side of [app.layout = ...]: the columns of the page
    are looked up where the functions of the page use them. *)
Definition build_page (f : RawFrame) (dates : list date) : result LoadError component :=
  df <- frame_of f dates ;;
  Ok (layout df).

(** The state after a statement that may raise. *)
Definition bound {A : Type} (r : result LoadError A) (k : A -> state) : state :=
  match r with
  | Ok a => k a
  | Err e => Raised e
  end.

(** [if __name__ == '__main__': app.run(debug=True)] *)
Definition main_guard (name : string) (a : Dash) : state :=
  if String.eqb name "__main__" then Serving a true else Imported a.

(** The statements that remain to be executed. *)
Definition remaining (s : state) : nat :=
  match s with
  | Start => 5
  | Created _ => 4
  | Read _ _ => 3
  | Dated _ _ _ => 2
  | Ready _ => 1
  | Serving _ _ | Imported _ | Raised _ => 0
  end.

Section Script.
Variables (name : string) (src : source).

(** The execution of one statement. *)
Inductive step : state -> state -> Prop :=
| step_Dash :
    step Start (Created app)
| step_read_csv a f :
    read_csv src = Ok f -> step (Created a) (Read a f)
| step_read_csv_raise a e :
    read_csv src = Err e -> step (Created a) (Raised e)
| step_to_datetime a f dates :
    to_datetime f = Ok dates -> step (Read a f) (Dated a f dates)
| step_to_datetime_raise a f e :
    to_datetime f = Err e -> step (Read a f) (Raised e)
| step_layout a f dates page :
    build_page f dates = Ok page -> step (Dated a f dates) (Ready (set_layout page a))
| step_layout_raise a f dates e :
    build_page f dates = Err e -> step (Dated a f dates) (Raised e)
| step_run a :
    name = "__main__" -> step (Ready a) (Serving a true)
| step_import a :
    name <> "__main__" -> step (Ready a) (Imported a).

(** The same, as a function: the state after the next statement, if
    there is one. *)
Definition next (s : state) : option state :=
  match s with
  | Start => Some (Created app)
  | Created a => Some (bound (read_csv src) (Read a))
  | Read a f => Some (bound (to_datetime f) (Dated a f))
  | Dated a f dates => Some (bound (build_page f dates) (fun page => Ready (set_layout page a)))
  | Ready a => Some (main_guard name a)
  | Serving _ _ | Imported _ | Raised _ => None
  end.

Definition final (s : state) : bool :=
  match next s with
  | Some _ => false
  | None => true
  end.

(** At most [fuel] statements from a state. *)
Fixpoint run (fuel : nat) (s : state) : state :=
  match fuel with
  | O => s
  | S fuel' =>
      match next s with
      | Some s' => run fuel' s'
      | None => s
      end
  end.

(** Executions, and the states the module can be in. *)
Definition steps : state -> state -> Prop := clos_refl_trans_1n state step.

Definition reachable (s : state) : Prop := clos_refl_trans_n1 state step Start s.

(** The outcome of the module as [main] gives it. *)
Definition outcome : state :=
  bound (main src) (main_guard name).

(** The module from its first line: the imports, then the statements. *)
Definition module_run (env : environment) : result ImportError state :=
  _ <- exec_imports env [] imports ;;
  Ok (run 5 Start).

(** The application with the page of the file. *)
Definition page_of_load (a : Dash) : Prop :=
  exists df, load src = Ok df /\ frame_wf df /\ df <> [] /\ a = set_layout (layout df) app.

(** What holds of the globals at each point. *)
Definition invariant (s : state) : Prop :=
  match s with
  | Start => True
  | Created a => a = app
  | Read a f => a = app /\ read_csv src = Ok f
  | Dated a f dates => a = app /\ read_csv src = Ok f /\ to_datetime f = Ok dates
  | Ready a => page_of_load a
  | Serving a debug => name = "__main__" /\ debug = true /\ page_of_load a
  | Imported a => name <> "__main__" /\ page_of_load a
  | Raised e => load src = Err e
  end.

(** ** The relation and the function *)

Lemma step_next (s s' : state) : step s s' <-> next s = Some s'.
Proof.
  split.
  - intros H. destruct H; cbn [next bound]; unfold main_guard;
      repeat match goal with H : _ = _ |- _ => rewrite H end; try reflexivity.
    now destruct (String.eqb_spec name "__main__").
  - destruct s; cbn [next]; intros [= <-]; try constructor.
    + destruct (read_csv src) eqn:E; now constructor.
    + destruct (to_datetime f) eqn:E; now constructor.
    + destruct (build_page f dates) eqn:E; now constructor.
    + unfold main_guard. destruct (String.eqb_spec name "__main__"); now constructor.
Qed.

Lemma step_deterministic (s s1 s2 : state) : step s s1 -> step s s2 -> s1 = s2.
Proof. rewrite !step_next. congruence. Qed.

Lemma step_remaining (s s' : state) : step s s' -> (remaining s' < remaining s)%nat.
Proof. intros H. destruct H; cbn [remaining]; lia. Qed.

Lemma final_no_step (s s' : state) : final s = true -> ~ step s s'.
Proof. unfold final. rewrite step_next. now destruct (next s). Qed.

Lemma run_steps (fuel : nat) (s : state) : steps s (run fuel s).
Proof.
  revert s. induction fuel as [|fuel IH]; intros s; cbn [run]; [constructor|].
  destruct (next s) as [s'|] eqn:E; [|constructor].
  econstructor; [apply step_next, E | apply IH].
Qed.

Lemma run_final (fuel : nat) (s : state) :
  (remaining s <= fuel)%nat -> final (run fuel s) = true.
Proof.
  revert s. induction fuel as [|fuel IH]; intros s Hs; cbn [run].
  - destruct s; cbn in Hs; try lia; reflexivity.
  - destruct (next s) as [s'|] eqn:E; [|unfold final; now rewrite E].
    apply IH. apply step_next, step_remaining in E. lia.
Qed.

(** An execution that has ended is the run. *)
Lemma steps_final (fuel : nat) (s s' : state) :
  steps s s' -> final s' = true -> (remaining s <= fuel)%nat -> s' = run fuel s.
Proof.
  intros H. revert fuel. induction H as [s|s s1 s' Hstep _ IH]; intros fuel Hf Hr.
  - destruct fuel; cbn [run]; [reflexivity|]. unfold final in Hf. now destruct (next s).
  - pose proof (step_remaining _ _ Hstep). destruct fuel; [lia|]. cbn [run].
    apply step_next in Hstep. rewrite Hstep. apply IH; [assumption | lia].
Qed.

(** ** The run and [main] *)

Lemma main_statements :
  main src =
  (f <- read_csv src ;; dates <- to_datetime f ;; page <- build_page f dates ;;
   Ok (set_layout page app)).
Proof.
  unfold main, load, build_page. destruct (read_csv src) as [f|]; [|reflexivity].
  cbn [bind]. destruct (to_datetime f) as [dates|]; [|reflexivity].
  cbn [bind]. now destruct (frame_of f dates).
Qed.

Lemma run_outcome : run 5 Start = outcome.
Proof.
  unfold outcome. rewrite main_statements. cbn [run next].
  destruct (read_csv src) as [f|]; [|reflexivity]. cbn [bound bind next].
  destruct (to_datetime f) as [dates|]; [|reflexivity]. cbn [bound bind next].
  now destruct (build_page f dates).
Qed.

(** ** The invariant *)

Lemma build_page_load (f : RawFrame) (dates : list date) (page : component) :
  read_csv src = Ok f -> to_datetime f = Ok dates -> build_page f dates = Ok page ->
  page_of_load (set_layout page app).
Proof.
  intros Hf Hd Hp. apply bind_Ok in Hp as (df & Hdf & [= <-]).
  assert (load src = Ok df) as Hload by (unfold load; rewrite Hf; cbn [bind]; now rewrite Hd).
  destruct (load_Ok_wf _ _ Hload) as [Hwf Hne].
  exists df. auto using store_wf_frame_wf.
Qed.

Lemma build_page_raise (f : RawFrame) (dates : list date) (e : LoadError) :
  read_csv src = Ok f -> to_datetime f = Ok dates -> build_page f dates = Err e ->
  load src = Err e.
Proof.
  intros Hf Hd Hp. unfold load. rewrite Hf. cbn [bind]. rewrite Hd. cbn [bind].
  unfold build_page in Hp. destruct (frame_of f dates); cbn [bind] in Hp; congruence.
Qed.

Lemma step_invariant (s s' : state) : invariant s -> step s s' -> invariant s'.
Proof.
  intros Hs H. destruct H; cbn [invariant] in *.
  - reflexivity.
  - now split.
  - unfold load. now rewrite H.
  - destruct Hs as [-> Hf]. auto.
  - destruct Hs as [_ Hf]. unfold load. rewrite Hf. cbn [bind]. now rewrite H.
  - destruct Hs as (-> & Hf & Hd). eapply build_page_load; eassumption.
  - destruct Hs as (_ & Hf & Hd). eapply build_page_raise; eassumption.
  - auto.
  - auto.
Qed.

Lemma run_reachable (fuel : nat) : reachable (run fuel Start).
Proof. apply clos_rt_rtn1, clos_rt1n_rt, run_steps. Qed.

(** ** The execution of the module *)

(** The fuel of [run]: every step uses up one of the five statements, a
    state that is not final can take a step, and from every state five
    steps of [run] reach a final state: the exception, the imported
    module, or the call of the server. *)
Lemma script_terminates :
  well_founded (fun s' s => step s s') /\
  (forall s, final s = false -> exists s', step s s') /\
  (forall s, steps s (run 5 s) /\ final (run 5 s) = true).
Proof.
  split; [|split].
  - apply well_founded_lt_compat with remaining. intros s' s. apply step_remaining.
  - intros s Hs. unfold final in Hs. destruct (next s) as [s'|] eqn:E; [|discriminate].
    exists s'. now apply step_next.
  - intros s. split; [apply run_steps|]. apply run_final. destruct s; cbn; lia.
Qed.

(** The statements executed one by one end in the outcome that
    [main] computes in one go: the exception of the load, or the
    application with its page, served when the module runs under the name
    [__main__] and only imported otherwise; and no execution ends in any
    other state. *)
Lemma script_refines_main :
  steps Start outcome /\ final outcome = true /\
  forall s, steps Start s -> final s = true -> s = outcome.
Proof.
  rewrite <- run_outcome. split; [apply run_steps|]. split; [now apply run_final|].
  intros s Hs Hf. now apply steps_final.
Qed.

(** In every state the module can reach, the globals are what the
    file determines: [app] is the application created at the top, [df]
    is the file as read and its dates as converted, a layout is the page
    of the frame that loaded, the server runs only under the name
    [__main__] and in debug mode, and an exception is the exception of
    the load. *)
Lemma script_invariant (s : state) : reachable s -> invariant s.
Proof. induction 1; [exact I | eapply step_invariant; eassumption]. Qed.

(** C22. Where a missing column is found.  [read_csv] raises no
    [KeyError]; the conversion of the dates raises it only for [Date];
    for the other columns it is raised by the layout statement, when
    both statements of the load have completed, and names a column of
    the page that the header lacks. *)
Theorem script_KeyError_site (s : state) (c : string) :
  step s (Raised (KeyError c)) ->
  (exists a f, s = Read a f /\ c = "Date" /\ index_of c (columns f) = None) \/
  (exists a f dates, s = Dated a f dates /\ In c page_columns /\
                     index_of c (columns f) = None).
Proof.
  intros H. inversion H as [| |a e Hr| |a f e Hd| |a f dates e Hp| |]; subst.
  - apply read_csv_Err in Hr as [[? _]|[[? _]|[[? _]|[o ?]]]]; discriminate.
  - apply typed_column_Err in Hd as [[[= ->] Hi]|[? _]]; [|discriminate].
    left. now exists a, f.
  - unfold build_page in Hp. destruct (frame_of f dates) as [df|e] eqn:E; [discriminate|].
    injection Hp as ->.
    apply frame_of_Err in E as (before & c' & after & Ec & _ & [[[= <-] Hi]|[? _]]);
      [|discriminate].
    right. exists a, f, dates. rewrite Ec. auto using in_elt.
Qed.

(** The module from its first line.  When the environment lacks
    something the imports need, the module stops with the exception of
    the first such requirement, whatever the file holds: the file is not
    opened.  Otherwise it ends as [main] says. *)
Lemma module_outcome (env : environment) :
  module_run env =
  match first_unmet env imports with
  | Some r => Err (error_of r)
  | None => Ok outcome
  end.
Proof.
  unfold module_run. rewrite exec_imports_first_unmet.
  destruct (first_unmet env imports); cbn [bind]; [reflexivity|]. now rewrite run_outcome.
Qed.

End Script.

Lemma script_KeyError_site_witness :
  (exists a f, run "__main__" sample_file_no_calories 3 Start = Read a f /\
               "Calories" = "Date" /\ index_of "Calories" (columns f) = None) \/
  (exists a f dates, run "__main__" sample_file_no_calories 3 Start = Dated a f dates /\
                     In "Calories" page_columns /\ index_of "Calories" (columns f) = None).
Proof.
  apply (script_KeyError_site "__main__" sample_file_no_calories).
  apply step_next. reflexivity.
Defined.
